(** * ProffieOSx power manager: a shallow embedding of [common/PowerManager.h]

    The development follows the header top to bottom: the constants and the
    two enumerations, the [PowerDomain] timer ([ResetTimeout],
    [CheckTimeout]), the [PowerSubscriber] request path ([IsOn],
    [RequestPower]) and the delayed implementations of [PowerManager]
    ([Setup], [Loop], [Activate], [Parse]) together with [CPU_DeepSleep]
    and the wake-up interrupt routines.

    Conventions.
    - [uint8_t], [uint16_t] and [uint32_t] values are integers of [Z]; a
      store that can leave the range is written with its wrap-around.
    - The two intrusive linked lists are Rocq lists in traversal order (head
      first); a constructor pushes at the head.
    - Virtual calls that leave the power manager ([SetPower], the
      subscriber callbacks, the terminal flushes, the stop-mode entry) are
      recorded, in program order, in the ghost field [trace].
    - The code is read in its [ARDUINO_ARCH_STM32L4] branches; the other
      preprocessor switches that change the control flow are parameters of
      the section [Build]. Diagnostic printing is not modelled. *)

From Stdlib Require Import ZArith List String Ascii Bool Lia.
Import ListNotations.
Open Scope Z_scope.

(** ** Constants and enumerations *)

Definition PWRMAN_TIMEOUTRES : Z := 10000.   (* timeout resolution, in micros *)
Definition PWRMAN_MINTIMEOUT : Z := 20.      (* minimum timeout, in millis *)
Definition PWRMAN_DEFTIMEOUT : Z := 1000.
Definition PWRMAN_AMPTIMEOUT : Z := 50.
Definition PWRMAN_CPUTIMEOUT : Z := 60000.

Definition PWR_STOPENTRY_WFI : Z := 1.
Definition PWR_STOPENTRY_WFE : Z := 2.

Inductive PDType : Set :=
| pwr4_none | pwr4_CPU | pwr4_SD | pwr4_Booster
| pwr4_Amplif | pwr4_Pixel | pwr4_Charger.

(** The enumerators' values, of base type [uint8_t]. *)
Definition PDType_base (t : PDType) : Z :=
  match t with
  | pwr4_none => 0
  | pwr4_CPU => 1
  | pwr4_SD => 2
  | pwr4_Booster => 4
  | pwr4_Amplif => 8
  | pwr4_Pixel => 16
  | pwr4_Charger => 32
  end.

Definition PDType_eqb (a b : PDType) : bool :=
  PDType_base a =? PDType_base b.

Definition PWRMAN_STARTON : Z := PDType_base pwr4_CPU.

Inductive WKSource : Set :=
| wakeUp_none | wakeUp_button | wakeUp_serial | wakeUp_rtc.

Definition uint8 (x : Z) : Z := x mod 2 ^ 8.
Definition uint16 (x : Z) : Z := x mod 2 ^ 16.
Definition uint32 (x : Z) : Z := x mod 2 ^ 32.

(** [a & b] used as a condition. *)
Definition and_nz (a b : Z) : bool := negb (Z.land a b =? 0).

(** ** Power domains *)

Record PowerDomain : Set := mkPowerDomain {
  pd_id : PDType;            (* id() *)
  pd_name : string;          (* name() *)
  pd_timeout : Z;            (* timeout(), the domain default in millis *)
  countdownTimer : Z
}.

Definition set_countdownTimer (t : Z) (pd : PowerDomain) : PowerDomain :=
  mkPowerDomain (pd_id pd) (pd_name pd) (pd_timeout pd) t.

Definition flag (pd : PowerDomain) : Z := PDType_base (pd_id pd).

Definition ResetTimeout (timeout_ : Z) (pd : PowerDomain) : PowerDomain :=
  let timeout_ := if timeout_ =? 0 then pd_timeout pd else timeout_ in
  let timeout_ :=
    if timeout_ <? PWRMAN_MINTIMEOUT then PWRMAN_MINTIMEOUT else timeout_ in
  if countdownTimer pd <? timeout_ then set_countdownTimer timeout_ pd else pd.

Definition CheckTimeout (loopTime : Z) (pd : PowerDomain)
  : bool * PowerDomain :=
  if countdownTimer pd =? 0 then (false, pd)
  else if countdownTimer pd <=? loopTime then (true, set_countdownTimer 0 pd)
  else (false, set_countdownTimer (countdownTimer pd - loopTime) pd).

(** The five domain objects of the header, as their constructors leave them. *)
Definition pwrdom_pixel : PowerDomain :=
  mkPowerDomain pwr4_Pixel "PIX" PWRMAN_DEFTIMEOUT 0.
Definition pwrdom_amp : PowerDomain :=
  mkPowerDomain pwr4_Amplif "AMP" PWRMAN_AMPTIMEOUT 0.
Definition pwrdom_boost : PowerDomain :=
  mkPowerDomain pwr4_Booster "BST" PWRMAN_DEFTIMEOUT 0.
Definition pwrdom_sd : PowerDomain :=
  mkPowerDomain pwr4_SD "SD" PWRMAN_DEFTIMEOUT 0.
Definition pwrdom_cpu : PowerDomain :=
  mkPowerDomain pwr4_CPU "CPU" PWRMAN_CPUTIMEOUT 0.

(** ** Power subscribers *)

Record PowerSubscriber : Set := mkPowerSubscriber {
  ps_name : string;          (* name() *)
  subscribedDomains : Z      (* binary map, uint8_t *)
}.

(** ** Observable calls *)

Inductive Event : Set :=
| EvDomainSetup (d : PDType)                  (* pd->Setup() *)
| EvSetPower (d : PDType) (newState : bool)   (* pd->SetPower(newState) *)
| EvPwrOn_Callback (ps : PowerSubscriber)
| EvPwrOff_Callback (ps : PowerSubscriber)
| EvFlushTx                                   (* STDOUT.flushTx() *)
| EvFlushRx                                   (* STDOUT.flushRx() *)
| EvPublishContent                            (* PublishContent(OFFLINE_FILE) *)
| EvLSFS_End                                  (* LSFS::End() *)
| EvCPU_DeepSleep (STOPEntry : Z) (live : Z)
    (* entry of CPU_DeepSleep; [live] is a ghost copy of powerState *)
| EvPrintWakeUpMsg (src : WKSource).

(** ** The manager object *)

Record PowerManager : Set := mkPowerManager {
  domains : list PowerDomain;
  subscribers : list PowerSubscriber;
  wakeUpSource : WKSource;
  powerState : Z;
  lastLoopTime : Z;
  countSec : Z;
  trace : list Event
}.

Definition with_domains (ds : list PowerDomain) (pm : PowerManager) :=
  mkPowerManager ds (subscribers pm) (wakeUpSource pm) (powerState pm)
    (lastLoopTime pm) (countSec pm) (trace pm).
Definition with_subscribers (ss : list PowerSubscriber) (pm : PowerManager) :=
  mkPowerManager (domains pm) ss (wakeUpSource pm) (powerState pm)
    (lastLoopTime pm) (countSec pm) (trace pm).
Definition with_wakeUpSource (w : WKSource) (pm : PowerManager) :=
  mkPowerManager (domains pm) (subscribers pm) w (powerState pm)
    (lastLoopTime pm) (countSec pm) (trace pm).
Definition with_powerState (s : Z) (pm : PowerManager) :=
  mkPowerManager (domains pm) (subscribers pm) (wakeUpSource pm) s
    (lastLoopTime pm) (countSec pm) (trace pm).
Definition with_lastLoopTime (t : Z) (pm : PowerManager) :=
  mkPowerManager (domains pm) (subscribers pm) (wakeUpSource pm)
    (powerState pm) t (countSec pm) (trace pm).
Definition with_countSec (c : Z) (pm : PowerManager) :=
  mkPowerManager (domains pm) (subscribers pm) (wakeUpSource pm)
    (powerState pm) (lastLoopTime pm) c (trace pm).
Definition emit (e : Event) (pm : PowerManager) :=
  mkPowerManager (domains pm) (subscribers pm) (wakeUpSource pm)
    (powerState pm) (lastLoopTime pm) (countSec pm) (trace pm ++ [e]).

(** The global object [powerman] after its constructor. *)
Definition powerman : PowerManager :=
  mkPowerManager [] [] wakeUp_none 0 0 0 [].

(** [PowerDomain::PowerDomain()]: timer not started, pushed at the head. *)
Definition PowerDomain_ctor (pd : PowerDomain) (pm : PowerManager) :=
  with_domains (set_countdownTimer 0 pd :: domains pm) pm.

(** [PowerSubscriber::PowerSubscriber(domains)]: an empty map is not listed. *)
Definition PowerSubscriber_ctor (ps : PowerSubscriber) (pm : PowerManager) :=
  if subscribedDomains ps =? 0 then pm
  else with_subscribers (ps :: subscribers pm) pm.

(** [for (PowerDomain *pd = domains; pd; pd = pd->next) body], where the
    body may update the visited domain and a state [S] of its own. *)
Fixpoint for_domains {S : Type} (body : PowerDomain -> S -> PowerDomain * S)
    (ds : list PowerDomain) (s : S) : list PowerDomain * S :=
  match ds with
  | [] => ([], s)
  | pd :: rest =>
      let '(pd', s') := body pd s in
      let '(rest', s'') := for_domains body rest s' in
      (pd' :: rest', s'')
  end.

(** The same loop over the manager's own list; the body leaves the
    [domains] field alone and returns the visited domain. *)
Definition foreach_domain
    (body : PowerDomain -> PowerManager -> PowerDomain * PowerManager)
    (pm : PowerManager) : PowerManager :=
  let '(ds, pm') := for_domains body (domains pm) pm in
  with_domains ds pm'.

(** [PowerSubscriber::IsOn()] *)
Definition IsOn (pm : PowerManager) (ps : PowerSubscriber) : bool :=
  Z.land (powerState pm) (subscribedDomains ps) =? subscribedDomains ps.

(** [PowerSubscriber::RequestPower(timeout_)]. The pointer is [None] when
    null, otherwise the vector it points to; each subscribed domain reads
    [*timeout_++]. Reading past the end of the vector has no defined
    result: the call is then [None]. *)
Definition next_timeout (timeout_ : option (list Z))
  : option (Z * option (list Z)) :=
  match timeout_ with
  | None => Some (0, None)
  | Some [] => None
  | Some (t :: ts) => Some (t, Some ts)
  end.

Definition power_on (pd : PowerDomain) (pm : PowerManager) : PowerManager :=
  with_powerState (uint8 (Z.lor (powerState pm) (flag pd)))
    (emit (EvSetPower (pd_id pd) true) pm).

Fixpoint RequestPower_loop (ps : PowerSubscriber) (ds : list PowerDomain)
    (timeout_ : option (list Z)) (pm : PowerManager) (retVal : bool)
  : option (list PowerDomain * PowerManager * bool) :=
  match ds with
  | [] => Some ([], pm, retVal)
  | pd :: rest =>
      if and_nz (flag pd) (subscribedDomains ps) then
        match next_timeout timeout_ with
        | None => None
        | Some (t, timeout_') =>
            let pd' := ResetTimeout t pd in
            let '(pm', retVal') :=
              if negb (and_nz (powerState pm) (flag pd))
              then (power_on pd pm, true)
              else (pm, retVal) in
            match RequestPower_loop ps rest timeout_' pm' retVal' with
            | None => None
            | Some (rest', pm'', r) => Some (pd' :: rest', pm'', r)
            end
        end
      else
        match RequestPower_loop ps rest timeout_ pm retVal with
        | None => None
        | Some (rest', pm'', r) => Some (pd :: rest', pm'', r)
        end
  end.

Definition RequestPower (ps : PowerSubscriber) (timeout_ : option (list Z))
    (pm : PowerManager) : option (bool * PowerManager) :=
  match domains pm with
  | [] => Some (false, pm)
  | _ :: _ =>
      match RequestPower_loop ps (domains pm) timeout_ pm false with
      | None => None
      | Some (ds, pm', retVal) =>
          let pm' := with_domains ds pm' in
          Some (retVal,
                if retVal then emit (EvPwrOn_Callback ps) pm' else pm')
      end
  end.

(** [PowerManager::Activate(startUpDomains)] *)
Definition Activate_body (startUpDomains : Z) (pd : PowerDomain)
    (st : PowerManager * bool) : PowerDomain * (PowerManager * bool) :=
  if and_nz (flag pd) startUpDomains
     && negb (and_nz (flag pd) (powerState (fst st)))
  then
    (ResetTimeout 0 pd,
     (emit (EvSetPower (pd_id pd) true)
        (with_powerState (uint8 (Z.lor (powerState (fst st)) (flag pd)))
           (fst st)),
      true))
  else (pd, st).

Definition On_Callback_body (pm : PowerManager) (ps : PowerSubscriber) :=
  if IsOn pm ps then emit (EvPwrOn_Callback ps) pm else pm.

Definition Activate (startUpDomains : Z) (pm : PowerManager)
  : bool * PowerManager :=
  match domains pm with
  | [] => (false, pm)
  | _ :: _ =>
      let '(ds, (pm1, retVal)) :=
        for_domains (Activate_body startUpDomains) (domains pm) (pm, false) in
      let pm2 := with_domains ds pm1 in
      match subscribers pm2 with
      | [] => (retVal, pm2)
      | _ :: _ =>
          if negb retVal then (retVal, pm2)
          else (retVal, fold_left On_Callback_body (subscribers pm2) pm2)
      end
  end.

(** [PowerManager::Setup()] *)
Definition Setup (pm : PowerManager) : PowerManager :=
  let pm :=
    fold_left (fun pm pd => emit (EvDomainSetup (pd_id pd)) pm)
      (domains pm) pm in
  snd (Activate PWRMAN_STARTON pm).

(** [PowerManager::PrintWakeUpMsg()]; of the printing only the receive
    flush is kept. *)
Definition PrintWakeUpMsg (pm : PowerManager) : PowerManager :=
  let pm := emit (EvPrintWakeUpMsg (wakeUpSource pm)) pm in
  match wakeUpSource pm with
  | wakeUp_serial | wakeUp_rtc => emit EvFlushRx pm
  | _ => pm
  end.

(** ** Interrupts during stop mode

    While the processor is stopped only the armed interrupt routines run.
    The real-time-clock alarm may fire any number of times, each time with
    a reading of the charge-detect pin; the button or the serial line
    fires at most once, because its routine disarms every source. *)
Inductive WakeIRQ : Set := irq_button | irq_serial.

Record SleepEnv : Set := mkSleepEnv {
  rtc_alarms : list bool;   (* charge-detect readings of successive alarms *)
  wake_irq : WakeIRQ        (* the first button or serial edge *)
}.

Definition pwrWakeUp_BTN (pm : PowerManager) : PowerManager :=
  with_wakeUpSource wakeUp_button pm.

Definition pwrWakeUp_SER (pm : PowerManager) : PowerManager :=
  with_wakeUpSource wakeUp_serial pm.

(** [pwrWakeUp_RTC()]; the boolean tells whether the routine called
    [deinitWakeups], that is whether the processor leaves stop mode. *)
Definition pwrWakeUp_RTC (charging : bool) (pm : PowerManager)
  : bool * PowerManager :=
  let pm := with_countSec (uint16 (countSec pm + 1)) pm in
  if 3 <=? countSec pm then
    let pm := with_countSec 0 pm in
    if charging then (true, with_wakeUpSource wakeUp_rtc pm) else (false, pm)
  else (false, pm).

Fixpoint wait_for_interrupt (alarms : list bool) (w : WakeIRQ)
    (pm : PowerManager) : PowerManager :=
  match alarms with
  | [] =>
      match w with
      | irq_button => pwrWakeUp_BTN pm
      | irq_serial => pwrWakeUp_SER pm
      end
  | charging :: rest =>
      let '(woke, pm') := pwrWakeUp_RTC charging pm in
      if woke then pm' else wait_for_interrupt rest w pm'
  end.

(** [strtok(s, ",")]: the first token and what follows its delimiter. *)
Definition is_comma (c : ascii) : bool := Ascii.eqb c ","%char.

Fixpoint skip_commas (s : string) : string :=
  match s with
  | String c r => if is_comma c then skip_commas r else s
  | EmptyString => EmptyString
  end.

Fixpoint take_token (s : string) : string * string :=
  match s with
  | EmptyString => (EmptyString, EmptyString)
  | String c r =>
      if is_comma c then (EmptyString, r)
      else let '(t, rest) := take_token r in (String c t, rest)
  end.

Definition strtok (s : string) : option (string * string) :=
  match skip_commas s with
  | EmptyString => None
  | s' => Some (take_token s')
  end.

(** ** Build-dependent code *)

Section Build.

(** Preprocessor switches and the external functions the code calls. *)
Variable DIAGNOSE_POWER : bool.
Variable ULTRAPROFFIE_VERSION_L : bool.  (* ULTRAPROFFIE_VERSION == 'L' *)
Variable ULTRAPROFFIE_CHARGER : bool.
Variable xChargerGetLimit : Z.
Variable atoi : string -> Z.

(** Whether [initWakeups] attaches the real-time-clock alarm. *)
Definition rtc_armed : bool :=
  ULTRAPROFFIE_CHARGER && negb (xChargerGetLimit =? 0).

Definition initWakeups (pm : PowerManager) : PowerManager :=
  if rtc_armed then with_countSec 0 pm else pm.

(** [CPU_DeepSleep] up to the wait instruction: the wake-up source is
    reset first, then ports are saved and the wake-up sources armed. *)
Definition CPU_DeepSleep_enter (STOPEntry : Z) (pm : PowerManager)
  : PowerManager :=
  let pm := emit (EvCPU_DeepSleep STOPEntry (powerState pm)) pm in
  let pm := with_wakeUpSource wakeUp_none pm in
  initWakeups pm.

(** [CPU_DeepSleep(STOPEntry)]: enter, stay stopped until an interrupt
    routine disarms the wake-up sources, restore the ports. *)
Definition CPU_DeepSleep (STOPEntry : Z) (env : SleepEnv)
    (pm : PowerManager) : PowerManager :=
  wait_for_interrupt (if rtc_armed then rtc_alarms env else [])
    (wake_irq env) (CPU_DeepSleep_enter STOPEntry pm).

(** *** [PowerManager::Loop()] *)

(** Step 1: the union of the maps of the subscribers that hold power. *)
Definition hold_body (HoldPower : PowerSubscriber -> bool)
    (domainsToCheck : Z) (ps : PowerSubscriber) : Z :=
  if HoldPower ps
  then uint8 (Z.lor domainsToCheck (subscribedDomains ps))
  else domainsToCheck.

(** Step 2: check the timeout of active domains not on hold. *)
Definition check_body (loopTime powerState_ domainsToCheck : Z)
    (pd : PowerDomain) (nextPowerState : Z) : PowerDomain * Z :=
  if negb (Z.land (Z.land (flag pd) powerState_) domainsToCheck =? 0) then
    let '(expired, pd') := CheckTimeout loopTime pd in
    if expired
    then (pd', uint8 (Z.land nextPowerState (Z.lnot (flag pd))))
    else (pd', nextPowerState)
  else (pd, nextPowerState).

(** Step 3: power-off callbacks. *)
Definition Off_Callback_body (nextPowerState : Z) (pm : PowerManager)
    (ps : PowerSubscriber) : PowerManager :=
  if Z.land (subscribedDomains ps) (powerState pm) =? subscribedDomains ps
  then
    if negb (Z.land (subscribedDomains ps) nextPowerState
             =? subscribedDomains ps)
    then emit (EvPwrOff_Callback ps) pm
    else pm
  else pm.

Definition power_off (pd : PowerDomain) (pm : PowerManager) : PowerManager :=
  with_powerState (uint8 (Z.land (powerState pm) (Z.lnot (flag pd))))
    (emit (EvSetPower (pd_id pd) false) pm).

(** Step 4: turn off the domains marked at step 2. *)
Definition turn_off_body (nextPowerState : Z) (pd : PowerDomain)
    (pm : PowerManager) : PowerDomain * PowerManager :=
  if and_nz (flag pd) (powerState pm)
     && and_nz (flag pd) (Z.lnot nextPowerState)
  then (pd, power_off pd pm)
  else (pd, pm).

(** Step 5, reached with no active domain. *)
Definition Loop_sleep (env : SleepEnv) (pm : PowerManager) : PowerManager :=
  let pm := emit EvFlushTx pm in
  let pm :=
    if ULTRAPROFFIE_VERSION_L then
      let pm := emit EvPublishContent pm in
      let pm := emit EvLSFS_End pm in
      let pm := emit (EvSetPower pwr4_SD false) pm in
      with_powerState 0 pm
    else pm in
  let pm := emit EvFlushTx pm in
  let pm := CPU_DeepSleep PWR_STOPENTRY_WFI env pm in
  let pm := PrintWakeUpMsg pm in
  snd (Activate PWRMAN_STARTON pm).

(** The inverted hold map of step 1 and the marking pass of step 2. *)
Definition Loop_domainsToCheck (HoldPower : PowerSubscriber -> bool)
    (pm : PowerManager) : Z :=
  uint8 (Z.lnot (fold_left (hold_body HoldPower) (subscribers pm) 0)).

Definition Loop_check (loopTime : Z) (HoldPower : PowerSubscriber -> bool)
    (pm : PowerManager) : list PowerDomain * Z :=
  for_domains
    (check_body loopTime (powerState pm) (Loop_domainsToCheck HoldPower pm))
    (domains pm) (powerState pm).

(** One pass of the loop. [timeNow] is what [millis()] returns,
    [HoldPower] what each subscriber's [HoldPower()] returns during this
    pass, [env] the interrupts that arrive if the pass goes to sleep. *)
Definition Loop (timeNow : Z) (HoldPower : PowerSubscriber -> bool)
    (env : SleepEnv) (pm : PowerManager) : PowerManager :=
  match domains pm with
  | [] => pm
  | _ :: _ =>
      let loopTime := uint32 (timeNow - lastLoopTime pm) in
      let pm := with_lastLoopTime timeNow pm in
      if PWRMAN_MINTIMEOUT <=? loopTime then pm
      else
        let '(ds, nextPowerState) := Loop_check loopTime HoldPower pm in
        let pm := with_domains ds pm in
        if nextPowerState =? powerState pm then pm
        else
          let pm :=
            fold_left (Off_Callback_body nextPowerState) (subscribers pm) pm
          in
          let pm := foreach_domain (turn_off_body nextPowerState) pm in
          if negb (powerState pm =? 0) then pm
          else Loop_sleep env pm
  end.

(** *** [PowerManager::Parse(cmd, arg)] *)

(** "pwr-dom-request": [token] is the result of the first [strtok], with
    the rest of the buffer. Comparing a null token, or converting a null
    second token, has no defined result. *)
Fixpoint dom_request_loop (token : option (string * string))
    (ds : list PowerDomain) (pm : PowerManager)
  : option (list PowerDomain * PowerManager) :=
  match ds with
  | [] => Some ([], pm)
  | pd :: rest =>
      match token with
      | None => None
      | Some (tok, more) =>
          if String.eqb tok (pd_name pd) then
            match strtok more with
            | None => None
            | Some (tok2, _) =>
                let requested_timeout := uint32 (atoi tok2) in
                let requested_timeout :=
                  if requested_timeout <? PWRMAN_MINTIMEOUT
                  then PWRMAN_MINTIMEOUT else requested_timeout in
                let pd' := ResetTimeout requested_timeout pd in
                let pm' :=
                  if negb (and_nz (flag pd) (powerState pm))
                  then power_on pd pm else pm in
                Some (pd' :: rest, pm')
            end
          else
            match dom_request_loop token rest pm with
            | None => None
            | Some (rest', pm') => Some (pd :: rest', pm')
            end
      end
  end.

(** The forced switch-off shared by "pwr-dom-off" and "deepsleep". *)
Definition force_off (pd : PowerDomain) (pm : PowerManager)
  : PowerDomain * PowerManager :=
  if and_nz (flag pd) (powerState pm)
  then (set_countdownTimer 0 pd, power_off pd pm)
  else (pd, pm).

Fixpoint dom_off_loop (arg : string) (ds : list PowerDomain)
    (pm : PowerManager) : list PowerDomain * PowerManager :=
  match ds with
  | [] => ([], pm)
  | pd :: rest =>
      if String.eqb arg (pd_name pd) then
        let '(pd', pm') := force_off pd pm in (pd' :: rest, pm')
      else
        let '(rest', pm') := dom_off_loop arg rest pm in (pd :: rest', pm')
  end.

Fixpoint sub_request_loop (arg : string) (ss : list PowerSubscriber)
    (pm : PowerManager) : option PowerManager :=
  match ss with
  | [] => Some pm
  | ps :: rest =>
      if String.eqb arg (ps_name ps) then
        match RequestPower ps None pm with
        | None => None
        | Some (_, pm') => Some pm'
        end
      else sub_request_loop arg rest pm
  end.

Definition Parse_deepsleep (saberIsOn : bool) (env : SleepEnv)
    (pm : PowerManager) : PowerManager :=
  if saberIsOn then pm
  else
    match domains pm with
    | [] => pm
    | _ :: _ =>
        let pm := foreach_domain force_off pm in
        let pm :=
          fold_left (fun pm ps => emit (EvPwrOff_Callback ps) pm)
            (subscribers pm) pm in
        let pm := emit EvFlushTx pm in
        let pm := CPU_DeepSleep PWR_STOPENTRY_WFI env pm in
        let pm := PrintWakeUpMsg pm in
        let pm := emit EvFlushTx pm in
        snd (Activate PWRMAN_STARTON pm)
    end.

(** [saberIsOn] is what [SaberBase::IsOn()] returns. The result is the
    "handled" flag with the new state, or [None] where the C code has no
    defined behaviour (the 20-byte copy of [arg] overflowing, a null
    token). *)
Definition Parse (cmd arg : string) (saberIsOn : bool) (env : SleepEnv)
    (pm : PowerManager) : option (bool * PowerManager) :=
  if DIAGNOSE_POWER && String.eqb cmd "pwr-domains" then Some (true, pm)
  else if DIAGNOSE_POWER && String.eqb cmd "pwr-dom-request" then
    if (20 <=? Z.of_nat (String.length arg)) then None
    else
      match domains pm with
      | [] => Some (true, pm)
      | _ :: _ =>
          match dom_request_loop (strtok arg) (domains pm) pm with
          | None => None
          | Some (ds, pm') => Some (true, with_domains ds pm')
          end
      end
  else if DIAGNOSE_POWER && String.eqb cmd "pwr-dom-off" then
    let '(ds, pm') := dom_off_loop arg (domains pm) pm in
    Some (true, with_domains ds pm')
  else if DIAGNOSE_POWER && String.eqb cmd "pwr-subs" then Some (true, pm)
  else if DIAGNOSE_POWER && String.eqb cmd "pwr-sub-request" then
    match sub_request_loop arg (subscribers pm) pm with
    | None => None
    | Some pm' => Some (true, pm')
    end
  else if String.eqb cmd "deepsleep" then
    Some (true, Parse_deepsleep saberIsOn env pm)
  else Some (false, pm).


(** ** Vocabulary of the properties *)

(** The domain with flag [t] is marked active in the map [s]. *)
Definition is_on (t : PDType) (s : Z) : bool := and_nz (PDType_base t) s.

(** The position of a flag's bit; [pwr4_none] has no bit. *)
Definition bit_index (t : PDType) : Z :=
  match t with
  | pwr4_none => -1
  | pwr4_CPU => 0
  | pwr4_SD => 1
  | pwr4_Booster => 2
  | pwr4_Amplif => 3
  | pwr4_Pixel => 4
  | pwr4_Charger => 5
  end.

(** The timeout a request stands for: the domain default for zero, and
    never less than the minimum. *)
Definition clamped (pd : PowerDomain) (t : Z) : Z :=
  Z.max PWRMAN_MINTIMEOUT (if t =? 0 then pd_timeout pd else t).

(** Successive [ResetTimeout] calls on one domain. *)
Definition ResetTimeout_all (ts : list Z) (pd : PowerDomain) : PowerDomain :=
  fold_left (fun d t => ResetTimeout t d) ts pd.

(** Successive [CheckTimeout] calls on one domain, with their results. *)
Fixpoint CheckTimeout_all (es : list Z) (pd : PowerDomain)
  : list bool * PowerDomain :=
  match es with
  | [] => ([], pd)
  | e :: rest =>
      let '(r, pd') := CheckTimeout e pd in
      let '(rs, pd'') := CheckTimeout_all rest pd' in
      (r :: rs, pd'')
  end.

(** A call on the timer of one domain: a request, or the countdown of a
    pass of the loop. *)
Inductive TimerCall : Set :=
| call_ResetTimeout (timeout_ : Z)
| call_CheckTimeout (loopTime : Z).

(** Successive timer calls on one domain; the booleans are the results of
    the [CheckTimeout] calls, in order. *)
Fixpoint timer_calls (cs : list TimerCall) (pd : PowerDomain)
  : list bool * PowerDomain :=
  match cs with
  | [] => ([], pd)
  | call_ResetTimeout t :: rest => timer_calls rest (ResetTimeout t pd)
  | call_CheckTimeout l :: rest =>
      let '(r, pd') := CheckTimeout l pd in
      let '(rs, pd'') := timer_calls rest pd' in
      (r :: rs, pd'')
  end.

(** The time the passes of a sequence count down. *)
Fixpoint counted (cs : list TimerCall) : Z :=
  match cs with
  | [] => 0
  | call_ResetTimeout _ :: rest => counted rest
  | call_CheckTimeout l :: rest => l + counted rest
  end.

(** What is left of each request at the end of a sequence: its clamped
    timeout less the time counted down after it. *)
Fixpoint budgets (pd : PowerDomain) (cs : list TimerCall) : list Z :=
  match cs with
  | [] => []
  | call_ResetTimeout t :: rest =>
      (clamped pd t - counted rest) :: budgets pd rest
  | call_CheckTimeout _ :: rest => budgets pd rest
  end.

(** ** The port registers around the stop mode *)

(** The registers of a port, as [printGPIOState] names them. *)
Record GPIO_TypeDef : Set := mkGPIO_TypeDef {
  MODER : Z; OTYPER : Z; OSPEEDR : Z; PUPDR : Z;
  IDR : Z; ODR : Z; BSRR : Z; LCKR : Z;
  AFR0 : Z; AFR1 : Z;          (* AFR[0], AFR[1] *)
  BRR : Z
}.

(** The register blocks, by base address. *)
Definition Ports : Type := Z -> GPIO_TypeDef.

(** The base addresses come from the device header. *)
Variable GPIOA_BASE : Z.
Variable GPIOB_BASE : Z.
Variable GPIOC_BASE : Z.
Variable GPIOH_BASE : Z.

(** [savePORTState(savedPort, targetPortAddr)]: the new content of
    [*savedPort]. *)
Definition savePORTState (savedPort : GPIO_TypeDef) (targetPortAddr : Z)
    (mem : Ports) : GPIO_TypeDef :=
  if (targetPortAddr <? GPIOA_BASE) || (GPIOH_BASE <? targetPortAddr)
  then savedPort
  else if negb (targetPortAddr mod 1024 =? 0) then savedPort
  else mem targetPortAddr.

(** [restorePORTXState(savedPort, targetPortAddr)]: restores just what the
    stop mode changes. *)
Definition restorePORTXState (savedPort : GPIO_TypeDef) (targetPortAddr : Z)
    (mem : Ports) : Ports :=
  if (targetPortAddr <? GPIOA_BASE) || (GPIOH_BASE <? targetPortAddr)
  then mem
  else if negb (targetPortAddr mod 1024 =? 0) then mem
  else
    fun a =>
      if a =? targetPortAddr then
        let pPortX := mem targetPortAddr in
        mkGPIO_TypeDef (MODER savedPort) (OTYPER savedPort)
          (OSPEEDR savedPort) (PUPDR savedPort)
          (IDR pPortX) (ODR pPortX) (BSRR pPortX) (LCKR pPortX)
          (AFR0 savedPort) (AFR1 savedPort) (BRR pPortX)
      else mem a.

(** [defaultPortState(targetPortAddr, pinMap)]: the pins handed to
    [stm32l4_gpio_pin_configure], all with the analog mode, in call
    order. [n] counts the iterations that are left. *)
Fixpoint defaultPortState_loop (n : nat) (i : Z) (pinNRoffset pinMap : Z)
  : list Z :=
  match n with
  | O => []
  | S n' =>
      (if negb (Z.land pinMap (Z.shiftl 1 i) =? 0)
       then [pinNRoffset + i] else [])
      ++ defaultPortState_loop n' (i + 1) pinNRoffset pinMap
  end.

Definition defaultPortState (targetPortAddr pinMap : Z) : list Z :=
  if (targetPortAddr <? GPIOA_BASE) || (GPIOH_BASE <? targetPortAddr)
  then []
  else if negb (targetPortAddr mod 1024 =? 0) then []
  else
    let pinNRoffset := uint16 ((targetPortAddr - GPIOA_BASE) / 1024 * 16) in
    defaultPortState_loop 16 0 pinNRoffset pinMap.

(** What [CPU_DeepSleep] does with the ports: the four blocks are saved,
    [during] stands for everything between the last save and the first
    restore (the default states, the stop, the interrupt routines, the
    clock initialisation), and the four blocks are restored. The first
    four arguments are the uninitialised locals. *)
Definition CPU_DeepSleep_ports (portA portB portC portH : GPIO_TypeDef)
    (during : Ports -> Ports) (mem : Ports) : Ports :=
  let portA := savePORTState portA GPIOA_BASE mem in
  let portB := savePORTState portB GPIOB_BASE mem in
  let portC := savePORTState portC GPIOC_BASE mem in
  let portH := savePORTState portH GPIOH_BASE mem in
  let mem := during mem in
  let mem := restorePORTXState portA GPIOA_BASE mem in
  let mem := restorePORTXState portB GPIOB_BASE mem in
  let mem := restorePORTXState portC GPIOC_BASE mem in
  restorePORTXState portH GPIOH_BASE mem.

(** The pins [CPU_DeepSleep] puts to the default state before the stop. *)
Definition CPU_DeepSleep_defaults : list Z :=
  defaultPortState GPIOA_BASE
    (if ULTRAPROFFIE_VERSION_L then 0x70ff else 0x70fb)
  ++ defaultPortState GPIOB_BASE
       (if ULTRAPROFFIE_VERSION_L then 0xefeb else 0xffeb)
  ++ defaultPortState GPIOC_BASE 0xe000
  ++ defaultPortState GPIOH_BASE 0x0003.

(** The argument of the most recent [SetPower] call on the domain with
    flag [t] in a trace, if there was one. *)
Definition note_SetPower (t : PDType) (acc : option bool) (e : Event)
  : option bool :=
  match e with
  | EvSetPower d b => if PDType_eqb d t then Some b else acc
  | _ => acc
  end.

Definition last_SetPower (t : PDType) (tr : list Event) : option bool :=
  fold_left (note_SetPower t) tr None.

(** The power map [s] agrees with the calls recorded in [tr]. *)
Definition tracks (s : Z) (tr : list Event) : Prop :=
  forall t, t <> pwr4_none ->
    (is_on t s = true <-> last_SetPower t tr = Some true).

(** Every domain object has a flag of its own. *)
Definition distinct_flags (ds : list PowerDomain) : Prop :=
  NoDup (map pd_id ds) /\ ~ In pwr4_none (map pd_id ds).

(** Every bit of the map is the flag of a listed domain. *)
Definition owned (ids : list PDType) (s : Z) : Prop :=
  forall k, 0 <= k -> Z.testbit s k = true ->
    exists t, In t ids /\ bit_index t = k.

(** A domain is marked active exactly while its timer runs. *)
Definition timer_matches (pd : PowerDomain) (s : Z) : Prop :=
  is_on (pd_id pd) s = negb (countdownTimer pd =? 0).

Definition coherent (pm : PowerManager) : Prop :=
  distinct_flags (domains pm)
  /\ owned (map pd_id (domains pm)) (powerState pm)
  /\ Forall (fun pd => timer_matches pd (powerState pm)) (domains pm).

(** The entry points of the power manager, with what each call takes from
    its environment. *)
Inductive Call : Type :=
| call_Setup
| call_Loop (timeNow : Z) (HoldPower : PowerSubscriber -> bool)
    (env : SleepEnv)
| call_Activate (startUpDomains : Z)
| call_RequestPower (ps : PowerSubscriber) (timeout_ : option (list Z))
| call_Parse (cmd arg : string) (saberIsOn : bool) (env : SleepEnv).

Definition do_call (c : Call) (pm : PowerManager) : option PowerManager :=
  match c with
  | call_Setup => Some (Setup pm)
  | call_Loop timeNow HoldPower env => Some (Loop timeNow HoldPower env pm)
  | call_Activate startUpDomains => Some (snd (Activate startUpDomains pm))
  | call_RequestPower ps timeout_ =>
      match RequestPower ps timeout_ pm with
      | Some (_, pm') => Some pm'
      | None => None
      end
  | call_Parse cmd arg saberIsOn env =>
      match Parse cmd arg saberIsOn env pm with
      | Some (_, pm') => Some pm'
      | None => None
      end
  end.

Fixpoint do_calls (cs : list Call) (pm : PowerManager)
  : option PowerManager :=
  match cs with
  | [] => Some pm
  | c :: rest =>
      match do_call c pm with
      | Some pm' => do_calls rest pm'
      | None => None
      end
  end.

(** The state when [Setup] is about to run: the registries are built, no
    domain is marked active and nothing has been called yet. *)
Definition constructed (pm : PowerManager) : Prop :=
  powerState pm = 0
  /\ trace pm = []
  /\ distinct_flags (domains pm)
  /\ Forall (fun pd => countdownTimer pd = 0) (domains pm).

(** The nominal period of the loop, [Looper(PWRMAN_TIMEOUTRES)], in millis. *)
Definition nominal_poll_period : Z := PWRMAN_TIMEOUTRES / 1000.

(** The elapsed time a pass measures. *)
Definition elapsed (timeNow : Z) (pm : PowerManager) : Z :=
  uint32 (timeNow - lastLoopTime pm).

Definition is_SetPower (e : Event) : bool :=
  match e with EvSetPower _ _ => true | _ => false end.

(** A traversal of the domain list in which each visited domain and the
    loop state are related by [step]. *)
Inductive visits {S : Type}
    (step : PowerDomain -> S -> PowerDomain -> S -> Prop)
  : list PowerDomain -> S -> list PowerDomain -> S -> Prop :=
| visits_nil (s : S) : visits step [] s [] s
| visits_cons (pd : PowerDomain) (rest : list PowerDomain) (s : S)
    (pd' : PowerDomain) (s' : S) (rest' : list PowerDomain) (s'' : S) :
    step pd s pd' s' ->
    visits step rest s' rest' s'' ->
    visits step (pd :: rest) s (pd' :: rest') s''.

(** What the request, activation and command loops do to a visited
    domain: nothing, a request (timer raised, switched on if it was off),
    or a forced switch-off. *)
Inductive act (pd : PowerDomain) (pm : PowerManager)
  : PowerDomain -> PowerManager -> Prop :=
| act_skip : act pd pm pd pm
| act_request (t : Z) :
    act pd pm (ResetTimeout t pd)
      (if is_on (pd_id pd) (powerState pm) then pm else power_on pd pm)
| act_force_off :
    is_on (pd_id pd) (powerState pm) = true ->
    act pd pm (set_countdownTimer 0 pd) (power_off pd pm).

(** The invariant of the reachable states. *)
Definition Inv (pm : PowerManager) : Prop :=
  coherent pm /\ tracks (powerState pm) (trace pm).

(** Switching a list of domains on, or off, one after the other. *)
Definition switch_on (pds : list PowerDomain) (pm : PowerManager)
  : PowerManager :=
  fold_left (fun pm pd => power_on pd pm) pds pm.

Definition switch_off (pds : list PowerDomain) (pm : PowerManager)
  : PowerManager :=
  fold_left (fun pm pd => power_off pd pm) pds pm.

Definition SetPower_calls (b : bool) (pds : list PowerDomain) : list Event :=
  map (fun pd => EvSetPower (pd_id pd) b) pds.

(** A subscriber's map is fully contained in the power map [s]. *)
Definition satisfied (ps : PowerSubscriber) (s : Z) : bool :=
  Z.land (subscribedDomains ps) s =? subscribedDomains ps.

(** The subscriber is on in the current state and not in the proposed one. *)
Definition off_due (cur next : Z) (ps : PowerSubscriber) : bool :=
  satisfied ps cur && negb (satisfied ps next).

Definition is_PwrOff (e : Event) : bool :=
  match e with EvPwrOff_Callback _ => true | _ => false end.

(** The ghost copies of the power map taken at each entry of the stop mode. *)
Fixpoint sleep_entries (tr : list Event) : list Z :=
  match tr with
  | [] => []
  | EvCPU_DeepSleep _ live :: rest => live :: sleep_entries rest
  | _ :: rest => sleep_entries rest
  end.

(** [Activate] switches on the domains of the map that are off. *)
Definition goes_on (m s : Z) (pd : PowerDomain) : bool :=
  and_nz (flag pd) m && negb (is_on (pd_id pd) s).

(** The first half of [Activate], in closed form: every domain of the map
    that is off gets its timer armed and is switched on. *)
Definition Activate_domains (m : Z) (pm : PowerManager) : PowerManager :=
  with_domains
    (map (fun pd => if goes_on m (powerState pm) pd
                    then ResetTimeout 0 pd else pd) (domains pm))
    (switch_on (filter (goes_on m (powerState pm)) (domains pm)) pm).

(** The registries as static construction leaves them: domains and
    subscribers constructed in the given orders on the fresh manager. *)
Definition construct (ds : list PowerDomain) (ss : list PowerSubscriber)
  : PowerManager :=
  fold_left (fun pm ps => PowerSubscriber_ctor ps pm) ss
    (fold_left (fun pm pd => PowerDomain_ctor pd pm) ds powerman).

(** The board of the header: its five domain objects in declaration order. *)
Definition board_domains : list PowerDomain :=
  [pwrdom_pixel; pwrdom_amp; pwrdom_boost; pwrdom_sd; pwrdom_cpu].

(** The subscribers called back in a trace, in order. *)
Fixpoint on_callbacks (tr : list Event) : list PowerSubscriber :=
  match tr with
  | [] => []
  | EvPwrOn_Callback ps :: rest => ps :: on_callbacks rest
  | _ :: rest => on_callbacks rest
  end.

Fixpoint off_callbacks (tr : list Event) : list PowerSubscriber :=
  match tr with
  | [] => []
  | EvPwrOff_Callback ps :: rest => ps :: off_callbacks rest
  | _ :: rest => off_callbacks rest
  end.

(** The domain is one of the subscriber's. *)
Definition subscribed (ps : PowerSubscriber) (pd : PowerDomain) : bool :=
  and_nz (flag pd) (subscribedDomains ps).

(** Steps 1 to 4 of a pass that is not skipped: what [Loop] does before
    it looks whether every domain is off. *)
Definition Loop_awake (timeNow : Z) (HoldPower : PowerSubscriber -> bool)
    (pm : PowerManager) : PowerManager :=
  let pm0 := with_lastLoopTime timeNow pm in
  let ds := fst (Loop_check (elapsed timeNow pm) HoldPower pm) in
  let next := snd (Loop_check (elapsed timeNow pm) HoldPower pm) in
  let pm1 := with_domains ds pm0 in
  if next =? powerState pm then pm1
  else
    foreach_domain (turn_off_body next)
      (fold_left (Off_Callback_body next) (subscribers pm) pm1).

(** [pm'] has the trace of [pm] followed by events that satisfy [P]. *)
Definition extends (P : Event -> bool) (pm pm' : PowerManager) : Prop :=
  exists seg, trace pm' = trace pm ++ seg /\ forallb P seg = true.

Definition is_sleep (e : Event) : bool :=
  match e with EvCPU_DeepSleep _ _ => true | _ => false end.

Definition is_SetPower_off (e : Event) : bool :=
  match e with EvSetPower _ false => true | _ => false end.

(** Step 2 of [Loop] on one domain: whether it is looked at, what becomes
    of it, and whether it is marked for switching off. *)
Definition checked (s chk : Z) (pd : PowerDomain) : bool :=
  is_on (pd_id pd) s && is_on (pd_id pd) chk.

Definition check_dom (l s chk : Z) (pd : PowerDomain) : PowerDomain :=
  if checked s chk pd then snd (CheckTimeout l pd) else pd.

Definition expired (l s chk : Z) (pd : PowerDomain) : bool :=
  checked s chk pd && fst (CheckTimeout l pd).

Definition clear_flags (pds : list PowerDomain) (s : Z) : Z :=
  fold_left (fun n pd => uint8 (Z.land n (Z.lnot (flag pd)))) pds s.

(** Successive passes, each with its clock reading, hold answers and
    interrupts. *)
Definition Loops
    (ticks : list (Z * (PowerSubscriber -> bool) * SleepEnv))
    (pm : PowerManager) : PowerManager :=
  fold_left (fun pm tk => Loop (fst (fst tk)) (snd (fst tk)) (snd tk) pm)
    ticks pm.

(** Step 4 switches off, in list order, the active domains that the
    proposed state no longer contains. *)
Definition goes_off (s next : Z) (pd : PowerDomain) : bool :=
  is_on (pd_id pd) s && negb (is_on (pd_id pd) next).


(** No subscriber that holds power during the pass has the flag [t]. *)
Definition unheld (HoldPower : PowerSubscriber -> bool) (pm : PowerManager)
    (t : PDType) : Prop :=
  forall ps, In ps (subscribers pm) -> HoldPower ps = true ->
    is_on t (subscribedDomains ps) = false.



(** The state in which the "deepsleep" command enters the stop mode. *)
Definition deepsleep_forced (pm : PowerManager) : PowerManager :=
  let pm := foreach_domain force_off pm in
  emit EvFlushTx
    (fold_left (fun pm ps => emit (EvPwrOff_Callback ps) pm)
       (subscribers pm) pm).

(** A domain after [S] milliseconds of counted time. *)
Definition advance (S : Z) (pd : PowerDomain) : PowerDomain :=
  set_countdownTimer
    (if countdownTimer pd <=? S then 0 else countdownTimer pd - S) pd.

(** Passes with nobody holding power, each measuring the given number of
    milliseconds since the one before. *)
Fixpoint idle_passes (deltas : list Z) (env : SleepEnv) (pm : PowerManager)
  : PowerManager :=
  match deltas with
  | [] => pm
  | d :: rest =>
      idle_passes rest env
        (Loop (uint32 (lastLoopTime pm + d)) (fun _ => false) env pm)
  end.

Definition total (l : list Z) : Z := fold_right Z.add 0 l.

Definition not_sleep (e : Event) : bool := negb (is_sleep e).

(** ** Concrete instances

    A board with the five domains of the header and two subscribers, one
    for the amplifier and one for the storage with the processor. *)
Definition no_hold : PowerSubscriber -> bool := fun _ => false.
Definition hold_all : PowerSubscriber -> bool := fun _ => true.
Definition button_env : SleepEnv := mkSleepEnv [] irq_button.

Definition sub_amp : PowerSubscriber :=
  mkPowerSubscriber "amp" (PDType_base pwr4_Amplif).
Definition sub_sd : PowerSubscriber :=
  mkPowerSubscriber "sd"
    (Z.lor (PDType_base pwr4_CPU) (PDType_base pwr4_SD)).

Definition board : PowerManager :=
  construct board_domains [sub_amp; sub_sd].

(** The board after [Setup]: the processor domain is on. *)
Definition booted : PowerManager := Setup board.

(** The booted board after the amplifier subscriber asked for power. *)
Definition amp_on : PowerManager :=
  match RequestPower sub_amp None booted with
  | Some (_, pm) => pm
  | None => booted
  end.

(** The amplifier domain with a given countdown. *)
Definition amp_at (t : Z) : PowerDomain :=
  mkPowerDomain pwr4_Amplif "AMP" PWRMAN_AMPTIMEOUT t.

(** The board with the amplifier on, after three passes of 15 ms with
    nobody holding power: 5 ms are left on the amplifier's countdown. *)
Definition amp_low : PowerManager :=
  Loops [(15, no_hold, button_env); (30, no_hold, button_env);
         (45, no_hold, button_env)] amp_on.

(** The board with the amplifier on, after six passes of 10 ms with every
    subscriber holding power. *)
Definition amp_held : PowerManager :=
  Loops [(10, hold_all, button_env); (20, hold_all, button_env);
         (30, hold_all, button_env); (40, hold_all, button_env);
         (50, hold_all, button_env); (60, hold_all, button_env)] amp_on.

(** Two subscribers of the processor domain, registered in this order. *)
Definition sub_first : PowerSubscriber :=
  mkPowerSubscriber "first" (PDType_base pwr4_CPU).
Definition sub_second : PowerSubscriber :=
  mkPowerSubscriber "second" (PDType_base pwr4_CPU).
Definition cpu_board : PowerManager :=
  construct [pwrdom_cpu] [sub_first; sub_second].

(** A subscriber registered with no domain in the list. *)
Definition bare_board : PowerManager := construct [] [sub_amp].

(** A two-domain board with short timeouts, every domain on. *)
Definition short_board : PowerManager :=
  construct [pwrdom_amp; mkPowerDomain pwr4_CPU "CPU" 30 0] [sub_amp].
Definition short_on : PowerManager :=
  snd (Activate (Z.lor (PDType_base pwr4_CPU) (PDType_base pwr4_Amplif))
         short_board).

(** The booted board with all five domains activated. *)
Definition all_on : PowerManager :=
  snd (Activate
         (Z.lor (PDType_base pwr4_CPU)
            (Z.lor (PDType_base pwr4_SD)
               (Z.lor (PDType_base pwr4_Booster)
                  (Z.lor (PDType_base pwr4_Amplif)
                     (PDType_base pwr4_Pixel))))) booted).

(** A session on the board: start-up, a request of the amplifier
    subscriber with its own timeout, a pass, and two commands. *)
Definition session : list Call :=
  [call_Setup; call_RequestPower sub_amp (Some [100]);
   call_Loop 10 no_hold button_env;
   call_Parse "pwr-dom-off" "AMP" false button_env;
   call_Parse "deepsleep" EmptyString false button_env].

(** ** Vocabulary of the further properties *)

(** What a domain object is, apart from its timer. *)
Definition static (pd : PowerDomain) : PDType * string * Z :=
  (pd_id pd, pd_name pd, pd_timeout pd).

(** Two states with the same registries: the same domain objects in the
    same order, whatever their timers, and the same subscribers. *)
Definition same_registry (pm pm' : PowerManager) : Prop :=
  map static (domains pm') = map static (domains pm)
  /\ subscribers pm' = subscribers pm.

(** A subscribed domain that is off: [RequestPower] switches it on. *)
Definition wanted (ps : PowerSubscriber) (s : Z) (pd : PowerDomain) : bool :=
  subscribed ps pd && negb (is_on (pd_id pd) s).

(** Some subscriber that holds power during the pass has the flag [t]. *)
Definition held (HoldPower : PowerSubscriber -> bool) (pm : PowerManager)
    (t : PDType) : bool :=
  existsb (fun ps => HoldPower ps && is_on t (subscribedDomains ps))
    (subscribers pm).

(** The domain is on, nobody holds it, and the measured time uses up its
    countdown. *)
Definition times_out (l : Z) (HoldPower : PowerSubscriber -> bool)
    (pm : PowerManager) (pd : PowerDomain) : bool :=
  is_on (pd_id pd) (powerState pm)
  && negb (held HoldPower pm (pd_id pd))
  && (countdownTimer pd <=? l).

(** The power map a pass proposes: the current one without the domains
    that time out. *)
Definition proposed (l : Z) (HoldPower : PowerSubscriber -> bool)
    (pm : PowerManager) : Z :=
  clear_flags (filter (times_out l HoldPower pm) (domains pm)) (powerState pm).

(** The readings of the charge-detect pin that count: the routine looks
    at the pin on every third alarm only. *)
Fixpoint third_alarms (alarms : list bool) : list bool :=
  match alarms with
  | _ :: _ :: charging :: rest => charging :: third_alarms rest
  | _ => []
  end.

(** The wake-up source a button or serial interrupt leaves. *)
Definition source_of (w : WakeIRQ) : WKSource :=
  match w with
  | irq_button => wakeUp_button
  | irq_serial => wakeUp_serial
  end.

(** The wake-up source with which [CPU_DeepSleep] returns. *)
Definition woken_by (armed : bool) (env : SleepEnv) : WKSource :=
  if armed && existsb (fun charging => charging) (third_alarms (rtc_alarms env))
  then wakeUp_rtc else source_of (wake_irq env).

(** What [PrintWakeUpMsg] does besides printing. *)
Definition wake_flush (w : WKSource) : list Event :=
  match w with
  | wakeUp_serial | wakeUp_rtc => [EvFlushRx]
  | _ => []
  end.

Definition is_cpu (pd : PowerDomain) : bool := PDType_eqb (pd_id pd) pwr4_CPU.

(** The commands [Parse] answers in this build. *)
Definition known_command (cmd : string) : bool :=
  String.eqb cmd "deepsleep"
  || DIAGNOSE_POWER
     && existsb (String.eqb cmd)
          ["pwr-domains"%string; "pwr-dom-request"%string;
           "pwr-dom-off"%string; "pwr-subs"%string;
           "pwr-sub-request"%string].

(** The two tests of the port functions on the target address. *)
Definition valid_port (targetPortAddr : Z) : bool :=
  negb ((targetPortAddr <? GPIOA_BASE) || (GPIOH_BASE <? targetPortAddr))
  && (targetPortAddr mod 1024 =? 0).

(** The number of pin 0 of a port. *)
Definition pin0 (targetPortAddr : Z) : Z :=
  uint16 ((targetPortAddr - GPIOA_BASE) / 1024 * 16).

(** The registers that hold the configuration of the pins. *)
Definition pin_config (g : GPIO_TypeDef) : Z * Z * Z * Z * Z * Z :=
  (MODER g, OTYPER g, OSPEEDR g, PUPDR g, AFR0 g, AFR1 g).

(** The other registers. *)
Definition pin_data (g : GPIO_TypeDef) : Z * Z * Z * Z * Z :=
  (IDR g, ODR g, BSRR g, LCKR g, BRR g).

(** ** More concrete instances *)

(** The short board one pass before everything is off: 10 ms are left on
    the amplifier, the processor domain has timed out. *)
Definition short_last : PowerManager :=
  idle_passes [10; 10; 10; 10] button_env short_on.

(** A stop ended by the serial line, and one during which the clock alarm
    fires six times, the pin reading charging at the sixth. *)
Definition serial_env : SleepEnv := mkSleepEnv [] irq_serial.
Definition alarm_env : SleepEnv :=
  mkSleepEnv [true; true; false; false; false; true] irq_button.

(** A conversion that knows one number. *)
Definition atoi_100 (s : string) : Z :=
  if String.eqb s "100" then 100 else 0.

(** Port registers with recognisable contents, and a stop that wipes
    every register. *)
Definition port_mem : Ports :=
  fun a => mkGPIO_TypeDef a (a + 1) (a + 2) (a + 3) (a + 4) (a + 5) (a + 6)
             (a + 7) (a + 8) (a + 9) (a + 10).
Definition wiped (mem : Ports) : Ports :=
  fun _ => mkGPIO_TypeDef 0 0 0 0 0 0 0 0 0 0 0.

(** ** The domain timer *)

Lemma ResetTimeout_timer (t : Z) (pd : PowerDomain) :
  countdownTimer (ResetTimeout t pd) = Z.max (countdownTimer pd) (clamped pd t).
Proof.
  unfold ResetTimeout, clamped, PWRMAN_MINTIMEOUT.
  destruct (t =? 0); simpl.
  - destruct (pd_timeout pd <? 20) eqn:E1.
    + destruct (countdownTimer pd <? 20) eqn:E2; simpl; lia.
    + destruct (countdownTimer pd <? pd_timeout pd) eqn:E2; simpl; lia.
  - destruct (t <? 20) eqn:E1.
    + destruct (countdownTimer pd <? 20) eqn:E2; simpl; lia.
    + destruct (countdownTimer pd <? t) eqn:E2; simpl; lia.
Qed.

Lemma ResetTimeout_id (t : Z) (pd : PowerDomain) :
  pd_id (ResetTimeout t pd) = pd_id pd.
Proof.
  unfold ResetTimeout.
  destruct (countdownTimer pd <? _); reflexivity.
Qed.

Lemma ResetTimeout_default (t : Z) (pd : PowerDomain) :
  pd_timeout (ResetTimeout t pd) = pd_timeout pd.
Proof.
  unfold ResetTimeout.
  destruct (countdownTimer pd <? _); reflexivity.
Qed.

Lemma ResetTimeout_name (t : Z) (pd : PowerDomain) :
  pd_name (ResetTimeout t pd) = pd_name pd.
Proof.
  unfold ResetTimeout.
  destruct (countdownTimer pd <? _); reflexivity.
Qed.

Lemma clamped_min (pd : PowerDomain) (t : Z) : PWRMAN_MINTIMEOUT <= clamped pd t.
Proof. unfold clamped. lia. Qed.

Lemma clamped_ResetTimeout (u t : Z) (pd : PowerDomain) :
  clamped (ResetTimeout u pd) t = clamped pd t.
Proof. unfold clamped. now rewrite ResetTimeout_default. Qed.

Lemma ResetTimeout_all_timer (ts : list Z) (pd : PowerDomain) :
  countdownTimer (ResetTimeout_all ts pd)
  = fold_left Z.max (map (clamped pd) ts) (countdownTimer pd).
Proof.
  revert pd. induction ts as [|t ts IH]; intros pd; [reflexivity|].
  cbn [ResetTimeout_all fold_left map].
  change (fold_left (fun d u => ResetTimeout u d) ts (ResetTimeout t pd))
    with (ResetTimeout_all ts (ResetTimeout t pd)).
  rewrite IH, ResetTimeout_timer.
  f_equal. apply map_ext. intros u. apply clamped_ResetTimeout.
Qed.

Lemma fold_max_ge (l : list Z) (x : Z) : x <= fold_left Z.max l x.
Proof.
  revert x. induction l as [|y l IH]; intros x; simpl; [lia|].
  specialize (IH (Z.max x y)). lia.
Qed.

Lemma fold_max_upper (l : list Z) (x y : Z) :
  In y l -> y <= fold_left Z.max l x.
Proof.
  revert x. induction l as [|z l IH]; intros x [].
  - subst. simpl. pose proof (fold_max_ge l (Z.max x y)). lia.
  - simpl. now apply IH.
Qed.

Lemma fold_max_attained (l : list Z) (x : Z) :
  fold_left Z.max l x = x \/ In (fold_left Z.max l x) l.
Proof.
  revert x. induction l as [|z l IH]; intros x; simpl; [now left|].
  destruct (IH (Z.max x z)) as [E|E].
  - rewrite E. destruct (Z.max_spec x z) as [[_ ->]|[_ ->]]; auto.
  - auto.
Qed.

Lemma CheckTimeout_default (l : Z) (pd : PowerDomain) :
  pd_timeout (snd (CheckTimeout l pd)) = pd_timeout pd.
Proof.
  unfold CheckTimeout.
  destruct (countdownTimer pd =? 0); [reflexivity|].
  destruct (countdownTimer pd <=? l); reflexivity.
Qed.

Lemma budgets_default (pd pd' : PowerDomain) (cs : list TimerCall) :
  pd_timeout pd' = pd_timeout pd -> budgets pd' cs = budgets pd cs.
Proof.
  intros E. induction cs as [|[t|l] rest IH]; cbn [budgets];
    [reflexivity| |exact IH].
  rewrite IH. unfold clamped. now rewrite E.
Qed.

Lemma fold_max_init (l : list Z) (a b : Z) :
  fold_left Z.max l (Z.max a b) = Z.max a (fold_left Z.max l b).
Proof.
  revert a b. induction l as [|x l IH]; intros a b; cbn [fold_left];
    [reflexivity|].
  rewrite <- IH. f_equal. lia.
Qed.

(** Without an expiry, an armed timer holds the largest of what is left
    of the stored value and of every request. *)
Lemma timer_calls_armed (cs : list TimerCall) :
  forall pd,
    countdownTimer pd <> 0 ->
    existsb (fun expired => expired) (fst (timer_calls cs pd)) = false ->
    countdownTimer (snd (timer_calls cs pd))
    = fold_left Z.max (budgets pd cs) (countdownTimer pd - counted cs)
    /\ (0 < countdownTimer pd -> 0 < countdownTimer (snd (timer_calls cs pd))).
Proof.
  induction cs as [|[t|l] rest IH]; intros pd Hnz Hno.
  - cbn. split; [lia|easy].
  - cbn [timer_calls budgets counted fold_left] in *.
    pose proof (ResetTimeout_timer t pd) as Et.
    pose proof (clamped_min pd t) as Hc. unfold PWRMAN_MINTIMEOUT in Hc.
    destruct (IH (ResetTimeout t pd)) as [E Hpos]; [lia|exact Hno|].
    rewrite (budgets_default pd) in E by apply ResetTimeout_default.
    split; [|intros _; apply Hpos; lia].
    rewrite E, Et. f_equal. lia.
  - cbn [timer_calls budgets counted] in *.
    unfold CheckTimeout in *.
    destruct (countdownTimer pd =? 0) eqn:E0; [apply Z.eqb_eq in E0; lia|].
    destruct (countdownTimer pd <=? l) eqn:E1.
    + destruct (timer_calls rest (set_countdownTimer 0 pd)) as [rs pd2].
      cbn in Hno. discriminate Hno.
    + apply Z.leb_gt in E1.
      specialize (IH (set_countdownTimer (countdownTimer pd - l) pd)).
      destruct (timer_calls rest
                  (set_countdownTimer (countdownTimer pd - l) pd))
        as [rs pd2].
      cbn [fst snd existsb orb] in *.
      destruct IH as [E Hpos];
        [cbn [countdownTimer set_countdownTimer]; lia|exact Hno|].
      cbn [countdownTimer set_countdownTimer] in E, Hpos.
      rewrite (budgets_default pd) in E by reflexivity.
      split; [|intros _; apply Hpos; lia].
      rewrite E. f_equal. lia.
Qed.

(** From an unarmed timer only the requests count. *)
Lemma timer_calls_unarmed (cs : list TimerCall) :
  forall pd,
    countdownTimer pd = 0 ->
    existsb (fun expired => expired) (fst (timer_calls cs pd)) = false ->
    countdownTimer (snd (timer_calls cs pd))
    = fold_left Z.max (budgets pd cs) 0.
Proof.
  induction cs as [|[t|l] rest IH]; intros pd H0 Hno.
  - exact H0.
  - cbn [timer_calls budgets fold_left] in *.
    pose proof (ResetTimeout_timer t pd) as Et.
    pose proof (clamped_min pd t) as Hc. unfold PWRMAN_MINTIMEOUT in Hc.
    destruct (timer_calls_armed rest (ResetTimeout t pd)) as [E Hpos];
      [lia|exact Hno|].
    rewrite (budgets_default pd) in E by apply ResetTimeout_default.
    specialize (Hpos ltac:(lia)).
    rewrite Et, H0 in E.
    replace (Z.max 0 (clamped pd t) - counted rest)
      with (clamped pd t - counted rest) in E by lia.
    rewrite fold_max_init. lia.
  - cbn [timer_calls budgets] in *.
    unfold CheckTimeout in *. rewrite H0 in *. cbn [Z.eqb] in *.
    specialize (IH pd H0).
    destruct (timer_calls rest pd) as [rs pd2].
    cbn [fst snd existsb orb] in *. now apply IH.
Qed.

(** C3, as the code has it. [ResetTimeout] calls with no countdown in
    between keep the maximum: from any stored value the countdown becomes
    the maximum of that value and the clamped requests; from an unarmed
    timer it is exactly the largest clamped request (an upper bound of all,
    equal to one of them). A request never shortens the countdown, and a
    request below the minimum acts as a request for the minimum. When
    passes count the timer down between the requests, without an expiry,
    the stored value is the largest of what is left of each request, its
    clamped timeout less the time counted down since it was made (and of
    the value stored at the start, if the timer was armed). *)
Theorem ResetTimeout_keeps_maximum :
  forall (pd : PowerDomain) (ts : list Z),
    countdownTimer (ResetTimeout_all ts pd)
    = fold_left Z.max (map (clamped pd) ts) (countdownTimer pd)
    /\ (countdownTimer pd = 0 -> ts <> [] ->
        (forall t, In t ts ->
           clamped pd t <= countdownTimer (ResetTimeout_all ts pd))
        /\ exists t, In t ts
             /\ countdownTimer (ResetTimeout_all ts pd) = clamped pd t)
    /\ (forall t, countdownTimer pd <= countdownTimer (ResetTimeout t pd))
    /\ (forall t, t <> 0 -> t < PWRMAN_MINTIMEOUT ->
        clamped pd t = PWRMAN_MINTIMEOUT
        /\ ResetTimeout t pd = ResetTimeout PWRMAN_MINTIMEOUT pd
        /\ PWRMAN_MINTIMEOUT <= countdownTimer (ResetTimeout t pd))
    /\ (forall cs,
          existsb (fun expired => expired) (fst (timer_calls cs pd)) = false ->
          countdownTimer (snd (timer_calls cs pd))
          = fold_left Z.max (budgets pd cs)
              (if countdownTimer pd =? 0 then 0
               else countdownTimer pd - counted cs)).
Proof.
  intros pd ts. split; [apply ResetTimeout_all_timer|].
  split; [|split; [|split]].
  - intros H0 Hne. rewrite ResetTimeout_all_timer, H0. split.
    + intros t Ht. apply fold_max_upper. now apply in_map.
    + destruct (fold_max_attained (map (clamped pd) ts) 0) as [E|E].
      * destruct ts as [|t ts]; [congruence|].
        pose proof (fold_max_upper (map (clamped pd) (t :: ts)) 0
                      (clamped pd t) (or_introl eq_refl)) as Hu.
        pose proof (clamped_min pd t). unfold PWRMAN_MINTIMEOUT in *. lia.
      * apply in_map_iff in E. destruct E as [t [E Ht]].
        exists t. split; [exact Ht|]. now rewrite E.
  - intros t. rewrite ResetTimeout_timer. lia.
  - intros t Hnz Hlt. split; [|split].
    + unfold clamped. apply Z.eqb_neq in Hnz. rewrite Hnz. lia.
    + unfold ResetTimeout.
      apply Z.eqb_neq in Hnz. rewrite Hnz.
      apply Z.ltb_lt in Hlt. rewrite Hlt. reflexivity.
    + rewrite ResetTimeout_timer. pose proof (clamped_min pd t). lia.
  - intros cs Hno. destruct (countdownTimer pd =? 0) eqn:E0.
    + apply Z.eqb_eq in E0. now apply timer_calls_unarmed.
    + apply Z.eqb_neq in E0. now apply timer_calls_armed.
Qed.

Lemma CheckTimeout_all_unarmed (es : list Z) (pd : PowerDomain) :
  countdownTimer pd = 0 ->
  CheckTimeout_all es pd = (map (fun _ => false) es, pd).
Proof.
  intros H0. induction es as [|e es IH]; [reflexivity|].
  cbn [CheckTimeout_all map]. unfold CheckTimeout at 1.
  rewrite H0. cbn. now rewrite IH.
Qed.

(** C4. [CheckTimeout] on an unarmed timer reports nothing and leaves it
    unarmed, however often it is called; on an armed timer it reports the
    expiry and snaps to zero when the elapsed time uses up the countdown,
    and otherwise stores the difference and reports nothing. *)
Theorem CheckTimeout_cases :
  forall (pd : PowerDomain) (elapsed : Z),
    (countdownTimer pd = 0 -> CheckTimeout elapsed pd = (false, pd))
    /\ (countdownTimer pd = 0 ->
        forall es, CheckTimeout_all es pd = (map (fun _ => false) es, pd))
    /\ (0 < countdownTimer pd -> countdownTimer pd - elapsed <= 0 ->
        CheckTimeout elapsed pd = (true, set_countdownTimer 0 pd)
        /\ forall es,
             CheckTimeout_all es (snd (CheckTimeout elapsed pd))
             = (map (fun _ => false) es, set_countdownTimer 0 pd))
    /\ (0 < countdownTimer pd -> 0 < countdownTimer pd - elapsed ->
        CheckTimeout elapsed pd
        = (false, set_countdownTimer (countdownTimer pd - elapsed) pd)).
Proof.
  intros pd elapsed. split; [|split; [|split]].
  - intros H0. unfold CheckTimeout. now rewrite H0.
  - intros H0 es. now apply CheckTimeout_all_unarmed.
  - intros Hpos Hle.
    assert (E : CheckTimeout elapsed pd = (true, set_countdownTimer 0 pd)).
    { unfold CheckTimeout.
      destruct (countdownTimer pd =? 0) eqn:E0; [lia|].
      destruct (countdownTimer pd <=? elapsed) eqn:E1; [reflexivity|lia]. }
    split; [exact E|]. intros es. rewrite E.
    now apply CheckTimeout_all_unarmed.
  - intros Hpos Hgt. unfold CheckTimeout.
    destruct (countdownTimer pd =? 0) eqn:E0; [lia|].
    destruct (countdownTimer pd <=? elapsed) eqn:E1; [lia|reflexivity].
Qed.

(** ** Flags and bit maps *)

Lemma PDType_eq_dec (a b : PDType) : {a = b} + {a <> b}.
Proof. decide equality. Qed.

Lemma PDType_eqb_eq (a b : PDType) : PDType_eqb a b = true <-> a = b.
Proof.
  unfold PDType_eqb. split.
  - destruct a, b; simpl; intros H; try reflexivity; discriminate H.
  - intros ->. apply Z.eqb_refl.
Qed.

Lemma PDType_eqb_refl (a : PDType) : PDType_eqb a a = true.
Proof. now apply PDType_eqb_eq. Qed.

Lemma PDType_eqb_neq (a b : PDType) : PDType_eqb a b = false <-> a <> b.
Proof.
  rewrite <- PDType_eqb_eq. destruct (PDType_eqb a b); split; congruence.
Qed.

Lemma PDType_eqb_sym (a b : PDType) : PDType_eqb a b = PDType_eqb b a.
Proof. unfold PDType_eqb. apply Z.eqb_sym. Qed.

Lemma PDType_base_pow2 (t : PDType) : PDType_base t = 2 ^ bit_index t.
Proof. destruct t; reflexivity. Qed.

Lemma bit_index_range (t : PDType) : -1 <= bit_index t < 8.
Proof. destruct t; simpl; lia. Qed.

Lemma bit_index_nonneg (t : PDType) : t <> pwr4_none -> 0 <= bit_index t.
Proof. destruct t; simpl; intros; try lia. congruence. Qed.

Lemma bit_index_inj (t u : PDType) : bit_index t = bit_index u -> t = u.
Proof. destruct t, u; simpl; intros H; try reflexivity; discriminate H. Qed.

Lemma and_nz_comm (a b : Z) : and_nz a b = and_nz b a.
Proof. unfold and_nz. now rewrite Z.land_comm. Qed.

Lemma land_pow2_testbit (k x : Z) :
  (Z.land (2 ^ k) x =? 0) = negb (Z.testbit x k).
Proof.
  destruct (Z.ltb_spec k 0) as [Hk|Hk].
  - rewrite Z.pow_neg_r by exact Hk.
    rewrite Z.land_0_l, Z.testbit_neg_r by exact Hk. reflexivity.
  - destruct (Z.testbit x k) eqn:E; simpl.
    + apply Z.eqb_neq. intros H0.
      assert (F : Z.testbit (Z.land (2 ^ k) x) k = true).
      { rewrite Z.land_spec, Z.pow2_bits_true, E by exact Hk. reflexivity. }
      rewrite H0, Z.bits_0 in F. discriminate F.
    + apply Z.eqb_eq. apply Z.bits_inj'. intros n Hn.
      rewrite Z.land_spec, Z.bits_0, Z.pow2_bits_eqb by exact Hk.
      destruct (Z.eqb_spec k n) as [->|_]; [now rewrite E|reflexivity].
Qed.

Lemma is_on_testbit (t : PDType) (s : Z) :
  is_on t s = Z.testbit s (bit_index t).
Proof.
  unfold is_on, and_nz.
  rewrite PDType_base_pow2, land_pow2_testbit. apply negb_involutive.
Qed.

Lemma and_nz_flag_l (pd : PowerDomain) (s : Z) :
  and_nz (flag pd) s = is_on (pd_id pd) s.
Proof. reflexivity. Qed.

Lemma and_nz_flag_r (pd : PowerDomain) (s : Z) :
  and_nz s (flag pd) = is_on (pd_id pd) s.
Proof. apply and_nz_comm. Qed.

Lemma is_on_none (s : Z) : is_on pwr4_none s = false.
Proof. reflexivity. Qed.

Lemma is_on_0 (t : PDType) : is_on t 0 = false.
Proof. rewrite is_on_testbit. apply Z.bits_0. Qed.

Lemma testbit_uint8 (x k : Z) :
  k < 8 -> Z.testbit (uint8 x) k = Z.testbit x k.
Proof. intros Hk. unfold uint8. now apply Z.mod_pow2_bits_low. Qed.

Lemma is_on_uint8 (t : PDType) (s : Z) : is_on t (uint8 s) = is_on t s.
Proof.
  rewrite !is_on_testbit. apply testbit_uint8.
  pose proof (bit_index_range t). lia.
Qed.

Lemma testbit_flag (t : PDType) (k : Z) :
  0 <= k -> Z.testbit (PDType_base t) k = (bit_index t =? k).
Proof.
  intros Hk. rewrite PDType_base_pow2.
  destruct (Z.ltb_spec (bit_index t) 0) as [Hn|Hn].
  - rewrite Z.pow_neg_r, Z.bits_0 by exact Hn. symmetry. apply Z.eqb_neq. lia.
  - now apply Z.pow2_bits_eqb.
Qed.

Lemma is_on_set (t u : PDType) (s : Z) :
  t <> pwr4_none ->
  is_on t (uint8 (Z.lor s (PDType_base u))) = is_on t s || PDType_eqb t u.
Proof.
  intros Ht. rewrite is_on_uint8, !is_on_testbit, Z.lor_spec.
  rewrite testbit_flag by now apply bit_index_nonneg.
  f_equal. destruct (Z.eqb_spec (bit_index u) (bit_index t)) as [E|E].
  - symmetry. apply PDType_eqb_eq. symmetry. now apply bit_index_inj.
  - symmetry. apply PDType_eqb_neq. intros ->. now apply E.
Qed.

Lemma is_on_clear (t u : PDType) (s : Z) :
  is_on t (uint8 (Z.land s (Z.lnot (PDType_base u))))
  = is_on t s && negb (PDType_eqb t u).
Proof.
  destruct (PDType_eq_dec t pwr4_none) as [->|Ht]; [reflexivity|].
  pose proof (bit_index_nonneg t Ht) as Hk.
  rewrite is_on_uint8, !is_on_testbit, Z.land_spec, Z.lnot_spec by exact Hk.
  rewrite testbit_flag by exact Hk.
  f_equal. f_equal. destruct (Z.eqb_spec (bit_index u) (bit_index t)) as [E|E].
  - symmetry. apply PDType_eqb_eq. symmetry. now apply bit_index_inj.
  - symmetry. apply PDType_eqb_neq. intros ->. now apply E.
Qed.

Lemma and_nz_lnot (t : PDType) (s : Z) :
  t <> pwr4_none -> and_nz (PDType_base t) (Z.lnot s) = negb (is_on t s).
Proof.
  intros Ht. pose proof (bit_index_nonneg t Ht) as Hk.
  change (and_nz (PDType_base t) (Z.lnot s)) with (is_on t (Z.lnot s)).
  rewrite !is_on_testbit. now apply Z.lnot_spec.
Qed.

(** A map whose bits all belong to flags is determined by [is_on]. *)
Definition flags_only (s : Z) : Prop :=
  forall k, 0 <= k -> Z.testbit s k = true ->
    exists t, t <> pwr4_none /\ bit_index t = k.

Lemma flags_only_eq (a b : Z) :
  flags_only a -> flags_only b ->
  (forall t, t <> pwr4_none -> is_on t a = is_on t b) -> a = b.
Proof.
  intros Ha Hb H. apply Z.bits_inj'. intros k Hk.
  destruct (Z.testbit a k) eqn:Ea.
  - destruct (Ha k Hk Ea) as [t [Ht Et]].
    specialize (H t Ht). rewrite !is_on_testbit, Et in H. congruence.
  - destruct (Z.testbit b k) eqn:Eb; [|reflexivity].
    destruct (Hb k Hk Eb) as [t [Ht Et]].
    specialize (H t Ht). rewrite !is_on_testbit, Et in H. congruence.
Qed.

Lemma flags_only_0 : flags_only 0.
Proof. intros k Hk H. rewrite Z.bits_0 in H. discriminate H. Qed.

(** ** Traces and ownership of bits *)

Lemma last_SetPower_snoc (t : PDType) (tr : list Event) (e : Event) :
  last_SetPower t (tr ++ [e]) = note_SetPower t (last_SetPower t tr) e.
Proof. unfold last_SetPower. now rewrite fold_left_app. Qed.

Lemma tracks_emit (s : Z) (tr : list Event) (e : Event) :
  is_SetPower e = false -> tracks s tr -> tracks s (tr ++ [e]).
Proof.
  intros He H t Ht. rewrite last_SetPower_snoc.
  destruct e; try discriminate He; simpl; now apply H.
Qed.

Lemma tracks_set (u : PDType) (s : Z) (tr : list Event) :
  tracks s tr ->
  tracks (uint8 (Z.lor s (PDType_base u))) (tr ++ [EvSetPower u true]).
Proof.
  intros H t Ht. rewrite last_SetPower_snoc, is_on_set by exact Ht. simpl.
  rewrite (PDType_eqb_sym u t).
  destruct (PDType_eqb t u).
  - rewrite orb_true_r. tauto.
  - rewrite orb_false_r. now apply H.
Qed.

Lemma tracks_clear (u : PDType) (s : Z) (tr : list Event) :
  tracks s tr ->
  tracks (uint8 (Z.land s (Z.lnot (PDType_base u))))
    (tr ++ [EvSetPower u false]).
Proof.
  intros H t Ht. rewrite last_SetPower_snoc, is_on_clear. simpl.
  rewrite (PDType_eqb_sym u t).
  destruct (PDType_eqb t u); simpl.
  - rewrite andb_false_r. split; discriminate.
  - rewrite andb_true_r. now apply H.
Qed.

Lemma testbit_uint8_true (x k : Z) :
  0 <= k -> Z.testbit (uint8 x) k = true -> Z.testbit x k = true.
Proof.
  intros Hk H. destruct (Z.ltb_spec k 8) as [Hlt|Hge].
  - now rewrite testbit_uint8 in H.
  - unfold uint8 in H. rewrite Z.mod_pow2_bits_high in H by lia.
    discriminate H.
Qed.

Lemma owned_0 (ids : list PDType) : owned ids 0.
Proof. intros k Hk H. rewrite Z.bits_0 in H. discriminate H. Qed.

Lemma owned_set (ids : list PDType) (u : PDType) (s : Z) :
  In u ids -> owned ids s -> owned ids (uint8 (Z.lor s (PDType_base u))).
Proof.
  intros Hu H k Hk Hb. apply testbit_uint8_true in Hb; [|exact Hk].
  rewrite Z.lor_spec in Hb. apply orb_true_iff in Hb. destruct Hb as [Hb|Hb].
  - now apply H.
  - rewrite testbit_flag in Hb by exact Hk. apply Z.eqb_eq in Hb.
    now exists u.
Qed.

Lemma owned_clear (ids : list PDType) (u : PDType) (s : Z) :
  owned ids s -> owned ids (uint8 (Z.land s (Z.lnot (PDType_base u)))).
Proof.
  intros H k Hk Hb. apply testbit_uint8_true in Hb; [|exact Hk].
  rewrite Z.land_spec in Hb. apply andb_true_iff in Hb. now apply H.
Qed.

Lemma owned_is_on (ids : list PDType) (s : Z) (t : PDType) :
  owned ids s -> is_on t s = true -> In t ids.
Proof.
  intros H Ht. rewrite is_on_testbit in Ht.
  destruct (Z.ltb_spec (bit_index t) 0) as [Hn|Hn].
  - rewrite Z.testbit_neg_r in Ht by exact Hn. discriminate Ht.
  - destruct (H _ Hn Ht) as [u [Hu Eu]].
    apply bit_index_inj in Eu. now subst.
Qed.

Lemma owned_all_off (ids : list PDType) (s : Z) :
  owned ids s -> (forall t, In t ids -> is_on t s = false) -> s = 0.
Proof.
  intros H Hoff. apply Z.bits_inj'. intros k Hk. rewrite Z.bits_0.
  destruct (Z.testbit s k) eqn:E; [|reflexivity].
  destruct (H k Hk E) as [t [Ht Et]].
  specialize (Hoff t Ht). rewrite is_on_testbit, Et in Hoff. congruence.
Qed.

(** ** Loops over the domain list *)

Lemma for_domains_cons {S : Type}
    (body : PowerDomain -> S -> PowerDomain * S)
    (pd : PowerDomain) (rest : list PowerDomain) (s : S) :
  for_domains body (pd :: rest) s
  = (fst (body pd s) :: fst (for_domains body rest (snd (body pd s))),
     snd (for_domains body rest (snd (body pd s)))).
Proof.
  simpl. destruct (body pd s) as [pd' s']. simpl.
  destruct (for_domains body rest s') as [rest' s'']. reflexivity.
Qed.

(** A per-domain property [Q], of a domain and its own bit, turned into
    [Q'] by a loop whose steps touch only the bit of the visited domain,
    with a property [I] of the loop state carried along. *)
Lemma visits_local {S : Type} (get : S -> Z) (I : S -> Prop)
    (Q Q' : PowerDomain -> bool -> Prop)
    (step : PowerDomain -> S -> PowerDomain -> S -> Prop)
    (ids : list PDType) :
  (forall pd s pd' s', step pd s pd' s' ->
     In (pd_id pd) ids -> I s -> Q pd (is_on (pd_id pd) (get s)) ->
     pd_id pd' = pd_id pd
     /\ I s'
     /\ Q' pd' (is_on (pd_id pd) (get s'))
     /\ forall t, t <> pd_id pd -> is_on t (get s') = is_on t (get s)) ->
  forall ds s ds' s',
    visits step ds s ds' s' ->
    incl (map pd_id ds) ids -> NoDup (map pd_id ds) -> I s ->
    Forall (fun pd => Q pd (is_on (pd_id pd) (get s))) ds ->
    map pd_id ds' = map pd_id ds
    /\ I s'
    /\ Forall (fun pd => Q' pd (is_on (pd_id pd) (get s'))) ds'
    /\ forall t, ~ In t (map pd_id ds) -> is_on t (get s') = is_on t (get s).
Proof.
  intros Hstep ds s ds' s' Hv.
  induction Hv as [s|pd rest s pd' s1 rest' s2 Hs Hv IH];
    intros Hin Hnd HI HQ.
  - repeat split; auto.
  - cbn [map] in *.
    inversion Hnd as [|? ? Hnotin Hnd']; subst.
    inversion HQ as [|? ? HQpd HQrest]; subst.
    assert (Hpd : In (pd_id pd) ids) by (apply Hin; now left).
    destruct (Hstep _ _ _ _ Hs Hpd HI HQpd) as [Eid [HI1 [HQ1 Hframe]]].
    assert (HQrest' : Forall (fun d => Q d (is_on (pd_id d) (get s1))) rest).
    { rewrite Forall_forall in *. intros d Hd.
      rewrite Hframe; [now apply HQrest|].
      intros E. apply Hnotin. rewrite <- E. now apply in_map. }
    destruct IH as [Eids [HI2 [HQ2 Hframe2]]]; auto.
    { intros x Hx. apply Hin. now right. }
    repeat split.
    + now rewrite Eid, Eids.
    + exact HI2.
    + constructor; [|exact HQ2].
      rewrite Eid, Hframe2 by exact Hnotin. exact HQ1.
    + intros t Ht. rewrite Hframe2, Hframe; auto.
      * intros E. apply Ht. now left.
      * intros Hc. apply Ht. now right.
Qed.

Lemma for_domains_visits {S : Type}
    (body : PowerDomain -> S -> PowerDomain * S)
    (ds : list PowerDomain) (s : S) :
  visits (fun pd s pd' s' => body pd s = (pd', s')) ds s
    (fst (for_domains body ds s)) (snd (for_domains body ds s)).
Proof.
  revert s. induction ds as [|pd rest IH]; intros s; [constructor|].
  rewrite for_domains_cons. cbn [fst snd].
  econstructor; [|apply IH]. now destruct (body pd s).
Qed.

Lemma visits_weaken {S : Type}
    (step step' : PowerDomain -> S -> PowerDomain -> S -> Prop)
    (ds ds' : list PowerDomain) (s s' : S) :
  (forall pd s pd' s', step pd s pd' s' -> step' pd s pd' s') ->
  visits step ds s ds' s' -> visits step' ds s ds' s'.
Proof.
  intros H Hv. induction Hv; econstructor; eauto.
Qed.

Lemma visits_refl {S : Type}
    (step : PowerDomain -> S -> PowerDomain -> S -> Prop)
    (ds : list PowerDomain) (s : S) :
  (forall pd s, step pd s pd s) -> visits step ds s ds s.
Proof. intros H. induction ds; econstructor; eauto. Qed.

(** The same loop seen from its state alone. *)
Lemma for_domains_state {S : Type} (I : S -> Prop)
    (body : PowerDomain -> S -> PowerDomain * S) (ds : list PowerDomain) :
  (forall pd s, In pd ds -> I s -> I (snd (body pd s))) ->
  forall s, I s -> I (snd (for_domains body ds s)).
Proof.
  induction ds as [|pd rest IH]; intros Hbody s HI; [exact HI|].
  rewrite for_domains_cons. cbn [snd]. apply IH.
  - intros d s' Hd. apply Hbody. now right.
  - apply Hbody; [now left|exact HI].
Qed.

Lemma for_domains_ids {S : Type}
    (body : PowerDomain -> S -> PowerDomain * S) :
  (forall pd s, pd_id (fst (body pd s)) = pd_id pd) ->
  forall ds s, map pd_id (fst (for_domains body ds s)) = map pd_id ds.
Proof.
  intros Hbody. induction ds as [|pd rest IH]; intros s; [reflexivity|].
  rewrite for_domains_cons. cbn [fst map]. now rewrite Hbody, IH.
Qed.

Lemma fold_left_state {A S : Type} (I : S -> Prop) (f : S -> A -> S)
    (l : list A) :
  (forall a s, In a l -> I s -> I (f s a)) ->
  forall s, I s -> I (fold_left f l s).
Proof.
  induction l as [|a l IH]; intros Hf s HI; [exact HI|].
  simpl. apply IH.
  - intros b s' Hb. apply Hf. now right.
  - apply Hf; [now left|exact HI].
Qed.

(** ** The invariant and the steps that keep it *)

Lemma Inv_frame (pm pm' : PowerManager) :
  domains pm' = domains pm -> powerState pm' = powerState pm ->
  trace pm' = trace pm -> Inv pm -> Inv pm'.
Proof.
  unfold Inv, coherent. intros -> -> ->. tauto.
Qed.

Lemma Inv_emit (e : Event) (pm : PowerManager) :
  is_SetPower e = false -> Inv pm -> Inv (emit e pm).
Proof.
  intros He [Hc Ht]. split; [exact Hc|]. now apply tracks_emit.
Qed.

Lemma ResetTimeout_armed (t : Z) (pd : PowerDomain) :
  (countdownTimer (ResetTimeout t pd) =? 0) = false.
Proof.
  apply Z.eqb_neq. rewrite ResetTimeout_timer.
  pose proof (clamped_min pd t). unfold PWRMAN_MINTIMEOUT in *. lia.
Qed.

Lemma distinct_flags_not_none (ds : list PowerDomain) (pd : PowerDomain) :
  distinct_flags ds -> In (pd_id pd) (map pd_id ds) -> pd_id pd <> pwr4_none.
Proof. intros [_ Hn] Hin E. apply Hn. now rewrite <- E. Qed.

Lemma visits_fst {S T : Type} (f : S -> T)
    (step : PowerDomain -> T -> PowerDomain -> T -> Prop)
    (ds ds' : list PowerDomain) (s s' : S) :
  visits (fun pd s pd' s' => step pd (f s) pd' (f s')) ds s ds' s' ->
  visits step ds (f s) ds' (f s').
Proof. intros Hv. induction Hv; econstructor; eauto. Qed.

Lemma visits_act_Inv (pm : PowerManager) (ds' : list PowerDomain)
    (pm' : PowerManager) :
  visits act (domains pm) pm ds' pm' -> Inv pm -> Inv (with_domains ds' pm').
Proof.
  intros Hv [[Hd [Ho Hm]] Ht].
  pose (ids := map pd_id (domains pm)).
  assert (Hstep : forall pd s pd' s', act pd s pd' s' ->
     In (pd_id pd) ids ->
     owned ids (powerState s) /\ tracks (powerState s) (trace s) ->
     is_on (pd_id pd) (powerState s) = negb (countdownTimer pd =? 0) ->
     pd_id pd' = pd_id pd
     /\ (owned ids (powerState s') /\ tracks (powerState s') (trace s'))
     /\ is_on (pd_id pd) (powerState s') = negb (countdownTimer pd' =? 0)
     /\ forall t, t <> pd_id pd ->
          is_on t (powerState s') = is_on t (powerState s)).
  { intros pd s pd' s' Hs Hin [HsO HsT] HQ.
    pose proof (distinct_flags_not_none _ _ Hd Hin) as Hnn.
    destruct Hs as [|t|Hon].
    + split; [|split; [split|split]]; auto.
    + destruct (is_on (pd_id pd) (powerState s)) eqn:Eon.
      * split; [|split; [split|split]]; auto using ResetTimeout_id.
        now rewrite ResetTimeout_armed.
      * cbn [power_on with_powerState emit powerState trace].
        split; [|split; [split|split]].
        -- apply ResetTimeout_id.
        -- now apply owned_set.
        -- now apply tracks_set.
        -- unfold flag. rewrite is_on_set, PDType_eqb_refl by exact Hnn.
           now rewrite orb_true_r, ResetTimeout_armed.
        -- intros u Hu. unfold flag.
           destruct (PDType_eq_dec u pwr4_none) as [->|Hun]; [reflexivity|].
           rewrite is_on_set by exact Hun.
           apply PDType_eqb_neq in Hu. now rewrite Hu, orb_false_r.
    + cbn [power_off with_powerState emit powerState trace].
      split; [|split; [split|split]].
      * reflexivity.
      * now apply owned_clear.
      * now apply tracks_clear.
      * unfold flag. rewrite is_on_clear, PDType_eqb_refl.
        now rewrite andb_false_r.
      * intros u Hu. unfold flag. rewrite is_on_clear.
        apply PDType_eqb_neq in Hu. now rewrite Hu, andb_true_r. }
  destruct (visits_local powerState
              (fun p => owned ids (powerState p)
                        /\ tracks (powerState p) (trace p))
              (fun pd b => b = negb (countdownTimer pd =? 0))
              (fun pd b => b = negb (countdownTimer pd =? 0))
              act ids Hstep _ _ _ _ Hv
              (incl_refl _) (proj1 Hd) (conj Ho Ht) Hm)
    as [Eids [[Ho' Ht'] [Hm' _]]].
  split; [|exact Ht'].
  unfold coherent. cbn [with_domains domains powerState]. split; [|split].
  - unfold distinct_flags. rewrite Eids. exact Hd.
  - rewrite Eids. exact Ho'.
  - exact Hm'.
Qed.

(** *** [Activate] *)

Lemma Activate_body_act (m : Z) (pd : PowerDomain)
    (st : PowerManager * bool) :
  act pd (fst st) (fst (Activate_body m pd st))
    (fst (snd (Activate_body m pd st))).
Proof.
  unfold Activate_body.
  destruct (and_nz (flag pd) m); cbn [andb]; [|constructor].
  rewrite and_nz_flag_l.
  destruct (is_on (pd_id pd) (powerState (fst st))) eqn:Eon;
    cbn [negb fst snd]; [constructor|].
  pose proof (act_request pd (fst st) 0) as H. rewrite Eon in H. exact H.
Qed.

Lemma Activate_loop_visits (m : Z) (ds : list PowerDomain)
    (st : PowerManager * bool) :
  visits act ds (fst st)
    (fst (for_domains (Activate_body m) ds st))
    (fst (snd (for_domains (Activate_body m) ds st))).
Proof.
  apply (visits_fst fst act).
  eapply visits_weaken; [|apply for_domains_visits].
  intros pd s pd' s' E. cbn beta in E.
  pose proof (Activate_body_act m pd s) as H. rewrite E in H. exact H.
Qed.

Lemma On_Callbacks_frame (ss : list PowerSubscriber) (pm : PowerManager) :
  domains (fold_left On_Callback_body ss pm) = domains pm
  /\ powerState (fold_left On_Callback_body ss pm) = powerState pm
  /\ subscribers (fold_left On_Callback_body ss pm) = subscribers pm
  /\ lastLoopTime (fold_left On_Callback_body ss pm) = lastLoopTime pm
  /\ wakeUpSource (fold_left On_Callback_body ss pm) = wakeUpSource pm.
Proof.
  revert pm. induction ss as [|ps ss IH]; intros pm; [easy|].
  simpl. destruct (IH (On_Callback_body pm ps)) as [E1 [E2 [E3 [E4 E5]]]].
  rewrite E1, E2, E3, E4, E5. unfold On_Callback_body.
  now destruct (IsOn pm ps).
Qed.

Lemma On_Callbacks_Inv (ss : list PowerSubscriber) (pm : PowerManager) :
  Inv pm -> Inv (fold_left On_Callback_body ss pm).
Proof.
  apply fold_left_state. intros ps s _ Hs. unfold On_Callback_body.
  destruct (IsOn s ps); [now apply Inv_emit|exact Hs].
Qed.

Lemma Activate_Inv (m : Z) (pm : PowerManager) :
  Inv pm -> Inv (snd (Activate m pm)).
Proof.
  intros HI. unfold Activate.
  destruct (domains pm) as [|d0 ds0] eqn:Eds; [exact HI|].
  rewrite <- Eds.
  pose proof (Activate_loop_visits m (domains pm) (pm, false)) as Hv.
  destruct (for_domains (Activate_body m) (domains pm) (pm, false))
    as [ds [pm1 retVal]].
  cbn [fst snd] in Hv.
  pose proof (visits_act_Inv pm ds pm1 Hv HI) as HI1.
  destruct (subscribers (with_domains ds pm1)); [exact HI1|].
  destruct retVal; cbn [negb snd]; [|exact HI1].
  now apply On_Callbacks_Inv.
Qed.

Lemma Setup_Inv (pm : PowerManager) : Inv pm -> Inv (Setup pm).
Proof.
  intros HI. unfold Setup. apply Activate_Inv.
  apply fold_left_state; [|exact HI].
  intros pd s _ Hs. now apply Inv_emit.
Qed.

(** *** [RequestPower] *)

Lemma RequestPower_loop_visits (ps : PowerSubscriber) :
  forall ds timeout_ pm r ds' pm' r',
    RequestPower_loop ps ds timeout_ pm r = Some (ds', pm', r') ->
    visits act ds pm ds' pm'.
Proof.
  induction ds as [|pd rest IH]; intros timeout_ pm r ds' pm' r' H.
  - simpl in H. injection H as <- <- <-. constructor.
  - cbn [RequestPower_loop] in H.
    destruct (and_nz (flag pd) (subscribedDomains ps)).
    + destruct (next_timeout timeout_) as [[t timeout_']|]; [|discriminate H].
      rewrite and_nz_flag_r in H.
      destruct (is_on (pd_id pd) (powerState pm)) eqn:Eon; cbn [negb] in H.
      * destruct (RequestPower_loop ps rest timeout_' pm r)
          as [[[rest' pm''] r'']|] eqn:E; [|discriminate H].
        injection H as <- <- <-.
        econstructor; [|eapply IH; exact E].
        pose proof (act_request pd pm t) as A. now rewrite Eon in A.
      * destruct (RequestPower_loop ps rest timeout_' (power_on pd pm) true)
          as [[[rest' pm''] r'']|] eqn:E; [|discriminate H].
        injection H as <- <- <-.
        econstructor; [|eapply IH; exact E].
        pose proof (act_request pd pm t) as A. now rewrite Eon in A.
    + destruct (RequestPower_loop ps rest timeout_ pm r)
        as [[[rest' pm''] r'']|] eqn:E; [|discriminate H].
      injection H as <- <- <-.
      econstructor; [constructor|eapply IH; exact E].
Qed.

Lemma RequestPower_Inv (ps : PowerSubscriber) (timeout_ : option (list Z))
    (pm : PowerManager) (r : bool) (pm' : PowerManager) :
  RequestPower ps timeout_ pm = Some (r, pm') -> Inv pm -> Inv pm'.
Proof.
  unfold RequestPower. intros H HI.
  destruct (domains pm) as [|d0 ds0] eqn:Eds.
  - injection H as <- <-. exact HI.
  - rewrite <- Eds in H.
    destruct (RequestPower_loop ps (domains pm) timeout_ pm false)
      as [[[ds pm1] r1]|] eqn:E; [|discriminate H].
    injection H as <- <-.
    pose proof (visits_act_Inv pm ds pm1
                  (RequestPower_loop_visits _ _ _ _ _ _ _ _ E) HI) as HI1.
    destruct r1; [now apply Inv_emit|exact HI1].
Qed.

(** *** The stop mode *)

Lemma pwrWakeUp_RTC_frame (c : bool) (pm : PowerManager) :
  domains (snd (pwrWakeUp_RTC c pm)) = domains pm
  /\ subscribers (snd (pwrWakeUp_RTC c pm)) = subscribers pm
  /\ powerState (snd (pwrWakeUp_RTC c pm)) = powerState pm
  /\ lastLoopTime (snd (pwrWakeUp_RTC c pm)) = lastLoopTime pm
  /\ trace (snd (pwrWakeUp_RTC c pm)) = trace pm.
Proof.
  unfold pwrWakeUp_RTC.
  destruct (3 <=? _); [destruct c|]; repeat split.
Qed.

Lemma wait_for_interrupt_frame (alarms : list bool) (w : WakeIRQ)
    (pm : PowerManager) :
  domains (wait_for_interrupt alarms w pm) = domains pm
  /\ subscribers (wait_for_interrupt alarms w pm) = subscribers pm
  /\ powerState (wait_for_interrupt alarms w pm) = powerState pm
  /\ lastLoopTime (wait_for_interrupt alarms w pm) = lastLoopTime pm
  /\ trace (wait_for_interrupt alarms w pm) = trace pm.
Proof.
  revert pm. induction alarms as [|c rest IH]; intros pm.
  - destruct w; repeat split.
  - cbn [wait_for_interrupt].
    pose proof (pwrWakeUp_RTC_frame c pm) as F.
    destruct (pwrWakeUp_RTC c pm) as [woke pm1]. cbn [snd] in F.
    destruct woke; [exact F|].
    destruct (IH pm1) as [E1 [E2 [E3 [E4 E5]]]].
    destruct F as [F1 [F2 [F3 [F4 F5]]]].
    rewrite E1, E2, E3, E4, E5. repeat split; assumption.
Qed.

Lemma CPU_DeepSleep_frame (e : Z) (env : SleepEnv) (pm : PowerManager) :
  domains (CPU_DeepSleep e env pm) = domains pm
  /\ subscribers (CPU_DeepSleep e env pm) = subscribers pm
  /\ powerState (CPU_DeepSleep e env pm) = powerState pm
  /\ lastLoopTime (CPU_DeepSleep e env pm) = lastLoopTime pm
  /\ trace (CPU_DeepSleep e env pm)
     = trace pm ++ [EvCPU_DeepSleep e (powerState pm)].
Proof.
  unfold CPU_DeepSleep.
  destruct (wait_for_interrupt_frame
              (if rtc_armed then rtc_alarms env else []) (wake_irq env)
              (CPU_DeepSleep_enter e pm)) as [E1 [E2 [E3 [E4 E5]]]].
  rewrite E1, E2, E3, E4, E5.
  unfold CPU_DeepSleep_enter, initWakeups.
  destruct rtc_armed; repeat split.
Qed.

Lemma CPU_DeepSleep_Inv (e : Z) (env : SleepEnv) (pm : PowerManager) :
  Inv pm -> Inv (CPU_DeepSleep e env pm).
Proof.
  intros HI.
  destruct (CPU_DeepSleep_frame e env pm) as [E1 [_ [E3 [_ E5]]]].
  apply (Inv_frame (emit (EvCPU_DeepSleep e (powerState pm)) pm));
    [exact E1|exact E3|exact E5|].
  now apply Inv_emit.
Qed.

Lemma PrintWakeUpMsg_frame (pm : PowerManager) :
  domains (PrintWakeUpMsg pm) = domains pm
  /\ subscribers (PrintWakeUpMsg pm) = subscribers pm
  /\ powerState (PrintWakeUpMsg pm) = powerState pm
  /\ lastLoopTime (PrintWakeUpMsg pm) = lastLoopTime pm
  /\ wakeUpSource (PrintWakeUpMsg pm) = wakeUpSource pm.
Proof.
  unfold PrintWakeUpMsg. cbn [emit wakeUpSource].
  destruct (wakeUpSource pm) eqn:E; repeat split; exact E.
Qed.

Lemma PrintWakeUpMsg_Inv (pm : PowerManager) :
  Inv pm -> Inv (PrintWakeUpMsg pm).
Proof.
  intros HI. unfold PrintWakeUpMsg.
  cbn [emit wakeUpSource].
  destruct (wakeUpSource pm); repeat apply Inv_emit; auto.
Qed.

(** *** The commands *)

Lemma dom_request_loop_visits (token : option (string * string)) :
  forall ds pm ds' pm',
    dom_request_loop token ds pm = Some (ds', pm') ->
    visits act ds pm ds' pm'.
Proof.
  induction ds as [|pd rest IH]; intros pm ds' pm' H.
  - simpl in H. injection H as <- <-. constructor.
  - cbn [dom_request_loop] in H.
    destruct token as [[tok more]|]; [|discriminate H].
    destruct (String.eqb tok (pd_name pd)).
    + destruct (strtok more) as [[tok2 rest2]|]; [|discriminate H].
      injection H as <- <-.
      econstructor; [|apply visits_refl; constructor].
      rewrite and_nz_flag_l.
      match goal with |- act _ _ (ResetTimeout ?t _) _ =>
        pose proof (act_request pd pm t) as A end.
      destruct (is_on (pd_id pd) (powerState pm)); exact A.
    + destruct (dom_request_loop (Some (tok, more)) rest pm)
        as [[rest' pm'']|] eqn:E; [|discriminate H].
      injection H as <- <-.
      econstructor; [constructor|now apply IH].
Qed.

Lemma force_off_act (pd : PowerDomain) (pm : PowerManager) :
  act pd pm (fst (force_off pd pm)) (snd (force_off pd pm)).
Proof.
  unfold force_off. rewrite and_nz_flag_l.
  destruct (is_on (pd_id pd) (powerState pm)) eqn:Eon; cbn [fst snd].
  - now constructor.
  - constructor.
Qed.

Lemma dom_off_loop_visits (arg : string) :
  forall ds pm,
    visits act ds pm (fst (dom_off_loop arg ds pm))
      (snd (dom_off_loop arg ds pm)).
Proof.
  induction ds as [|pd rest IH]; intros pm; [constructor|].
  cbn [dom_off_loop].
  destruct (String.eqb arg (pd_name pd)).
  - pose proof (force_off_act pd pm) as A.
    destruct (force_off pd pm) as [pd' pm1]. cbn [fst snd] in *.
    econstructor; [exact A|apply visits_refl; constructor].
  - specialize (IH pm).
    destruct (dom_off_loop arg rest pm) as [rest' pm1]. cbn [fst snd] in *.
    econstructor; [constructor|exact IH].
Qed.

Lemma force_off_all_visits (ds : list PowerDomain) (pm : PowerManager) :
  visits act ds pm (fst (for_domains force_off ds pm))
    (snd (for_domains force_off ds pm)).
Proof.
  eapply visits_weaken; [|apply for_domains_visits].
  intros pd s pd' s' E. cbn beta in E.
  pose proof (force_off_act pd s) as A. now rewrite E in A.
Qed.

Lemma sub_request_loop_Inv (arg : string) :
  forall ss pm pm',
    sub_request_loop arg ss pm = Some pm' -> Inv pm -> Inv pm'.
Proof.
  induction ss as [|ps rest IH]; intros pm pm' H HI.
  - simpl in H. now injection H as <-.
  - cbn [sub_request_loop] in H.
    destruct (String.eqb arg (ps_name ps)); [|now apply (IH pm)].
    destruct (RequestPower ps None pm) as [[r pm1]|] eqn:E; [|discriminate H].
    injection H as <-. now apply (RequestPower_Inv _ _ _ _ _ E).
Qed.

Lemma Off_Callbacks_all_Inv (ss : list PowerSubscriber) (pm : PowerManager) :
  Inv pm ->
  Inv (fold_left (fun pm ps => emit (EvPwrOff_Callback ps) pm) ss pm).
Proof.
  apply fold_left_state. intros ps s _ Hs. now apply Inv_emit.
Qed.

Lemma Parse_deepsleep_Inv (saberIsOn : bool) (env : SleepEnv)
    (pm : PowerManager) :
  Inv pm -> Inv (Parse_deepsleep saberIsOn env pm).
Proof.
  intros HI. unfold Parse_deepsleep.
  destruct saberIsOn; [exact HI|].
  destruct (domains pm) as [|d0 ds0] eqn:Eds; [exact HI|].
  cbv zeta.
  apply Activate_Inv. apply Inv_emit; [reflexivity|].
  apply PrintWakeUpMsg_Inv, CPU_DeepSleep_Inv.
  apply Inv_emit; [reflexivity|].
  apply Off_Callbacks_all_Inv.
  unfold foreach_domain.
  pose proof (force_off_all_visits (domains pm) pm) as Hv.
  destruct (for_domains force_off (domains pm) pm) as [ds pm1].
  cbn [fst snd] in Hv. now apply (visits_act_Inv pm).
Qed.

Lemma Parse_Inv (cmd arg : string) (saberIsOn : bool) (env : SleepEnv)
    (pm : PowerManager) (b : bool) (pm' : PowerManager) :
  Parse cmd arg saberIsOn env pm = Some (b, pm') -> Inv pm -> Inv pm'.
Proof.
  unfold Parse. intros H HI.
  destruct (DIAGNOSE_POWER && String.eqb cmd "pwr-domains").
  { now injection H as <- <-. }
  destruct (DIAGNOSE_POWER && String.eqb cmd "pwr-dom-request").
  { destruct (20 <=? Z.of_nat (String.length arg)); [discriminate H|].
    destruct (domains pm) as [|d0 ds0] eqn:Eds.
    - now injection H as <- <-.
    - rewrite <- Eds in H.
      destruct (dom_request_loop (strtok arg) (domains pm) pm)
        as [[ds pm1]|] eqn:E; [|discriminate H].
      injection H as <- <-.
      apply (visits_act_Inv pm); [|exact HI].
      now apply (dom_request_loop_visits (strtok arg)). }
  destruct (DIAGNOSE_POWER && String.eqb cmd "pwr-dom-off").
  { pose proof (dom_off_loop_visits arg (domains pm) pm) as Hv.
    destruct (dom_off_loop arg (domains pm) pm) as [ds pm1].
    cbn [fst snd] in Hv.
    injection H as <- <-. now apply (visits_act_Inv pm). }
  destruct (DIAGNOSE_POWER && String.eqb cmd "pwr-subs").
  { now injection H as <- <-. }
  destruct (DIAGNOSE_POWER && String.eqb cmd "pwr-sub-request").
  { destruct (sub_request_loop arg (subscribers pm) pm) as [pm1|] eqn:E;
      [|discriminate H].
    injection H as <- <-. now apply (sub_request_loop_Inv _ _ _ _ E). }
  destruct (String.eqb cmd "deepsleep").
  { injection H as <- <-. now apply Parse_deepsleep_Inv. }
  now injection H as <- <-.
Qed.

(** *** [Loop] *)

Lemma CheckTimeout_id (l : Z) (pd : PowerDomain) :
  pd_id (snd (CheckTimeout l pd)) = pd_id pd.
Proof.
  unfold CheckTimeout.
  destruct (countdownTimer pd =? 0); [reflexivity|].
  destruct (countdownTimer pd <=? l); reflexivity.
Qed.

(** *** [Loop] in two halves *)

Lemma Loop_check_frame (l t : Z) (HoldPower : PowerSubscriber -> bool)
    (pm : PowerManager) :
  Loop_check l HoldPower (with_lastLoopTime t pm) = Loop_check l HoldPower pm.
Proof. reflexivity. Qed.

Lemma Loop_unfold (timeNow : Z) (HoldPower : PowerSubscriber -> bool)
    (env : SleepEnv) (pm : PowerManager) :
  domains pm <> [] ->
  elapsed timeNow pm < PWRMAN_MINTIMEOUT ->
  Loop timeNow HoldPower env pm
  = if (snd (Loop_check (elapsed timeNow pm) HoldPower pm) =? powerState pm)
       || negb (powerState (Loop_awake timeNow HoldPower pm) =? 0)
    then Loop_awake timeNow HoldPower pm
    else Loop_sleep env (Loop_awake timeNow HoldPower pm).
Proof.
  intros Hne Hl. unfold Loop, Loop_awake.
  destruct (domains pm) as [|d0 ds0] eqn:Eds; [congruence|].
  fold (elapsed timeNow pm).
  apply Z.leb_gt in Hl. rewrite Hl. rewrite Loop_check_frame.
  destruct (Loop_check (elapsed timeNow pm) HoldPower pm) as [ds next].
  cbn [fst snd with_domains with_lastLoopTime powerState subscribers].
  destruct (next =? powerState pm); [reflexivity|].
  cbn [orb]. now destruct (negb _).
Qed.

Lemma Loop_skipped (timeNow : Z) (HoldPower : PowerSubscriber -> bool)
    (env : SleepEnv) (pm : PowerManager) :
  domains pm <> [] ->
  PWRMAN_MINTIMEOUT <= elapsed timeNow pm ->
  Loop timeNow HoldPower env pm = with_lastLoopTime timeNow pm.
Proof.
  intros Hne Hl. unfold Loop.
  destruct (domains pm) as [|d0 ds0] eqn:Eds; [congruence|].
  fold (elapsed timeNow pm). apply Z.leb_le in Hl. now rewrite Hl.
Qed.

(** After the marking pass the timers agree with the proposed state,
    which only lost bits of listed domains. *)
Lemma Loop_check_matches (l : Z) (HoldPower : PowerSubscriber -> bool)
    (pm : PowerManager) :
  coherent pm ->
  map pd_id (fst (Loop_check l HoldPower pm)) = map pd_id (domains pm)
  /\ (forall t, is_on t (snd (Loop_check l HoldPower pm)) = true ->
                is_on t (powerState pm) = true)
  /\ owned (map pd_id (domains pm)) (snd (Loop_check l HoldPower pm))
  /\ Forall (fun pd => timer_matches pd (snd (Loop_check l HoldPower pm)))
       (fst (Loop_check l HoldPower pm)).
Proof.
  intros [Hd [Ho Hm]]. unfold Loop_check.
  set (chk := Loop_domainsToCheck HoldPower pm).
  set (s := powerState pm) in *.
  set (ids := map pd_id (domains pm)) in *.
  pose proof (for_domains_visits (check_body l s chk) (domains pm) s) as Hv.
  assert (Hstep : forall pd n pd' n',
     check_body l s chk pd n = (pd', n') ->
     In (pd_id pd) ids ->
     (forall t, is_on t n = true -> is_on t s = true) /\ owned ids n ->
     is_on (pd_id pd) n = negb (countdownTimer pd =? 0) ->
     pd_id pd' = pd_id pd
     /\ ((forall t, is_on t n' = true -> is_on t s = true) /\ owned ids n')
     /\ is_on (pd_id pd) n' = negb (countdownTimer pd' =? 0)
     /\ forall t, t <> pd_id pd -> is_on t n' = is_on t n).
  { intros pd n pd' n' E Hin [Hsub Hown] HQ.
    unfold check_body in E.
    destruct (negb (Z.land (Z.land (flag pd) s) chk =? 0)).
    2:{ injection E as <- <-. split; [|split; [split|split]]; auto. }
    unfold CheckTimeout in E.
    destruct (countdownTimer pd =? 0) eqn:E0.
    { injection E as <- <-. split; [|split; [split|split]]; auto.
      now rewrite E0. }
    destruct (countdownTimer pd <=? l) eqn:E1; injection E as <- <-.
    - split; [|split; [split|split]].
      + reflexivity.
      + intros t Ht. unfold flag in Ht. rewrite is_on_clear in Ht.
        apply andb_true_iff in Ht. now apply Hsub.
      + now apply owned_clear.
      + unfold flag. rewrite is_on_clear, PDType_eqb_refl.
        now rewrite andb_false_r.
      + intros t Ht. unfold flag. rewrite is_on_clear.
        apply PDType_eqb_neq in Ht. now rewrite Ht, andb_true_r.
    - split; [|split; [split|split]]; auto.
      rewrite HQ. cbn [countdownTimer set_countdownTimer].
      apply Z.eqb_neq in E0. apply Z.leb_gt in E1.
      destruct (Z.eqb_spec (countdownTimer pd - l) 0) as [F|F]; [lia|].
      destruct (Z.eqb_spec (countdownTimer pd) 0) as [G|G]; [lia|].
      reflexivity. }
  destruct (visits_local (fun n : Z => n)
              (fun n => (forall t, is_on t n = true -> is_on t s = true)
                        /\ owned ids n)
              (fun pd b => b = negb (countdownTimer pd =? 0))
              (fun pd b => b = negb (countdownTimer pd =? 0))
              _ ids Hstep _ _ _ _ Hv
              (incl_refl _) (proj1 Hd) (conj (fun t H => H) Ho) Hm)
    as [Eids [[Hsub Hown] [Hm' _]]].
  repeat split; assumption.
Qed.

Lemma turn_off_Inv (next : Z) (pm : PowerManager) :
  distinct_flags (domains pm) ->
  owned (map pd_id (domains pm)) (powerState pm) ->
  tracks (powerState pm) (trace pm) ->
  (forall t, is_on t next = true -> is_on t (powerState pm) = true) ->
  Forall (fun pd => timer_matches pd next) (domains pm) ->
  Inv (foreach_domain (turn_off_body next) pm).
Proof.
  intros Hd Ho Ht Hsub Hm. unfold foreach_domain.
  set (ids := map pd_id (domains pm)) in *.
  pose proof (for_domains_visits (turn_off_body next) (domains pm) pm) as Hv.
  assert (Hstep : forall pd s pd' s',
     turn_off_body next pd s = (pd', s') ->
     In (pd_id pd) ids ->
     (owned ids (powerState s) /\ tracks (powerState s) (trace s))
     /\ (forall t, is_on t next = true -> is_on t (powerState s) = true) ->
     is_on (pd_id pd) next = negb (countdownTimer pd =? 0) ->
     pd_id pd' = pd_id pd
     /\ ((owned ids (powerState s') /\ tracks (powerState s') (trace s'))
         /\ (forall t, is_on t next = true -> is_on t (powerState s') = true))
     /\ is_on (pd_id pd) (powerState s') = negb (countdownTimer pd' =? 0)
     /\ forall t, t <> pd_id pd ->
          is_on t (powerState s') = is_on t (powerState s)).
  { intros pd s pd' s' E Hin [[HsO HsT] HsS] HQ.
    pose proof (distinct_flags_not_none _ _ Hd Hin) as Hnn.
    unfold turn_off_body in E. rewrite and_nz_flag_l in E.
    unfold flag in E. rewrite and_nz_lnot in E by exact Hnn.
    destruct (is_on (pd_id pd) (powerState s)) eqn:Eon;
      destruct (is_on (pd_id pd) next) eqn:Enx;
      cbn [andb negb] in E; injection E as <- <-.
    - split; [|split; [split; [split|]|split]]; auto. now rewrite Eon.
    - cbn [power_off with_powerState emit powerState trace]. unfold flag.
      split; [|split; [split; [split|]|split]].
      + reflexivity.
      + now apply owned_clear.
      + now apply tracks_clear.
      + intros t Hnt. rewrite is_on_clear. rewrite (HsS t Hnt).
        destruct (PDType_eqb t (pd_id pd)) eqn:Et; [|reflexivity].
        apply PDType_eqb_eq in Et. subst t. congruence.
      + rewrite is_on_clear, PDType_eqb_refl, andb_false_r. exact HQ.
      + intros t Hnt. rewrite is_on_clear.
        apply PDType_eqb_neq in Hnt. now rewrite Hnt, andb_true_r.
    - rewrite (HsS _ Enx) in Eon. discriminate Eon.
    - split; [|split; [split; [split|]|split]]; auto. now rewrite Eon. }
  destruct (visits_local powerState
              (fun p => (owned ids (powerState p)
                         /\ tracks (powerState p) (trace p))
                        /\ (forall t, is_on t next = true ->
                                      is_on t (powerState p) = true))
              (fun pd _ => is_on (pd_id pd) next
                           = negb (countdownTimer pd =? 0))
              (fun pd b => b = negb (countdownTimer pd =? 0))
              _ ids Hstep _ _ _ _ Hv
              (incl_refl _) (proj1 Hd) (conj (conj Ho Ht) Hsub) Hm)
    as [Eids [[[Ho' Ht'] _] [Hm' _]]].
  destruct (for_domains (turn_off_body next) (domains pm) pm) as [ds pm1].
  cbn [fst snd] in *.
  split; [|exact Ht'].
  unfold coherent. cbn [with_domains domains powerState]. split; [|split].
  - unfold distinct_flags. rewrite Eids. exact Hd.
  - rewrite Eids. exact Ho'.
  - exact Hm'.
Qed.

Lemma Off_Callbacks_frame (next : Z) (ss : list PowerSubscriber)
    (pm : PowerManager) :
  domains (fold_left (Off_Callback_body next) ss pm) = domains pm
  /\ powerState (fold_left (Off_Callback_body next) ss pm) = powerState pm
  /\ subscribers (fold_left (Off_Callback_body next) ss pm) = subscribers pm
  /\ lastLoopTime (fold_left (Off_Callback_body next) ss pm)
     = lastLoopTime pm.
Proof.
  revert pm. induction ss as [|ps ss IH]; intros pm; [easy|].
  simpl. destruct (IH (Off_Callback_body next pm ps)) as [E1 [E2 [E3 E4]]].
  rewrite E1, E2, E3, E4. unfold Off_Callback_body.
  destruct (_ =? _); [destruct (negb _)|]; easy.
Qed.

Lemma Off_Callbacks_tracks (next : Z) (ss : list PowerSubscriber)
    (pm : PowerManager) :
  tracks (powerState pm) (trace pm) ->
  tracks (powerState (fold_left (Off_Callback_body next) ss pm))
    (trace (fold_left (Off_Callback_body next) ss pm)).
Proof.
  apply (fold_left_state (fun p => tracks (powerState p) (trace p))).
  intros ps s _ Hs. unfold Off_Callback_body.
  destruct (_ =? _); [destruct (negb _)|]; auto.
  now apply tracks_emit.
Qed.

Lemma Inv_all_off (t : PDType) (pm : PowerManager) :
  powerState pm = 0 -> Inv pm ->
  Inv (with_powerState 0 (emit (EvSetPower t false) pm)).
Proof.
  intros E0 [Hc Ht]. split.
  - unfold coherent in *.
    cbn [with_powerState emit domains powerState]. now rewrite <- E0.
  - cbn [with_powerState emit powerState trace].
    intros u Hu. rewrite last_SetPower_snoc, is_on_0. cbn [note_SetPower].
    destruct (PDType_eqb t u); [split; discriminate|].
    specialize (Ht u Hu). rewrite E0, is_on_0 in Ht. exact Ht.
Qed.

Lemma Loop_sleep_Inv (env : SleepEnv) (pm : PowerManager) :
  powerState pm = 0 -> Inv pm -> Inv (Loop_sleep env pm).
Proof.
  intros E0 HI. unfold Loop_sleep.
  apply Activate_Inv, PrintWakeUpMsg_Inv, CPU_DeepSleep_Inv.
  apply Inv_emit; [reflexivity|].
  destruct ULTRAPROFFIE_VERSION_L.
  - apply Inv_all_off; [exact E0|].
    repeat (apply Inv_emit; [reflexivity|]). exact HI.
  - now apply Inv_emit.
Qed.

Lemma Loop_awake_Inv (timeNow : Z) (HoldPower : PowerSubscriber -> bool)
    (pm : PowerManager) :
  Inv pm -> Inv (Loop_awake timeNow HoldPower pm).
Proof.
  intros HI. unfold Loop_awake.
  set (l := elapsed timeNow pm).
  set (pm0 := with_lastLoopTime timeNow pm).
  assert (HI0 : Inv pm0) by (now apply (Inv_frame pm)).
  destruct HI0 as [Hc Ht].
  destruct (Loop_check_matches l HoldPower pm0 Hc) as [Eids [Hsub [Ho Hm]]].
  change (Loop_check l HoldPower pm0) with (Loop_check l HoldPower pm) in *.
  set (ds := fst (Loop_check l HoldPower pm)) in *.
  set (next := snd (Loop_check l HoldPower pm)) in *.
  destruct Hc as [Hd [Ho0 Hm0]].
  destruct (Z.eqb_spec next (powerState pm)) as [En|En].
  - split; [|exact Ht]. unfold coherent.
    cbn [with_domains domains powerState]. split; [|split].
    + unfold distinct_flags. rewrite Eids. exact Hd.
    + rewrite Eids. exact Ho0.
    + cbn [pm0 with_lastLoopTime powerState]. rewrite <- En. exact Hm.
  - set (pm1 := with_domains ds pm0).
    destruct (Off_Callbacks_frame next (subscribers pm) pm1)
      as [F1 [F2 _]].
    pose proof (Off_Callbacks_tracks next (subscribers pm) pm1 Ht) as Ht2.
    apply turn_off_Inv.
    + rewrite F1. unfold distinct_flags.
      cbn [pm1 with_domains domains]. rewrite Eids. exact Hd.
    + rewrite F1, F2. cbn [pm1 with_domains domains powerState].
      rewrite Eids. exact Ho0.
    + exact Ht2.
    + rewrite F2. exact Hsub.
    + rewrite F1. exact Hm.
Qed.

Lemma Loop_Inv (timeNow : Z) (HoldPower : PowerSubscriber -> bool)
    (env : SleepEnv) (pm : PowerManager) :
  Inv pm -> Inv (Loop timeNow HoldPower env pm).
Proof.
  intros HI.
  destruct (domains pm) as [|d0 ds0] eqn:Eds.
  { unfold Loop. now rewrite Eds. }
  assert (Hne : domains pm <> []) by congruence.
  destruct (Z.lt_ge_cases (elapsed timeNow pm) PWRMAN_MINTIMEOUT) as [Hl|Hl].
  - rewrite (Loop_unfold timeNow HoldPower env pm Hne Hl).
    pose proof (Loop_awake_Inv timeNow HoldPower pm HI) as HI4.
    destruct (snd (Loop_check (elapsed timeNow pm) HoldPower pm)
              =? powerState pm); cbn [orb]; [exact HI4|].
    destruct (Z.eqb_spec (powerState (Loop_awake timeNow HoldPower pm)) 0)
      as [E0|E0]; cbn [negb]; [|exact HI4].
    now apply Loop_sleep_Inv.
  - rewrite (Loop_skipped timeNow HoldPower env pm Hne Hl).
    now apply (Inv_frame pm).
Qed.

(** *** Every call keeps the invariant *)

Lemma do_call_Inv (c : Call) (pm pm' : PowerManager) :
  do_call c pm = Some pm' -> Inv pm -> Inv pm'.
Proof.
  destruct c as [|t h e|m|ps ts|cmd arg sab e]; cbn [do_call]; intros H HI.
  - injection H as <-. now apply Setup_Inv.
  - injection H as <-. now apply Loop_Inv.
  - injection H as <-. now apply Activate_Inv.
  - destruct (RequestPower ps ts pm) as [[r p]|] eqn:E; [|discriminate H].
    injection H as <-. now apply (RequestPower_Inv _ _ _ _ _ E).
  - destruct (Parse cmd arg sab e pm) as [[r p]|] eqn:E; [|discriminate H].
    injection H as <-. now apply (Parse_Inv _ _ _ _ _ _ _ E).
Qed.

Lemma do_calls_Inv (cs : list Call) :
  forall pm pm', do_calls cs pm = Some pm' -> Inv pm -> Inv pm'.
Proof.
  induction cs as [|c cs IH]; intros pm pm' H HI.
  - simpl in H. now injection H as <-.
  - cbn [do_calls] in H.
    destruct (do_call c pm) as [pm1|] eqn:E; [|discriminate H].
    apply (IH pm1); [exact H|]. now apply (do_call_Inv c pm).
Qed.

Lemma constructed_Inv (pm : PowerManager) : constructed pm -> Inv pm.
Proof.
  intros [E0 [Etr [Hd Htm]]]. split; [split; [exact Hd|split]|].
  - rewrite E0. apply owned_0.
  - rewrite E0. eapply Forall_impl; [|exact Htm].
    intros pd Hpd. unfold timer_matches. now rewrite Hpd, is_on_0.
  - rewrite E0, Etr. intros t Ht. rewrite is_on_0. cbn. split; discriminate.
Qed.

(** ** Closed forms of the loops *)

Lemma switch_on_frame (pds : list PowerDomain) (pm : PowerManager) :
  domains (switch_on pds pm) = domains pm
  /\ subscribers (switch_on pds pm) = subscribers pm
  /\ lastLoopTime (switch_on pds pm) = lastLoopTime pm
  /\ wakeUpSource (switch_on pds pm) = wakeUpSource pm
  /\ countSec (switch_on pds pm) = countSec pm
  /\ trace (switch_on pds pm) = trace pm ++ SetPower_calls true pds.
Proof.
  revert pm. induction pds as [|pd pds IH]; intros pm.
  - cbn. now rewrite app_nil_r.
  - cbn [switch_on fold_left]. fold (switch_on pds (power_on pd pm)).
    destruct (IH (power_on pd pm)) as [E1 [E2 [E3 [E4 [E5 E6]]]]].
    rewrite E1, E2, E3, E4, E5, E6. cbn. now rewrite <- app_assoc.
Qed.

Lemma switch_off_frame (pds : list PowerDomain) (pm : PowerManager) :
  domains (switch_off pds pm) = domains pm
  /\ subscribers (switch_off pds pm) = subscribers pm
  /\ lastLoopTime (switch_off pds pm) = lastLoopTime pm
  /\ wakeUpSource (switch_off pds pm) = wakeUpSource pm
  /\ countSec (switch_off pds pm) = countSec pm
  /\ trace (switch_off pds pm) = trace pm ++ SetPower_calls false pds.
Proof.
  revert pm. induction pds as [|pd pds IH]; intros pm.
  - cbn. now rewrite app_nil_r.
  - cbn [switch_off fold_left]. fold (switch_off pds (power_off pd pm)).
    destruct (IH (power_off pd pm)) as [E1 [E2 [E3 [E4 [E5 E6]]]]].
    rewrite E1, E2, E3, E4, E5, E6. cbn. now rewrite <- app_assoc.
Qed.

Lemma switch_on_bits (t : PDType) (pds : list PowerDomain)
    (pm : PowerManager) :
  t <> pwr4_none ->
  is_on t (powerState (switch_on pds pm))
  = is_on t (powerState pm) || existsb (fun pd => PDType_eqb t (pd_id pd)) pds.
Proof.
  intros Ht. revert pm. induction pds as [|pd pds IH]; intros pm.
  - cbn. now rewrite orb_false_r.
  - cbn [switch_on fold_left existsb]. fold (switch_on pds (power_on pd pm)).
    rewrite IH. cbn [power_on with_powerState powerState]. unfold flag.
    rewrite is_on_set by exact Ht. now rewrite orb_assoc.
Qed.

Lemma switch_off_bits (t : PDType) (pds : list PowerDomain)
    (pm : PowerManager) :
  is_on t (powerState (switch_off pds pm))
  = is_on t (powerState pm)
    && negb (existsb (fun pd => PDType_eqb t (pd_id pd)) pds).
Proof.
  revert pm. induction pds as [|pd pds IH]; intros pm.
  - cbn. now rewrite andb_true_r.
  - cbn [switch_off fold_left existsb]. fold (switch_off pds (power_off pd pm)).
    rewrite IH. cbn [power_off with_powerState powerState]. unfold flag.
    rewrite is_on_clear, negb_orb. now rewrite andb_assoc.
Qed.

Lemma existsb_flag_notin (t : PDType) (pds : list PowerDomain) :
  ~ In t (map pd_id pds) ->
  existsb (fun pd => PDType_eqb t (pd_id pd)) pds = false.
Proof.
  intros Hn. destruct (existsb _ pds) eqn:E; [|reflexivity].
  apply existsb_exists in E. destruct E as [pd [Hpd E]].
  apply PDType_eqb_eq in E. exfalso. apply Hn. subst t. now apply in_map.
Qed.

Lemma incl_filter_ids (f : PowerDomain -> bool) (ds : list PowerDomain)
    (t : PDType) :
  In t (map pd_id (filter f ds)) -> In t (map pd_id ds).
Proof.
  intros H. apply in_map_iff in H. destruct H as [pd [E Hpd]].
  apply filter_In in Hpd. subst t. apply in_map. tauto.
Qed.

(** *** The activation loop *)

Lemma Activate_body_form (m : Z) (pd : PowerDomain) (pm : PowerManager)
    (r : bool) :
  Activate_body m pd (pm, r)
  = if goes_on m (powerState pm) pd
    then (ResetTimeout 0 pd, (power_on pd pm, true))
    else (pd, (pm, r)).
Proof. reflexivity. Qed.

Lemma goes_on_other (m : Z) (pd d : PowerDomain) (pm : PowerManager) :
  pd_id d <> pwr4_none -> pd_id d <> pd_id pd ->
  goes_on m (powerState (power_on pd pm)) d = goes_on m (powerState pm) d.
Proof.
  intros Hdn Hne. unfold goes_on. f_equal. f_equal.
  cbn [power_on with_powerState powerState]. unfold flag.
  rewrite is_on_set by exact Hdn.
  apply PDType_eqb_neq in Hne. now rewrite Hne, orb_false_r.
Qed.

Lemma Activate_loop_form (m : Z) :
  forall ds pm r,
    NoDup (map pd_id ds) -> ~ In pwr4_none (map pd_id ds) ->
    for_domains (Activate_body m) ds (pm, r)
    = (map (fun pd => if goes_on m (powerState pm) pd
                      then ResetTimeout 0 pd else pd) ds,
       (switch_on (filter (goes_on m (powerState pm)) ds) pm,
        r || existsb (goes_on m (powerState pm)) ds)).
Proof.
  induction ds as [|pd rest IH]; intros pm r Hnd Hnn.
  - cbn. now rewrite orb_false_r.
  - inversion Hnd as [|? ? Hnotin Hnd']; subst.
    assert (Hnn' : ~ In pwr4_none (map pd_id rest))
      by (intros H; apply Hnn; now right).
    rewrite for_domains_cons, Activate_body_form.
    cbn [map filter existsb].
    destruct (goes_on m (powerState pm) pd) eqn:Ego; cbn [fst snd].
    + rewrite IH by assumption.
      assert (Ext : forall d, In d rest ->
                goes_on m (powerState (power_on pd pm)) d
                = goes_on m (powerState pm) d).
      { intros d Hd. apply goes_on_other.
        - intros E. apply Hnn'. rewrite <- E. now apply in_map.
        - intros E. apply Hnotin. rewrite <- E. now apply in_map. }
      cbn [fst snd]. f_equal; [f_equal|f_equal].
      * apply map_ext_in. intros d Hd. now rewrite Ext.
      * change (switch_on (pd :: ?l) pm) with (switch_on l (power_on pd pm)).
        rewrite (filter_ext_in _ _ _ Ext). reflexivity.
      * rewrite orb_true_r. cbn [orb]. reflexivity.
    + rewrite IH by assumption. cbn [orb]. reflexivity.
Qed.

Lemma On_Callbacks_trace (ss : list PowerSubscriber) (pm : PowerManager) :
  trace (fold_left On_Callback_body ss pm)
  = trace pm ++ map EvPwrOn_Callback (filter (IsOn pm) ss).
Proof.
  revert pm. induction ss as [|ps ss IH]; intros pm.
  - cbn. now rewrite app_nil_r.
  - cbn [fold_left filter]. rewrite IH.
    assert (Ext : forall q, IsOn (On_Callback_body pm ps) q = IsOn pm q).
    { intros q. unfold On_Callback_body. now destruct (IsOn pm ps). }
    rewrite (filter_ext _ _ Ext).
    unfold On_Callback_body at 1. fold (IsOn pm ps).
    destruct (IsOn pm ps); cbn; [now rewrite <- app_assoc|reflexivity].
Qed.

(** [Activate] in closed form, for a domain list with distinct flags. *)
Lemma Activate_form (m : Z) (pm : PowerManager) :
  distinct_flags (domains pm) ->
  Activate m pm
  = (existsb (goes_on m (powerState pm)) (domains pm),
     if existsb (goes_on m (powerState pm)) (domains pm)
     then fold_left On_Callback_body (subscribers pm) (Activate_domains m pm)
     else Activate_domains m pm).
Proof.
  intros [Hnd Hnn]. unfold Activate, Activate_domains.
  destruct (domains pm) as [|d0 ds0] eqn:Eds.
  - cbn. destruct pm. cbn in Eds. now subst.
  - rewrite Activate_loop_form by assumption.
    cbn [orb].
    set (r := existsb (goes_on m (powerState pm)) (d0 :: ds0)).
    set (on_now := filter (goes_on m (powerState pm)) (d0 :: ds0)).
    set (ds' := map _ (d0 :: ds0)).
    assert (Es : subscribers (with_domains ds' (switch_on on_now pm))
                 = subscribers pm).
    { cbn [with_domains subscribers]. apply (switch_on_frame on_now pm). }
    rewrite Es.
    destruct (subscribers pm) as [|s0 ss0] eqn:Ess.
    + destruct r; reflexivity.
    + destruct r; reflexivity.
Qed.

Lemma Activate_domains_frame (m : Z) (pm : PowerManager) :
  subscribers (Activate_domains m pm) = subscribers pm
  /\ wakeUpSource (Activate_domains m pm) = wakeUpSource pm
  /\ lastLoopTime (Activate_domains m pm) = lastLoopTime pm.
Proof.
  unfold Activate_domains.
  cbn [with_domains subscribers wakeUpSource lastLoopTime].
  destruct (switch_on_frame
              (filter (goes_on m (powerState pm)) (domains pm)) pm)
    as [_ [E2 [E3 [E4 _]]]].
  now rewrite E2, E3, E4.
Qed.

Lemma Activate_result_domains (m : Z) (pm : PowerManager) :
  distinct_flags (domains pm) ->
  domains (snd (Activate m pm))
  = map (fun pd => if goes_on m (powerState pm) pd
                   then ResetTimeout 0 pd else pd) (domains pm).
Proof.
  intros Hd. rewrite (Activate_form m pm Hd). cbn [snd].
  destruct (existsb _ _); [|reflexivity].
  now rewrite (proj1 (On_Callbacks_frame _ _)).
Qed.

Lemma Activate_result_wakeUpSource (m : Z) (pm : PowerManager) :
  distinct_flags (domains pm) ->
  wakeUpSource (snd (Activate m pm)) = wakeUpSource pm.
Proof.
  intros Hd. rewrite (Activate_form m pm Hd). cbn [snd].
  destruct (existsb _ _).
  - rewrite (proj2 (proj2 (proj2 (proj2 (On_Callbacks_frame _ _))))).
    apply Activate_domains_frame.
  - apply Activate_domains_frame.
Qed.

(** *** Extensions of the trace *)

Lemma extends_refl (P : Event -> bool) (pm : PowerManager) : extends P pm pm.
Proof. exists []. now rewrite app_nil_r. Qed.

Lemma extends_trans (P : Event -> bool) (a b c : PowerManager) :
  extends P a b -> extends P b c -> extends P a c.
Proof.
  intros [s1 [E1 H1]] [s2 [E2 H2]]. exists (s1 ++ s2). split.
  - now rewrite E2, E1, app_assoc.
  - rewrite forallb_app. now rewrite H1, H2.
Qed.

Lemma extends_emit (P : Event -> bool) (e : Event) (pm : PowerManager) :
  P e = true -> extends P pm (emit e pm).
Proof. intros H. exists [e]. cbn. now rewrite H. Qed.

Lemma extends_frame (P : Event -> bool) (pm pm' : PowerManager) :
  trace pm' = trace pm -> extends P pm pm'.
Proof. intros E. exists []. now rewrite app_nil_r. Qed.

Lemma extends_fold {A : Type} (P : Event -> bool)
    (f : PowerManager -> A -> PowerManager) (l : list A) :
  (forall a p, extends P p (f p a)) ->
  forall pm, extends P pm (fold_left f l pm).
Proof.
  intros Hf. induction l as [|a l IH]; intros pm; [apply extends_refl|].
  simpl. eapply extends_trans; [apply Hf|apply IH].
Qed.

Lemma extends_for_domains {S : Type} (P : Event -> bool) (get : S -> PowerManager)
    (body : PowerDomain -> S -> PowerDomain * S) :
  (forall pd s, extends P (get s) (get (snd (body pd s)))) ->
  forall ds s, extends P (get s) (get (snd (for_domains body ds s))).
Proof.
  intros Hb. induction ds as [|pd ds IH]; intros s; [apply extends_refl|].
  rewrite for_domains_cons. cbn [snd].
  eapply extends_trans; [apply Hb|apply IH].
Qed.

Lemma Activate_extends (P : Event -> bool) (m : Z) (pm : PowerManager) :
  (forall t, P (EvSetPower t true) = true) ->
  (forall ps, P (EvPwrOn_Callback ps) = true) ->
  extends P pm (snd (Activate m pm)).
Proof.
  intros H1 H2. unfold Activate.
  destruct (domains pm) as [|d0 ds0] eqn:Eds; [apply extends_refl|].
  rewrite <- Eds.
  pose proof (extends_for_domains P fst (Activate_body m)) as Hl.
  specialize (Hl
    (fun pd s =>
       ltac:(unfold Activate_body;
             destruct (_ && _); cbn [fst snd];
             [apply extends_trans with (b := with_powerState
                 (uint8 (Z.lor (powerState (fst s)) (flag pd))) (fst s));
              [now apply extends_frame|apply extends_emit, H1]
             |apply extends_refl]))
    (domains pm) (pm, false)).
  destruct (for_domains (Activate_body m) (domains pm) (pm, false))
    as [ds [pm1 r]]. cbn [fst snd] in Hl.
  assert (H3 : extends P pm (with_domains ds pm1)).
  { eapply extends_trans; [exact Hl|now apply extends_frame]. }
  destruct (subscribers (with_domains ds pm1)) as [|s0 ss0]; [exact H3|].
  destruct r; cbn [negb snd]; [|exact H3].
  eapply extends_trans; [exact H3|].
  apply extends_fold. intros ps q. unfold On_Callback_body.
  destruct (IsOn q ps); [apply extends_emit, H2|apply extends_refl].
Qed.

Lemma PrintWakeUpMsg_extends (P : Event -> bool) (pm : PowerManager) :
  (forall w, P (EvPrintWakeUpMsg w) = true) -> P EvFlushRx = true ->
  extends P pm (PrintWakeUpMsg pm).
Proof.
  intros H1 H2. unfold PrintWakeUpMsg. cbn [emit wakeUpSource].
  destruct (wakeUpSource pm);
    repeat (first [apply extends_emit; auto
                  |eapply extends_trans; [apply extends_emit; auto|]]).
Qed.

Lemma sleep_entries_app (a b : list Event) :
  sleep_entries (a ++ b) = sleep_entries a ++ sleep_entries b.
Proof.
  induction a as [|e a IH]; [reflexivity|].
  destruct e; cbn; rewrite ?IH; reflexivity.
Qed.

Lemma off_callbacks_app (a b : list Event) :
  off_callbacks (a ++ b) = off_callbacks a ++ off_callbacks b.
Proof.
  induction a as [|e a IH]; [reflexivity|].
  destruct e; cbn; rewrite ?IH; reflexivity.
Qed.

Lemma on_callbacks_app (a b : list Event) :
  on_callbacks (a ++ b) = on_callbacks a ++ on_callbacks b.
Proof.
  induction a as [|e a IH]; [reflexivity|].
  destruct e; cbn; rewrite ?IH; reflexivity.
Qed.

Lemma sleep_entries_none (seg : list Event) :
  forallb (fun e => negb (is_sleep e)) seg = true -> sleep_entries seg = [].
Proof.
  induction seg as [|e seg IH]; [reflexivity|].
  cbn [forallb]. intros H. apply andb_true_iff in H. destruct H as [He H].
  destruct e; cbn in *; try discriminate He; now apply IH.
Qed.

Lemma off_callbacks_none (seg : list Event) :
  forallb (fun e => negb (is_PwrOff e)) seg = true -> off_callbacks seg = [].
Proof.
  induction seg as [|e seg IH]; [reflexivity|].
  cbn [forallb]. intros H. apply andb_true_iff in H. destruct H as [He H].
  destruct e; cbn in *; try discriminate He; now apply IH.
Qed.

Lemma off_callbacks_map (ss : list PowerSubscriber) :
  off_callbacks (map EvPwrOff_Callback ss) = ss.
Proof. induction ss as [|s ss IH]; cbn; [reflexivity|now rewrite IH]. Qed.

Lemma Off_Callbacks_trace (next : Z) (ss : list PowerSubscriber)
    (pm : PowerManager) :
  trace (fold_left (Off_Callback_body next) ss pm)
  = trace pm
    ++ map EvPwrOff_Callback (filter (off_due (powerState pm) next) ss).
Proof.
  revert pm. induction ss as [|ps ss IH]; intros pm.
  - cbn. now rewrite app_nil_r.
  - cbn [fold_left filter]. rewrite IH.
    assert (Eps : powerState (Off_Callback_body next pm ps) = powerState pm).
    { unfold Off_Callback_body.
      destruct (_ =? _); [destruct (negb _)|]; reflexivity. }
    rewrite Eps. unfold Off_Callback_body, off_due, satisfied.
    destruct (Z.land (subscribedDomains ps) (powerState pm)
              =? subscribedDomains ps); cbn [andb]; [|reflexivity].
    destruct (negb _); cbn; [now rewrite <- app_assoc|reflexivity].
Qed.

Lemma turn_off_extends (P : Event -> bool) (next : Z) (pm : PowerManager) :
  (forall t, P (EvSetPower t false) = true) ->
  extends P pm (foreach_domain (turn_off_body next) pm).
Proof.
  intros H. unfold foreach_domain.
  pose proof (extends_for_domains P (fun p => p) (turn_off_body next)) as Hl.
  specialize (Hl
    (fun pd s =>
       ltac:(unfold turn_off_body; destruct (_ && _); cbn [snd];
             [unfold power_off;
              apply extends_trans with (b := emit (EvSetPower (pd_id pd) false) s);
              [apply extends_emit, H|now apply extends_frame]
             |apply extends_refl]))
    (domains pm) pm).
  destruct (for_domains (turn_off_body next) (domains pm) pm) as [ds pm1].
  cbn [snd] in Hl. eapply extends_trans; [exact Hl|now apply extends_frame].
Qed.

Lemma Loop_sleep_extends (P : Event -> bool) (env : SleepEnv)
    (pm : PowerManager) :
  (forall e, is_PwrOff e = false -> P e = true) ->
  extends P pm (Loop_sleep env pm).
Proof.
  intros HP. unfold Loop_sleep.
  eapply extends_trans; [|apply Activate_extends; intros; now apply HP].
  eapply extends_trans;
    [|apply PrintWakeUpMsg_extends; intros; now apply HP].
  match goal with |- extends _ _ (CPU_DeepSleep ?e _ ?p) =>
    apply extends_trans with (b := emit (EvCPU_DeepSleep e (powerState p)) p);
    [|apply extends_frame;
      rewrite (proj2 (proj2 (proj2 (proj2 (CPU_DeepSleep_frame e env p)))));
      reflexivity]
  end.
  eapply extends_trans; [|apply extends_emit; now apply HP].
  eapply extends_trans; [|apply extends_emit; now apply HP].
  destruct ULTRAPROFFIE_VERSION_L.
  - eapply extends_trans; [|now apply extends_frame].
    repeat (eapply extends_trans; [|apply extends_emit; now apply HP]).
    apply extends_refl.
  - eapply extends_trans; [|apply extends_refl].
    apply extends_emit. now apply HP.
Qed.

(** *** The two domain loops of [Loop] in closed form *)

Lemma and_nz3 (t : PDType) (s chk : Z) :
  negb (Z.land (Z.land (PDType_base t) s) chk =? 0)
  = is_on t s && is_on t chk.
Proof.
  rewrite <- Z.land_assoc. fold (and_nz (PDType_base t) (Z.land s chk)).
  fold (is_on t (Z.land s chk)). rewrite !is_on_testbit. apply Z.land_spec.
Qed.

Lemma check_body_form (l s chk : Z) (pd : PowerDomain) (n : Z) :
  check_body l s chk pd n
  = (check_dom l s chk pd,
     if expired l s chk pd
     then uint8 (Z.land n (Z.lnot (flag pd))) else n).
Proof.
  unfold check_body, check_dom, expired, checked, flag. rewrite and_nz3.
  destruct (is_on (pd_id pd) s && is_on (pd_id pd) chk); [|reflexivity].
  cbn [andb]. destruct (CheckTimeout l pd) as [e pd']. cbn [fst snd].
  now destruct e.
Qed.

Lemma check_loop_form (l s chk : Z) :
  forall ds n,
    for_domains (check_body l s chk) ds n
    = (map (check_dom l s chk) ds,
       clear_flags (filter (expired l s chk) ds) n).
Proof.
  induction ds as [|pd ds IH]; intros n; [reflexivity|].
  rewrite for_domains_cons, check_body_form. cbn [fst snd map filter].
  rewrite IH. cbn [fst snd].
  destruct (expired l s chk pd); reflexivity.
Qed.

Lemma Loop_check_form (l : Z) (HoldPower : PowerSubscriber -> bool)
    (pm : PowerManager) :
  Loop_check l HoldPower pm
  = (map (check_dom l (powerState pm) (Loop_domainsToCheck HoldPower pm))
       (domains pm),
     clear_flags
       (filter (expired l (powerState pm) (Loop_domainsToCheck HoldPower pm))
          (domains pm))
       (powerState pm)).
Proof. unfold Loop_check. apply check_loop_form. Qed.

Lemma clear_flags_bits (t : PDType) (pds : list PowerDomain) (s : Z) :
  is_on t (clear_flags pds s)
  = is_on t s && negb (existsb (fun pd => PDType_eqb t (pd_id pd)) pds).
Proof.
  revert s. induction pds as [|pd pds IH]; intros s.
  - cbn. now rewrite andb_true_r.
  - cbn [clear_flags fold_left existsb].
    fold (clear_flags pds (uint8 (Z.land s (Z.lnot (flag pd))))).
    rewrite IH. unfold flag.
    rewrite is_on_clear, negb_orb. now rewrite andb_assoc.
Qed.

Lemma switch_off_powerState (pds : list PowerDomain) (pm : PowerManager) :
  powerState (switch_off pds pm) = clear_flags pds (powerState pm).
Proof.
  revert pm. induction pds as [|pd pds IH]; intros pm; [reflexivity|].
  cbn [switch_off clear_flags fold_left].
  fold (switch_off pds (power_off pd pm)). now rewrite IH.
Qed.

Lemma check_dom_id (l s chk : Z) (pd : PowerDomain) :
  pd_id (check_dom l s chk pd) = pd_id pd.
Proof.
  unfold check_dom. destruct (checked s chk pd); [|reflexivity].
  apply CheckTimeout_id.
Qed.

Lemma check_dom_ids (l s chk : Z) (ds : list PowerDomain) :
  map pd_id (map (check_dom l s chk) ds) = map pd_id ds.
Proof.
  rewrite map_map. apply map_ext. intros pd. apply check_dom_id.
Qed.

Lemma turn_off_body_form (next : Z) (pd : PowerDomain) (pm : PowerManager) :
  pd_id pd <> pwr4_none ->
  turn_off_body next pd pm
  = (pd, if goes_off (powerState pm) next pd then power_off pd pm else pm).
Proof.
  intros Hn. unfold turn_off_body, goes_off. rewrite and_nz_flag_l.
  unfold flag. rewrite and_nz_lnot by exact Hn.
  now destruct (_ && _).
Qed.

Lemma turn_off_loop_form (next : Z) :
  forall ds pm,
    NoDup (map pd_id ds) -> ~ In pwr4_none (map pd_id ds) ->
    for_domains (turn_off_body next) ds pm
    = (ds, switch_off (filter (goes_off (powerState pm) next) ds) pm).
Proof.
  induction ds as [|pd ds IH]; intros pm Hnd Hnn; [reflexivity|].
  inversion Hnd as [|? ? Hnotin Hnd']; subst.
  assert (Hnn' : ~ In pwr4_none (map pd_id ds))
    by (intros H; apply Hnn; now right).
  assert (Hpd : pd_id pd <> pwr4_none)
    by (intros H; apply Hnn; now left).
  rewrite for_domains_cons, turn_off_body_form by exact Hpd.
  cbn [fst snd filter]. rewrite IH by assumption. cbn [fst snd].
  destruct (goes_off (powerState pm) next pd) eqn:Eg.
  - f_equal. cbn [switch_off fold_left].
    fold (switch_off (filter (goes_off (powerState pm) next) ds)
            (power_off pd pm)).
    f_equal. apply filter_ext_in. intros d Hd. unfold goes_off.
    f_equal. cbn [power_off with_powerState powerState]. unfold flag.
    rewrite is_on_clear.
    assert (Hne : pd_id d <> pd_id pd).
    { intros E. apply Hnotin. rewrite <- E. now apply in_map. }
    apply PDType_eqb_neq in Hne. now rewrite Hne, andb_true_r.
  - reflexivity.
Qed.

(** A held domain is not looked at. *)
Lemma is_on_lor (t : PDType) (a b : Z) :
  is_on t (uint8 (Z.lor a b)) = is_on t a || is_on t b.
Proof. rewrite is_on_uint8, !is_on_testbit. apply Z.lor_spec. Qed.

Lemma hold_fold_mono (HoldPower : PowerSubscriber -> bool) (t : PDType)
    (ss : list PowerSubscriber) :
  forall acc, is_on t acc = true ->
    is_on t (fold_left (hold_body HoldPower) ss acc) = true.
Proof.
  induction ss as [|ps ss IH]; intros acc H; [exact H|].
  cbn [fold_left]. apply IH. unfold hold_body.
  destruct (HoldPower ps); [|exact H]. now rewrite is_on_lor, H.
Qed.

Lemma hold_fold_held (HoldPower : PowerSubscriber -> bool) (t : PDType)
    (ps : PowerSubscriber) (ss : list PowerSubscriber) :
  In ps ss -> HoldPower ps = true -> is_on t (subscribedDomains ps) = true ->
  forall acc, is_on t (fold_left (hold_body HoldPower) ss acc) = true.
Proof.
  induction ss as [|q ss IH]; intros Hin Hh Hs acc; [destruct Hin|].
  cbn [fold_left]. destruct Hin as [->|Hin].
  - apply hold_fold_mono. unfold hold_body. rewrite Hh.
    now rewrite is_on_lor, Hs, orb_true_r.
  - now apply IH.
Qed.

Lemma hold_fold_free (HoldPower : PowerSubscriber -> bool) (t : PDType)
    (ss : list PowerSubscriber) :
  (forall ps, In ps ss -> HoldPower ps = true ->
     is_on t (subscribedDomains ps) = false) ->
  forall acc, is_on t acc = false ->
    is_on t (fold_left (hold_body HoldPower) ss acc) = false.
Proof.
  induction ss as [|q ss IH]; intros Hfree acc H; [exact H|].
  cbn [fold_left]. apply IH.
  - intros ps Hps. apply Hfree. now right.
  - unfold hold_body. destruct (HoldPower q) eqn:Eh; [|exact H].
    rewrite is_on_lor, H. apply Hfree; [now left|exact Eh].
Qed.

Lemma is_on_lnot (t : PDType) (x : Z) :
  t <> pwr4_none -> is_on t (uint8 (Z.lnot x)) = negb (is_on t x).
Proof.
  intros Ht. rewrite is_on_uint8, !is_on_testbit.
  apply Z.lnot_spec. now apply bit_index_nonneg.
Qed.

Lemma held_not_checked (HoldPower : PowerSubscriber -> bool)
    (pm : PowerManager) (ps : PowerSubscriber) (t : PDType) :
  In ps (subscribers pm) -> HoldPower ps = true ->
  is_on t (subscribedDomains ps) = true ->
  is_on t (Loop_domainsToCheck HoldPower pm) = false.
Proof.
  intros Hin Hh Hs. unfold Loop_domainsToCheck.
  destruct (PDType_eq_dec t pwr4_none) as [->|Ht]; [reflexivity|].
  rewrite is_on_lnot by exact Ht.
  now rewrite (hold_fold_held HoldPower t ps (subscribers pm) Hin Hh Hs 0).
Qed.

Lemma free_is_checked (HoldPower : PowerSubscriber -> bool)
    (pm : PowerManager) (t : PDType) :
  t <> pwr4_none ->
  (forall ps, In ps (subscribers pm) -> HoldPower ps = true ->
     is_on t (subscribedDomains ps) = false) ->
  is_on t (Loop_domainsToCheck HoldPower pm) = true.
Proof.
  intros Ht Hfree. unfold Loop_domainsToCheck.
  rewrite is_on_lnot by exact Ht.
  now rewrite (hold_fold_free HoldPower t (subscribers pm) Hfree 0
                 (is_on_0 t)).
Qed.

(** *** The first half of a pass *)

Lemma for_domains_fst_id {S : Type}
    (body : PowerDomain -> S -> PowerDomain * S) :
  (forall pd s, fst (body pd s) = pd) ->
  forall ds s, fst (for_domains body ds s) = ds.
Proof.
  intros Hb. induction ds as [|pd ds IH]; intros s; [reflexivity|].
  rewrite for_domains_cons. cbn [fst]. now rewrite Hb, IH.
Qed.

Lemma turn_off_body_fst (next : Z) (pd : PowerDomain) (pm : PowerManager) :
  fst (turn_off_body next pd pm) = pd.
Proof. unfold turn_off_body. now destruct (_ && _). Qed.

Lemma turn_off_frame (next : Z) (pm : PowerManager) :
  domains (foreach_domain (turn_off_body next) pm) = domains pm
  /\ subscribers (foreach_domain (turn_off_body next) pm) = subscribers pm
  /\ lastLoopTime (foreach_domain (turn_off_body next) pm) = lastLoopTime pm
  /\ wakeUpSource (foreach_domain (turn_off_body next) pm) = wakeUpSource pm.
Proof.
  unfold foreach_domain.
  pose proof (for_domains_fst_id (turn_off_body next)
                (turn_off_body_fst next) (domains pm) pm) as Ed.
  assert (Hs : subscribers (snd (for_domains (turn_off_body next)
                                   (domains pm) pm)) = subscribers pm
               /\ lastLoopTime (snd (for_domains (turn_off_body next)
                                       (domains pm) pm)) = lastLoopTime pm
               /\ wakeUpSource (snd (for_domains (turn_off_body next)
                                       (domains pm) pm)) = wakeUpSource pm).
  { apply (for_domains_state
             (fun p => subscribers p = subscribers pm
                       /\ lastLoopTime p = lastLoopTime pm
                       /\ wakeUpSource p = wakeUpSource pm)).
    - intros pd s _ H. unfold turn_off_body. now destruct (_ && _).
    - repeat split. }
  destruct (for_domains (turn_off_body next) (domains pm) pm) as [ds pm1].
  cbn [fst snd] in *. subst ds. split; [reflexivity|exact Hs].
Qed.

Lemma off_due_same (s : Z) (ps : PowerSubscriber) : off_due s s ps = false.
Proof. unfold off_due. now destruct (satisfied ps s). Qed.

Lemma filter_none {A : Type} (f : A -> bool) (l : list A) :
  (forall a, f a = false) -> filter f l = [].
Proof.
  intros H. induction l as [|a l IH]; [reflexivity|].
  cbn. now rewrite H.
Qed.

Lemma Loop_awake_trace (P : Event -> bool) (timeNow : Z)
    (HoldPower : PowerSubscriber -> bool) (pm : PowerManager) :
  (forall t, P (EvSetPower t false) = true) ->
  exists seg,
    trace (Loop_awake timeNow HoldPower pm)
    = trace pm
      ++ map EvPwrOff_Callback
           (filter (off_due (powerState pm)
                      (snd (Loop_check (elapsed timeNow pm) HoldPower pm)))
              (subscribers pm))
      ++ seg
    /\ forallb P seg = true.
Proof.
  intros HP. unfold Loop_awake.
  set (next := snd (Loop_check (elapsed timeNow pm) HoldPower pm)).
  set (ds := fst (Loop_check (elapsed timeNow pm) HoldPower pm)).
  destruct (Z.eqb_spec next (powerState pm)) as [E|E].
  - exists []. rewrite E.
    rewrite (filter_none _ _ (off_due_same (powerState pm))).
    cbn. now rewrite app_nil_r.
  - set (pm1 := with_domains ds (with_lastLoopTime timeNow pm)).
    destruct (turn_off_extends P next
                (fold_left (Off_Callback_body next) (subscribers pm) pm1) HP)
      as [seg [Etr Hseg]].
    exists seg. split; [|exact Hseg].
    rewrite Etr, Off_Callbacks_trace. now rewrite <- app_assoc.
Qed.

Lemma Loop_awake_domains (timeNow : Z) (HoldPower : PowerSubscriber -> bool)
    (pm : PowerManager) :
  domains (Loop_awake timeNow HoldPower pm)
  = map (check_dom (elapsed timeNow pm) (powerState pm)
           (Loop_domainsToCheck HoldPower pm)) (domains pm).
Proof.
  unfold Loop_awake. rewrite Loop_check_form. cbn [fst snd].
  destruct (_ =? _); [reflexivity|].
  rewrite (proj1 (turn_off_frame _ _)).
  now rewrite (proj1 (Off_Callbacks_frame _ _ _)).
Qed.

Lemma Loop_awake_frame (timeNow : Z) (HoldPower : PowerSubscriber -> bool)
    (pm : PowerManager) :
  subscribers (Loop_awake timeNow HoldPower pm) = subscribers pm
  /\ lastLoopTime (Loop_awake timeNow HoldPower pm) = timeNow
  /\ wakeUpSource (Loop_awake timeNow HoldPower pm) = wakeUpSource pm.
Proof.
  unfold Loop_awake. destruct (_ =? _); [repeat split|].
  destruct (turn_off_frame
              (snd (Loop_check (elapsed timeNow pm) HoldPower pm))
              (fold_left
                 (Off_Callback_body
                    (snd (Loop_check (elapsed timeNow pm) HoldPower pm)))
                 (subscribers pm)
                 (with_domains
                    (fst (Loop_check (elapsed timeNow pm) HoldPower pm))
                    (with_lastLoopTime timeNow pm))))
    as [_ [E2 [E3 E4]]].
  rewrite E2, E3, E4.
  destruct (Off_Callbacks_frame
              (snd (Loop_check (elapsed timeNow pm) HoldPower pm))
              (subscribers pm)
              (with_domains
                 (fst (Loop_check (elapsed timeNow pm) HoldPower pm))
                 (with_lastLoopTime timeNow pm)))
    as [_ [_ [F3 F4]]].
  rewrite F3, F4. repeat split.
  clear. induction (subscribers pm) as [|ps ss IH] using rev_ind;
    [reflexivity|].
  rewrite fold_left_app. cbn [fold_left]. unfold Off_Callback_body at 1.
  destruct (_ =? _); [destruct (negb _)|]; exact IH.
Qed.

Lemma Loop_awake_trace_form (timeNow : Z)
    (HoldPower : PowerSubscriber -> bool) (pm : PowerManager) :
  distinct_flags (domains pm) ->
  let s := powerState pm in
  let next := snd (Loop_check (elapsed timeNow pm) HoldPower pm) in
  trace (Loop_awake timeNow HoldPower pm)
  = trace pm
    ++ (if next =? s then []
        else map EvPwrOff_Callback (filter (off_due s next) (subscribers pm))
             ++ SetPower_calls false
                  (filter (goes_off s next)
                     (fst (Loop_check (elapsed timeNow pm) HoldPower pm)))).
Proof.
  intros [Hnd Hnn] s next. unfold Loop_awake. fold next s.
  destruct (next =? s); [cbn; now rewrite app_nil_r|].
  set (ds := fst (Loop_check (elapsed timeNow pm) HoldPower pm)).
  set (pm1 := with_domains ds (with_lastLoopTime timeNow pm)).
  destruct (Off_Callbacks_frame next (subscribers pm) pm1) as [F1 [F2 _]].
  unfold foreach_domain. rewrite F1.
  assert (Eids : map pd_id ds = map pd_id (domains pm)).
  { unfold ds. rewrite Loop_check_form. apply check_dom_ids. }
  cbn [pm1 with_domains domains].
  rewrite turn_off_loop_form by (rewrite Eids; assumption).
  cbn [with_domains trace]. rewrite F2.
  rewrite (proj2 (proj2 (proj2 (proj2 (proj2 (switch_off_frame _ _)))))).
  rewrite Off_Callbacks_trace. cbn [pm1 with_domains with_lastLoopTime
                                     trace powerState].
  fold s. now rewrite <- app_assoc.
Qed.

Lemma Loop_awake_no_sleep (timeNow : Z) (HoldPower : PowerSubscriber -> bool)
    (pm : PowerManager) :
  sleep_entries (trace (Loop_awake timeNow HoldPower pm))
  = sleep_entries (trace pm).
Proof.
  destruct (Loop_awake_trace (fun e => negb (is_sleep e))
              timeNow HoldPower pm (fun t => eq_refl)) as [seg [E H]].
  rewrite E, !sleep_entries_app, (sleep_entries_none seg H), app_nil_r.
  rewrite (sleep_entries_none (map EvPwrOff_Callback _));
    [apply app_nil_r|].
  apply forallb_forall. intros e He. apply in_map_iff in He.
  now destruct He as [ps [<- _]].
Qed.

Lemma check_dom_free (l : Z) (HoldPower : PowerSubscriber -> bool)
    (pm : PowerManager) (pd : PowerDomain) :
  coherent pm -> In pd (domains pm) -> unheld HoldPower pm (pd_id pd) ->
  check_dom l (powerState pm) (Loop_domainsToCheck HoldPower pm) pd
  = snd (CheckTimeout l pd)
  /\ expired l (powerState pm) (Loop_domainsToCheck HoldPower pm) pd
     = fst (CheckTimeout l pd).
Proof.
  intros [Hd [_ Hm]] Hpd Hfree. unfold check_dom, expired, checked.
  assert (Hnn : pd_id pd <> pwr4_none).
  { apply (distinct_flags_not_none (domains pm)); [exact Hd|].
    now apply in_map. }
  rewrite (free_is_checked HoldPower pm (pd_id pd) Hnn Hfree), andb_true_r.
  rewrite Forall_forall in Hm. specialize (Hm pd Hpd).
  unfold timer_matches in Hm. rewrite Hm.
  unfold CheckTimeout. destruct (countdownTimer pd =? 0); split; reflexivity.
Qed.

(** ** The power map and the actuators *)

(** C1. Starting from the constructed registries (power map 0, no call
    issued) and after any sequence of [Setup], [Loop], [Activate],
    [RequestPower] and [Parse] calls that returns, a listed domain is marked
    in [powerState] exactly when the last [SetPower] call on it had the
    argument [true]. *)
Theorem powerState_tracks_SetPower :
  forall (cs : list Call) (pm0 pm : PowerManager),
    constructed pm0 ->
    do_calls cs pm0 = Some pm ->
    forall pd, In pd (domains pm) ->
      (is_on (pd_id pd) (powerState pm) = true
       <-> last_SetPower (pd_id pd) (trace pm) = Some true).
Proof.
  intros cs pm0 pm Hc Hrun pd Hpd.
  pose proof (do_calls_Inv cs pm0 pm Hrun (constructed_Inv pm0 Hc))
    as [[Hd _] Ht].
  apply Ht. apply (distinct_flags_not_none (domains pm)); [exact Hd|].
  now apply in_map.
Qed.

(** ** Activation *)

Lemma NoDup_ids_inj (ds : list PowerDomain) (a b : PowerDomain) :
  NoDup (map pd_id ds) -> In a ds -> In b ds -> pd_id a = pd_id b -> a = b.
Proof.
  induction ds as [|d ds IH]; intros Hnd Ha Hb E; [destruct Ha|].
  inversion Hnd as [|? ? Hnotin Hnd']; subst.
  destruct Ha as [->|Ha], Hb as [->|Hb].
  - reflexivity.
  - exfalso. apply Hnotin. rewrite E. now apply in_map.
  - exfalso. apply Hnotin. rewrite <- E. now apply in_map.
  - now apply IH.
Qed.

Lemma existsb_same_flag (f : PowerDomain -> bool) (ds : list PowerDomain)
    (pd : PowerDomain) :
  NoDup (map pd_id ds) -> In pd ds ->
  existsb (fun d => PDType_eqb (pd_id pd) (pd_id d)) (filter f ds) = f pd.
Proof.
  intros Hnd Hpd. destruct (f pd) eqn:Ef.
  - apply existsb_exists. exists pd. split.
    + apply filter_In. now split.
    + apply PDType_eqb_refl.
  - destruct (existsb _ _) eqn:E; [|reflexivity].
    apply existsb_exists in E. destruct E as [d [Hd E]].
    apply filter_In in Hd. destruct Hd as [Hd Hfd].
    apply PDType_eqb_eq in E.
    rewrite (NoDup_ids_inj ds pd d Hnd Hpd Hd E) in Ef. congruence.
Qed.

Lemma subscribers_registration (ss : list PowerSubscriber) :
  forall pm,
    subscribers (fold_left (fun pm ps => PowerSubscriber_ctor ps pm) ss pm)
    = rev (filter (fun ps => negb (subscribedDomains ps =? 0)) ss)
      ++ subscribers pm.
Proof.
  induction ss as [|ps ss IH]; intros pm; [reflexivity|].
  cbn [fold_left filter]. rewrite IH. unfold PowerSubscriber_ctor.
  destruct (subscribedDomains ps =? 0); cbn [negb]; [reflexivity|].
  cbn [rev with_subscribers subscribers]. now rewrite <- app_assoc.
Qed.

(** C7, as the code has it. For a domain list with distinct flags,
    [Activate] arms with the default timeout and switches on exactly the
    listed domains of the map that are off, marks them, and returns whether
    there was one. Only if there was one, it then calls the on-callback once
    for every listed subscriber that is on, in list order, which is the
    reverse of the order of registration. *)
Theorem Activate_arms_and_calls_back :
  forall (m : Z) (pm : PowerManager),
    distinct_flags (domains pm) ->
    let r := fst (Activate m pm) in
    let pm' := snd (Activate m pm) in
    (r = true <->
       exists pd, In pd (domains pm) /\ and_nz (flag pd) m = true
                  /\ is_on (pd_id pd) (powerState pm) = false)
    /\ domains pm'
       = map (fun pd => if goes_on m (powerState pm) pd
                        then ResetTimeout 0 pd else pd) (domains pm)
    /\ (forall pd, In pd (domains pm) ->
          is_on (pd_id pd) (powerState pm')
          = is_on (pd_id pd) (powerState pm) || and_nz (flag pd) m)
    /\ trace pm'
       = trace pm
         ++ SetPower_calls true (filter (goes_on m (powerState pm)) (domains pm))
         ++ (if r then map EvPwrOn_Callback (filter (IsOn pm') (subscribers pm))
             else [])
    /\ (forall ss pm0,
          subscribers
            (fold_left (fun pm ps => PowerSubscriber_ctor ps pm) ss pm0)
          = rev (filter (fun ps => negb (subscribedDomains ps =? 0)) ss)
            ++ subscribers pm0).
Proof.
  intros m pm Hd r pm'. subst r pm'. rewrite (Activate_form m pm Hd).
  cbn [fst snd].
  set (on_now := filter (goes_on m (powerState pm)) (domains pm)).
  destruct (switch_on_frame on_now pm) as [F1 [F2 [_ [_ [_ F6]]]]].
  assert (Hbits : forall pd, In pd (domains pm) ->
            is_on (pd_id pd) (powerState (Activate_domains m pm))
            = is_on (pd_id pd) (powerState pm) || and_nz (flag pd) m).
  { intros pd Hpd. unfold Activate_domains.
    cbn [with_domains powerState]. fold on_now.
    rewrite switch_on_bits.
    - unfold on_now. rewrite existsb_same_flag by (apply Hd || exact Hpd).
      unfold goes_on. destruct (is_on (pd_id pd) (powerState pm));
        destruct (and_nz (flag pd) m); reflexivity.
    - apply (distinct_flags_not_none (domains pm)); [exact Hd|].
      now apply in_map. }
  split; [|split; [|split; [|split]]].
  - rewrite existsb_exists. unfold goes_on. split.
    + intros [pd [Hpd H]]. apply andb_true_iff in H. destruct H as [H1 H2].
      exists pd. repeat split; auto. now apply negb_true_iff.
    + intros [pd [Hpd [H1 H2]]]. exists pd. split; [exact Hpd|].
      now rewrite H1, H2.
  - destruct (existsb _ _).
    + now rewrite (proj1 (On_Callbacks_frame _ _)).
    + reflexivity.
  - intros pd Hpd. rewrite <- (Hbits pd Hpd).
    destruct (existsb _ _); [|reflexivity].
    now rewrite (proj1 (proj2 (On_Callbacks_frame _ _))).
  - destruct (existsb _ _).
    + rewrite On_Callbacks_trace.
      unfold Activate_domains at 1. cbn [with_domains trace]. fold on_now.
      rewrite F6, <- app_assoc. f_equal. f_equal. f_equal.
      apply filter_ext. intros ps. unfold IsOn.
      now rewrite (proj1 (proj2 (On_Callbacks_frame _ _))).
    + unfold Activate_domains. cbn [with_domains trace]. fold on_now.
      now rewrite F6, app_nil_r.
  - intros ss pm0. apply subscribers_registration.
Qed.

(** ** The off-callbacks of a pass *)

(** C2. In a pass that is not skipped, the off-callbacks are called for
    exactly the listed subscribers whose map is contained in the current
    power map and not in the proposed one, once each and before anything
    else the pass does: the rest of the pass, with every [SetPower(false)],
    comes after them and contains no off-callback. *)
Theorem Loop_off_callbacks_first :
  forall (timeNow : Z) (HoldPower : PowerSubscriber -> bool)
         (env : SleepEnv) (pm : PowerManager),
    domains pm <> [] ->
    elapsed timeNow pm < PWRMAN_MINTIMEOUT ->
    let cur := powerState pm in
    let next := snd (Loop_check (elapsed timeNow pm) HoldPower pm) in
    let due := filter (off_due cur next) (subscribers pm) in
    exists tail,
      trace (Loop timeNow HoldPower env pm)
      = trace pm ++ map EvPwrOff_Callback due ++ tail
      /\ forallb (fun e => negb (is_PwrOff e)) tail = true
      /\ (forall e, In e (map EvPwrOff_Callback due) -> is_SetPower e = false)
      /\ off_callbacks (map EvPwrOff_Callback due ++ tail) = due
      /\ (forall ps, In ps due <->
            In ps (subscribers pm)
            /\ satisfied ps cur = true /\ satisfied ps next = false)
      /\ (NoDup (subscribers pm) -> NoDup due).
Proof.
  intros timeNow HoldPower env pm Hne Hl cur next due.
  assert (Hshape : exists tail,
            trace (Loop timeNow HoldPower env pm)
            = trace pm ++ map EvPwrOff_Callback due ++ tail
            /\ forallb (fun e => negb (is_PwrOff e)) tail = true).
  { rewrite (Loop_unfold timeNow HoldPower env pm Hne Hl).
    destruct (Loop_awake_trace (fun e => negb (is_PwrOff e))
                timeNow HoldPower pm (fun t => eq_refl))
      as [seg [Etr Hseg]].
    fold next cur due in Etr.
    match goal with |- context [if ?c then _ else _] => destruct c end.
    - now exists seg.
    - destruct (Loop_sleep_extends (fun e => negb (is_PwrOff e)) env
                  (Loop_awake timeNow HoldPower pm))
        as [seg2 [Etr2 Hseg2]].
      { intros e He. now rewrite He. }
      exists (seg ++ seg2). split.
      + rewrite Etr2, Etr. now rewrite <- !app_assoc.
      + rewrite forallb_app. now rewrite Hseg, Hseg2. }
  destruct Hshape as [tail [Etr Htail]].
  exists tail. split; [exact Etr|]. split; [exact Htail|].
  split; [|split; [|split]].
  - intros e He. apply in_map_iff in He. now destruct He as [ps [<- _]].
  - rewrite off_callbacks_app, off_callbacks_map.
    rewrite (off_callbacks_none tail Htail). apply app_nil_r.
  - intros ps. unfold due. rewrite filter_In. unfold off_due.
    rewrite andb_true_iff, negb_true_iff. tauto.
  - intros Hnd. now apply NoDup_filter.
Qed.

(** ** Holding power *)

Lemma is_on_nonzero (t : PDType) (s : Z) : is_on t s = true -> s <> 0.
Proof. intros H E. rewrite E, is_on_0 in H. discriminate H. Qed.

Lemma Loop_stays_awake (timeNow : Z) (HoldPower : PowerSubscriber -> bool)
    (env : SleepEnv) (pm : PowerManager) (t : PDType) :
  domains pm <> [] ->
  elapsed timeNow pm < PWRMAN_MINTIMEOUT ->
  is_on t (powerState (Loop_awake timeNow HoldPower pm)) = true ->
  Loop timeNow HoldPower env pm = Loop_awake timeNow HoldPower pm.
Proof.
  intros Hne Hl Hon. rewrite (Loop_unfold timeNow HoldPower env pm Hne Hl).
  apply is_on_nonzero in Hon. apply Z.eqb_neq in Hon. rewrite Hon.
  now rewrite orb_true_r.
Qed.

Lemma hold_keeps_domain (timeNow : Z) (HoldPower : PowerSubscriber -> bool)
    (env : SleepEnv) (pm : PowerManager) (ps : PowerSubscriber)
    (pd : PowerDomain) :
  Inv pm -> In ps (subscribers pm) -> HoldPower ps = true ->
  In pd (domains pm) -> subscribed ps pd = true ->
  is_on (pd_id pd) (powerState pm) = true ->
  is_on (pd_id pd) (powerState (Loop timeNow HoldPower env pm)) = true
  /\ In pd (domains (Loop timeNow HoldPower env pm))
  /\ subscribers (Loop timeNow HoldPower env pm) = subscribers pm.
Proof.
  intros HI Hps Hh Hpd Hsub Hon.
  assert (Hne : domains pm <> []) by (intros E; rewrite E in Hpd; destruct Hpd).
  destruct (Z.lt_ge_cases (elapsed timeNow pm) PWRMAN_MINTIMEOUT) as [Hl|Hl].
  2:{ rewrite (Loop_skipped timeNow HoldPower env pm Hne Hl). now repeat split. }
  pose proof (Loop_awake_Inv timeNow HoldPower pm HI) as [[_ [_ Hm4]] _].
  assert (Hin4 : In pd (domains (Loop_awake timeNow HoldPower pm))).
  { rewrite Loop_awake_domains. apply in_map_iff. exists pd.
    split; [|exact Hpd]. unfold check_dom, checked.
    rewrite (held_not_checked HoldPower pm ps (pd_id pd) Hps Hh Hsub).
    now rewrite andb_false_r. }
  assert (Hon4 : is_on (pd_id pd)
                   (powerState (Loop_awake timeNow HoldPower pm)) = true).
  { rewrite Forall_forall in Hm4. rewrite (Hm4 pd Hin4).
    destruct HI as [[_ [_ Hm]] _]. rewrite Forall_forall in Hm.
    rewrite <- (Hm pd Hpd). exact Hon. }
  rewrite (Loop_stays_awake timeNow HoldPower env pm (pd_id pd) Hne Hl Hon4).
  repeat split; try assumption. apply Loop_awake_frame.
Qed.

Lemma Loop_extends_awake (P : Event -> bool) (timeNow : Z)
    (HoldPower : PowerSubscriber -> bool) (env : SleepEnv)
    (pm : PowerManager) :
  domains pm <> [] ->
  elapsed timeNow pm < PWRMAN_MINTIMEOUT ->
  exists more,
    trace (Loop timeNow HoldPower env pm)
    = trace (Loop_awake timeNow HoldPower pm) ++ more.
Proof.
  intros Hne Hl. rewrite (Loop_unfold timeNow HoldPower env pm Hne Hl).
  destruct (_ || _).
  - exists []. now rewrite app_nil_r.
  - destruct (Loop_sleep_extends (fun _ => true) env
                (Loop_awake timeNow HoldPower pm) (fun _ _ => eq_refl))
      as [more [E _]].
    now exists more.
Qed.

(** C5, as the code has it. A domain that is on and belongs to a
    subscriber that holds power stays on through any number of passes,
    whatever time they measure, and its timer is left as it was: the time
    that passes under hold is not counted. Once no holding subscriber has
    the domain, a pass that is not skipped counts its own elapsed time
    only: it switches the domain off if that reaches the countdown, and
    otherwise takes it off the countdown and leaves the domain on. *)
Theorem hold_suspends_timeout :
  forall (pm : PowerManager) (ps : PowerSubscriber) (pd : PowerDomain),
    Inv pm ->
    In ps (subscribers pm) -> In pd (domains pm) ->
    subscribed ps pd = true ->
    is_on (pd_id pd) (powerState pm) = true ->
    (forall ticks,
       Forall (fun tk => snd (fst tk) ps = true) ticks ->
       is_on (pd_id pd) (powerState (Loops ticks pm)) = true
       /\ In pd (domains (Loops ticks pm))
       /\ In ps (subscribers (Loops ticks pm))
       /\ Inv (Loops ticks pm))
    /\ (forall timeNow HoldPower env,
          unheld HoldPower pm (pd_id pd) ->
          elapsed timeNow pm < PWRMAN_MINTIMEOUT ->
          (countdownTimer pd <= elapsed timeNow pm ->
           exists seg,
             trace (Loop timeNow HoldPower env pm) = trace pm ++ seg
             /\ In (EvSetPower (pd_id pd) false) seg)
          /\ (elapsed timeNow pm < countdownTimer pd ->
              is_on (pd_id pd) (powerState (Loop timeNow HoldPower env pm))
              = true
              /\ In (set_countdownTimer
                       (countdownTimer pd - elapsed timeNow pm) pd)
                   (domains (Loop timeNow HoldPower env pm)))).
Proof.
  intros pm ps pd HI Hps Hpd Hsub Hon. split.
  - intros ticks. revert pm HI Hps Hpd Hon.
    induction ticks as [|[[t h] e] ticks IH]; intros pm HI Hps Hpd Hon Hall.
    + cbn [Loops fold_left]. split; [|split; [|split]]; assumption.
    + inversion Hall as [|? ? Hh Hall']; subst. cbn [fst snd] in Hh.
      cbn [Loops fold_left fst snd].
      fold (Loops ticks (Loop t h e pm)).
      destruct (hold_keeps_domain t h e pm ps pd HI Hps Hh Hpd Hsub Hon)
        as [Hon' [Hpd' Hss']].
      apply IH; auto.
      * now apply Loop_Inv.
      * now rewrite Hss'.
  - intros timeNow HoldPower env Hfree Hl.
    assert (Hne : domains pm <> [])
      by (intros E; rewrite E in Hpd; destruct Hpd).
    set (l := elapsed timeNow pm) in *.
    pose proof HI as [Hc Htr]. pose proof Hc as [Hd [_ Hm]].
    rewrite Forall_forall in Hm. pose proof (Hm pd Hpd) as Hmpd.
    unfold timer_matches in Hmpd. rewrite Hon in Hmpd.
    symmetry in Hmpd. apply negb_true_iff in Hmpd.
    destruct (check_dom_free l HoldPower pm pd Hc Hpd Hfree) as [Ecd Eex].
    pose proof (Loop_awake_Inv timeNow HoldPower pm HI) as [[_ [_ Hm4]] _].
    rewrite Forall_forall in Hm4.
    split.
    + intros Hle.
      assert (ECT : CheckTimeout l pd = (true, set_countdownTimer 0 pd)).
      { unfold CheckTimeout. rewrite Hmpd.
        apply Z.leb_le in Hle. now rewrite Hle. }
      rewrite ECT in Eex, Ecd. cbn [fst snd] in Eex, Ecd.
      destruct (Loop_extends_awake (fun _ => true) timeNow HoldPower env pm
                  Hne Hl) as [more Emore].
      rewrite Emore, (Loop_awake_trace_form timeNow HoldPower pm Hd).
      cbv zeta. rewrite Loop_check_form. cbn [fst snd]. fold l.
      set (s := powerState pm) in *.
      set (chk := Loop_domainsToCheck HoldPower pm) in *.
      set (next := clear_flags (filter (expired l s chk) (domains pm)) s).
      assert (Enext : is_on (pd_id pd) next = false).
      { unfold next. rewrite clear_flags_bits.
        rewrite existsb_same_flag by (apply Hd || exact Hpd).
        rewrite Eex. apply andb_false_r. }
      destruct (Z.eqb_spec next s) as [E|E].
      { rewrite E in Enext. congruence. }
      eexists. split; [now rewrite <- app_assoc|].
      apply in_or_app. left. apply in_or_app. right.
      unfold SetPower_calls. apply in_map_iff.
      exists (check_dom l s chk pd). split.
      * now rewrite check_dom_id.
      * apply filter_In. split; [now apply in_map|].
        unfold goes_off. rewrite check_dom_id, Hon, Enext. reflexivity.
    + intros Hlt.
      assert (ECT : CheckTimeout l pd
                    = (false, set_countdownTimer (countdownTimer pd - l) pd)).
      { unfold CheckTimeout. rewrite Hmpd.
        apply Z.leb_gt in Hlt. now rewrite Hlt. }
      rewrite ECT in Ecd. cbn [snd] in Ecd.
      assert (Hin4 : In (set_countdownTimer (countdownTimer pd - l) pd)
                       (domains (Loop_awake timeNow HoldPower pm))).
      { rewrite Loop_awake_domains. apply in_map_iff. exists pd.
        split; [exact Ecd|exact Hpd]. }
      assert (Hon4 : is_on (pd_id pd)
                       (powerState (Loop_awake timeNow HoldPower pm)) = true).
      { pose proof (Hm4 _ Hin4) as H4. unfold timer_matches in H4.
        cbn [pd_id countdownTimer set_countdownTimer] in H4. rewrite H4.
        apply negb_true_iff. apply Z.eqb_neq. lia. }
      rewrite (Loop_stays_awake timeNow HoldPower env pm (pd_id pd)
                 Hne Hl Hon4).
      split; assumption.
Qed.

(** ** The guard against late passes *)

(** C6, as the code has it. A pass that measures at least
    [PWRMAN_MINTIMEOUT] milliseconds since the previous one, twice the
    nominal period, does no timeout processing: it changes no timer and no
    bit of the power map, and calls nothing. It only records its clock
    reading. *)
Theorem Loop_skips_late_pass :
  forall (timeNow : Z) (HoldPower : PowerSubscriber -> bool)
         (env : SleepEnv) (pm : PowerManager),
    PWRMAN_MINTIMEOUT <= elapsed timeNow pm ->
    let pm' := Loop timeNow HoldPower env pm in
    domains pm' = domains pm
    /\ powerState pm' = powerState pm
    /\ trace pm' = trace pm
    /\ subscribers pm' = subscribers pm
    /\ wakeUpSource pm' = wakeUpSource pm
    /\ PWRMAN_MINTIMEOUT = 2 * nominal_poll_period.
Proof.
  intros timeNow HoldPower env pm Hl pm'. subst pm'.
  destruct (domains pm) as [|d0 ds0] eqn:Eds.
  - unfold Loop. rewrite Eds. now repeat split.
  - rewrite Loop_skipped by (congruence || assumption).
    cbn [with_lastLoopTime domains powerState trace subscribers wakeUpSource].
    now repeat split.
Qed.

(** ** Requests with a vector of timeouts *)

Lemma domains_construction (ds : list PowerDomain) :
  forall pm,
    domains (fold_left (fun pm pd => PowerDomain_ctor pd pm) ds pm)
    = rev (map (set_countdownTimer 0) ds) ++ domains pm.
Proof.
  induction ds as [|pd ds IH]; intros pm; [reflexivity|].
  cbn [fold_left map rev]. rewrite IH.
  cbn [PowerDomain_ctor with_domains domains]. now rewrite <- app_assoc.
Qed.

Lemma RequestPower_loop_defined (ps : PowerSubscriber) :
  forall ds ts pm r,
    RequestPower_loop ps ds (Some ts) pm r = None
    <-> (List.length ts < List.length (filter (subscribed ps) ds))%nat.
Proof.
  induction ds as [|pd ds IH]; intros ts pm r.
  - cbn. split; [discriminate|lia].
  - cbn [RequestPower_loop filter]. unfold subscribed at 1.
    destruct (and_nz (flag pd) (subscribedDomains ps)).
    + destruct ts as [|t ts]; cbn [next_timeout List.length].
      * split; [lia|reflexivity].
      * destruct (negb (and_nz (powerState pm) (flag pd)));
          match goal with
          | |- context [RequestPower_loop ps ds (Some ts) ?p ?q] =>
              specialize (IH ts p q);
              destruct (RequestPower_loop ps ds (Some ts) p q)
                as [[[ds' pm'] r']|]
          end.
        all: split; try discriminate; try reflexivity.
        all: intros H.
        all: try (assert (H' : (List.length ts
                         < List.length (filter (subscribed ps) ds))%nat)
               by lia; apply IH in H'; discriminate H').
        all: assert (H' : (List.length ts
                         < List.length (filter (subscribed ps) ds))%nat)
               by (now apply IH); lia.
    + specialize (IH ts pm r).
      destruct (RequestPower_loop ps ds (Some ts) pm r) as [[[ds' pm'] r']|].
      * split; [discriminate|]. intros H. apply IH in H. discriminate H.
      * split; [|reflexivity]. intros _. now apply IH.
Qed.

Lemma RequestPower_loop_entries (ps : PowerSubscriber) :
  forall ds ts pm r ds' pm' r',
    RequestPower_loop ps ds (Some ts) pm r = Some (ds', pm', r') ->
    forall pre pd post, ds = pre ++ pd :: post ->
      if subscribed ps pd
      then exists t,
             nth_error ts (List.length (filter (subscribed ps) pre)) = Some t
             /\ nth_error ds' (List.length pre) = Some (ResetTimeout t pd)
      else nth_error ds' (List.length pre) = Some pd.
Proof.
  induction ds as [|a ds IH]; intros ts pm r ds' pm' r' H pre pd post E.
  - destruct pre; discriminate E.
  - cbn [RequestPower_loop] in H.
    destruct pre as [|b pre]; cbn [app] in E; injection E as <- E.
    + (* the visited domain is the head *)
      unfold subscribed. cbn [filter List.length].
      destruct (and_nz (flag a) (subscribedDomains ps)).
      * destruct ts as [|t ts]; [discriminate H|]. cbn [next_timeout] in H.
        destruct (negb (and_nz (powerState pm) (flag a)));
          match type of H with
          | context [RequestPower_loop ps ds (Some ts) ?p ?q] =>
              destruct (RequestPower_loop ps ds (Some ts) p q)
                as [[[rest' pm''] r'']|]; [|discriminate H]
          end;
          injection H as <- <- <-; exists t; now split.
      * destruct (RequestPower_loop ps ds (Some ts) pm r)
          as [[[rest' pm''] r'']|]; [|discriminate H].
        now injection H as <- <- <-.
    + (* the visited domain is further down *)
      cbn [filter List.length]. fold (subscribed ps a) in H |- *.
      destruct (subscribed ps a).
      * destruct ts as [|t0 ts]; [discriminate H|]. cbn [next_timeout] in H.
        destruct (negb (and_nz (powerState pm) (flag a)));
          match type of H with
          | context [RequestPower_loop ps ds (Some ts) ?p ?q] =>
              destruct (RequestPower_loop ps ds (Some ts) p q)
                as [[[rest' pm''] r'']|] eqn:Erec; [|discriminate H]
          end;
          injection H as <- <- <-;
          specialize (IH _ _ _ _ _ _ Erec pre pd post E);
          cbn [List.length nth_error]; exact IH.
      * destruct (RequestPower_loop ps ds (Some ts) pm r)
          as [[[rest' pm''] r'']|] eqn:Erec; [|discriminate H].
        injection H as <- <- <-.
        specialize (IH _ _ _ _ _ _ Erec pre pd post E).
        cbn [List.length nth_error]. exact IH.
Qed.

(** C10. With a vector of timeouts, [RequestPower] returns exactly when
    the vector has an entry for every subscribed domain of the list. The
    k-th subscribed domain in list order gets the k-th entry, and the list
    order is the reverse of the order of construction; the domains that are
    not subscribed keep their timers. An entry of 0 stands for the default
    timeout of its domain. *)
Theorem RequestPower_consumes_timeouts :
  forall (ps : PowerSubscriber) (ts : list Z) (pm : PowerManager),
    (RequestPower ps (Some ts) pm <> None
     <-> (List.length (filter (subscribed ps) (domains pm)) <= List.length ts)%nat)
    /\ (forall r pm',
          RequestPower ps (Some ts) pm = Some (r, pm') ->
          forall pre pd post, domains pm = pre ++ pd :: post ->
            if subscribed ps pd
            then exists t,
                   nth_error ts (List.length (filter (subscribed ps) pre)) = Some t
                   /\ nth_error (domains pm') (List.length pre)
                      = Some (ResetTimeout t pd)
                   /\ countdownTimer (ResetTimeout t pd)
                      = Z.max (countdownTimer pd) (clamped pd t)
            else nth_error (domains pm') (List.length pre) = Some pd)
    /\ (forall ds pm0,
          domains (fold_left (fun pm pd => PowerDomain_ctor pd pm) ds pm0)
          = rev (map (set_countdownTimer 0) ds) ++ domains pm0)
    /\ (forall pd, clamped pd 0 = Z.max PWRMAN_MINTIMEOUT (pd_timeout pd)).
Proof.
  intros ps ts pm. split; [|split; [|split]].
  - unfold RequestPower. destruct (domains pm) as [|d0 ds0] eqn:Eds.
    + cbn. split; [lia|discriminate].
    + rewrite <- Eds.
      pose proof (RequestPower_loop_defined ps (domains pm) ts pm false) as D.
      destruct (RequestPower_loop ps (domains pm) (Some ts) pm false)
        as [[[ds pm1] r1]|].
      * split; [|discriminate]. intros _.
        destruct (Nat.le_gt_cases
                    (List.length (filter (subscribed ps) (domains pm)))
                    (List.length ts)) as [H|H]; [exact H|].
        apply D in H. discriminate H.
      * split; [congruence|]. intros H.
        assert (H' : (List.length ts
                      < List.length (filter (subscribed ps) (domains pm)))%nat)
          by now apply D.
        lia.
  - intros r pm' H pre pd post E. unfold RequestPower in H.
    destruct (domains pm) as [|d0 ds0] eqn:Eds.
    { destruct pre; discriminate E. }
    rewrite <- Eds in H.
    destruct (RequestPower_loop ps (domains pm) (Some ts) pm false)
      as [[[ds pm1] r1]|] eqn:Eloop; [|discriminate H].
    rewrite Eds in Eloop.
    pose proof (RequestPower_loop_entries ps _ _ _ _ _ _ _ Eloop
                  pre pd post E) as Hent.
    injection H as <- <-.
    assert (Ed : domains (if r1
                          then emit (EvPwrOn_Callback ps) (with_domains ds pm1)
                          else with_domains ds pm1) = ds)
      by now destruct r1.
    rewrite Ed. destruct (subscribed ps pd); [|exact Hent].
    destruct Hent as [t [H1 H2]]. exists t. repeat split; auto.
    apply ResetTimeout_timer.
  - apply domains_construction.
  - intros pd. reflexivity.
Qed.

(** ** The "deepsleep" command *)

Lemma force_off_form (pd : PowerDomain) (pm : PowerManager) :
  force_off pd pm
  = if is_on (pd_id pd) (powerState pm)
    then (set_countdownTimer 0 pd, power_off pd pm) else (pd, pm).
Proof. reflexivity. Qed.

Lemma force_off_loop_form :
  forall ds pm,
    NoDup (map pd_id ds) ->
    for_domains force_off ds pm
    = (map (fun pd => if is_on (pd_id pd) (powerState pm)
                      then set_countdownTimer 0 pd else pd) ds,
       switch_off (filter (fun pd => is_on (pd_id pd) (powerState pm)) ds) pm).
Proof.
  induction ds as [|pd ds IH]; intros pm Hnd; [reflexivity|].
  inversion Hnd as [|? ? Hnotin Hnd']; subst.
  rewrite for_domains_cons, force_off_form. cbn [map filter].
  assert (Ext : forall d, In d ds ->
            is_on (pd_id d) (powerState (power_off pd pm))
            = is_on (pd_id d) (powerState pm)).
  { intros d Hd. cbn [power_off with_powerState powerState]. unfold flag.
    rewrite is_on_clear.
    assert (Hne : pd_id d <> pd_id pd).
    { intros E. apply Hnotin. rewrite <- E. now apply in_map. }
    apply PDType_eqb_neq in Hne. now rewrite Hne, andb_true_r. }
  destruct (is_on (pd_id pd) (powerState pm)); cbn [fst snd].
  - rewrite IH by assumption. cbn [fst snd]. f_equal; [f_equal|].
    + apply map_ext_in. intros d Hd. now rewrite Ext.
    + cbn [switch_off fold_left].
      fold (switch_off (filter (fun d => is_on (pd_id d) (powerState pm)) ds)
              (power_off pd pm)).
      f_equal. apply filter_ext_in. intros d Hd. now rewrite Ext.
  - now rewrite IH.
Qed.

Lemma Off_Callbacks_all_trace (ss : list PowerSubscriber)
    (pm : PowerManager) :
  trace (fold_left (fun pm ps => emit (EvPwrOff_Callback ps) pm) ss pm)
  = trace pm ++ map EvPwrOff_Callback ss
  /\ domains (fold_left (fun pm ps => emit (EvPwrOff_Callback ps) pm) ss pm)
     = domains pm
  /\ powerState
       (fold_left (fun pm ps => emit (EvPwrOff_Callback ps) pm) ss pm)
     = powerState pm
  /\ subscribers
       (fold_left (fun pm ps => emit (EvPwrOff_Callback ps) pm) ss pm)
     = subscribers pm.
Proof.
  revert pm. induction ss as [|ps ss IH]; intros pm.
  - cbn. now rewrite app_nil_r.
  - cbn [fold_left map]. destruct (IH (emit (EvPwrOff_Callback ps) pm))
      as [E1 [E2 [E3 E4]]].
    rewrite E1, E2, E3, E4. cbn. now rewrite <- app_assoc.
Qed.





Lemma Parse_deepsleep_cmd (arg : string) (saberIsOn : bool) (env : SleepEnv)
    (pm : PowerManager) :
  Parse "deepsleep" arg saberIsOn env pm
  = Some (true, Parse_deepsleep saberIsOn env pm).
Proof.
  unfold Parse. cbn [String.eqb Ascii.eqb Bool.eqb].
  now rewrite !andb_false_r.
Qed.

Lemma deepsleep_forced_facts (pm : PowerManager) :
  Inv pm ->
  let on_now :=
    filter (fun pd => is_on (pd_id pd) (powerState pm)) (domains pm) in
  trace (deepsleep_forced pm)
  = trace pm ++ SetPower_calls false on_now
    ++ map EvPwrOff_Callback (subscribers pm) ++ [EvFlushTx]
  /\ powerState (deepsleep_forced pm) = 0
  /\ Forall (fun pd => countdownTimer pd = 0) (domains (deepsleep_forced pm))
  /\ map pd_id (domains (deepsleep_forced pm)) = map pd_id (domains pm)
  /\ subscribers (deepsleep_forced pm) = subscribers pm.
Proof.
  intros [[Hd [Ho Hm]] Ht] on_now. unfold deepsleep_forced, foreach_domain.
  rewrite force_off_loop_form by apply Hd. fold on_now. cbv zeta.
  destruct (switch_off_frame on_now pm) as [F1 [F2 [_ [_ [_ F6]]]]].
  set (pm1 := with_domains _ (switch_off on_now pm)).
  assert (Es1 : subscribers pm1 = subscribers pm) by exact F2.
  rewrite Es1.
  destruct (Off_Callbacks_all_trace (subscribers pm) pm1)
    as [E1 [E2 [E3 E4]]].
  cbn [emit trace powerState domains subscribers].
  rewrite E1, E2, E3, E4.
  split; [|split; [|split; [|split]]].
  - cbn [pm1 with_domains trace]. rewrite F6. now rewrite <- !app_assoc.
  - cbn [pm1 with_domains powerState]. rewrite switch_off_powerState.
    apply (owned_all_off (map pd_id (domains pm))).
    + intros k Hk Hb.
      assert (Hsub : forall pds s, Z.testbit (clear_flags pds s) k = true ->
                                   Z.testbit s k = true).
      { induction pds as [|d pds IH]; intros s H; [exact H|].
        cbn [clear_flags fold_left] in H.
        fold (clear_flags pds (uint8 (Z.land s (Z.lnot (flag d))))) in H.
        apply IH in H. apply testbit_uint8_true in H; [|exact Hk].
        rewrite Z.land_spec in H. now apply andb_true_iff in H. }
      apply Hsub in Hb. now apply Ho.
    + intros t Hin. rewrite clear_flags_bits.
      apply in_map_iff in Hin. destruct Hin as [pd [<- Hpd]].
      unfold on_now. rewrite existsb_same_flag by (apply Hd || exact Hpd).
      now destruct (is_on (pd_id pd) (powerState pm)).
  - cbn [pm1 with_domains domains]. rewrite Forall_forall.
    intros d Hin. apply in_map_iff in Hin. destruct Hin as [pd [<- Hpd]].
    rewrite Forall_forall in Hm. specialize (Hm pd Hpd).
    unfold timer_matches in Hm.
    destruct (is_on (pd_id pd) (powerState pm)); [reflexivity|].
    symmetry in Hm. apply negb_false_iff in Hm. now apply Z.eqb_eq.
  - cbn [pm1 with_domains domains]. rewrite map_map. apply map_ext.
    intros pd. now destruct (is_on (pd_id pd) (powerState pm)).
  - exact Es1.
Qed.

Lemma sleep_then_wake_entries (env : SleepEnv) (pm : PowerManager)
    (after : PowerManager -> PowerManager) :
  (forall p, extends (fun e => negb (is_sleep e)) p (after p)) ->
  sleep_entries
    (trace (snd (Activate PWRMAN_STARTON
                   (after (PrintWakeUpMsg
                             (CPU_DeepSleep PWR_STOPENTRY_WFI env pm))))))
  = sleep_entries (trace pm) ++ [powerState pm].
Proof.
  intros Hafter.
  set (P := fun e => negb (is_sleep e)).
  assert (H : extends P (CPU_DeepSleep PWR_STOPENTRY_WFI env pm)
                (snd (Activate PWRMAN_STARTON
                        (after (PrintWakeUpMsg
                                  (CPU_DeepSleep PWR_STOPENTRY_WFI env pm)))))).
  { eapply extends_trans; [|now apply Activate_extends].
    eapply extends_trans; [|apply Hafter].
    now apply PrintWakeUpMsg_extends. }
  destruct H as [seg [E Hseg]].
  rewrite E, (proj2 (proj2 (proj2 (proj2 (CPU_DeepSleep_frame _ env pm))))).
  rewrite !sleep_entries_app, (sleep_entries_none seg Hseg).
  cbn. now rewrite app_nil_r.
Qed.


(** ** Passes of an idle system *)

Lemma elapsed_after (d : Z) (pm : PowerManager) :
  0 <= d < 2 ^ 32 -> elapsed (uint32 (lastLoopTime pm + d)) pm = d.
Proof.
  intros Hd. unfold elapsed, uint32.
  rewrite Zminus_mod_idemp_l.
  replace (lastLoopTime pm + d - lastLoopTime pm) with d by lia.
  now apply Z.mod_small.
Qed.

Lemma unheld_nobody (pm : PowerManager) (t : PDType) :
  unheld (fun _ => false) pm t.
Proof. intros ps _ H. discriminate H. Qed.

Lemma Loop_awake_domains_idle (timeNow : Z) (pm : PowerManager) :
  coherent pm ->
  domains (Loop_awake timeNow (fun _ => false) pm)
  = map (fun pd => snd (CheckTimeout (elapsed timeNow pm) pd)) (domains pm).
Proof.
  intros Hc. rewrite Loop_awake_domains. apply map_ext_in. intros pd Hpd.
  apply (check_dom_free _ (fun _ => false) pm pd Hc Hpd), unheld_nobody.
Qed.

Lemma Loop_awake_same_state (timeNow : Z)
    (HoldPower : PowerSubscriber -> bool) (pm : PowerManager) :
  (snd (Loop_check (elapsed timeNow pm) HoldPower pm) =? powerState pm) = true ->
  powerState (Loop_awake timeNow HoldPower pm) = powerState pm.
Proof. intros E. unfold Loop_awake. now rewrite E. Qed.

Lemma CheckTimeout_advance (d S : Z) (pd : PowerDomain) :
  0 <= d ->
  snd (CheckTimeout d (advance S pd)) = advance (S + d) pd.
Proof.
  intros Hd. unfold advance, CheckTimeout.
  cbn [countdownTimer set_countdownTimer].
  destruct (Z.leb_spec (countdownTimer pd) S) as [H1|H1].
  - cbn. destruct (Z.leb_spec (countdownTimer pd) (S + d)); [reflexivity|lia].
  - destruct (Z.eqb_spec (countdownTimer pd - S) 0) as [H2|H2]; [lia|].
    destruct (Z.leb_spec (countdownTimer pd - S) d) as [H3|H3];
      destruct (Z.leb_spec (countdownTimer pd) (S + d)) as [H4|H4];
      try lia; unfold set_countdownTimer; cbn [snd pd_id pd_name pd_timeout].
    + reflexivity.
    + f_equal. lia.
Qed.

Lemma advance_0 (pd : PowerDomain) : 0 < countdownTimer pd -> advance 0 pd = pd.
Proof.
  intros H. unfold advance.
  destruct (Z.leb_spec (countdownTimer pd) 0); [lia|].
  rewrite Z.sub_0_r. now destruct pd.
Qed.

Lemma total_app (a b : list Z) : total (a ++ b) = total a + total b.
Proof.
  unfold total. induction a as [|x a IH]; cbn; [reflexivity|].
  rewrite IH. lia.
Qed.

Lemma total_nonneg (l : list Z) :
  Forall (fun x => 0 <= x < PWRMAN_MINTIMEOUT) l -> 0 <= total l.
Proof.
  unfold total. induction 1 as [|x l Hx _ IH]; cbn; lia.
Qed.

(** A pass in which some timer outlasts the elapsed time. *)
Lemma idle_pass_awake (d : Z) (env : SleepEnv) (pm : PowerManager) :
  Inv pm -> 0 <= d < PWRMAN_MINTIMEOUT ->
  Exists (fun pd => d < countdownTimer pd) (domains pm) ->
  let pm' := Loop (uint32 (lastLoopTime pm + d)) (fun _ => false) env pm in
  Inv pm'
  /\ domains pm' = map (fun pd => snd (CheckTimeout d pd)) (domains pm)
  /\ sleep_entries (trace pm') = sleep_entries (trace pm).
Proof.
  intros HI Hd Hex pm'. subst pm'.
  set (t := uint32 (lastLoopTime pm + d)).
  assert (El : elapsed t pm = d).
  { apply elapsed_after. unfold PWRMAN_MINTIMEOUT in Hd. lia. }
  apply Exists_exists in Hex. destruct Hex as [pd [Hpd Hlt]].
  assert (Hne : domains pm <> [])
    by (intros E; rewrite E in Hpd; destruct Hpd).
  assert (Hl : elapsed t pm < PWRMAN_MINTIMEOUT) by (rewrite El; lia).
  pose proof (Loop_awake_Inv t (fun _ => false) pm HI) as HI4.
  pose proof (Loop_awake_domains_idle t pm (proj1 HI)) as Ed4.
  rewrite El in Ed4.
  assert (Hin4 : In (snd (CheckTimeout d pd))
                   (domains (Loop_awake t (fun _ => false) pm))).
  { rewrite Ed4. apply in_map_iff. exists pd. now split. }
  assert (Hon4 : is_on (pd_id pd)
                   (powerState (Loop_awake t (fun _ => false) pm)) = true).
  { destruct HI4 as [[_ [_ Hm4]] _]. rewrite Forall_forall in Hm4.
    pose proof (Hm4 _ Hin4) as H4. unfold timer_matches in H4.
    rewrite CheckTimeout_id in H4. rewrite H4.
    unfold CheckTimeout.
    destruct (Z.eqb_spec (countdownTimer pd) 0); [lia|].
    destruct (Z.leb_spec (countdownTimer pd) d); [lia|].
    cbn. apply negb_true_iff, Z.eqb_neq. lia. }
  rewrite (Loop_stays_awake t (fun _ => false) env pm (pd_id pd) Hne Hl Hon4).
  split; [exact HI4|]. split; [exact Ed4|]. apply Loop_awake_no_sleep.
Qed.

Lemma Loop_sleep_entry (env : SleepEnv) (pm : PowerManager) :
  powerState pm = 0 ->
  sleep_entries (trace (Loop_sleep env pm)) = sleep_entries (trace pm) ++ [0].
Proof.
  intros E0. unfold Loop_sleep.
  rewrite (sleep_then_wake_entries env _ (fun p => p))
    by (intros p; apply extends_refl).
  destruct ULTRAPROFFIE_VERSION_L;
    cbn [emit with_powerState trace powerState];
    rewrite ?sleep_entries_app; cbn; rewrite ?app_nil_r, ?E0; reflexivity.
Qed.

(** The pass in which the last timers run out. *)
Lemma idle_pass_sleep (d : Z) (env : SleepEnv) (pm : PowerManager) :
  Inv pm -> 0 <= d < PWRMAN_MINTIMEOUT ->
  Forall (fun pd => countdownTimer pd <= d) (domains pm) ->
  Exists (fun pd => countdownTimer pd <> 0) (domains pm) ->
  let t := uint32 (lastLoopTime pm + d) in
  let pm4 := Loop_awake t (fun _ => false) pm in
  Loop t (fun _ => false) env pm = Loop_sleep env pm4
  /\ Inv pm4
  /\ powerState pm4 = 0
  /\ domains pm4 = map (set_countdownTimer 0) (domains pm)
  /\ sleep_entries (trace pm4) = sleep_entries (trace pm).
Proof.
  intros HI Hd Hall Hex t pm4.
  assert (El : elapsed t pm = d).
  { apply elapsed_after. unfold PWRMAN_MINTIMEOUT in Hd. lia. }
  apply Exists_exists in Hex. destruct Hex as [pd [Hpd Hnz]].
  assert (Hne : domains pm <> [])
    by (intros E; rewrite E in Hpd; destruct Hpd).
  assert (Hl : elapsed t pm < PWRMAN_MINTIMEOUT) by (rewrite El; lia).
  pose proof (Loop_awake_Inv t (fun _ => false) pm HI) as HI4. fold pm4 in HI4.
  pose proof (Loop_awake_domains_idle t pm (proj1 HI)) as Ed4.
  rewrite El in Ed4. fold pm4 in Ed4.
  assert (Ed4' : domains pm4 = map (set_countdownTimer 0) (domains pm)).
  { rewrite Ed4. apply map_ext_in. intros q Hq.
    rewrite Forall_forall in Hall. specialize (Hall q Hq).
    unfold CheckTimeout.
    destruct (Z.eqb_spec (countdownTimer q) 0) as [E|E].
    - cbn [snd]. destruct q as [qi qn qt qc]. cbn in E. now rewrite E.
    - destruct (Z.leb_spec (countdownTimer q) d); [reflexivity|lia]. }
  assert (E0 : powerState pm4 = 0).
  { destruct HI4 as [[_ [Ho4 Hm4]] _].
    apply (owned_all_off _ _ Ho4). intros u Hu.
    apply in_map_iff in Hu. destruct Hu as [q [<- Hq]].
    rewrite Forall_forall in Hm4. rewrite (Hm4 q Hq).
    rewrite Ed4' in Hq. apply in_map_iff in Hq.
    now destruct Hq as [q0 [<- _]]. }
  assert (Hon : is_on (pd_id pd) (powerState pm) = true).
  { destruct HI as [[_ [_ Hm]] _]. rewrite Forall_forall in Hm.
    rewrite (Hm pd Hpd). now apply negb_true_iff, Z.eqb_neq. }
  split; [|split; [exact HI4|split; [exact E0|split; [exact Ed4'|]]]].
  - rewrite (Loop_unfold t (fun _ => false) env pm Hne Hl). fold pm4.
    rewrite E0. cbn [Z.eqb negb]. rewrite orb_false_r.
    destruct (snd (Loop_check (elapsed t pm) (fun _ => false) pm)
              =? powerState pm) eqn:En; [|reflexivity].
    apply Loop_awake_same_state in En. fold pm4 in En.
    rewrite E0 in En. rewrite <- En, is_on_0 in Hon. discriminate Hon.
  - apply Loop_awake_no_sleep.
Qed.

(** Any number of passes before the last timer runs out. *)
Lemma idle_passes_awake (env : SleepEnv) (ds0 : list PowerDomain) :
  forall deltas S pm,
    Inv pm -> domains pm = map (advance S) ds0 ->
    Forall (fun x => 0 <= x < PWRMAN_MINTIMEOUT) deltas ->
    Exists (fun pd => S + total deltas < countdownTimer pd) ds0 ->
    Inv (idle_passes deltas env pm)
    /\ domains (idle_passes deltas env pm)
       = map (advance (S + total deltas)) ds0
    /\ sleep_entries (trace (idle_passes deltas env pm))
       = sleep_entries (trace pm).
Proof.
  induction deltas as [|d deltas IH]; intros S pm HI Eds Hall Hex.
  - change (total []) with 0. cbn [idle_passes]. rewrite Z.add_0_r.
    split; [exact HI|]. split; [exact Eds|reflexivity].
  - inversion Hall as [|? ? Hd Hall']; subst.
    pose proof (total_nonneg deltas Hall') as Hnn.
    change (total (d :: deltas)) with (d + total deltas) in *.
    cbn [idle_passes].
    destruct (idle_pass_awake d env pm HI Hd) as [HI1 [Ed1 Es1]].
    { rewrite Eds. apply Exists_exists in Hex. destruct Hex as [pd [Hpd Hlt]].
      apply Exists_exists. exists (advance S pd).
      split; [apply in_map_iff; exists pd; now split|].
      unfold advance. cbn [countdownTimer set_countdownTimer].
      destruct (Z.leb_spec (countdownTimer pd) S); lia. }
    destruct (IH (S + d) _ HI1) as [HI2 [Ed2 Es2]].
    + rewrite Ed1, Eds, map_map. apply map_ext. intros pd.
      apply CheckTimeout_advance. lia.
    + exact Hall'.
    + eapply Exists_impl; [|exact Hex]. cbn beta. intros pd. lia.
    + split; [exact HI2|]. split.
      * rewrite Ed2. f_equal. f_equal. lia.
      * now rewrite Es2.
Qed.

Lemma idle_passes_app (a b : list Z) (env : SleepEnv) (pm : PowerManager) :
  idle_passes (a ++ b) env pm = idle_passes b env (idle_passes a env pm).
Proof.
  revert pm. induction a as [|d a IH]; intros pm; [reflexivity|].
  cbn [app idle_passes]. apply IH.
Qed.

(** ** The interrupt that ends the stop *)

Lemma wait_for_interrupt_counted (w : WakeIRQ) :
  forall alarms pm,
    wakeUpSource
      (wait_for_interrupt alarms w pm)
    = (if existsb (fun c => c)
            (third_alarms
               (repeat false (Z.to_nat (countSec pm)) ++ alarms))
       then wakeUp_rtc else source_of w)
    \/ ~ (0 <= countSec pm <= 2).
Proof.
  induction alarms as [|c rest IH]; intros pm.
  - destruct (Z.eq_dec (countSec pm) 0) as [E|E];
      [|destruct (Z.eq_dec (countSec pm) 1) as [E1|E1];
        [|destruct (Z.eq_dec (countSec pm) 2) as [E2|E2]; [|right; lia]]];
      left; rewrite ?E, ?E1, ?E2; now destruct w.
  - cbn [wait_for_interrupt]. unfold pwrWakeUp_RTC.
    cbn [with_countSec countSec].
    destruct (Z.eq_dec (countSec pm) 0) as [E|E];
      [|destruct (Z.eq_dec (countSec pm) 1) as [E1|E1];
        [|destruct (Z.eq_dec (countSec pm) 2) as [E2|E2]; [|right; lia]]].
    + rewrite E. cbn. destruct (IH (with_countSec 1 pm)) as [H|H].
      * left. exact H.
      * cbn in H. lia.
    + rewrite E1. cbn. destruct (IH (with_countSec 2 pm)) as [H|H].
      * left. exact H.
      * cbn in H. lia.
    + rewrite E2. cbn. destruct c.
      * left. reflexivity.
      * destruct (IH (with_countSec 0 pm)) as [H|H].
        -- left. exact H.
        -- cbn in H. lia.
Qed.

Lemma CPU_DeepSleep_source (STOPEntry : Z) (env : SleepEnv)
    (pm : PowerManager) :
  wakeUpSource (CPU_DeepSleep STOPEntry env pm) = woken_by rtc_armed env.
Proof.
  unfold CPU_DeepSleep, woken_by, CPU_DeepSleep_enter, initWakeups.
  destruct rtc_armed; cbn [andb].
  - match goal with
    | |- context [wait_for_interrupt ?a ?w ?p] =>
        destruct (wait_for_interrupt_counted w a p) as [H|H]
    end.
    + exact H.
    + cbn in H. lia.
  - now destruct (wake_irq env).
Qed.

Lemma woken_by_cases (armed : bool) (env : SleepEnv) :
  woken_by armed env <> wakeUp_none
  /\ (woken_by armed env = wakeUp_rtc -> armed = true).
Proof.
  unfold woken_by. destruct armed; cbn [andb].
  - destruct (existsb _ _); [split; [discriminate|reflexivity]|].
    destruct (wake_irq env); split; discriminate.
  - destruct (wake_irq env); split; discriminate.
Qed.


(** ** Going to sleep *)

Lemma Activate_result_bits (m : Z) (pm : PowerManager) (pd : PowerDomain) :
  distinct_flags (domains pm) -> In pd (domains pm) ->
  is_on (pd_id pd) (powerState (snd (Activate m pm)))
  = is_on (pd_id pd) (powerState pm) || and_nz (flag pd) m.
Proof.
  intros Hd Hpd. rewrite (Activate_form m pm Hd). cbn [snd].
  assert (E : powerState
                (if existsb (goes_on m (powerState pm)) (domains pm)
                 then fold_left On_Callback_body (subscribers pm)
                        (Activate_domains m pm)
                 else Activate_domains m pm)
              = powerState (Activate_domains m pm)).
  { destruct (existsb _ _); [|reflexivity].
    apply (On_Callbacks_frame (subscribers pm) (Activate_domains m pm)). }
  rewrite E. unfold Activate_domains. cbn [with_domains powerState].
  rewrite switch_on_bits.
  - rewrite existsb_same_flag by (apply Hd || exact Hpd).
    unfold goes_on. destruct (is_on (pd_id pd) (powerState pm));
      destruct (and_nz (flag pd) m); reflexivity.
  - apply (distinct_flags_not_none (domains pm)); [exact Hd|].
    now apply in_map.
Qed.

Lemma visits_act_extends (P : Event -> bool) (ds ds' : list PowerDomain)
    (pm pm' : PowerManager) :
  (forall t b, P (EvSetPower t b) = true) ->
  visits act ds pm ds' pm' -> extends P pm pm'.
Proof.
  intros HP Hv. induction Hv as [s|pd rest s pd' s1 rest' s2 Hs Hv IH].
  - apply extends_refl.
  - eapply extends_trans; [|exact IH].
    destruct Hs as [|t|Hon].
    + apply extends_refl.
    + destruct (is_on (pd_id pd) (powerState s)); [apply extends_refl|].
      unfold power_on.
      apply extends_trans with (b := emit (EvSetPower (pd_id pd) true) s);
        [apply extends_emit, HP|now apply extends_frame].
    + unfold power_off.
      apply extends_trans with (b := emit (EvSetPower (pd_id pd) false) s);
        [apply extends_emit, HP|now apply extends_frame].
Qed.

Lemma RequestPower_no_sleep (ps : PowerSubscriber)
    (timeout_ : option (list Z)) (pm : PowerManager) (r : bool)
    (pm' : PowerManager) :
  RequestPower ps timeout_ pm = Some (r, pm') -> extends not_sleep pm pm'.
Proof.
  unfold RequestPower. intros H.
  destruct (domains pm) as [|d0 ds0] eqn:Eds.
  - injection H as <- <-. apply extends_refl.
  - rewrite <- Eds in H.
    destruct (RequestPower_loop ps (domains pm) timeout_ pm false)
      as [[[ds pm1] r1]|] eqn:E; [|discriminate H].
    injection H as <- <-.
    pose proof (visits_act_extends not_sleep _ _ _ _ (fun _ _ => eq_refl)
                  (RequestPower_loop_visits _ _ _ _ _ _ _ _ E)) as H1.
    assert (H2 : extends not_sleep pm (with_domains ds pm1)).
    { eapply extends_trans; [exact H1|now apply extends_frame]. }
    destruct r1; [|exact H2].
    eapply extends_trans; [exact H2|now apply extends_emit].
Qed.

Lemma sub_request_no_sleep (arg : string) :
  forall ss pm pm',
    sub_request_loop arg ss pm = Some pm' -> extends not_sleep pm pm'.
Proof.
  induction ss as [|ps rest IH]; intros pm pm' H.
  - simpl in H. injection H as <-. apply extends_refl.
  - cbn [sub_request_loop] in H.
    destruct (String.eqb arg (ps_name ps)); [|now apply IH].
    destruct (RequestPower ps None pm) as [[r pm1]|] eqn:E; [|discriminate H].
    injection H as <-. now apply (RequestPower_no_sleep _ _ _ _ _ E).
Qed.

Lemma entries_of_extends (pm pm' : PowerManager) :
  extends not_sleep pm pm' ->
  sleep_entries (trace pm') = sleep_entries (trace pm) ++ [].
Proof.
  intros [seg [E H]]. rewrite E, sleep_entries_app.
  now rewrite (sleep_entries_none seg H).
Qed.

Lemma Parse_deepsleep_entries (saberIsOn : bool) (env : SleepEnv)
    (pm : PowerManager) :
  Inv pm ->
  sleep_entries (trace (Parse_deepsleep saberIsOn env pm))
  = sleep_entries (trace pm)
    ++ (if saberIsOn then []
        else match domains pm with [] => [] | _ :: _ => [0] end).
Proof.
  intros HI. unfold Parse_deepsleep.
  destruct saberIsOn; [now rewrite app_nil_r|].
  destruct (domains pm) as [|d0 ds0] eqn:Eds; [now rewrite app_nil_r|].
  destruct (deepsleep_forced_facts pm HI) as [Etr [E0 _]].
  change (sleep_entries
            (trace (snd (Activate PWRMAN_STARTON
                           (emit EvFlushTx
                              (PrintWakeUpMsg
                                 (CPU_DeepSleep PWR_STOPENTRY_WFI env
                                    (deepsleep_forced pm)))))))
          = sleep_entries (trace pm) ++ [0]).
  rewrite (sleep_then_wake_entries env (deepsleep_forced pm)
             (emit EvFlushTx)) by (intros p; now apply extends_emit).
  rewrite E0. f_equal. rewrite Etr, !sleep_entries_app.
  rewrite (sleep_entries_none (SetPower_calls false _)).
  - rewrite (sleep_entries_none (map EvPwrOff_Callback _)).
    + cbn. now rewrite app_nil_r.
    + apply forallb_forall. intros e He.
      apply in_map_iff in He. now destruct He as [ps [<- _]].
  - apply forallb_forall. intros e He. unfold SetPower_calls in He.
    apply in_map_iff in He. now destruct He as [pd [<- _]].
Qed.

Lemma Loop_entries (timeNow : Z) (HoldPower : PowerSubscriber -> bool)
    (env : SleepEnv) (pm : PowerManager) :
  exists entries,
    sleep_entries (trace (Loop timeNow HoldPower env pm))
    = sleep_entries (trace pm) ++ entries
    /\ Forall (fun live => live = 0) entries.
Proof.
  destruct (domains pm) as [|d0 ds0] eqn:Eds.
  { exists []. unfold Loop. rewrite Eds. now rewrite app_nil_r. }
  assert (Hne : domains pm <> []) by congruence.
  destruct (Z.lt_ge_cases (elapsed timeNow pm) PWRMAN_MINTIMEOUT) as [Hl|Hl].
  - rewrite (Loop_unfold timeNow HoldPower env pm Hne Hl).
    destruct (snd (Loop_check (elapsed timeNow pm) HoldPower pm)
              =? powerState pm); cbn [orb].
    { exists []. now rewrite Loop_awake_no_sleep, app_nil_r. }
    destruct (Z.eqb_spec (powerState (Loop_awake timeNow HoldPower pm)) 0)
      as [E0|E0]; cbn [negb].
    + exists [0]. rewrite (Loop_sleep_entry env _ E0).
      rewrite Loop_awake_no_sleep. split; [reflexivity|].
      now constructor.
    + exists []. now rewrite Loop_awake_no_sleep, app_nil_r.
  - exists []. rewrite (Loop_skipped timeNow HoldPower env pm Hne Hl).
    cbn. now rewrite app_nil_r.
Qed.

Lemma do_call_entries (c : Call) (pm pm' : PowerManager) :
  Inv pm -> do_call c pm = Some pm' ->
  exists entries,
    sleep_entries (trace pm') = sleep_entries (trace pm) ++ entries
    /\ Forall (fun live => live = 0) entries.
Proof.
  intros HI H.
  assert (Hex : forall p, extends not_sleep pm p ->
            exists entries,
              sleep_entries (trace p) = sleep_entries (trace pm) ++ entries
              /\ Forall (fun live => live = 0) entries).
  { intros p Hp. exists []. split; [now apply entries_of_extends|constructor]. }
  destruct c as [|t h e|m|ps ts|cmd arg sab e]; cbn [do_call] in H.
  - injection H as <-. apply Hex. unfold Setup.
    eapply extends_trans; [|now apply Activate_extends].
    apply extends_fold. intros pd p. now apply extends_emit.
  - injection H as <-. apply Loop_entries.
  - injection H as <-. apply Hex. now apply Activate_extends.
  - destruct (RequestPower ps ts pm) as [[r p]|] eqn:E; [|discriminate H].
    injection H as <-. apply Hex. now apply (RequestPower_no_sleep _ _ _ _ _ E).
  - destruct (Parse cmd arg sab e pm) as [[r p]|] eqn:E; [|discriminate H].
    injection H as <-. unfold Parse in E.
    destruct (DIAGNOSE_POWER && String.eqb cmd "pwr-domains").
    { injection E as <- <-. apply Hex, extends_refl. }
    destruct (DIAGNOSE_POWER && String.eqb cmd "pwr-dom-request").
    { destruct (20 <=? Z.of_nat (String.length arg)); [discriminate E|].
      destruct (domains pm) as [|d0 ds0] eqn:Eds.
      - injection E as <- <-. apply Hex, extends_refl.
      - rewrite <- Eds in E.
        destruct (dom_request_loop (strtok arg) (domains pm) pm)
          as [[ds pm1]|] eqn:El; [|discriminate E].
        injection E as <- <-. apply Hex.
        eapply extends_trans; [|now apply extends_frame].
        apply (visits_act_extends not_sleep _ _ _ _ (fun _ _ => eq_refl)
                 (dom_request_loop_visits _ _ _ _ _ El)). }
    destruct (DIAGNOSE_POWER && String.eqb cmd "pwr-dom-off").
    { pose proof (dom_off_loop_visits arg (domains pm) pm) as Hv.
      destruct (dom_off_loop arg (domains pm) pm) as [ds pm1].
      cbn [fst snd] in Hv. injection E as <- <-. apply Hex.
      eapply extends_trans; [|now apply extends_frame].
      apply (visits_act_extends not_sleep _ _ _ _ (fun _ _ => eq_refl) Hv). }
    destruct (DIAGNOSE_POWER && String.eqb cmd "pwr-subs").
    { injection E as <- <-. apply Hex, extends_refl. }
    destruct (DIAGNOSE_POWER && String.eqb cmd "pwr-sub-request").
    { destruct (sub_request_loop arg (subscribers pm) pm) as [pm1|] eqn:El;
        [|discriminate E].
      injection E as <- <-. apply Hex.
      now apply (sub_request_no_sleep _ _ _ _ El). }
    destruct (String.eqb cmd "deepsleep").
    { injection E as <- <-. rewrite (Parse_deepsleep_entries sab e pm HI).
      eexists. split; [reflexivity|].
      destruct sab; [constructor|].
      destruct (domains pm); repeat constructor. }
    injection E as <- <-. apply Hex, extends_refl.
Qed.

Lemma Loop_sleep_wake (env : SleepEnv) (pm : PowerManager) :
  Inv pm -> powerState pm = 0 ->
  rtc_armed && existsb (fun charging => charging)
                 (third_alarms (rtc_alarms env)) = false ->
  wake_irq env = irq_button ->
  wakeUpSource (Loop_sleep env pm) = wakeUp_button
  /\ forall pd, In pd (domains (Loop_sleep env pm)) ->
       is_on (pd_id pd) (powerState (Loop_sleep env pm))
       = and_nz (flag pd) PWRMAN_STARTON.
Proof.
  intros HI E0 Hal Hirq. unfold Loop_sleep.
  set (pmX := emit EvFlushTx
                (if ULTRAPROFFIE_VERSION_L
                 then with_powerState 0
                        (emit (EvSetPower pwr4_SD false)
                           (emit EvLSFS_End
                              (emit EvPublishContent (emit EvFlushTx pm))))
                 else emit EvFlushTx pm)).
  assert (EdX : domains pmX = domains pm)
    by (unfold pmX; now destruct ULTRAPROFFIE_VERSION_L).
  assert (EpX : powerState pmX = 0)
    by (unfold pmX; now destruct ULTRAPROFFIE_VERSION_L).
  set (pmW := PrintWakeUpMsg (CPU_DeepSleep PWR_STOPENTRY_WFI env pmX)).
  destruct (CPU_DeepSleep_frame PWR_STOPENTRY_WFI env pmX)
    as [C1 [_ [C3 _]]].
  destruct (PrintWakeUpMsg_frame (CPU_DeepSleep PWR_STOPENTRY_WFI env pmX))
    as [W1 [_ [W3 [_ W5]]]].
  assert (EdW : domains pmW = domains pm)
    by (unfold pmW; now rewrite W1, C1).
  assert (EpW : powerState pmW = 0)
    by (unfold pmW; now rewrite W3, C3).
  assert (EwW : wakeUpSource pmW = wakeUp_button).
  { unfold pmW. rewrite W5, CPU_DeepSleep_source. unfold woken_by.
    rewrite Hal, Hirq. reflexivity. }
  assert (HdW : distinct_flags (domains pmW)) by (rewrite EdW; apply HI).
  split.
  - now rewrite (Activate_result_wakeUpSource _ _ HdW).
  - intros pd Hpd. rewrite (Activate_result_domains _ _ HdW) in Hpd.
    apply in_map_iff in Hpd. destruct Hpd as [q [Eq Hq]].
    assert (Eid : pd_id pd = pd_id q).
    { rewrite <- Eq. destruct (goes_on _ _ q); [apply ResetTimeout_id|easy]. }
    unfold flag. rewrite Eid.
    rewrite (Activate_result_bits _ _ q HdW Hq), EpW, is_on_0. reflexivity.
Qed.

Lemma CPU_DeepSleep_enter_source (e : Z) (pm : PowerManager) :
  wakeUpSource (CPU_DeepSleep_enter e pm) = wakeUp_none.
Proof.
  unfold CPU_DeepSleep_enter, initWakeups. now destruct rtc_armed.
Qed.

Lemma idle_passes_skipped (env : SleepEnv) (deltas : list Z) :
  forall pm,
    domains pm <> [] ->
    Forall (fun x => PWRMAN_MINTIMEOUT <= x < 2 ^ 32) deltas ->
    domains (idle_passes deltas env pm) = domains pm
    /\ powerState (idle_passes deltas env pm) = powerState pm
    /\ trace (idle_passes deltas env pm) = trace pm
    /\ wakeUpSource (idle_passes deltas env pm) = wakeUpSource pm.
Proof.
  induction deltas as [|d rest IH]; intros pm Hne Hall; [now repeat split|].
  inversion Hall as [|? ? Hd Hrest]; subst.
  cbn [idle_passes].
  rewrite Loop_skipped;
    [|exact Hne
     |rewrite elapsed_after; unfold PWRMAN_MINTIMEOUT in *; lia].
  destruct (IH (with_lastLoopTime (uint32 (lastLoopTime pm + d)) pm))
    as [E1 [E2 [E3 E4]]]; [exact Hne|exact Hrest|].
  now rewrite E1, E2, E3, E4.
Qed.

(** C8, as the code has it. Whatever is called in a reachable state, the
    stop mode is entered only with an empty power map, and entering it
    resets the wake-up source first. Starting with every listed domain on,
    passes with nobody holding power that each measure less than
    [PWRMAN_MINTIMEOUT], the last of which is the first to bring the
    counted time up to every timer, switch everything off and enter the
    stop mode once, in that last pass; when the button interrupt ends the
    sleep, no alarm of the clock having ended it before, the wake-up source
    is the button and exactly the startup domains are on again. Passes that
    measure [PWRMAN_MINTIMEOUT] or more are skipped: however much time
    they let go by, no timer is counted down, nothing is switched off and
    the stop mode is not entered. *)
Theorem sleep_when_idle :
  (forall (c : Call) (pm pm' : PowerManager),
     Inv pm -> do_call c pm = Some pm' ->
     exists entries,
       sleep_entries (trace pm') = sleep_entries (trace pm) ++ entries
       /\ Forall (fun live => live = 0) entries)
  /\ (forall e pm, wakeUpSource (CPU_DeepSleep_enter e pm) = wakeUp_none)
  /\ (forall (pm : PowerManager) (deltas : list Z) (d : Z) (env : SleepEnv),
        Inv pm ->
        Forall (fun pd => 0 < countdownTimer pd) (domains pm) ->
        Forall (fun x => 0 <= x < PWRMAN_MINTIMEOUT) (deltas ++ [d]) ->
        Exists (fun pd => total deltas < countdownTimer pd) (domains pm) ->
        Forall (fun pd => countdownTimer pd <= total deltas + d) (domains pm) ->
        rtc_armed && existsb (fun charging => charging)
                       (third_alarms (rtc_alarms env)) = false ->
        wake_irq env = irq_button ->
        let pm' := idle_passes (deltas ++ [d]) env pm in
        Forall (fun pd => is_on (pd_id pd) (powerState pm) = true) (domains pm)
        /\ sleep_entries (trace pm') = sleep_entries (trace pm) ++ [0]
        /\ wakeUpSource pm' = wakeUp_button
        /\ (forall pd, In pd (domains pm') ->
              is_on (pd_id pd) (powerState pm')
              = and_nz (flag pd) PWRMAN_STARTON)
        /\ Inv pm')
  /\ (forall (pm : PowerManager) (deltas : list Z) (env : SleepEnv),
        domains pm <> [] ->
        Forall (fun x => PWRMAN_MINTIMEOUT <= x < 2 ^ 32) deltas ->
        let pm' := idle_passes deltas env pm in
        domains pm' = domains pm /\ powerState pm' = powerState pm
        /\ trace pm' = trace pm).
Proof.
  split; [|split; [|split]].
  - intros c pm pm' HI H. now apply (do_call_entries c).
  - apply CPU_DeepSleep_enter_source.
  - intros pm deltas d env HI Hpos Hall Hex Hle Hal Hirq pm'. subst pm'.
    apply Forall_app in Hall. destruct Hall as [Hall Hd].
    inversion Hd as [|? ? Hd' _]; subst.
    rewrite idle_passes_app. cbn [idle_passes].
    destruct (idle_passes_awake env (domains pm) deltas 0 pm HI)
      as [HI1 [Ed1 Es1]].
    { symmetry. rewrite <- (map_id (domains pm)) at 2.
      apply map_ext_in. intros pd Hpd. apply advance_0.
      rewrite Forall_forall in Hpos. now apply Hpos. }
    { exact Hall. }
    { exact Hex. }
    rewrite Z.add_0_l in Ed1.
    set (pm1 := idle_passes deltas env pm) in *.
    pose proof (total_nonneg deltas Hall) as Hnn.
    destruct (idle_pass_sleep d env pm1 HI1 Hd') as [EL [HI4 [E0 [Ed4 Es4]]]].
    { rewrite Ed1. rewrite Forall_forall in *. intros q Hq.
      apply in_map_iff in Hq. destruct Hq as [pd [<- Hpd]].
      specialize (Hle pd Hpd). unfold advance.
      cbn [countdownTimer set_countdownTimer].
      destruct (Z.leb_spec (countdownTimer pd) (total deltas)); lia. }
    { rewrite Ed1. apply Exists_exists in Hex. destruct Hex as [pd [Hpd Hlt]].
      apply Exists_exists. exists (advance (total deltas) pd).
      split; [apply in_map_iff; exists pd; now split|].
      unfold advance. cbn [countdownTimer set_countdownTimer].
      destruct (Z.leb_spec (countdownTimer pd) (total deltas)); lia. }
    cbv zeta in EL. rewrite EL.
    set (pm4 := Loop_awake (uint32 (lastLoopTime pm1 + d)) (fun _ => false) pm1)
      in *.
    destruct (Loop_sleep_wake env pm4 HI4 E0 Hal Hirq) as [Ew Hbits].
    split; [|split; [|split; [|split]]].
    + destruct HI as [[_ [_ Hm]] _]. rewrite Forall_forall in *.
      intros pd Hpd. rewrite (Hm pd Hpd).
      specialize (Hpos pd Hpd). apply negb_true_iff, Z.eqb_neq. lia.
    + now rewrite (Loop_sleep_entry env pm4 E0), Es4, Es1.
    + exact Ew.
    + exact Hbits.
    + now apply Loop_sleep_Inv.
  - intros pm deltas env Hne Hall pm'. subst pm'.
    destruct (idle_passes_skipped env deltas pm Hne Hall) as [E1 [E2 [E3 _]]].
    now repeat split.
Qed.

(** * Further properties of the power manager *)

(** ** Reachable states *)

(** X1. In every state the power manager reaches from the constructed
    registries, a listed domain is marked in [powerState] exactly while
    its countdown timer is not zero, every bit of [powerState] is the flag
    of a listed domain, and the listed domains have flags of their own.
    ([PublishContent] and the other calls that leave the power manager are
    taken not to call back into it.) *)
Theorem reachable_states_are_coherent :
  forall (cs : list Call) (pm0 pm : PowerManager),
    constructed pm0 ->
    do_calls cs pm0 = Some pm ->
    (forall pd, In pd (domains pm) ->
       (is_on (pd_id pd) (powerState pm) = true <-> countdownTimer pd <> 0))
    /\ (forall t, is_on t (powerState pm) = true ->
          exists pd, In pd (domains pm) /\ pd_id pd = t)
    /\ NoDup (map pd_id (domains pm))
    /\ (forall pd, In pd (domains pm) -> pd_id pd <> pwr4_none).
Proof.
  intros cs pm0 pm Hc Hrun.
  pose proof (do_calls_Inv cs pm0 pm Hrun (constructed_Inv pm0 Hc))
    as [[Hd [Ho Ht]] _].
  split; [|split; [|split]].
  - intros pd Hpd. rewrite Forall_forall in Ht. specialize (Ht pd Hpd).
    unfold timer_matches in Ht. rewrite Ht.
    destruct (countdownTimer pd =? 0) eqn:E; cbn [negb].
    + apply Z.eqb_eq in E. split; [discriminate|congruence].
    + apply Z.eqb_neq in E. split; [auto|reflexivity].
  - intros t H. apply (owned_is_on _ _ _ Ho) in H.
    apply in_map_iff in H. destruct H as [pd [E Hpd]]. now exists pd.
  - apply Hd.
  - intros pd Hpd. apply (distinct_flags_not_none (domains pm)); [exact Hd|].
    now apply in_map.
Qed.

(** ** The registries are fixed *)

Lemma CheckTimeout_static (l : Z) (pd : PowerDomain) :
  static (snd (CheckTimeout l pd)) = static pd.
Proof.
  unfold CheckTimeout.
  destruct (countdownTimer pd =? 0); [reflexivity|].
  destruct (countdownTimer pd <=? l); reflexivity.
Qed.

Lemma ResetTimeout_static (t : Z) (pd : PowerDomain) :
  static (ResetTimeout t pd) = static pd.
Proof.
  unfold static.
  now rewrite ResetTimeout_id, ResetTimeout_name, ResetTimeout_default.
Qed.

Lemma same_registry_refl (pm : PowerManager) : same_registry pm pm.
Proof. now split. Qed.

Lemma same_registry_trans (a b c : PowerManager) :
  same_registry a b -> same_registry b c -> same_registry a c.
Proof. intros [A1 A2] [B1 B2]. split; congruence. Qed.

Lemma same_registry_frame (pm pm' : PowerManager) :
  domains pm' = domains pm -> subscribers pm' = subscribers pm ->
  same_registry pm pm'.
Proof. intros E1 E2. unfold same_registry. now rewrite E1, E2. Qed.

(** The request, activation and command loops leave the registry alone,
    whatever they do to the visited domains. *)
Lemma visits_act_static (ds ds' : list PowerDomain) (pm pm' : PowerManager) :
  visits act ds pm ds' pm' ->
  map static ds' = map static ds
  /\ domains pm' = domains pm
  /\ subscribers pm' = subscribers pm
  /\ lastLoopTime pm' = lastLoopTime pm
  /\ wakeUpSource pm' = wakeUpSource pm.
Proof.
  induction 1 as [s|pd rest s pd' s' rest' s'' Hstep _ IH].
  - now repeat split.
  - destruct IH as [E1 [E2 [E3 [E4 E5]]]].
    assert (Hs : static pd' = static pd
                 /\ domains s' = domains s /\ subscribers s' = subscribers s
                 /\ lastLoopTime s' = lastLoopTime s
                 /\ wakeUpSource s' = wakeUpSource s).
    { destruct Hstep as [|t|Hon].
      - now repeat split.
      - split; [apply ResetTimeout_static|].
        destruct (is_on (pd_id pd) (powerState s)); now repeat split.
      - now repeat split. }
    destruct Hs as [S1 [S2 [S3 [S4 S5]]]].
    cbn [map]. rewrite E1, S1. repeat split; congruence.
Qed.

Lemma Activate_registry (m : Z) (pm : PowerManager) :
  same_registry pm (snd (Activate m pm))
  /\ lastLoopTime (snd (Activate m pm)) = lastLoopTime pm
  /\ wakeUpSource (snd (Activate m pm)) = wakeUpSource pm.
Proof.
  unfold Activate. destruct (domains pm) as [|d0 ds0] eqn:Eds.
  - split; [apply same_registry_refl|now split].
  - rewrite <- Eds.
    pose proof (Activate_loop_visits m (domains pm) (pm, false)) as Hv.
    destruct (for_domains (Activate_body m) (domains pm) (pm, false))
      as [ds [pm1 r]].
    cbn [fst snd] in Hv.
    destruct (visits_act_static _ _ _ _ Hv) as [E1 [_ [E3 [E4 E5]]]].
    assert (H2 : same_registry pm (with_domains ds pm1)
                 /\ lastLoopTime (with_domains ds pm1) = lastLoopTime pm
                 /\ wakeUpSource (with_domains ds pm1) = wakeUpSource pm).
    { unfold same_registry.
      cbn [with_domains domains subscribers lastLoopTime wakeUpSource].
      now rewrite E1, E3, E4, E5. }
    cbn [with_domains subscribers].
    destruct (subscribers pm1) as [|s0 ss0] eqn:Ess; [exact H2|].
    destruct (negb r); [exact H2|].
    cbn [snd]. rewrite <- Ess.
    destruct (On_Callbacks_frame (subscribers pm1) (with_domains ds pm1))
      as [F1 [_ [F3 [F4 F5]]]].
    destruct H2 as [[H21 H22] [H23 H24]].
    unfold same_registry. rewrite F1, F3, F4, F5. now repeat split.
Qed.

Lemma RequestPower_registry (ps : PowerSubscriber)
    (timeout_ : option (list Z)) (pm : PowerManager) (r : bool)
    (pm' : PowerManager) :
  RequestPower ps timeout_ pm = Some (r, pm') ->
  same_registry pm pm'
  /\ lastLoopTime pm' = lastLoopTime pm
  /\ wakeUpSource pm' = wakeUpSource pm.
Proof.
  unfold RequestPower. destruct (domains pm) as [|d0 ds0] eqn:Eds.
  - intros E. injection E as _ <-.
    split; [apply same_registry_refl|now split].
  - rewrite <- Eds.
    destruct (RequestPower_loop ps (domains pm) timeout_ pm false)
      as [[[ds pm1] r1]|] eqn:El; [|discriminate].
    intros E. injection E as _ <-.
    apply RequestPower_loop_visits in El.
    destruct (visits_act_static _ _ _ _ El) as [E1 [_ [E3 [E4 E5]]]].
    unfold same_registry.
    destruct r1;
      cbn [emit with_domains domains subscribers lastLoopTime wakeUpSource];
      now rewrite E1, E3, E4, E5.
Qed.

Lemma emits_frame {A : Type} (f : A -> Event) (l : list A)
    (pm : PowerManager) :
  let pm' := fold_left (fun pm a => emit (f a) pm) l pm in
  domains pm' = domains pm /\ subscribers pm' = subscribers pm
  /\ powerState pm' = powerState pm /\ lastLoopTime pm' = lastLoopTime pm
  /\ wakeUpSource pm' = wakeUpSource pm
  /\ trace pm' = trace pm ++ map f l.
Proof.
  revert pm. induction l as [|a l IH]; intros pm.
  - cbn. now rewrite app_nil_r.
  - cbn [fold_left map]. destruct (IH (emit (f a) pm))
      as [E1 [E2 [E3 [E4 [E5 E6]]]]].
    cbn zeta. rewrite E1, E2, E3, E4, E5, E6.
    cbn [emit domains subscribers powerState lastLoopTime wakeUpSource trace].
    now rewrite <- app_assoc.
Qed.

Lemma Setup_registry (pm : PowerManager) :
  same_registry pm (Setup pm)
  /\ lastLoopTime (Setup pm) = lastLoopTime pm
  /\ wakeUpSource (Setup pm) = wakeUpSource pm.
Proof.
  unfold Setup.
  destruct (emits_frame (fun pd => EvDomainSetup (pd_id pd)) (domains pm) pm)
    as [E1 [E2 [_ [E4 [E5 _]]]]].
  cbn zeta in *.
  set (pm1 := fold_left _ (domains pm) pm) in *.
  destruct (Activate_registry PWRMAN_STARTON pm1) as [[A1 A2] [A3 A4]].
  unfold same_registry. rewrite A1, A2, A3, A4, E1, E2, E4, E5.
  now repeat split.
Qed.

Lemma check_dom_static (l s chk : Z) (pd : PowerDomain) :
  static (check_dom l s chk pd) = static pd.
Proof.
  unfold check_dom. destruct (checked s chk pd); [|reflexivity].
  apply CheckTimeout_static.
Qed.

Lemma Loop_awake_registry (timeNow : Z) (HoldPower : PowerSubscriber -> bool)
    (pm : PowerManager) :
  same_registry pm (Loop_awake timeNow HoldPower pm).
Proof.
  split; [|apply Loop_awake_frame].
  rewrite Loop_awake_domains, map_map. apply map_ext.
  intros pd. apply check_dom_static.
Qed.

Lemma Loop_sleep_registry (env : SleepEnv) (pm : PowerManager) :
  same_registry pm (Loop_sleep env pm)
  /\ lastLoopTime (Loop_sleep env pm) = lastLoopTime pm.
Proof.
  unfold Loop_sleep.
  set (pm1 := if ULTRAPROFFIE_VERSION_L then _ else _).
  assert (H1 : domains pm1 = domains pm /\ subscribers pm1 = subscribers pm
               /\ lastLoopTime pm1 = lastLoopTime pm).
  { subst pm1. destruct ULTRAPROFFIE_VERSION_L; now repeat split. }
  destruct H1 as [D1 [S1 L1]].
  destruct (CPU_DeepSleep_frame PWR_STOPENTRY_WFI env (emit EvFlushTx pm1))
    as [D2 [S2 [_ [L2 _]]]].
  destruct (PrintWakeUpMsg_frame
              (CPU_DeepSleep PWR_STOPENTRY_WFI env (emit EvFlushTx pm1)))
    as [D3 [S3 [_ [L3 _]]]].
  destruct (Activate_registry PWRMAN_STARTON
              (PrintWakeUpMsg
                 (CPU_DeepSleep PWR_STOPENTRY_WFI env (emit EvFlushTx pm1))))
    as [[A1 A2] [A3 _]].
  unfold same_registry. rewrite A1, A2, A3, D3, S3, L3, D2, S2, L2.
  cbn [emit domains subscribers lastLoopTime]. rewrite D1, S1, L1.
  now repeat split.
Qed.

Lemma Loop_registry (timeNow : Z) (HoldPower : PowerSubscriber -> bool)
    (env : SleepEnv) (pm : PowerManager) :
  same_registry pm (Loop timeNow HoldPower env pm).
Proof.
  destruct (domains pm) as [|d0 ds0] eqn:Eds.
  - unfold Loop. rewrite Eds. apply same_registry_refl.
  - assert (Hne : domains pm <> []) by congruence.
    destruct (Z.lt_ge_cases (elapsed timeNow pm) PWRMAN_MINTIMEOUT) as [Hl|Hl].
    + rewrite (Loop_unfold timeNow HoldPower env pm Hne Hl).
      destruct (_ || _).
      * apply Loop_awake_registry.
      * apply (same_registry_trans _ (Loop_awake timeNow HoldPower pm)).
        -- apply Loop_awake_registry.
        -- apply Loop_sleep_registry.
    + rewrite (Loop_skipped timeNow HoldPower env pm Hne Hl).
      now apply same_registry_frame.
Qed.

Lemma visits_act_registry (pm : PowerManager) (ds' : list PowerDomain)
    (pm' : PowerManager) :
  visits act (domains pm) pm ds' pm' ->
  same_registry pm (with_domains ds' pm')
  /\ lastLoopTime (with_domains ds' pm') = lastLoopTime pm.
Proof.
  intros Hv. destruct (visits_act_static _ _ _ _ Hv) as [E1 [_ [E3 [E4 _]]]].
  unfold same_registry. cbn [with_domains domains subscribers lastLoopTime].
  now rewrite E1, E3, E4.
Qed.

Lemma sub_request_loop_registry (arg : string) (ss : list PowerSubscriber)
    (pm pm' : PowerManager) :
  sub_request_loop arg ss pm = Some pm' ->
  same_registry pm pm' /\ lastLoopTime pm' = lastLoopTime pm.
Proof.
  induction ss as [|ps ss IH]; cbn [sub_request_loop].
  - intros E. injection E as <-. split; [apply same_registry_refl|easy].
  - destruct (String.eqb arg (ps_name ps)); [|exact IH].
    destruct (RequestPower ps None pm) as [[r pm1]|] eqn:E; [|discriminate].
    intros E'. injection E' as <-.
    destruct (RequestPower_registry _ _ _ _ _ E) as [H1 [H2 _]]. now split.
Qed.

Lemma Parse_deepsleep_registry (saberIsOn : bool) (env : SleepEnv)
    (pm : PowerManager) :
  same_registry pm (Parse_deepsleep saberIsOn env pm)
  /\ lastLoopTime (Parse_deepsleep saberIsOn env pm) = lastLoopTime pm.
Proof.
  unfold Parse_deepsleep.
  destruct saberIsOn; [split; [apply same_registry_refl|easy]|].
  destruct (domains pm) as [|d0 ds0] eqn:Eds;
    [split; [apply same_registry_refl|easy]|].
  clear d0 ds0 Eds.
  set (pm1 := foreach_domain force_off pm).
  assert (H1 : same_registry pm pm1 /\ lastLoopTime pm1 = lastLoopTime pm).
  { subst pm1. unfold foreach_domain.
    pose proof (force_off_all_visits (domains pm) pm) as Hv.
    destruct (for_domains force_off (domains pm) pm) as [ds pm2].
    now apply visits_act_registry. }
  destruct H1 as [[D1 S1] L1].
  destruct (emits_frame EvPwrOff_Callback (subscribers pm1) pm1)
    as [D2 [S2 [_ [L2 _]]]].
  cbn zeta in *. set (pm2 := fold_left _ (subscribers pm1) pm1) in *.
  destruct (CPU_DeepSleep_frame PWR_STOPENTRY_WFI env (emit EvFlushTx pm2))
    as [D3 [S3 [_ [L3 _]]]].
  destruct (PrintWakeUpMsg_frame
              (CPU_DeepSleep PWR_STOPENTRY_WFI env (emit EvFlushTx pm2)))
    as [D4 [S4 [_ [L4 _]]]].
  destruct (Activate_registry PWRMAN_STARTON
              (emit EvFlushTx
                 (PrintWakeUpMsg
                    (CPU_DeepSleep PWR_STOPENTRY_WFI env
                       (emit EvFlushTx pm2)))))
    as [[A1 A2] [A3 _]].
  unfold same_registry. rewrite A1, A2, A3.
  cbn [emit domains subscribers lastLoopTime].
  rewrite D4, S4, L4, D3, S3, L3.
  cbn [emit domains subscribers lastLoopTime].
  rewrite D2, S2, L2. now repeat split.
Qed.

Lemma Parse_registry (cmd arg : string) (saberIsOn : bool) (env : SleepEnv)
    (pm : PowerManager) (b : bool) (pm' : PowerManager) :
  Parse cmd arg saberIsOn env pm = Some (b, pm') ->
  same_registry pm pm' /\ lastLoopTime pm' = lastLoopTime pm.
Proof.
  assert (Hsame : forall b0, Some (b0, pm) = Some (b, pm') ->
            same_registry pm pm' /\ lastLoopTime pm' = lastLoopTime pm).
  { intros b0 E. injection E as _ <-. split; [apply same_registry_refl|easy]. }
  unfold Parse.
  destruct (DIAGNOSE_POWER && String.eqb cmd "pwr-domains"); [apply Hsame|].
  destruct (DIAGNOSE_POWER && String.eqb cmd "pwr-dom-request").
  { destruct (20 <=? Z.of_nat (String.length arg)); [discriminate|].
    destruct (domains pm) as [|d0 ds0] eqn:Eds; [apply Hsame|].
    rewrite <- Eds.
    destruct (dom_request_loop (strtok arg) (domains pm) pm)
      as [[ds pm1]|] eqn:E; [|discriminate].
    intros E'. injection E' as _ <-.
    apply dom_request_loop_visits in E. now apply visits_act_registry. }
  destruct (DIAGNOSE_POWER && String.eqb cmd "pwr-dom-off").
  { pose proof (dom_off_loop_visits arg (domains pm) pm) as Hv.
    destruct (dom_off_loop arg (domains pm) pm) as [ds pm1].
    intros E'. injection E' as _ <-. now apply visits_act_registry. }
  destruct (DIAGNOSE_POWER && String.eqb cmd "pwr-subs"); [apply Hsame|].
  destruct (DIAGNOSE_POWER && String.eqb cmd "pwr-sub-request").
  { destruct (sub_request_loop arg (subscribers pm) pm) as [pm1|] eqn:E;
      [|discriminate].
    intros E'. injection E' as _ <-.
    now apply (sub_request_loop_registry arg (subscribers pm)). }
  destruct (String.eqb cmd "deepsleep"); [|apply Hsame].
  intros E'. injection E' as _ <-. apply Parse_deepsleep_registry.
Qed.

Lemma do_call_registry (c : Call) (pm pm' : PowerManager) :
  do_call c pm = Some pm' -> same_registry pm pm'.
Proof.
  destruct c as [|timeNow HoldPower env|m|ps timeout_|cmd arg saberIsOn env];
    cbn [do_call].
  - intros E. injection E as <-. apply Setup_registry.
  - intros E. injection E as <-. apply Loop_registry.
  - intros E. injection E as <-. apply Activate_registry.
  - destruct (RequestPower ps timeout_ pm) as [[r pm1]|] eqn:E;
      [|discriminate].
    intros E'. injection E' as <-.
    now apply (RequestPower_registry ps timeout_ pm r).
  - destruct (Parse cmd arg saberIsOn env pm) as [[r pm1]|] eqn:E;
      [|discriminate].
    intros E'. injection E' as <-.
    now apply (Parse_registry cmd arg saberIsOn env pm r).
Qed.

(** X2. No call of the power manager adds, removes or reorders a domain
    or a subscriber, or changes the flag, the name or the default timeout of
    a domain: after any sequence of calls the two lists hold the same
    objects in the same order, and only the timers may differ. *)
Theorem calls_keep_the_registries :
  forall (cs : list Call) (pm pm' : PowerManager),
    do_calls cs pm = Some pm' ->
    map pd_id (domains pm') = map pd_id (domains pm)
    /\ map pd_name (domains pm') = map pd_name (domains pm)
    /\ map pd_timeout (domains pm') = map pd_timeout (domains pm)
    /\ subscribers pm' = subscribers pm
    /\ List.length (domains pm') = List.length (domains pm).
Proof.
  intros cs pm pm' Hrun.
  assert (H : same_registry pm pm').
  { revert pm Hrun. induction cs as [|c cs IH]; intros pm Hrun.
    - injection Hrun as <-. apply same_registry_refl.
    - cbn [do_calls] in Hrun.
      destruct (do_call c pm) as [pm1|] eqn:E; [|discriminate].
      apply (same_registry_trans _ pm1).
      + now apply (do_call_registry c).
      + now apply IH. }
  destruct H as [Hd Hs].
  split; [|split; [|split; [|split]]].
  - pose proof (f_equal (map (fun x => fst (fst x))) Hd) as H.
    now rewrite !map_map in H.
  - pose proof (f_equal (map (fun x => snd (fst x))) Hd) as H.
    now rewrite !map_map in H.
  - pose proof (f_equal (map snd) Hd) as H. now rewrite !map_map in H.
  - exact Hs.
  - pose proof (f_equal (@List.length _) Hd) as H.
    now rewrite !length_map in H.
Qed.

(** ** Start-up and activation *)

Lemma Activate_trace (m : Z) (pm : PowerManager) :
  distinct_flags (domains pm) ->
  trace (snd (Activate m pm))
  = trace pm
    ++ SetPower_calls true (filter (goes_on m (powerState pm)) (domains pm))
    ++ (if fst (Activate m pm)
        then map EvPwrOn_Callback
               (filter (IsOn (snd (Activate m pm))) (subscribers pm))
        else []).
Proof.
  intros Hd. rewrite (Activate_form m pm Hd). cbn [fst snd].
  set (on_now := filter (goes_on m (powerState pm)) (domains pm)).
  destruct (switch_on_frame on_now pm) as [_ [_ [_ [_ [_ F6]]]]].
  destruct (existsb _ _).
  - rewrite On_Callbacks_trace.
    unfold Activate_domains at 1. cbn [with_domains trace]. fold on_now.
    rewrite F6, <- app_assoc. f_equal. f_equal. f_equal.
    apply filter_ext. intros ps. unfold IsOn.
    now rewrite (proj1 (proj2 (On_Callbacks_frame _ _))).
  - unfold Activate_domains. cbn [with_domains trace]. fold on_now.
    now rewrite F6, app_nil_r.
Qed.

Lemma Activate_result_ids (m : Z) (pm : PowerManager) :
  map pd_id (domains (snd (Activate m pm))) = map pd_id (domains pm).
Proof.
  destruct (Activate_registry m pm) as [[H _] _].
  pose proof (f_equal (map (fun x => fst (fst x))) H) as H'.
  now rewrite !map_map in H'.
Qed.

Lemma filter_none_in {A : Type} (f : A -> bool) (l : list A) :
  (forall a, In a l -> f a = false) -> filter f l = [].
Proof.
  induction l as [|a l IH]; intros H; [reflexivity|].
  cbn [filter]. rewrite (H a (or_introl eq_refl)).
  apply IH. intros b Hb. apply H. now right.
Qed.

Lemma ResetTimeout_set (t : Z) (pd : PowerDomain) :
  ResetTimeout t pd
  = set_countdownTimer (Z.max (countdownTimer pd) (clamped pd t)) pd.
Proof.
  pose proof (ResetTimeout_timer t pd) as Ht. revert Ht.
  unfold ResetTimeout.
  destruct (countdownTimer pd <? _); cbn [countdownTimer set_countdownTimer].
  - now intros ->.
  - intros <-. now destruct pd.
Qed.

Lemma goes_on_startup (pd : PowerDomain) :
  goes_on PWRMAN_STARTON 0 pd = PDType_eqb (pd_id pd) pwr4_CPU.
Proof.
  unfold goes_on, flag. rewrite is_on_0.
  now destruct (pd_id pd).
Qed.

(** X3. [Setup] calls the [Setup()] of every listed domain, once each and
    in list order, before it switches anything on, and then activates the
    startup domains. On the constructed registries this leaves exactly the
    processor domain on, armed with its default timeout, with the timer of
    every other domain at zero; with no domain in the list nothing is
    done. *)
Theorem Setup_sets_up_then_activates :
  forall (pm : PowerManager),
    distinct_flags (domains pm) ->
    trace (Setup pm)
    = trace pm
      ++ map EvDomainSetup (map pd_id (domains pm))
      ++ SetPower_calls true
           (filter (goes_on PWRMAN_STARTON (powerState pm)) (domains pm))
      ++ (if existsb (goes_on PWRMAN_STARTON (powerState pm)) (domains pm)
          then map EvPwrOn_Callback
                 (filter (IsOn (Setup pm)) (subscribers pm))
          else [])
    /\ (constructed pm ->
        domains (Setup pm)
        = map (fun pd => if PDType_eqb (pd_id pd) pwr4_CPU
                         then set_countdownTimer
                                (Z.max PWRMAN_MINTIMEOUT (pd_timeout pd)) pd
                         else pd) (domains pm)
        /\ forall pd, In pd (domains pm) ->
             is_on (pd_id pd) (powerState (Setup pm))
             = PDType_eqb (pd_id pd) pwr4_CPU)
    /\ (domains pm = [] -> Setup pm = pm).
Proof.
  intros pm Hd. unfold Setup.
  destruct (emits_frame (fun pd => EvDomainSetup (pd_id pd)) (domains pm) pm)
    as [E1 [E2 [E3 [_ [_ E6]]]]].
  cbn zeta in *. set (pm1 := fold_left _ (domains pm) pm) in *.
  assert (Hd1 : distinct_flags (domains pm1)) by now rewrite E1.
  split; [|split].
  - rewrite (Activate_trace _ _ Hd1), (Activate_form _ _ Hd1).
    cbn [fst]. rewrite E1, E2, E3, E6, <- app_assoc, map_map.
    reflexivity.
  - intros [H0 [_ [_ Ht]]]. split.
    + rewrite (Activate_result_domains _ _ Hd1), E1, E3, H0.
      apply map_ext_in. intros pd Hpd. rewrite goes_on_startup.
      destruct (PDType_eqb (pd_id pd) pwr4_CPU); [|reflexivity].
      rewrite Forall_forall in Ht. specialize (Ht pd Hpd).
      rewrite ResetTimeout_set, Ht. unfold clamped. cbn [Z.eqb].
      f_equal. pose proof (Z.le_max_l PWRMAN_MINTIMEOUT (pd_timeout pd)).
      unfold PWRMAN_MINTIMEOUT in *. lia.
    + intros pd Hpd.
      rewrite (Activate_result_bits _ pm1 pd Hd1) by now rewrite E1.
      rewrite E3, H0, is_on_0. cbn [orb].
      pose proof (goes_on_startup pd) as G. unfold goes_on in G.
      now rewrite is_on_0, andb_true_r in G.
  - intros E. subst pm1. rewrite E. cbn [fold_left].
    unfold Activate. now rewrite E.
Qed.

(** X4. Activating the same domains a second time does nothing: the
    second call returns false and leaves the state, timers included, as the
    first call left it, calling neither [SetPower] nor a callback. *)
Theorem Activate_twice_is_once :
  forall (m : Z) (pm : PowerManager),
    distinct_flags (domains pm) ->
    Activate m (snd (Activate m pm)) = (false, snd (Activate m pm)).
Proof.
  intros m pm Hd.
  set (pm1 := snd (Activate m pm)).
  assert (Hd1 : distinct_flags (domains pm1)).
  { unfold distinct_flags, pm1. now rewrite Activate_result_ids. }
  assert (Hnone : forall pd, In pd (domains pm1) ->
            goes_on m (powerState pm1) pd = false).
  { intros pd Hpd. unfold goes_on.
    destruct (and_nz (flag pd) m) eqn:Em; [|reflexivity]. cbn [andb].
    apply negb_false_iff.
    assert (Hid : In (pd_id pd) (map pd_id (domains pm))).
    { rewrite <- (Activate_result_ids m pm). now apply in_map. }
    apply in_map_iff in Hid. destruct Hid as [pd0 [Eid Hpd0]].
    rewrite <- Eid. unfold pm1.
    rewrite (Activate_result_bits m pm pd0 Hd Hpd0).
    unfold flag in *. rewrite Eid, Em. apply orb_true_r. }
  rewrite (Activate_form m pm1 Hd1).
  assert (Ex : existsb (goes_on m (powerState pm1)) (domains pm1) = false).
  { destruct (existsb _ _) eqn:E; [|reflexivity].
    apply existsb_exists in E. destruct E as [pd [Hpd E]].
    rewrite (Hnone pd Hpd) in E. discriminate E. }
  rewrite Ex. f_equal. unfold Activate_domains.
  rewrite (filter_none_in _ (domains pm1) Hnone).
  cbn [switch_on fold_left].
  assert (Em : map (fun pd => if goes_on m (powerState pm1) pd
                              then ResetTimeout 0 pd else pd) (domains pm1)
               = domains pm1).
  { rewrite <- (map_id (domains pm1)) at 2. apply map_ext_in.
    intros pd Hpd. now rewrite (Hnone pd Hpd). }
  rewrite Em. now destruct pm1.
Qed.

(** ** Requests *)

Lemma wanted_other (ps : PowerSubscriber) (pd d : PowerDomain)
    (pm : PowerManager) :
  pd_id d <> pwr4_none -> pd_id d <> pd_id pd ->
  wanted ps (powerState (power_on pd pm)) d = wanted ps (powerState pm) d.
Proof.
  intros Hdn Hne. unfold wanted. f_equal. f_equal.
  cbn [power_on with_powerState powerState]. unfold flag.
  rewrite is_on_set by exact Hdn.
  apply PDType_eqb_neq in Hne. now rewrite Hne, orb_false_r.
Qed.

Lemma ResetTimeout_minimum (t : Z) (pd : PowerDomain) :
  PWRMAN_MINTIMEOUT <= countdownTimer (ResetTimeout t pd).
Proof.
  rewrite ResetTimeout_timer. pose proof (clamped_min pd t). lia.
Qed.

(** The request loop in closed form: the subscribed domains that are off
    are switched on in list order, and every subscribed domain leaves the
    loop with at least the minimum on its timer. *)
Lemma RequestPower_loop_form (ps : PowerSubscriber) :
  forall ds timeout_ pm r ds' pm' r',
    NoDup (map pd_id ds) -> ~ In pwr4_none (map pd_id ds) ->
    RequestPower_loop ps ds timeout_ pm r = Some (ds', pm', r') ->
    pm' = switch_on (filter (wanted ps (powerState pm)) ds) pm
    /\ r' = r || existsb (wanted ps (powerState pm)) ds
    /\ Forall (fun pd' => subscribed ps pd' = true ->
                          PWRMAN_MINTIMEOUT <= countdownTimer pd') ds'.
Proof.
  induction ds as [|pd rest IH]; intros timeout_ pm r ds' pm' r' Hnd Hnn E.
  - cbn in E. injection E as <- <- <-. cbn. now rewrite orb_false_r.
  - inversion Hnd as [|? ? Hnotin Hnd']; subst.
    assert (Hnn' : ~ In pwr4_none (map pd_id rest))
      by (intros H; apply Hnn; now right).
    assert (Ext : forall d, In d rest ->
              wanted ps (powerState (power_on pd pm)) d
              = wanted ps (powerState pm) d).
    { intros d Hd. apply wanted_other.
      - intros E'. apply Hnn'. rewrite <- E'. now apply in_map.
      - intros E'. apply Hnotin. rewrite <- E'. now apply in_map. }
    cbn [RequestPower_loop] in E. cbn [filter existsb].
    assert (Ew : wanted ps (powerState pm) pd
                 = and_nz (flag pd) (subscribedDomains ps)
                   && negb (is_on (pd_id pd) (powerState pm)))
      by reflexivity.
    destruct (and_nz (flag pd) (subscribedDomains ps)) eqn:Esub;
      cbn [andb] in Ew.
    + destruct (next_timeout timeout_) as [[t timeout_']|]; [|discriminate].
      rewrite and_nz_flag_r in E.
      destruct (is_on (pd_id pd) (powerState pm)) eqn:Eon;
        cbn [negb] in *; rewrite Ew.
      * destruct (RequestPower_loop ps rest timeout_' pm r)
          as [[[rest' pm''] r'']|] eqn:Er; [|discriminate].
        injection E as <- <- <-.
        destruct (IH _ _ _ _ _ _ Hnd' Hnn' Er) as [E1 [E2 E3]].
        split; [exact E1|]. split; [exact E2|].
        constructor; [|exact E3]. intros _. apply ResetTimeout_minimum.
      * destruct (RequestPower_loop ps rest timeout_' (power_on pd pm) true)
          as [[[rest' pm''] r'']|] eqn:Er; [|discriminate].
        injection E as <- <- <-.
        destruct (IH _ _ _ _ _ _ Hnd' Hnn' Er) as [E1 [E2 E3]].
        split; [|split].
        -- rewrite E1.
           change (switch_on (pd :: ?l) pm)
             with (switch_on l (power_on pd pm)).
           now rewrite (filter_ext_in _ _ _ Ext).
        -- rewrite E2. cbn [orb]. now rewrite orb_true_r.
        -- constructor; [|exact E3]. intros _. apply ResetTimeout_minimum.
    + rewrite Ew.
      destruct (RequestPower_loop ps rest timeout_ pm r)
        as [[[rest' pm''] r'']|] eqn:Er; [|discriminate].
      injection E as <- <- <-.
      destruct (IH _ _ _ _ _ _ Hnd' Hnn' Er) as [E1 [E2 E3]].
      split; [exact E1|]. split; [exact E2|].
      constructor; [|exact E3]. unfold subscribed. rewrite Esub. discriminate.
Qed.

Lemma RequestPower_loop_default (ps : PowerSubscriber) :
  forall ds pm r, RequestPower_loop ps ds None pm r <> None.
Proof.
  induction ds as [|pd rest IH]; intros pm r; [discriminate|].
  cbn [RequestPower_loop next_timeout].
  destruct (and_nz (flag pd) (subscribedDomains ps)).
  - destruct (negb (and_nz (powerState pm) (flag pd)));
      match goal with
      | |- context [RequestPower_loop ps rest None ?p ?q] =>
          specialize (IH p q);
          destruct (RequestPower_loop ps rest None p q) as [[[a b] c]|]
      end; congruence.
  - specialize (IH pm r).
    destruct (RequestPower_loop ps rest None pm r) as [[[a b] c]|];
      congruence.
Qed.

Lemma RequestPower_form (ps : PowerSubscriber) (timeout_ : option (list Z))
    (pm : PowerManager) (r : bool) (pm' : PowerManager) :
  distinct_flags (domains pm) ->
  RequestPower ps timeout_ pm = Some (r, pm') ->
  r = existsb (wanted ps (powerState pm)) (domains pm)
  /\ powerState pm'
     = powerState
         (switch_on (filter (wanted ps (powerState pm)) (domains pm)) pm)
  /\ trace pm'
     = trace pm
       ++ SetPower_calls true
            (filter (wanted ps (powerState pm)) (domains pm))
       ++ (if r then [EvPwrOn_Callback ps] else [])
  /\ Forall (fun pd' => subscribed ps pd' = true ->
                        PWRMAN_MINTIMEOUT <= countdownTimer pd')
       (domains pm').
Proof.
  intros [Hnd Hnn]. unfold RequestPower.
  destruct (domains pm) as [|d0 ds0] eqn:Eds.
  - intros E. injection E as <- <-. rewrite Eds. cbn.
    now rewrite app_nil_r.
  - rewrite <- Eds in *.
    destruct (RequestPower_loop ps (domains pm) timeout_ pm false)
      as [[[ds pm1] r1]|] eqn:El; [|discriminate].
    intros E. injection E as <- <-.
    destruct (RequestPower_loop_form ps _ _ _ _ _ _ _ Hnd Hnn El)
      as [E1 [E2 E3]].
    cbn [orb] in E2. split; [exact E2|].
    set (off := filter (wanted ps (powerState pm)) (domains pm)) in *.
    destruct (switch_on_frame off pm) as [_ [_ [_ [_ [_ F6]]]]].
    destruct r1;
      cbn [emit with_domains powerState trace domains];
      rewrite E1, ?F6, <- ?app_assoc, ?app_nil_r; auto.
Qed.

Lemma mask_contained (s m : Z) :
  (forall k, 0 <= k -> Z.testbit m k = true -> Z.testbit s k = true) ->
  Z.land s m = m.
Proof.
  intros H. apply Z.bits_inj'. intros k Hk. rewrite Z.land_spec.
  destruct (Z.testbit m k) eqn:E.
  - now rewrite (H k Hk E).
  - apply andb_false_r.
Qed.

(** X5. [RequestPower] switches on, in list order, the subscribed domains
    that are off, and nothing else. It returns true exactly when there was
    one, and then calls the subscriber's own on-callback, once and after
    the last [SetPower]. Every subscribed domain ends up on with at least
    the minimum on its timer, so a subscriber whose map holds flags of
    listed domains only is on afterwards. Without a vector of timeouts the
    call always returns. *)
Theorem RequestPower_switches_on :
  forall (ps : PowerSubscriber) (timeout_ : option (list Z))
         (pm : PowerManager) (r : bool) (pm' : PowerManager),
    distinct_flags (domains pm) ->
    RequestPower ps timeout_ pm = Some (r, pm') ->
    (r = true <->
       exists pd, In pd (domains pm) /\ subscribed ps pd = true
                  /\ is_on (pd_id pd) (powerState pm) = false)
    /\ trace pm'
       = trace pm
         ++ SetPower_calls true
              (filter (wanted ps (powerState pm)) (domains pm))
         ++ (if r then [EvPwrOn_Callback ps] else [])
    /\ (forall pd, In pd (domains pm) ->
          is_on (pd_id pd) (powerState pm')
          = is_on (pd_id pd) (powerState pm) || subscribed ps pd)
    /\ (forall pd', In pd' (domains pm') -> subscribed ps pd' = true ->
          PWRMAN_MINTIMEOUT <= countdownTimer pd')
    /\ (owned (map pd_id (domains pm)) (subscribedDomains ps) ->
        IsOn pm' ps = true)
    /\ RequestPower ps None pm <> None.
Proof.
  intros ps timeout_ pm r pm' Hd E.
  destruct (RequestPower_form ps timeout_ pm r pm' Hd E) as [Er [Es [Et Hm]]].
  assert (Hbits : forall pd, In pd (domains pm) ->
            is_on (pd_id pd) (powerState pm')
            = is_on (pd_id pd) (powerState pm) || subscribed ps pd).
  { intros pd Hpd. rewrite Es, switch_on_bits.
    - rewrite existsb_same_flag by (apply Hd || exact Hpd).
      unfold wanted. destruct (is_on (pd_id pd) (powerState pm));
        destruct (subscribed ps pd); reflexivity.
    - apply (distinct_flags_not_none (domains pm)); [exact Hd|].
      now apply in_map. }
  split; [|split; [|split; [|split; [|split]]]].
  - rewrite Er, existsb_exists. unfold wanted. split.
    + intros [pd [Hpd H]]. apply andb_true_iff in H. destruct H as [H1 H2].
      exists pd. repeat split; auto. now apply negb_true_iff.
    + intros [pd [Hpd [H1 H2]]]. exists pd. split; [exact Hpd|].
      now rewrite H1, H2.
  - exact Et.
  - exact Hbits.
  - rewrite Forall_forall in Hm. exact Hm.
  - intros Ho. unfold IsOn. apply Z.eqb_eq. apply mask_contained.
    intros k Hk Hbit. destruct (Ho k Hk Hbit) as [t [Ht Ek]].
    apply in_map_iff in Ht. destruct Ht as [pd [Eid Hpd]].
    specialize (Hbits pd Hpd).
    assert (Hsub : subscribed ps pd = true).
    { unfold subscribed. rewrite and_nz_flag_l, is_on_testbit, Eid, Ek.
      exact Hbit. }
    rewrite Hsub, orb_true_r, is_on_testbit, Eid, Ek in Hbits. exact Hbits.
  - unfold RequestPower. destruct (domains pm) as [|d0 ds0] eqn:Eds;
      [discriminate|].
    pose proof (RequestPower_loop_default ps (d0 :: ds0) pm false) as H.
    destruct (RequestPower_loop ps (d0 :: ds0) None pm false)
      as [[[a b] c]|]; [discriminate|congruence].
Qed.

(** ** What a pass leaves alone *)

Lemma check_dom_armed (l s chk : Z) (pd : PowerDomain) :
  0 <= l < countdownTimer pd ->
  0 < countdownTimer (check_dom l s chk pd) <= countdownTimer pd.
Proof.
  intros Hl. unfold check_dom, CheckTimeout.
  destruct (checked s chk pd); [|lia].
  destruct (countdownTimer pd =? 0) eqn:E0; [cbn [snd]; lia|].
  destruct (countdownTimer pd <=? l) eqn:El.
  - apply Z.leb_le in El. lia.
  - cbn [snd set_countdownTimer countdownTimer]. lia.
Qed.

Lemma elapsed_range (timeNow : Z) (pm : PowerManager) :
  0 <= elapsed timeNow pm < 2 ^ 32.
Proof. unfold elapsed, uint32. apply Z.mod_pos_bound. lia. Qed.

Lemma armed_survives (timeNow : Z) (HoldPower : PowerSubscriber -> bool)
    (env : SleepEnv) (pm : PowerManager) (pd : PowerDomain) :
  Inv pm -> In pd (domains pm) ->
  PWRMAN_MINTIMEOUT <= countdownTimer pd ->
  is_on (pd_id pd) (powerState (Loop timeNow HoldPower env pm)) = true
  /\ (exists pd', In pd' (domains (Loop timeNow HoldPower env pm))
                  /\ static pd' = static pd /\ 0 < countdownTimer pd'
                  /\ countdownTimer pd' <= countdownTimer pd)
  /\ sleep_entries (trace (Loop timeNow HoldPower env pm))
     = sleep_entries (trace pm).
Proof.
  intros HI Hpd Ht.
  assert (Hne : domains pm <> []) by (intros E; rewrite E in Hpd; destruct Hpd).
  assert (Hon : is_on (pd_id pd) (powerState pm) = true).
  { destruct HI as [[_ [_ Hm]] _]. rewrite Forall_forall in Hm.
    rewrite (Hm pd Hpd). apply negb_true_iff, Z.eqb_neq.
    unfold PWRMAN_MINTIMEOUT in Ht. lia. }
  destruct (Z.lt_ge_cases (elapsed timeNow pm) PWRMAN_MINTIMEOUT) as [Hl|Hl].
  2:{ rewrite (Loop_skipped timeNow HoldPower env pm Hne Hl).
      cbn [with_lastLoopTime powerState domains trace].
      split; [exact Hon|]. split; [|reflexivity].
      exists pd. unfold PWRMAN_MINTIMEOUT in Ht. repeat split; auto; lia. }
  pose proof (Loop_awake_Inv timeNow HoldPower pm HI) as [[_ [_ Hm4]] _].
  set (pd' := check_dom (elapsed timeNow pm) (powerState pm)
                (Loop_domainsToCheck HoldPower pm) pd).
  assert (Hin4 : In pd' (domains (Loop_awake timeNow HoldPower pm))).
  { rewrite Loop_awake_domains. now apply in_map. }
  destruct (check_dom_armed (elapsed timeNow pm) (powerState pm)
              (Loop_domainsToCheck HoldPower pm) pd) as [Hpos Hle].
  { pose proof (elapsed_range timeNow pm). lia. }
  fold pd' in Hpos, Hle.
  assert (Hon4 : is_on (pd_id pd)
                   (powerState (Loop_awake timeNow HoldPower pm)) = true).
  { rewrite Forall_forall in Hm4. specialize (Hm4 pd' Hin4).
    unfold timer_matches in Hm4. unfold pd' in Hm4 at 1.
    rewrite check_dom_id in Hm4. rewrite Hm4.
    apply negb_true_iff, Z.eqb_neq. lia. }
  rewrite (Loop_stays_awake timeNow HoldPower env pm (pd_id pd) Hne Hl Hon4).
  split; [exact Hon4|]. split; [|apply Loop_awake_no_sleep].
  exists pd'. split; [exact Hin4|]. split; [apply check_dom_static|].
  split; [exact Hpos|exact Hle].
Qed.

(** X6. A pass never switches off a domain that has at least
    [PWRMAN_MINTIMEOUT] left on its timer, whatever the clock reads and
    whoever holds power, and such a pass does not enter the stop mode: a
    pass that is processed measures less than that, and a pass that measures
    more is skipped. So the domains of a subscriber that was granted power
    are all still on after the next pass. *)
Theorem request_outlives_next_pass :
  forall (ps : PowerSubscriber) (timeout_ : option (list Z))
         (pm : PowerManager) (r : bool) (pm1 : PowerManager)
         (timeNow : Z) (HoldPower : PowerSubscriber -> bool) (env : SleepEnv),
    Inv pm ->
    RequestPower ps timeout_ pm = Some (r, pm1) ->
    (forall pd, In pd (domains pm1) -> subscribed ps pd = true ->
       PWRMAN_MINTIMEOUT <= countdownTimer pd
       /\ is_on (pd_id pd) (powerState (Loop timeNow HoldPower env pm1)) = true)
    /\ (forall pd, In pd (domains pm1) ->
          PWRMAN_MINTIMEOUT <= countdownTimer pd ->
          is_on (pd_id pd) (powerState (Loop timeNow HoldPower env pm1))
          = true
          /\ sleep_entries (trace (Loop timeNow HoldPower env pm1))
             = sleep_entries (trace pm1)).
Proof.
  intros ps timeout_ pm r pm1 timeNow HoldPower env HI E.
  pose proof (RequestPower_Inv ps timeout_ pm r pm1 E HI) as HI1.
  destruct (RequestPower_form ps timeout_ pm r pm1 (proj1 (proj1 HI)) E)
    as [_ [_ [_ Hm]]].
  rewrite Forall_forall in Hm. split.
  - intros pd Hpd Hsub. split; [now apply Hm|].
    now apply (armed_survives timeNow HoldPower env pm1 pd HI1 Hpd), Hm.
  - intros pd Hpd Ht.
    destruct (armed_survives timeNow HoldPower env pm1 pd HI1 Hpd Ht)
      as [H1 [_ H3]].
    now split.
Qed.

(** ** The clock of the loop *)

Lemma Loop_lastLoopTime (timeNow : Z) (HoldPower : PowerSubscriber -> bool)
    (env : SleepEnv) (pm : PowerManager) :
  domains pm <> [] ->
  lastLoopTime (Loop timeNow HoldPower env pm) = timeNow.
Proof.
  intros Hne.
  destruct (Z.lt_ge_cases (elapsed timeNow pm) PWRMAN_MINTIMEOUT) as [Hl|Hl].
  - rewrite (Loop_unfold timeNow HoldPower env pm Hne Hl).
    destruct (_ || _).
    + apply Loop_awake_frame.
    + rewrite (proj2 (Loop_sleep_registry env _)). apply Loop_awake_frame.
  - now rewrite (Loop_skipped timeNow HoldPower env pm Hne Hl).
Qed.

(** X7. With a domain in the list, every pass stores its clock reading
    in [lastLoopTime], also when it is skipped or goes to sleep, so the next
    pass measures from it and the time of a skipped pass is never charged
    to a timer; with no domain the pass returns before reading the clock.
    The elapsed time is the difference of two [uint32_t] readings: it is
    right across the roll-over of [millis()]. *)
Theorem Loop_measures_between_passes :
  forall (timeNow : Z) (HoldPower : PowerSubscriber -> bool)
         (env : SleepEnv) (pm : PowerManager),
    (domains pm <> [] ->
     lastLoopTime (Loop timeNow HoldPower env pm) = timeNow
     /\ forall timeNext,
          elapsed timeNext (Loop timeNow HoldPower env pm)
          = uint32 (timeNext - timeNow))
    /\ (domains pm = [] -> Loop timeNow HoldPower env pm = pm)
    /\ (forall d, 0 <= lastLoopTime pm < 2 ^ 32 -> 0 <= d < 2 ^ 32 ->
          elapsed (uint32 (lastLoopTime pm + d)) pm = d
          /\ (2 ^ 32 <= lastLoopTime pm + d ->
              uint32 (lastLoopTime pm + d) < lastLoopTime pm)).
Proof.
  intros timeNow HoldPower env pm. split; [|split].
  - intros Hne. split; [now apply Loop_lastLoopTime|].
    intros timeNext. unfold elapsed. now rewrite Loop_lastLoopTime.
  - intros E. unfold Loop. now rewrite E.
  - intros d Hlast Hd. split; [now apply elapsed_after|].
    intros Hw. unfold uint32.
    replace (lastLoopTime pm + d) with (lastLoopTime pm + d - 2 ^ 32 + 1 * 2 ^ 32)
      by lia.
    rewrite Z.mod_add by lia. rewrite Z.mod_small by lia. lia.
Qed.

(** ** The concrete board satisfies the invariant *)

Lemma board_constructed : constructed board.
Proof.
  split; [reflexivity|]. split; [reflexivity|]. split.
  - split.
    + cbn. repeat constructor; cbn; intuition discriminate.
    + cbn. intuition discriminate.
  - cbn. repeat constructor.
Qed.

Lemma booted_Inv : Inv booted.
Proof. apply Setup_Inv, constructed_Inv, board_constructed. Qed.

Lemma amp_on_Inv : Inv amp_on.
Proof.
  unfold amp_on.
  destruct (RequestPower sub_amp None booted) as [[r pm]|] eqn:E.
  - exact (RequestPower_Inv _ _ _ _ _ E booted_Inv).
  - exact booted_Inv.
Qed.

Lemma amp_low_Inv : Inv amp_low.
Proof.
  unfold amp_low, Loops. cbn [fold_left fst snd].
  repeat apply Loop_Inv. exact amp_on_Inv.
Qed.

Lemma short_board_constructed : constructed short_board.
Proof.
  split; [reflexivity|]. split; [reflexivity|]. split.
  - split.
    + cbn. repeat constructor; cbn; intuition discriminate.
    + cbn. intuition discriminate.
  - cbn. repeat constructor.
Qed.

Lemma short_on_Inv : Inv short_on.
Proof. apply Activate_Inv, constructed_Inv, short_board_constructed. Qed.

Lemma all_on_Inv : Inv all_on.
Proof. apply Activate_Inv, booted_Inv. Qed.

(** ** What a processed pass switches off *)

Lemma checked_unheld (HoldPower : PowerSubscriber -> bool)
    (pm : PowerManager) (t : PDType) :
  t <> pwr4_none ->
  is_on t (Loop_domainsToCheck HoldPower pm) = negb (held HoldPower pm t).
Proof.
  intros Ht. unfold held. destruct (existsb _ _) eqn:E; cbn [negb].
  - apply existsb_exists in E. destruct E as [ps [Hps H]].
    apply andb_true_iff in H. destruct H as [Hh Hs].
    now apply (held_not_checked HoldPower pm ps).
  - apply free_is_checked; [exact Ht|]. intros ps Hps Hh.
    destruct (is_on t (subscribedDomains ps)) eqn:Es; [|reflexivity].
    assert (H : existsb (fun ps => HoldPower ps
                                   && is_on t (subscribedDomains ps))
                  (subscribers pm) = true).
    { apply existsb_exists. exists ps. now rewrite Hh, Es. }
    congruence.
Qed.

Lemma expired_times_out (l : Z) (HoldPower : PowerSubscriber -> bool)
    (pm : PowerManager) (pd : PowerDomain) :
  coherent pm -> In pd (domains pm) ->
  expired l (powerState pm) (Loop_domainsToCheck HoldPower pm) pd
  = times_out l HoldPower pm pd.
Proof.
  intros [Hd [_ Hm]] Hpd. unfold expired, checked, times_out.
  rewrite checked_unheld
    by (apply (distinct_flags_not_none (domains pm)); [exact Hd|];
        now apply in_map).
  rewrite Forall_forall in Hm. specialize (Hm pd Hpd).
  unfold timer_matches in Hm. rewrite Hm. unfold CheckTimeout.
  destruct (countdownTimer pd =? 0); [reflexivity|].
  cbn [negb andb]. destruct (negb (held HoldPower pm (pd_id pd)));
    [|reflexivity].
  cbn [andb]. now destruct (countdownTimer pd <=? l).
Qed.

Lemma filter_map_swap {A B : Type} (f : B -> bool) (g : A -> B)
    (l : list A) :
  filter f (map g l) = map g (filter (fun a => f (g a)) l).
Proof.
  induction l as [|a l IH]; [reflexivity|].
  cbn [map filter]. destruct (f (g a)); cbn [map]; now rewrite IH.
Qed.

Lemma SetPower_calls_map (b : bool) (g : PowerDomain -> PowerDomain)
    (l : list PowerDomain) :
  (forall pd, pd_id (g pd) = pd_id pd) ->
  SetPower_calls b (map g l) = SetPower_calls b l.
Proof.
  intros Hg. unfold SetPower_calls. rewrite map_map.
  apply map_ext. intros pd. now rewrite Hg.
Qed.

Lemma Loop_check_proposed (l : Z) (HoldPower : PowerSubscriber -> bool)
    (pm : PowerManager) :
  coherent pm ->
  snd (Loop_check l HoldPower pm) = proposed l HoldPower pm.
Proof.
  intros Hc. rewrite Loop_check_form. cbn [snd]. unfold proposed.
  f_equal. apply filter_ext_in. intros pd Hpd.
  now apply expired_times_out.
Qed.

Lemma proposed_bits (l : Z) (HoldPower : PowerSubscriber -> bool)
    (pm : PowerManager) (pd : PowerDomain) :
  coherent pm -> In pd (domains pm) ->
  is_on (pd_id pd) (proposed l HoldPower pm)
  = is_on (pd_id pd) (powerState pm) && negb (times_out l HoldPower pm pd).
Proof.
  intros Hc Hpd. unfold proposed. rewrite clear_flags_bits.
  rewrite existsb_same_flag; [reflexivity| |exact Hpd]. apply Hc.
Qed.

Lemma times_out_on (l : Z) (HoldPower : PowerSubscriber -> bool)
    (pm : PowerManager) (pd : PowerDomain) :
  times_out l HoldPower pm pd = true ->
  is_on (pd_id pd) (powerState pm) = true.
Proof.
  unfold times_out. intros H. apply andb_true_iff in H.
  destruct H as [H _]. apply andb_true_iff in H. now destruct H.
Qed.

Lemma proposed_same (l : Z) (HoldPower : PowerSubscriber -> bool)
    (pm : PowerManager) :
  coherent pm ->
  (proposed l HoldPower pm =? powerState pm) = true ->
  filter (times_out l HoldPower pm) (domains pm) = [].
Proof.
  intros Hc E. apply Z.eqb_eq in E. apply filter_none_in.
  intros pd Hpd. destruct (times_out l HoldPower pm pd) eqn:Et;
    [|reflexivity].
  pose proof (proposed_bits l HoldPower pm pd Hc Hpd) as Hb.
  rewrite E, Et, (times_out_on _ _ _ _ Et) in Hb. discriminate Hb.
Qed.

(** The events of steps 3 and 4, in terms of the state before the pass. *)
Lemma Loop_awake_trace_gone (timeNow : Z)
    (HoldPower : PowerSubscriber -> bool) (pm : PowerManager) :
  coherent pm ->
  let l := elapsed timeNow pm in
  trace (Loop_awake timeNow HoldPower pm)
  = trace pm
    ++ map EvPwrOff_Callback
         (filter (off_due (powerState pm) (proposed l HoldPower pm))
            (subscribers pm))
    ++ SetPower_calls false (filter (times_out l HoldPower pm) (domains pm)).
Proof.
  intros Hc l.
  pose proof (Loop_awake_trace_form timeNow HoldPower pm (proj1 Hc)) as Ht.
  cbv zeta in Ht. rewrite Ht. clear Ht. fold l.
  rewrite (Loop_check_proposed l HoldPower pm Hc). f_equal.
  destruct (proposed l HoldPower pm =? powerState pm) eqn:En.
  - rewrite (proposed_same l HoldPower pm Hc En).
    apply Z.eqb_eq in En. rewrite En.
    rewrite (filter_none _ _ (off_due_same (powerState pm))). reflexivity.
  - f_equal. rewrite Loop_check_form. cbn [fst].
    rewrite filter_map_swap, SetPower_calls_map by apply check_dom_id.
    f_equal. apply filter_ext_in. intros pd Hpd.
    unfold goes_off. rewrite check_dom_id.
    rewrite (proposed_bits l HoldPower pm pd Hc Hpd).
    destruct (times_out l HoldPower pm pd) eqn:Et.
    + now rewrite (times_out_on _ _ _ _ Et).
    + now destruct (is_on (pd_id pd) (powerState pm)).
Qed.

Lemma check_dom_zero (l : Z) (HoldPower : PowerSubscriber -> bool)
    (pm : PowerManager) (pd : PowerDomain) :
  coherent pm -> In pd (domains pm) -> 0 <= l ->
  negb (countdownTimer
          (check_dom l (powerState pm) (Loop_domainsToCheck HoldPower pm) pd)
        =? 0)
  = is_on (pd_id pd) (powerState pm) && negb (times_out l HoldPower pm pd).
Proof.
  intros Hc Hpd Hl.
  pose proof (expired_times_out l HoldPower pm pd Hc Hpd) as He.
  rewrite <- He. destruct Hc as [Hd [_ Hm]].
  rewrite Forall_forall in Hm. specialize (Hm pd Hpd).
  unfold timer_matches in Hm. rewrite Hm.
  unfold check_dom, expired, CheckTimeout.
  destruct (checked (powerState pm) (Loop_domainsToCheck HoldPower pm) pd).
  - destruct (Z.eqb_spec (countdownTimer pd) 0) as [E0|E0].
    + cbn [snd fst andb negb]. apply Z.eqb_eq in E0. now rewrite E0.
    + destruct (Z.leb_spec (countdownTimer pd) l) as [El|El].
      * reflexivity.
      * cbn [snd fst set_countdownTimer countdownTimer andb negb].
        destruct (Z.eqb_spec (countdownTimer pd - l) 0); [lia|reflexivity].
  - cbn [andb negb]. now rewrite andb_true_r.
Qed.

Lemma Loop_awake_bits (timeNow : Z) (HoldPower : PowerSubscriber -> bool)
    (pm : PowerManager) (pd : PowerDomain) :
  Inv pm -> In pd (domains pm) ->
  is_on (pd_id pd) (powerState (Loop_awake timeNow HoldPower pm))
  = is_on (pd_id pd) (powerState pm)
    && negb (times_out (elapsed timeNow pm) HoldPower pm pd).
Proof.
  intros HI Hpd.
  pose proof (Loop_awake_Inv timeNow HoldPower pm HI) as [[_ [_ Hm4]] _].
  rewrite Forall_forall in Hm4.
  set (pd' := check_dom (elapsed timeNow pm) (powerState pm)
                (Loop_domainsToCheck HoldPower pm) pd).
  assert (Hin4 : In pd' (domains (Loop_awake timeNow HoldPower pm))).
  { rewrite Loop_awake_domains. now apply in_map. }
  specialize (Hm4 pd' Hin4). unfold timer_matches in Hm4.
  unfold pd' in Hm4 at 1. rewrite check_dom_id in Hm4. rewrite Hm4.
  unfold pd'. apply check_dom_zero; [apply HI|exact Hpd|].
  apply elapsed_range.
Qed.

(** X8. A pass that is processed calls [SetPower(false)] on the domains
    that are on, held by nobody and at the end of their countdown, once
    each and in list order, directly after the off-callbacks; every other
    domain keeps its state. When nothing times out the pass calls nothing
    and only counts the time down. When something that is on does not time
    out the pass ends there, without entering the stop mode. *)
Theorem Loop_switches_off_what_timed_out :
  forall (timeNow : Z) (HoldPower : PowerSubscriber -> bool)
         (env : SleepEnv) (pm : PowerManager),
    Inv pm -> domains pm <> [] ->
    elapsed timeNow pm < PWRMAN_MINTIMEOUT ->
    let l := elapsed timeNow pm in
    let gone := filter (times_out l HoldPower pm) (domains pm) in
    let due := filter (off_due (powerState pm) (proposed l HoldPower pm))
                 (subscribers pm) in
    let pm' := Loop timeNow HoldPower env pm in
    (exists tail,
       trace pm'
       = trace pm ++ map EvPwrOff_Callback due
         ++ SetPower_calls false gone ++ tail
       /\ (tail = [] \/ exists more, tail = EvFlushTx :: more))
    /\ (gone = [] -> trace pm' = trace pm /\ powerState pm' = powerState pm)
    /\ ((exists pd, In pd (domains pm)
                    /\ is_on (pd_id pd) (powerState pm) = true
                    /\ times_out l HoldPower pm pd = false) ->
        trace pm'
        = trace pm ++ map EvPwrOff_Callback due ++ SetPower_calls false gone
        /\ forall pd, In pd (domains pm) ->
             is_on (pd_id pd) (powerState pm')
             = is_on (pd_id pd) (powerState pm)
               && negb (times_out l HoldPower pm pd)).
Proof.
  intros timeNow HoldPower env pm HI Hne Hl l gone due pm'.
  pose proof (Loop_awake_trace_gone timeNow HoldPower pm (proj1 HI)) as Ht.
  cbv zeta in Ht. fold l gone due in Ht.
  assert (Hstay : forall pd, In pd (domains pm) ->
            is_on (pd_id pd) (powerState pm) = true ->
            times_out l HoldPower pm pd = false ->
            pm' = Loop_awake timeNow HoldPower pm).
  { intros pd Hpd Hon Hto. unfold pm'.
    apply (Loop_stays_awake timeNow HoldPower env pm (pd_id pd) Hne Hl).
    rewrite (Loop_awake_bits timeNow HoldPower pm pd HI Hpd).
    fold l. now rewrite Hon, Hto. }
  split; [|split].
  - unfold pm'. rewrite (Loop_unfold timeNow HoldPower env pm Hne Hl).
    destruct (_ || _).
    + exists []. rewrite app_nil_r. split; [exact Ht|now left].
    + unfold Loop_sleep.
      match goal with
      | |- context [Activate PWRMAN_STARTON ?p] =>
          destruct (Activate_extends (fun _ => true) PWRMAN_STARTON p
                      (fun _ => eq_refl) (fun _ => eq_refl)) as [s3 [E3 _]];
          rewrite E3
      end.
      match goal with
      | |- context [PrintWakeUpMsg ?p] =>
          destruct (PrintWakeUpMsg_extends (fun _ => true) p
                      (fun _ => eq_refl) eq_refl) as [s2 [E2 _]];
          rewrite E2
      end.
      rewrite (proj2 (proj2 (proj2 (proj2 (CPU_DeepSleep_frame _ env _))))).
      destruct ULTRAPROFFIE_VERSION_L;
        cbn [emit with_powerState trace]; rewrite Ht;
        eexists; (split; [|right; eexists; reflexivity]);
        rewrite <- !app_assoc; reflexivity.
  - intros Eg.
    assert (En : (snd (Loop_check l HoldPower pm) =? powerState pm) = true).
    { rewrite (Loop_check_proposed l HoldPower pm (proj1 HI)).
      unfold proposed. fold gone. rewrite Eg. apply Z.eqb_refl. }
    unfold pm'. rewrite (Loop_unfold timeNow HoldPower env pm Hne Hl).
    fold l. rewrite En. cbn [orb]. split.
    + rewrite Ht, Eg. unfold due.
      rewrite (Loop_check_proposed l HoldPower pm (proj1 HI)) in En.
      apply Z.eqb_eq in En. rewrite En.
      rewrite (filter_none _ _ (off_due_same (powerState pm))).
      cbn. now rewrite app_nil_r.
    + now apply Loop_awake_same_state.
  - intros [pd [Hpd [Hon Hto]]].
    rewrite (Hstay pd Hpd Hon Hto). split; [exact Ht|].
    intros q Hq. now apply Loop_awake_bits.
Qed.

(** ** Waking up *)

(** X9. [CPU_DeepSleep] returns with the wake-up source of the interrupt
    that ended the stop: the button or the serial line, or, in a charger
    build with a charge limit set, the real-time clock. The clock routine
    looks at the charge-detect pin on every third alarm only: an alarm ends
    the stop exactly when it is the third, sixth, ... since the stop began
    and the pin then reads charging; no other reading counts. However the
    stop ends, the source is not [wakeUp_none] and the power map, the
    timers and the registries are as they were. *)
Theorem CPU_DeepSleep_wake_source :
  forall (STOPEntry : Z) (env : SleepEnv) (pm : PowerManager),
    let pm' := CPU_DeepSleep STOPEntry env pm in
    wakeUpSource pm'
    = (if rtc_armed
          && existsb (fun charging => charging)
               (third_alarms (rtc_alarms env))
       then wakeUp_rtc else source_of (wake_irq env))
    /\ wakeUpSource pm' <> wakeUp_none
    /\ (wakeUpSource pm' = wakeUp_rtc ->
        ULTRAPROFFIE_CHARGER = true /\ xChargerGetLimit <> 0)
    /\ ((List.length (rtc_alarms env) < 3)%nat ->
        wakeUpSource pm' = source_of (wake_irq env))
    /\ (forall c1 c2 rest,
          rtc_armed = true -> rtc_alarms env = c1 :: c2 :: true :: rest ->
          wakeUpSource pm' = wakeUp_rtc)
    /\ domains pm' = domains pm /\ powerState pm' = powerState pm
    /\ subscribers pm' = subscribers pm
    /\ trace pm' = trace pm ++ [EvCPU_DeepSleep STOPEntry (powerState pm)].
Proof.
  intros STOPEntry env pm pm'. unfold pm'. rewrite CPU_DeepSleep_source.
  destruct (woken_by_cases rtc_armed env) as [Hn Hr].
  destruct (CPU_DeepSleep_frame STOPEntry env pm) as [F1 [F2 [F3 [_ F5]]]].
  split; [reflexivity|]. split; [exact Hn|]. split; [|split; [|split]].
  - intros H. apply Hr in H. unfold rtc_armed in H.
    apply andb_true_iff in H. destruct H as [H1 H2]. split; [exact H1|].
    apply negb_true_iff, Z.eqb_neq in H2. exact H2.
  - intros Hlen. unfold woken_by.
    destruct (rtc_alarms env) as [|c1 [|c2 [|c3 rest]]];
      cbn [third_alarms existsb]; rewrite ?andb_false_r; try reflexivity.
    cbn [List.length] in Hlen. lia.
  - intros c1 c2 rest Ha Er. unfold woken_by. rewrite Ha, Er. reflexivity.
  - now repeat split.
Qed.

(** ** The pass that goes to sleep *)

Lemma PrintWakeUpMsg_trace (pm : PowerManager) :
  trace (PrintWakeUpMsg pm)
  = trace pm
    ++ EvPrintWakeUpMsg (wakeUpSource pm) :: wake_flush (wakeUpSource pm).
Proof.
  unfold PrintWakeUpMsg. cbn [emit wakeUpSource].
  destruct (wakeUpSource pm); cbn [emit trace wake_flush];
    now rewrite <- ?app_assoc.
Qed.

Lemma goes_on_startup_filter (ds : list PowerDomain) :
  filter (goes_on PWRMAN_STARTON 0) ds = filter is_cpu ds.
Proof. apply filter_ext. intros pd. apply goes_on_startup. Qed.

Lemma existsb_ext_all {A : Type} (f g : A -> bool) (l : list A) :
  (forall a, f a = g a) -> existsb f l = existsb g l.
Proof.
  intros H. induction l as [|a l IH]; [reflexivity|].
  cbn [existsb]. now rewrite H, IH.
Qed.

Lemma existsb_map_swap {A B : Type} (f : B -> bool) (g : A -> B)
    (l : list A) :
  existsb f (map g l) = existsb (fun a => f (g a)) l.
Proof.
  induction l as [|a l IH]; [reflexivity|].
  cbn [map existsb]. now rewrite IH.
Qed.

(** Step 5 in closed form, for a state with nothing on. *)
Lemma Loop_sleep_form (env : SleepEnv) (pm : PowerManager) :
  distinct_flags (domains pm) -> powerState pm = 0 ->
  let w := woken_by rtc_armed env in
  let pm' := Loop_sleep env pm in
  trace pm'
  = trace pm
    ++ [EvFlushTx]
    ++ (if ULTRAPROFFIE_VERSION_L
        then [EvPublishContent; EvLSFS_End; EvSetPower pwr4_SD false]
        else [])
    ++ [EvFlushTx; EvCPU_DeepSleep PWR_STOPENTRY_WFI 0; EvPrintWakeUpMsg w]
    ++ wake_flush w
    ++ SetPower_calls true (filter is_cpu (domains pm))
    ++ (if existsb is_cpu (domains pm)
        then map EvPwrOn_Callback (filter (IsOn pm') (subscribers pm))
        else [])
  /\ wakeUpSource pm' = w
  /\ domains pm'
     = map (fun pd => if is_cpu pd then ResetTimeout 0 pd else pd)
         (domains pm)
  /\ forall pd, In pd (domains pm) ->
       is_on (pd_id pd) (powerState pm') = is_cpu pd.
Proof.
  intros Hd E0 w pm'. unfold pm', Loop_sleep.
  set (pmX := emit EvFlushTx
                (if ULTRAPROFFIE_VERSION_L
                 then with_powerState 0
                        (emit (EvSetPower pwr4_SD false)
                           (emit EvLSFS_End
                              (emit EvPublishContent (emit EvFlushTx pm))))
                 else emit EvFlushTx pm)).
  assert (EdX : domains pmX = domains pm)
    by (unfold pmX; now destruct ULTRAPROFFIE_VERSION_L).
  assert (EsX : subscribers pmX = subscribers pm)
    by (unfold pmX; now destruct ULTRAPROFFIE_VERSION_L).
  assert (EpX : powerState pmX = 0)
    by (unfold pmX; now destruct ULTRAPROFFIE_VERSION_L).
  assert (EtX : trace pmX
                = trace pm ++ [EvFlushTx]
                  ++ (if ULTRAPROFFIE_VERSION_L
                      then [EvPublishContent; EvLSFS_End;
                            EvSetPower pwr4_SD false]
                      else [])
                  ++ [EvFlushTx]).
  { unfold pmX. destruct ULTRAPROFFIE_VERSION_L;
      cbn [emit with_powerState trace]; now rewrite <- !app_assoc. }
  set (pmS := CPU_DeepSleep PWR_STOPENTRY_WFI env pmX).
  destruct (CPU_DeepSleep_frame PWR_STOPENTRY_WFI env pmX)
    as [C1 [C2 [C3 [_ C5]]]].
  pose proof (CPU_DeepSleep_source PWR_STOPENTRY_WFI env pmX) as Cw.
  fold pmS in C1, C2, C3, C5, Cw. fold w in Cw.
  set (pmW := PrintWakeUpMsg pmS).
  destruct (PrintWakeUpMsg_frame pmS) as [W1 [W2 [W3 [_ W5]]]].
  pose proof (PrintWakeUpMsg_trace pmS) as Wt.
  fold pmW in W1, W2, W3, W5, Wt.
  assert (EdW : domains pmW = domains pm) by now rewrite W1, C1.
  assert (EsW : subscribers pmW = subscribers pm) by now rewrite W2, C2.
  assert (EpW : powerState pmW = 0) by now rewrite W3, C3.
  assert (HdW : distinct_flags (domains pmW)) by now rewrite EdW.
  split; [|split; [|split]].
  - rewrite (Activate_trace _ _ HdW), (Activate_form _ _ HdW). cbn [fst].
    rewrite EdW, EsW, EpW, goes_on_startup_filter.
    rewrite (existsb_ext_all _ is_cpu _ goes_on_startup).
    rewrite Wt, Cw, C5, EtX, EpX. rewrite <- !app_assoc. reflexivity.
  - rewrite (Activate_result_wakeUpSource _ _ HdW). now rewrite W5.
  - rewrite (Activate_result_domains _ _ HdW), EdW, EpW.
    apply map_ext. intros pd. now rewrite goes_on_startup.
  - intros pd Hpd.
    rewrite (Activate_result_bits _ pmW pd HdW) by now rewrite EdW.
    rewrite EpW, is_on_0. cbn [orb].
    pose proof (goes_on_startup pd) as G. unfold goes_on in G.
    now rewrite is_on_0, andb_true_r in G.
Qed.

Lemma is_cpu_check_dom (l s chk : Z) (pd : PowerDomain) :
  is_cpu (check_dom l s chk pd) = is_cpu pd.
Proof. unfold is_cpu. now rewrite check_dom_id. Qed.

(** X10. A processed pass in which every domain that is on times out
    goes to sleep in that same pass, in this order: the off-callbacks and
    the [SetPower(false)] calls; the transmit flush; in the 'L' build the
    publishing of the content, the unmounting of the file system and one
    more [SetPower(false)] on the storage domain; a second flush and the
    stop mode, entered with the wait-for-interrupt instruction and an empty
    power map. After the wake-up it reports the source, drops the received
    bytes unless the button woke it, and activates the startup domains: the
    processor domain is the only one on, with its default timeout, and
    every other timer is zero. *)
Theorem Loop_goes_to_sleep :
  forall (timeNow : Z) (HoldPower : PowerSubscriber -> bool)
         (env : SleepEnv) (pm : PowerManager),
    Inv pm -> powerState pm <> 0 ->
    elapsed timeNow pm < PWRMAN_MINTIMEOUT ->
    let l := elapsed timeNow pm in
    (forall pd, In pd (domains pm) ->
       is_on (pd_id pd) (powerState pm) = true ->
       times_out l HoldPower pm pd = true) ->
    let gone := filter (times_out l HoldPower pm) (domains pm) in
    let due := filter (off_due (powerState pm) 0) (subscribers pm) in
    let w := woken_by rtc_armed env in
    let pm' := Loop timeNow HoldPower env pm in
    trace pm'
    = trace pm
      ++ map EvPwrOff_Callback due
      ++ SetPower_calls false gone
      ++ [EvFlushTx]
      ++ (if ULTRAPROFFIE_VERSION_L
          then [EvPublishContent; EvLSFS_End; EvSetPower pwr4_SD false]
          else [])
      ++ [EvFlushTx; EvCPU_DeepSleep PWR_STOPENTRY_WFI 0; EvPrintWakeUpMsg w]
      ++ wake_flush w
      ++ SetPower_calls true (filter is_cpu (domains pm))
      ++ (if existsb is_cpu (domains pm)
          then map EvPwrOn_Callback (filter (IsOn pm') (subscribers pm))
          else [])
    /\ wakeUpSource pm' = w
    /\ domains pm'
       = map (fun pd => set_countdownTimer
                          (if is_cpu pd
                           then Z.max PWRMAN_MINTIMEOUT (pd_timeout pd)
                           else 0) pd) (domains pm)
    /\ (forall pd, In pd (domains pm) ->
          is_on (pd_id pd) (powerState pm') = is_cpu pd)
    /\ gone = filter (fun pd => is_on (pd_id pd) (powerState pm)) (domains pm).
Proof.
  intros timeNow HoldPower env pm HI Hnz Hl l Hall gone due w pm'.
  assert (Hne : domains pm <> []).
  { intros E. destruct HI as [[_ [Ho _]] _]. rewrite E in Ho.
    apply Hnz. apply (owned_all_off [] _ Ho). intros t []. }
  set (pm4 := Loop_awake timeNow HoldPower pm).
  pose proof (Loop_awake_Inv timeNow HoldPower pm HI) as HI4. fold pm4 in HI4.
  assert (Hbits : forall pd, In pd (domains pm) ->
            is_on (pd_id pd) (powerState pm4) = false).
  { intros pd Hpd. unfold pm4.
    rewrite (Loop_awake_bits timeNow HoldPower pm pd HI Hpd). fold l.
    destruct (is_on (pd_id pd) (powerState pm)) eqn:Eon; [|reflexivity].
    now rewrite (Hall pd Hpd Eon). }
  assert (Eids4 : map pd_id (domains pm4) = map pd_id (domains pm)).
  { unfold pm4. rewrite Loop_awake_domains. apply check_dom_ids. }
  assert (E0 : powerState pm4 = 0).
  { destruct HI4 as [[_ [Ho4 _]] _]. apply (owned_all_off _ _ Ho4).
    intros t Ht. rewrite Eids4 in Ht. apply in_map_iff in Ht.
    destruct Ht as [pd [<- Hpd]]. now apply Hbits. }
  assert (Eprop : proposed l HoldPower pm = 0).
  { destruct (Loop_check_matches l HoldPower pm (proj1 HI))
      as [_ [Hsub [Hon _]]].
    rewrite (Loop_check_proposed l HoldPower pm (proj1 HI)) in Hon.
    apply (owned_all_off _ _ Hon). intros t Ht.
    apply in_map_iff in Ht. destruct Ht as [pd [<- Hpd]].
    rewrite (proposed_bits l HoldPower pm pd (proj1 HI) Hpd).
    destruct (is_on (pd_id pd) (powerState pm)) eqn:Eon; [|reflexivity].
    now rewrite (Hall pd Hpd Eon). }
  assert (EL : pm' = Loop_sleep env pm4).
  { unfold pm'. rewrite (Loop_unfold timeNow HoldPower env pm Hne Hl).
    fold pm4 l. rewrite E0.
    rewrite (Loop_check_proposed l HoldPower pm (proj1 HI)), Eprop.
    destruct (Z.eqb_spec 0 (powerState pm)) as [E|E]; [congruence|].
    reflexivity. }
  assert (Hd4 : distinct_flags (domains pm4)) by apply HI4.
  destruct (Loop_sleep_form env pm4 Hd4 E0) as [Et [Ew [Ed Eb]]].
  cbv zeta in Et, Ew, Ed, Eb. rewrite <- EL in Et, Ew, Ed, Eb.
  pose proof (Loop_awake_trace_gone timeNow HoldPower pm (proj1 HI)) as Ht4.
  cbv zeta in Ht4. fold l pm4 gone in Ht4. rewrite Eprop in Ht4.
  fold due in Ht4.
  assert (Ed4 : domains pm4
                = map (check_dom l (powerState pm)
                         (Loop_domainsToCheck HoldPower pm)) (domains pm))
    by apply Loop_awake_domains.
  assert (Es4 : subscribers pm4 = subscribers pm) by apply Loop_awake_frame.
  split; [|split; [exact Ew|split; [|split]]].
  - rewrite Et, Ht4, Es4, Ed4.
    rewrite filter_map_swap.
    rewrite (filter_ext _ is_cpu (is_cpu_check_dom _ _ _)).
    rewrite SetPower_calls_map by apply check_dom_id.
    rewrite existsb_map_swap.
    rewrite (existsb_ext_all _ is_cpu _ (is_cpu_check_dom _ _ _)).
    rewrite <- !app_assoc. reflexivity.
  - rewrite Ed, Ed4, map_map. apply map_ext_in. intros pd Hpd.
    rewrite is_cpu_check_dom.
    set (pd' := check_dom l (powerState pm)
                  (Loop_domainsToCheck HoldPower pm) pd).
    assert (Ez : countdownTimer pd' = 0).
    { destruct HI4 as [[_ [_ Hm4]] _]. rewrite Forall_forall in Hm4.
      assert (Hin : In pd' (domains pm4)) by (rewrite Ed4; now apply in_map).
      specialize (Hm4 pd' Hin). unfold timer_matches in Hm4.
      rewrite E0, is_on_0 in Hm4. symmetry in Hm4.
      apply negb_false_iff, Z.eqb_eq in Hm4. exact Hm4. }
    assert (Es : static pd' = static pd) by apply check_dom_static.
    unfold static in Es. injection Es as Ei En Eto.
    destruct (is_cpu pd).
    + rewrite ResetTimeout_set, Ez. unfold clamped. cbn [Z.eqb].
      unfold set_countdownTimer. rewrite Ei, En, Eto. f_equal.
      pose proof (Z.le_max_l PWRMAN_MINTIMEOUT (pd_timeout pd)).
      unfold PWRMAN_MINTIMEOUT in *. lia.
    + unfold set_countdownTimer. rewrite <- Ei, <- En, <- Eto, <- Ez.
      now destruct pd'.
  - intros pd Hpd.
    set (pd' := check_dom l (powerState pm)
                  (Loop_domainsToCheck HoldPower pm) pd).
    assert (Hin : In pd' (domains pm4)) by (rewrite Ed4; now apply in_map).
    specialize (Eb pd' Hin). unfold pd' in Eb.
    now rewrite check_dom_id, is_cpu_check_dom in Eb.
  - unfold gone. apply filter_ext_in. intros pd Hpd.
    destruct (is_on (pd_id pd) (powerState pm)) eqn:Eon.
    + now apply Hall.
    + destruct (times_out l HoldPower pm pd) eqn:Et'; [|reflexivity].
      apply times_out_on in Et'. congruence.
Qed.

(** X11. A pass that finds no domain on does nothing besides storing the
    clock reading: it calls nothing, changes no timer, and does not enter
    the stop mode. The stop mode is entered only by the pass that switches
    the last domain off. *)
Theorem Loop_with_nothing_on :
  forall (timeNow : Z) (HoldPower : PowerSubscriber -> bool)
         (env : SleepEnv) (pm : PowerManager),
    powerState pm = 0 ->
    let pm' := Loop timeNow HoldPower env pm in
    domains pm' = domains pm /\ powerState pm' = 0
    /\ trace pm' = trace pm /\ subscribers pm' = subscribers pm
    /\ wakeUpSource pm' = wakeUpSource pm
    /\ (domains pm <> [] -> lastLoopTime pm' = timeNow).
Proof.
  intros timeNow HoldPower env pm E0 pm'. unfold pm'.
  destruct (domains pm) as [|d0 ds0] eqn:Eds.
  { unfold Loop. rewrite Eds. repeat split; auto. congruence. }
  assert (Hne : domains pm <> []) by congruence. rewrite <- Eds.
  destruct (Z.lt_ge_cases (elapsed timeNow pm) PWRMAN_MINTIMEOUT) as [Hl|Hl].
  2:{ rewrite (Loop_skipped timeNow HoldPower env pm Hne Hl).
      now repeat split. }
  assert (Hchk : forall pd, checked (powerState pm)
                   (Loop_domainsToCheck HoldPower pm) pd = false).
  { intros pd. unfold checked. now rewrite E0, is_on_0. }
  assert (En : snd (Loop_check (elapsed timeNow pm) HoldPower pm)
               = powerState pm).
  { rewrite Loop_check_form. cbn [snd].
    rewrite (filter_none _ (domains pm)); [reflexivity|].
    intros pd. unfold expired. now rewrite Hchk. }
  assert (Ed : fst (Loop_check (elapsed timeNow pm) HoldPower pm)
               = domains pm).
  { rewrite Loop_check_form. cbn [fst].
    rewrite <- (map_id (domains pm)) at 2. apply map_ext.
    intros pd. unfold check_dom. now rewrite Hchk. }
  rewrite (Loop_unfold timeNow HoldPower env pm Hne Hl).
  rewrite En, Z.eqb_refl. cbn [orb]. unfold Loop_awake.
  rewrite En, Z.eqb_refl, Ed. now repeat split.
Qed.

(** ** The diagnostic commands *)

Lemma Parse_dom_off_cmd (arg : string) (saberIsOn : bool) (env : SleepEnv)
    (pm : PowerManager) :
  DIAGNOSE_POWER = true ->
  Parse "pwr-dom-off" arg saberIsOn env pm
  = Some (true, with_domains (fst (dom_off_loop arg (domains pm) pm))
                  (snd (dom_off_loop arg (domains pm) pm))).
Proof.
  intros H. unfold Parse. rewrite H. cbn [andb String.eqb Ascii.eqb Bool.eqb].
  now destruct (dom_off_loop arg (domains pm) pm).
Qed.

Lemma Parse_dom_request_cmd (arg : string) (saberIsOn : bool)
    (env : SleepEnv) (pm : PowerManager) :
  DIAGNOSE_POWER = true ->
  Parse "pwr-dom-request" arg saberIsOn env pm
  = if 20 <=? Z.of_nat (String.length arg) then None
    else match domains pm with
         | [] => Some (true, pm)
         | _ :: _ =>
             match dom_request_loop (strtok arg) (domains pm) pm with
             | None => None
             | Some (ds, pm') => Some (true, with_domains ds pm')
             end
         end.
Proof.
  intros H. unfold Parse. rewrite H. reflexivity.
Qed.

Lemma Parse_sub_request_cmd (arg : string) (saberIsOn : bool)
    (env : SleepEnv) (pm : PowerManager) :
  DIAGNOSE_POWER = true ->
  Parse "pwr-sub-request" arg saberIsOn env pm
  = match sub_request_loop arg (subscribers pm) pm with
    | None => None
    | Some pm' => Some (true, pm')
    end.
Proof.
  intros H. unfold Parse. rewrite H. reflexivity.
Qed.

Lemma with_domains_same (pm : PowerManager) : with_domains (domains pm) pm = pm.
Proof. now destruct pm. Qed.

Lemma eqb_name_neq (a b : string) : a <> b -> String.eqb b a = false.
Proof. intros H. apply String.eqb_neq. congruence. Qed.

Lemma dom_off_loop_found (arg : string) (pm : PowerManager) :
  forall pre pd post,
    Forall (fun q => pd_name q <> arg) pre -> pd_name pd = arg ->
    dom_off_loop arg (pre ++ pd :: post) pm
    = (pre ++ fst (force_off pd pm) :: post, snd (force_off pd pm)).
Proof.
  induction pre as [|q pre IH]; intros pd post Hpre Hpd.
  - cbn [app dom_off_loop]. rewrite Hpd, String.eqb_refl.
    now destruct (force_off pd pm).
  - inversion Hpre as [|? ? Hq Hpre']; subst.
    cbn [app dom_off_loop]. rewrite (eqb_name_neq _ _ Hq).
    now rewrite (IH pd post Hpre' eq_refl).
Qed.

Lemma dom_off_loop_unknown (arg : string) (pm : PowerManager) :
  forall ds, Forall (fun q => pd_name q <> arg) ds ->
    dom_off_loop arg ds pm = (ds, pm).
Proof.
  induction ds as [|q ds IH]; intros H; [reflexivity|].
  inversion H as [|? ? Hq H']; subst.
  cbn [dom_off_loop]. rewrite (eqb_name_neq _ _ Hq). now rewrite (IH H').
Qed.

(** X12. With [DIAGNOSE_POWER] the command "pwr-dom-off <name>" acts on
    the first listed domain of that name and on nothing else. If the domain
    is on it is switched off at once, with its bit and its timer cleared,
    and no off-callback is called, whoever subscribed to it; if it is off,
    or if no domain has the name, nothing changes. The command is always
    handled. *)
Theorem pwr_dom_off_command :
  forall (arg : string) (saberIsOn : bool) (env : SleepEnv)
         (pm : PowerManager),
    DIAGNOSE_POWER = true ->
    (forall pre pd post,
       domains pm = pre ++ pd :: post ->
       Forall (fun q => pd_name q <> arg) pre -> pd_name pd = arg ->
       exists pm',
         Parse "pwr-dom-off" arg saberIsOn env pm = Some (true, pm')
         /\ (is_on (pd_id pd) (powerState pm) = false -> pm' = pm)
         /\ (is_on (pd_id pd) (powerState pm) = true ->
             domains pm' = pre ++ set_countdownTimer 0 pd :: post
             /\ trace pm' = trace pm ++ [EvSetPower (pd_id pd) false]
             /\ subscribers pm' = subscribers pm
             /\ forall t, is_on t (powerState pm')
                          = is_on t (powerState pm)
                            && negb (PDType_eqb t (pd_id pd))))
    /\ (Forall (fun q => pd_name q <> arg) (domains pm) ->
        Parse "pwr-dom-off" arg saberIsOn env pm = Some (true, pm)).
Proof.
  intros arg saberIsOn env pm HD. split.
  - intros pre pd post Eds Hpre Hpd.
    rewrite (Parse_dom_off_cmd arg saberIsOn env pm HD), Eds.
    rewrite (dom_off_loop_found arg pm pre pd post Hpre Hpd).
    cbn [fst snd]. rewrite force_off_form.
    eexists. split; [reflexivity|].
    destruct (is_on (pd_id pd) (powerState pm)) eqn:Eon; cbn [fst snd].
    + split; [discriminate|]. intros _.
      cbn [with_domains power_off emit with_powerState domains trace
             subscribers powerState].
      repeat split. intros t. apply is_on_clear.
    + split; [|discriminate]. intros _. rewrite <- Eds.
      apply with_domains_same.
  - intros Hall. rewrite (Parse_dom_off_cmd arg saberIsOn env pm HD).
    rewrite (dom_off_loop_unknown arg pm (domains pm) Hall).
    cbn [fst snd]. now rewrite with_domains_same.
Qed.

Lemma dom_request_loop_found (tok more : string) (pm : PowerManager) :
  forall pre pd post,
    Forall (fun q => pd_name q <> tok) pre -> pd_name pd = tok ->
    dom_request_loop (Some (tok, more)) (pre ++ pd :: post) pm
    = match strtok more with
      | None => None
      | Some (tok2, _) =>
          Some (pre
                ++ ResetTimeout
                     (Z.max PWRMAN_MINTIMEOUT (uint32 (atoi tok2))) pd
                :: post,
                if is_on (pd_id pd) (powerState pm) then pm
                else power_on pd pm)
      end.
Proof.
  induction pre as [|q pre IH]; intros pd post Hpre Hpd.
  - cbn [app dom_request_loop]. rewrite <- Hpd, String.eqb_refl.
    destruct (strtok more) as [[tok2 rest]|]; [|reflexivity].
    rewrite and_nz_flag_l. f_equal. f_equal.
    + f_equal. f_equal.
      destruct (Z.ltb_spec (uint32 (atoi tok2)) PWRMAN_MINTIMEOUT); lia.
    + now destruct (is_on (pd_id pd) (powerState pm)).
  - inversion Hpre as [|? ? Hq Hpre']; subst.
    cbn [app dom_request_loop]. rewrite (eqb_name_neq _ _ Hq).
    rewrite (IH pd post Hpre' eq_refl).
    now destruct (strtok more) as [[tok2 rest]|].
Qed.

Lemma dom_request_loop_unknown (tok more : string) (pm : PowerManager) :
  forall ds, Forall (fun q => pd_name q <> tok) ds ->
    dom_request_loop (Some (tok, more)) ds pm = Some (ds, pm).
Proof.
  induction ds as [|q ds IH]; intros H; [reflexivity|].
  inversion H as [|? ? Hq H']; subst.
  cbn [dom_request_loop]. rewrite (eqb_name_neq _ _ Hq). now rewrite (IH H').
Qed.

(** X13. With [DIAGNOSE_POWER] the command "pwr-dom-request <name>,<millis>"
    acts on the first listed domain of that name: it raises the domain's
    timer to the requested time, taken as at least [PWRMAN_MINTIMEOUT], so
    that a request of 0 asks for the minimum and not for the domain's
    default, and switches the domain on if it was off, without any
    on-callback. For an unknown name nothing changes. An argument of 20
    characters or more overflows the command's buffer, and a known name
    with no time after it reads a null token: the call then has no defined
    result. *)
Theorem pwr_dom_request_command :
  forall (arg tok more : string) (saberIsOn : bool) (env : SleepEnv)
         (pm : PowerManager),
    DIAGNOSE_POWER = true ->
    (String.length arg < 20)%nat ->
    strtok arg = Some (tok, more) ->
    (forall pre pd post,
       domains pm = pre ++ pd :: post ->
       Forall (fun q => pd_name q <> tok) pre -> pd_name pd = tok ->
       (strtok more = None ->
        Parse "pwr-dom-request" arg saberIsOn env pm = None)
       /\ forall tok2 rest, strtok more = Some (tok2, rest) ->
            let t := Z.max PWRMAN_MINTIMEOUT (uint32 (atoi tok2)) in
            exists pm',
              Parse "pwr-dom-request" arg saberIsOn env pm = Some (true, pm')
              /\ domains pm'
                 = pre ++ set_countdownTimer
                            (Z.max (countdownTimer pd) t) pd :: post
              /\ trace pm'
                 = trace pm
                   ++ (if is_on (pd_id pd) (powerState pm) then []
                       else [EvSetPower (pd_id pd) true])
              /\ subscribers pm' = subscribers pm
              /\ forall u, u <> pwr4_none ->
                   is_on u (powerState pm')
                   = is_on u (powerState pm) || PDType_eqb u (pd_id pd))
    /\ (Forall (fun q => pd_name q <> tok) (domains pm) ->
        Parse "pwr-dom-request" arg saberIsOn env pm = Some (true, pm))
    /\ (forall arg', (20 <= String.length arg')%nat ->
          Parse "pwr-dom-request" arg' saberIsOn env pm = None).
Proof.
  intros arg tok more saberIsOn env pm HD Hlen Htok.
  assert (Hfit : (20 <=? Z.of_nat (String.length arg)) = false)
    by (apply Z.leb_gt; lia).
  split; [|split].
  - intros pre pd post Eds Hpre Hpd.
    rewrite (Parse_dom_request_cmd arg saberIsOn env pm HD), Hfit, Htok, Eds.
    assert (Hcons : pre ++ pd :: post <> []) by now destruct pre.
    destruct (pre ++ pd :: post) as [|d0 ds0] eqn:El; [congruence|].
    rewrite <- El.
    rewrite (dom_request_loop_found tok more pm pre pd post Hpre Hpd).
    split.
    + intros ->. reflexivity.
    + intros tok2 rest -> t. fold t. eexists. split; [reflexivity|].
      cbn [with_domains domains]. split; [|split; [|split]].
      * f_equal. f_equal. rewrite ResetTimeout_set. f_equal. f_equal.
        unfold clamped.
        assert (Ht : PWRMAN_MINTIMEOUT <= t) by apply Z.le_max_l.
        unfold PWRMAN_MINTIMEOUT in *.
        destruct (Z.eqb_spec t 0); lia.
      * destruct (is_on (pd_id pd) (powerState pm));
          cbn [with_domains power_on emit with_powerState trace];
          now rewrite ?app_nil_r.
      * now destruct (is_on (pd_id pd) (powerState pm)).
      * intros u Hu.
        destruct (is_on (pd_id pd) (powerState pm)) eqn:Eon;
          cbn [with_domains power_on emit with_powerState powerState].
        -- destruct (PDType_eqb u (pd_id pd)) eqn:Eu.
           ++ apply PDType_eqb_eq in Eu. subst u.
              now rewrite Eon.
           ++ now rewrite orb_false_r.
        -- unfold flag. now apply is_on_set.
  - intros Hall.
    rewrite (Parse_dom_request_cmd arg saberIsOn env pm HD), Hfit, Htok.
    destruct (domains pm) as [|d0 ds0] eqn:Eds; [reflexivity|].
    rewrite <- Eds in *.
    rewrite (dom_request_loop_unknown tok more pm (domains pm) Hall).
    now rewrite with_domains_same.
  - intros arg' Hlen'.
    rewrite (Parse_dom_request_cmd arg' saberIsOn env pm HD).
    assert (H : (20 <=? Z.of_nat (String.length arg')) = true)
      by (apply Z.leb_le; lia).
    now rewrite H.
Qed.

Lemma sub_request_loop_found (arg : string) (pm : PowerManager) :
  forall pre ps post,
    Forall (fun q => ps_name q <> arg) pre -> ps_name ps = arg ->
    sub_request_loop arg (pre ++ ps :: post) pm
    = match RequestPower ps None pm with
      | None => None
      | Some (_, pm') => Some pm'
      end.
Proof.
  induction pre as [|q pre IH]; intros ps post Hpre Hps.
  - cbn [app sub_request_loop]. now rewrite Hps, String.eqb_refl.
  - inversion Hpre as [|? ? Hq Hpre']; subst.
    cbn [app sub_request_loop]. rewrite (eqb_name_neq _ _ Hq).
    now apply IH.
Qed.

Lemma sub_request_loop_unknown (arg : string) (pm : PowerManager) :
  forall ss, Forall (fun q => ps_name q <> arg) ss ->
    sub_request_loop arg ss pm = Some pm.
Proof.
  induction ss as [|q ss IH]; intros H; [reflexivity|].
  inversion H as [|? ? Hq H']; subst.
  cbn [sub_request_loop]. rewrite (eqb_name_neq _ _ Hq). now apply IH.
Qed.

Lemma RequestPower_default_defined (ps : PowerSubscriber)
    (pm : PowerManager) :
  RequestPower ps None pm <> None.
Proof.
  unfold RequestPower. destruct (domains pm) as [|d0 ds0]; [discriminate|].
  pose proof (RequestPower_loop_default ps (d0 :: ds0) pm false) as H.
  destruct (RequestPower_loop ps (d0 :: ds0) None pm false)
    as [[[a b] c]|]; [discriminate|congruence].
Qed.

Lemma sub_request_loop_defined (arg : string) (ss : list PowerSubscriber)
    (pm : PowerManager) :
  sub_request_loop arg ss pm <> None.
Proof.
  induction ss as [|q ss IH]; [discriminate|].
  cbn [sub_request_loop]. destruct (String.eqb arg (ps_name q)); [|exact IH].
  pose proof (RequestPower_default_defined q pm) as H.
  destruct (RequestPower q None pm) as [[r pm']|]; [discriminate|congruence].
Qed.

(** X14. With [DIAGNOSE_POWER] the command "pwr-sub-request <name>" is
    the [RequestPower()] call, with the default timeouts, of the first
    listed subscriber of that name: it always returns, and leaves the
    state that call leaves, on-callback included. For an unknown name
    nothing changes. *)
Theorem pwr_sub_request_command :
  forall (arg : string) (saberIsOn : bool) (env : SleepEnv)
         (pm : PowerManager),
    DIAGNOSE_POWER = true ->
    (forall pre ps post,
       subscribers pm = pre ++ ps :: post ->
       Forall (fun q => ps_name q <> arg) pre -> ps_name ps = arg ->
       exists r pm',
         RequestPower ps None pm = Some (r, pm')
         /\ Parse "pwr-sub-request" arg saberIsOn env pm = Some (true, pm')
         /\ on_callbacks (trace pm')
            = on_callbacks (trace pm) ++ (if r then [ps] else []))
    /\ (Forall (fun q => ps_name q <> arg) (subscribers pm) ->
        Parse "pwr-sub-request" arg saberIsOn env pm = Some (true, pm)).
Proof.
  intros arg saberIsOn env pm HD. split.
  - intros pre ps post Ess Hpre Hps.
    rewrite (Parse_sub_request_cmd arg saberIsOn env pm HD), Ess.
    rewrite (sub_request_loop_found arg pm pre ps post Hpre Hps).
    destruct (RequestPower ps None pm) as [[r pm']|] eqn:E.
    + exists r, pm'. split; [reflexivity|]. split; [reflexivity|].
      unfold RequestPower in E.
      destruct (domains pm) as [|d0 ds0] eqn:Eds.
      * injection E as <- <-. now rewrite app_nil_r.
      * rewrite <- Eds in E.
        destruct (RequestPower_loop ps (domains pm) None pm false)
          as [[[ds pm1] r1]|] eqn:El; [|discriminate].
        injection E as <- <-.
        apply RequestPower_loop_visits in El.
        destruct (visits_act_extends
                    (fun e => match e with EvSetPower _ _ => true
                                         | _ => false end)
                    _ _ _ _ (fun _ _ => eq_refl) El) as [seg [Es Hseg]].
        assert (Hnone : on_callbacks seg = []).
        { clear Es. induction seg as [|e seg IH]; [reflexivity|].
          cbn [forallb] in Hseg. apply andb_true_iff in Hseg.
          destruct Hseg as [He Hseg]. destruct e; try discriminate He.
          cbn [on_callbacks]. now apply IH. }
        destruct r1; cbn [emit with_domains trace]; rewrite Es;
          rewrite !on_callbacks_app, Hnone, ?app_nil_r; reflexivity.
    + exfalso. now apply (RequestPower_default_defined ps pm).
  - intros Hall. rewrite (Parse_sub_request_cmd arg saberIsOn env pm HD).
    now rewrite (sub_request_loop_unknown arg pm (subscribers pm) Hall).
Qed.

Lemma dom_request_loop_undefined (tok more : string) (pm : PowerManager) :
  forall ds,
    dom_request_loop (Some (tok, more)) ds pm = None
    <-> (exists pd, In pd ds /\ pd_name pd = tok) /\ strtok more = None.
Proof.
  induction ds as [|q ds IH].
  - cbn. split; [discriminate|]. now intros [[pd [[] _]] _].
  - cbn [dom_request_loop].
    destruct (String.eqb tok (pd_name q)) eqn:Eq.
    + apply String.eqb_eq in Eq.
      destruct (strtok more) as [[tok2 rest]|].
      * split; [discriminate|]. now intros [_ H].
      * split; [|reflexivity]. intros _. split; [|reflexivity].
        exists q. split; [now left|congruence].
    + apply String.eqb_neq in Eq.
      destruct (dom_request_loop (Some (tok, more)) ds pm)
        as [[rest' pm']|].
      * split; [discriminate|]. intros [[pd [[->|Hpd] En]] Hs];
          [congruence|].
        assert (H : Some (rest', pm') = None);
          [|discriminate H].
        apply IH. split; [|exact Hs]. now exists pd.
      * split; [|reflexivity]. intros _.
        destruct (proj1 IH eq_refl) as [[pd [Hpd En]] Hs].
        split; [|exact Hs]. exists pd. split; [now right|exact En].
Qed.

(** X15. [Parse] handles "deepsleep" in every build and the five "pwr-"
    commands only with [DIAGNOSE_POWER]; any other command is refused with
    the state untouched, and the two listing commands change nothing
    either. The only command whose result is not defined for every
    argument is "pwr-dom-request": it is undefined exactly when the
    argument has 20 characters or more, or, with a domain in the list, when
    the argument holds no token or names a listed domain without a time
    after it. *)
Theorem Parse_handles_known_commands :
  forall (cmd arg : string) (saberIsOn : bool) (env : SleepEnv)
         (pm : PowerManager),
    (forall r pm',
       Parse cmd arg saberIsOn env pm = Some (r, pm') ->
       r = known_command cmd
       /\ (r = false -> pm' = pm)
       /\ (cmd = "pwr-domains"%string \/ cmd = "pwr-subs"%string -> pm' = pm))
    /\ (Parse cmd arg saberIsOn env pm = None <->
        DIAGNOSE_POWER = true /\ cmd = "pwr-dom-request"%string
        /\ ((20 <= String.length arg)%nat
            \/ (domains pm <> []
                /\ (strtok arg = None
                    \/ exists tok more pd,
                         strtok arg = Some (tok, more)
                         /\ In pd (domains pm) /\ pd_name pd = tok
                         /\ strtok more = None)))).
Proof.
  intros cmd arg saberIsOn env pm.
  assert (Hreq : DIAGNOSE_POWER = true ->
            (Parse "pwr-dom-request" arg saberIsOn env pm = None <->
             ((20 <= String.length arg)%nat
              \/ (domains pm <> []
                  /\ (strtok arg = None
                      \/ exists tok more pd,
                           strtok arg = Some (tok, more)
                           /\ In pd (domains pm) /\ pd_name pd = tok
                           /\ strtok more = None))))).
  { intros HD. rewrite (Parse_dom_request_cmd arg saberIsOn env pm HD).
    destruct (Z.leb_spec 20 (Z.of_nat (String.length arg))) as [Hlen|Hlen].
    { split; [|reflexivity]. intros _. left. lia. }
    destruct (domains pm) as [|d0 ds0] eqn:Eds.
    { split; [discriminate|]. intros [H|[H _]]; [lia|congruence]. }
    rewrite <- Eds.
    assert (Hne : domains pm <> []) by congruence.
    destruct (strtok arg) as [[tok more]|] eqn:Etok.
    - pose proof (dom_request_loop_undefined tok more pm (domains pm)) as Hu.
      destruct (dom_request_loop (Some (tok, more)) (domains pm) pm)
        as [[ds pm1]|].
      + split; [discriminate|].
        intros [H|[_ [H|[tok' [more' [pd [E [Hpd [En Hs]]]]]]]]];
          [lia|discriminate|].
        injection E as <- <-.
        assert (H : Some (ds, pm1) = None); [|discriminate H].
        apply Hu. split; [now exists pd|exact Hs].
      + split; [|reflexivity]. intros _. right. split; [exact Hne|].
        right. destruct (proj1 Hu eq_refl) as [[pd [Hpd En]] Hs].
        now exists tok, more, pd.
    - rewrite Eds. cbn [dom_request_loop]. split; [|reflexivity].
      intros _. right. split; [congruence|now left]. }
  unfold known_command, Parse.
  destruct (Bool.bool_dec DIAGNOSE_POWER true) as [HD|HD];
    [|apply not_true_is_false in HD]; rewrite !HD; cbn [andb orb existsb].
  - destruct (String.eqb_spec cmd "pwr-domains") as [->|N1].
    { split; [|split; [discriminate|now intros [_ [H _]]]].
      intros r pm' E. injection E as <- <-. now repeat split. }
    destruct (String.eqb_spec cmd "pwr-dom-request") as [->|N2].
    { split.
      - intros r pm'. cbn [orb].
        destruct (20 <=? Z.of_nat (String.length arg)); [discriminate|].
        destruct (domains pm) as [|d0 ds0].
        + intros E. injection E as <- <-. split; [reflexivity|].
          split; [discriminate|]. intros [H|H]; discriminate H.
        + destruct (dom_request_loop (strtok arg) (d0 :: ds0) pm)
            as [[ds pm1]|]; [|discriminate].
          intros E. injection E as <- <-. split; [reflexivity|].
          split; [discriminate|]. intros [H|H]; discriminate H.
      - specialize (Hreq HD).
        rewrite (Parse_dom_request_cmd arg saberIsOn env pm HD) in Hreq.
        cbn [orb]. rewrite Hreq. tauto. }
    destruct (String.eqb_spec cmd "pwr-dom-off") as [->|N3].
    { split; [|split; [|now intros [_ [H _]]]].
      - intros r pm'. destruct (dom_off_loop arg (domains pm) pm).
        intros E. injection E as <- <-. split; [reflexivity|].
        split; [discriminate|]. intros [H|H]; discriminate H.
      - now destruct (dom_off_loop arg (domains pm) pm). }
    destruct (String.eqb_spec cmd "pwr-subs") as [->|N4].
    { split; [|split; [discriminate|now intros [_ [H _]]]].
      intros r pm' E. injection E as <- <-. now repeat split. }
    destruct (String.eqb_spec cmd "pwr-sub-request") as [->|N5].
    { split; [|split; [|now intros [_ [H _]]]].
      - intros r pm'.
        destruct (sub_request_loop arg (subscribers pm) pm); [|discriminate].
        intros E. injection E as <- <-. split; [reflexivity|].
        split; [discriminate|]. intros [H|H]; discriminate H.
      - pose proof (sub_request_loop_defined arg (subscribers pm) pm) as H.
        destruct (sub_request_loop arg (subscribers pm) pm);
          [discriminate|congruence]. }
    destruct (String.eqb_spec cmd "deepsleep") as [->|N6].
    { split; [|split; [discriminate|now intros [_ [H _]]]].
      intros r pm' E. injection E as <- <-. split; [reflexivity|].
      split; [discriminate|]. intros [H|H]; discriminate H. }
    split; [|split; [discriminate|now intros [_ [H _]]]].
    intros r pm' E. injection E as <- <-. now repeat split.
  - split; [|split; [|now intros [H _]]].
    + intros r pm'. destruct (String.eqb cmd "deepsleep") eqn:Ec.
      * intros E. injection E as <- <-. split; [reflexivity|].
        split; [discriminate|]. apply String.eqb_eq in Ec. subst cmd.
        intros [H|H]; discriminate H.
      * intros E. injection E as <- <-. now repeat split.
    + now destruct (String.eqb cmd "deepsleep").
Qed.

(** ** The order of the "deepsleep" command *)

Lemma SetPower_calls_ids (b : bool) (f : PDType -> bool)
    (ds : list PowerDomain) :
  SetPower_calls b (filter (fun pd => f (pd_id pd)) ds)
  = map (fun t => EvSetPower t b) (filter f (map pd_id ds)).
Proof.
  unfold SetPower_calls. rewrite filter_map_swap, map_map. reflexivity.
Qed.

Lemma existsb_ids (f : PDType -> bool) (ds : list PowerDomain) :
  existsb (fun pd => f (pd_id pd)) ds = existsb f (map pd_id ds).
Proof. now rewrite existsb_map_swap. Qed.

(** X16. The "deepsleep" command, when the saber is off and a domain is
    listed, works in this order: [SetPower(false)] on every domain that is
    on, in list order; then the off-callback of every listed subscriber,
    whether it was on or not; the transmit flush and the stop mode, entered
    with an empty power map; after the wake-up the report of the source,
    the receive flush unless the button woke it, another transmit flush,
    and the activation of the startup domains, which leaves the processor
    domain alone on with its default timeout. Unlike a pass of the loop, the
    command switches the power off before the subscribers are told. *)
Theorem deepsleep_command_sequence :
  forall (arg : string) (env : SleepEnv) (pm : PowerManager),
    Inv pm -> domains pm <> [] ->
    let on_now :=
      filter (fun pd => is_on (pd_id pd) (powerState pm)) (domains pm) in
    let w := woken_by rtc_armed env in
    exists pm',
      Parse "deepsleep" arg false env pm = Some (true, pm')
      /\ trace pm'
         = trace pm
           ++ SetPower_calls false on_now
           ++ map EvPwrOff_Callback (subscribers pm)
           ++ [EvFlushTx; EvCPU_DeepSleep PWR_STOPENTRY_WFI 0;
               EvPrintWakeUpMsg w]
           ++ wake_flush w
           ++ [EvFlushTx]
           ++ SetPower_calls true (filter is_cpu (domains pm))
           ++ (if existsb is_cpu (domains pm)
               then map EvPwrOn_Callback (filter (IsOn pm') (subscribers pm))
               else [])
      /\ wakeUpSource pm' = w
      /\ (forall pd, In pd (domains pm') ->
            is_on (pd_id pd) (powerState pm') = is_cpu pd
            /\ countdownTimer pd
               = if is_cpu pd then Z.max PWRMAN_MINTIMEOUT (pd_timeout pd)
                 else 0).
Proof.
  intros arg env pm HI Hne on_now w.
  destruct (deepsleep_forced_facts pm HI) as [Etr [E0 [Htm [Eids Ess]]]].
  fold on_now in Etr.
  set (pmF := deepsleep_forced pm) in *.
  set (pmS := CPU_DeepSleep PWR_STOPENTRY_WFI env pmF).
  destruct (CPU_DeepSleep_frame PWR_STOPENTRY_WFI env pmF)
    as [C1 [C2 [C3 [_ C5]]]].
  pose proof (CPU_DeepSleep_source PWR_STOPENTRY_WFI env pmF) as Cw.
  fold pmS in C1, C2, C3, C5, Cw. fold w in Cw.
  set (pmW := emit EvFlushTx (PrintWakeUpMsg pmS)).
  destruct (PrintWakeUpMsg_frame pmS) as [W1 [W2 [W3 [_ W5]]]].
  pose proof (PrintWakeUpMsg_trace pmS) as Wt.
  assert (EdW : domains pmW = domains pmF) by (cbn; now rewrite W1, C1).
  assert (EsW : subscribers pmW = subscribers pm)
    by (cbn; now rewrite W2, C2).
  assert (EpW : powerState pmW = 0) by (cbn; now rewrite W3, C3).
  assert (EwW : wakeUpSource pmW = w) by (cbn; now rewrite W5).
  assert (HdW : distinct_flags (domains pmW)).
  { unfold distinct_flags. rewrite EdW, Eids. apply HI. }
  exists (snd (Activate PWRMAN_STARTON pmW)).
  split; [|split; [|split]].
  - rewrite Parse_deepsleep_cmd. unfold Parse_deepsleep.
    destruct (domains pm) as [|d0 ds0] eqn:Eds; [congruence|].
    reflexivity.
  - rewrite (Activate_trace _ _ HdW), (Activate_form _ _ HdW). cbn [fst].
    rewrite EdW, EsW, EpW, goes_on_startup_filter.
    rewrite (existsb_ext_all _ is_cpu _ goes_on_startup).
    unfold is_cpu at 1 2 3.
    rewrite (SetPower_calls_ids true (fun t => PDType_eqb t pwr4_CPU)).
    rewrite (existsb_ids (fun t => PDType_eqb t pwr4_CPU)).
    rewrite Eids.
    rewrite <- (SetPower_calls_ids true (fun t => PDType_eqb t pwr4_CPU)).
    rewrite <- (existsb_ids (fun t => PDType_eqb t pwr4_CPU)).
    cbn [pmW emit trace]. rewrite Wt, Cw, C5, Etr, E0.
    rewrite <- !app_assoc. reflexivity.
  - now rewrite (Activate_result_wakeUpSource _ _ HdW).
  - intros pd Hpd. rewrite (Activate_result_domains _ _ HdW) in Hpd.
    rewrite EdW, EpW in Hpd.
    apply in_map_iff in Hpd. destruct Hpd as [q [Eq Hq]].
    rewrite goes_on_startup in Eq. fold (is_cpu q) in Eq.
    rewrite Forall_forall in Htm. pose proof (Htm q Hq) as Hz.
    assert (Ecpu : is_cpu pd = is_cpu q).
    { rewrite <- Eq. unfold is_cpu.
      destruct (PDType_eqb (pd_id q) pwr4_CPU) eqn:Ec;
        now rewrite ?ResetTimeout_id, Ec. }
    split.
    + assert (Eid : pd_id pd = pd_id q).
      { rewrite <- Eq. destruct (is_cpu q); [apply ResetTimeout_id|easy]. }
      rewrite Eid.
      rewrite (Activate_result_bits _ pmW q HdW) by now rewrite EdW.
      rewrite EpW, is_on_0, Ecpu. cbn [orb].
      pose proof (goes_on_startup q) as G. unfold goes_on in G.
      now rewrite is_on_0, andb_true_r in G.
    + rewrite Ecpu. rewrite <- Eq. destruct (is_cpu q); [|exact Hz].
      rewrite ResetTimeout_timer, ResetTimeout_default, Hz.
      unfold clamped. cbn [Z.eqb].
      pose proof (Z.le_max_l PWRMAN_MINTIMEOUT (pd_timeout q)).
      unfold PWRMAN_MINTIMEOUT in *. lia.
Qed.

(** ** The ports around the stop mode *)

Lemma map_bit_test (pinMap i : Z) :
  0 <= i ->
  negb (Z.land pinMap (Z.shiftl 1 i) =? 0) = Z.testbit pinMap i.
Proof.
  intros Hi. rewrite Z.shiftl_1_l, Z.land_comm, land_pow2_testbit.
  apply negb_involutive.
Qed.

Lemma defaultPortState_loop_form (off pinMap : Z) :
  forall n i, 0 <= i ->
    defaultPortState_loop n i off pinMap
    = map (fun j => off + j)
        (filter (Z.testbit pinMap)
           (map (fun k => i + Z.of_nat k) (seq 0 n))).
Proof.
  induction n as [|n IH]; intros i Hi; [reflexivity|].
  cbn [defaultPortState_loop seq map filter].
  rewrite map_bit_test by exact Hi. rewrite IH by lia.
  rewrite <- seq_shift, map_map. rewrite Z.add_0_r.
  assert (E : map (fun k => i + 1 + Z.of_nat k) (seq 0 n)
              = map (fun k => i + Z.of_nat (S k)) (seq 0 n)).
  { apply map_ext. intros k. lia. }
  rewrite E. now destruct (Z.testbit pinMap i).
Qed.

Lemma defaultPortState_loop_lower (off pinMap : Z) :
  forall n i p, In p (defaultPortState_loop n i off pinMap) -> off + i <= p.
Proof.
  induction n as [|n IH]; intros i p H; [destruct H|].
  cbn [defaultPortState_loop] in H. apply in_app_or in H.
  destruct H as [H|H].
  - destruct (negb _); [|destruct H]. destruct H as [<-|[]]. lia.
  - apply IH in H. lia.
Qed.

Lemma defaultPortState_loop_NoDup (off pinMap : Z) :
  forall n i, NoDup (defaultPortState_loop n i off pinMap).
Proof.
  induction n as [|n IH]; intros i; [constructor|].
  cbn [defaultPortState_loop]. destruct (negb _); [|apply IH].
  cbn [app]. constructor; [|apply IH].
  intros H. apply defaultPortState_loop_lower in H. lia.
Qed.

Lemma defaultPortState_loop_length (off pinMap : Z) :
  forall n i, (List.length (defaultPortState_loop n i off pinMap) <= n)%nat.
Proof.
  induction n as [|n IH]; intros i; [reflexivity|].
  cbn [defaultPortState_loop]. rewrite length_app.
  specialize (IH (i + 1)). destruct (negb _); cbn [List.length]; lia.
Qed.

Lemma defaultPortState_valid (targetPortAddr pinMap : Z) :
  defaultPortState targetPortAddr pinMap
  = if valid_port targetPortAddr
    then defaultPortState_loop 16 0 (pin0 targetPortAddr) pinMap
    else [].
Proof.
  unfold defaultPortState, valid_port, pin0.
  destruct (_ || _); [reflexivity|]. cbn [negb andb].
  now destruct (targetPortAddr mod 1024 =? 0).
Qed.

(** X17. [defaultPortState] does nothing for an address below the first
    or above the last port block, or one that is not a multiple of the
    block size. Otherwise it puts to the analog mode exactly the pins of
    that port whose bit is set in the map, each once and in ascending
    order; the pins of a port are numbered from 16 times the index of its
    block. *)
Theorem defaultPortState_configures_mapped_pins :
  forall (targetPortAddr pinMap : Z),
    (valid_port targetPortAddr = false ->
     defaultPortState targetPortAddr pinMap = [])
    /\ (valid_port targetPortAddr = true ->
        defaultPortState targetPortAddr pinMap
        = map (fun i => pin0 targetPortAddr + i)
            (filter (Z.testbit pinMap) (map Z.of_nat (seq 0 16))))
    /\ (forall p,
          In p (defaultPortState targetPortAddr pinMap)
          <-> valid_port targetPortAddr = true
              /\ exists i, 0 <= i < 16 /\ Z.testbit pinMap i = true
                           /\ p = pin0 targetPortAddr + i)
    /\ NoDup (defaultPortState targetPortAddr pinMap)
    /\ (List.length (defaultPortState targetPortAddr pinMap) <= 16)%nat
    /\ (GPIOA_BASE <= targetPortAddr ->
        targetPortAddr - GPIOA_BASE < 2 ^ 22 ->
        pin0 targetPortAddr = 16 * ((targetPortAddr - GPIOA_BASE) / 1024)).
Proof.
  intros targetPortAddr pinMap. rewrite defaultPortState_valid.
  assert (Hform : defaultPortState_loop 16 0 (pin0 targetPortAddr) pinMap
                  = map (fun i => pin0 targetPortAddr + i)
                      (filter (Z.testbit pinMap) (map Z.of_nat (seq 0 16)))).
  { rewrite defaultPortState_loop_form by lia. reflexivity. }
  split; [|split; [|split; [|split; [|split]]]].
  - now intros ->.
  - now intros ->.
  - intros p. destruct (valid_port targetPortAddr).
    + rewrite Hform, in_map_iff. split.
      * intros [i [<- Hi]]. apply filter_In in Hi. destruct Hi as [Hi Hb].
        apply in_map_iff in Hi. destruct Hi as [k [<- Hk]].
        apply in_seq in Hk. split; [reflexivity|].
        exists (Z.of_nat k). repeat split; auto; lia.
      * intros [_ [i [Hi [Hb ->]]]]. exists i. split; [reflexivity|].
        apply filter_In. split; [|exact Hb].
        apply in_map_iff. exists (Z.to_nat i). split; [lia|].
        apply in_seq. lia.
    + split; [intros []|]. now intros [H _].
  - destruct (valid_port targetPortAddr); [|constructor].
    apply defaultPortState_loop_NoDup.
  - destruct (valid_port targetPortAddr); [|cbn; lia].
    apply defaultPortState_loop_length.
  - intros Hge Hlt. unfold pin0, uint16.
    assert (H : 0 <= (targetPortAddr - GPIOA_BASE) / 1024 < 2 ^ 12).
    { split; [apply Z.div_pos; lia|].
      apply Z.div_lt_upper_bound; lia. }
    rewrite Z.mod_small; lia.
Qed.

Lemma savePORTState_valid (savedPort : GPIO_TypeDef) (targetPortAddr : Z)
    (mem : Ports) :
  savePORTState savedPort targetPortAddr mem
  = if valid_port targetPortAddr then mem targetPortAddr else savedPort.
Proof.
  unfold savePORTState, valid_port.
  destruct (_ || _); [reflexivity|]. cbn [negb andb].
  now destruct (targetPortAddr mod 1024 =? 0).
Qed.

Lemma restorePORTXState_data (savedPort : GPIO_TypeDef) (targetPortAddr : Z)
    (mem : Ports) (a : Z) :
  pin_data (restorePORTXState savedPort targetPortAddr mem a)
  = pin_data (mem a).
Proof.
  unfold restorePORTXState.
  destruct (_ || _); [reflexivity|].
  destruct (negb _); [reflexivity|].
  destruct (Z.eqb_spec a targetPortAddr) as [->|]; reflexivity.
Qed.

Lemma restorePORTXState_config (savedPort : GPIO_TypeDef)
    (targetPortAddr : Z) (mem : Ports) (a : Z) :
  pin_config (restorePORTXState savedPort targetPortAddr mem a)
  = if valid_port targetPortAddr && (a =? targetPortAddr)
    then pin_config savedPort else pin_config (mem a).
Proof.
  unfold restorePORTXState, valid_port.
  destruct (_ || _); [reflexivity|]. cbn [negb andb].
  destruct (targetPortAddr mod 1024 =? 0); cbn [negb andb]; [|reflexivity].
  now destruct (a =? targetPortAddr).
Qed.

Lemma GPIO_TypeDef_eq (g h : GPIO_TypeDef) :
  pin_config g = pin_config h -> pin_data g = pin_data h -> g = h.
Proof.
  destruct g, h. unfold pin_config, pin_data. cbn.
  intros E1 E2. injection E1 as -> -> -> -> -> ->.
  injection E2 as -> -> -> -> ->. reflexivity.
Qed.

(** X18. Whatever happens to the port registers between the saving and
    the restoring in [CPU_DeepSleep], afterwards the configuration
    registers (mode, output type, speed, pull-up and the two alternate
    function registers) of the four port blocks A, B, C and H are what they
    were before, and every other register of every port is what the stop
    left; a block whose address fails the address tests is neither saved
    nor restored. Restoring a block directly after saving it changes
    nothing. *)
Theorem ports_restored_after_stop :
  forall (portA portB portC portH : GPIO_TypeDef)
         (during : Ports -> Ports) (mem : Ports) (a : Z),
    let mem' := CPU_DeepSleep_ports portA portB portC portH during mem in
    let stopped := [GPIOA_BASE; GPIOB_BASE; GPIOC_BASE; GPIOH_BASE] in
    pin_data (mem' a) = pin_data (during mem a)
    /\ (In a stopped -> valid_port a = true ->
        pin_config (mem' a) = pin_config (mem a))
    /\ (~ In a stopped \/ valid_port a = false -> mem' a = during mem a)
    /\ (forall savedPort,
          restorePORTXState (savePORTState savedPort a mem) a mem a = mem a)
    /\ (valid_port a = false ->
        forall savedPort,
          savePORTState savedPort a mem = savedPort
          /\ restorePORTXState savedPort a mem = mem).
Proof.
  intros portA portB portC portH during mem a mem' stopped.
  assert (Hdata : pin_data (mem' a) = pin_data (during mem a)).
  { unfold mem', CPU_DeepSleep_ports. cbv zeta.
    now rewrite !restorePORTXState_data. }
  assert (Hcfg : pin_config (mem' a)
                 = if valid_port a && existsb (Z.eqb a) stopped
                   then pin_config (mem a) else pin_config (during mem a)).
  { unfold mem', CPU_DeepSleep_ports, stopped. cbv zeta.
    rewrite !restorePORTXState_config, !savePORTState_valid.
    cbn [existsb]. rewrite orb_false_r.
    destruct (Z.eqb_spec a GPIOH_BASE) as [<-|];
      destruct (Z.eqb_spec a GPIOC_BASE) as [<-|];
      destruct (Z.eqb_spec a GPIOB_BASE) as [<-|];
      destruct (Z.eqb_spec a GPIOA_BASE) as [<-|];
      cbn [orb];
      rewrite ?andb_true_r, ?andb_false_r;
      destruct (valid_port a) eqn:Ea; cbn [andb]; try reflexivity;
      repeat match goal with
             | |- context [valid_port ?b && false] =>
                 rewrite (andb_false_r (valid_port b))
             end; reflexivity. }
  split; [exact Hdata|]. split; [|split; [|split]].
  - intros Hin Hv. rewrite Hcfg, Hv. cbn [andb].
    assert (Hex : existsb (Z.eqb a) stopped = true).
    { apply existsb_exists. exists a. split; [exact Hin|apply Z.eqb_refl]. }
    now rewrite Hex.
  - intros Hout. apply GPIO_TypeDef_eq; [|exact Hdata].
    rewrite Hcfg. destruct Hout as [Hout|Hv].
    + assert (Hex : existsb (Z.eqb a) stopped = false).
      { destruct (existsb (Z.eqb a) stopped) eqn:E; [|reflexivity].
        apply existsb_exists in E. destruct E as [b [Hb E]].
        apply Z.eqb_eq in E. subst b. contradiction. }
      now rewrite Hex, andb_false_r.
    + now rewrite Hv.
  - intros savedPort. apply GPIO_TypeDef_eq.
    + rewrite restorePORTXState_config, savePORTState_valid, Z.eqb_refl.
      now destruct (valid_port a).
    + apply restorePORTXState_data.
  - intros Hv savedPort. split.
    + now rewrite savePORTState_valid, Hv.
    + unfold restorePORTXState. unfold valid_port in Hv.
      destruct (_ || _); [reflexivity|]. cbn [negb andb] in Hv.
      now rewrite Hv.
Qed.

Lemma valid_port_block (k : Z) :
  GPIOA_BASE mod 1024 = 0 -> 0 <= k -> GPIOA_BASE + 1024 * k <= GPIOH_BASE ->
  k < 2 ^ 12 ->
  valid_port (GPIOA_BASE + 1024 * k) = true
  /\ pin0 (GPIOA_BASE + 1024 * k) = 16 * k.
Proof.
  intros Ha Hk Hh Hlt. unfold valid_port, pin0, uint16. split.
  - apply andb_true_iff. split.
    + apply negb_true_iff, orb_false_iff. split.
      * apply Z.ltb_ge. lia.
      * apply Z.ltb_ge. exact Hh.
    + apply Z.eqb_eq. rewrite (Z.mul_comm 1024 k), Z.mod_add by lia.
      exact Ha.
  - replace (GPIOA_BASE + 1024 * k - GPIOA_BASE) with (k * 1024) by lia.
    rewrite Z.div_mul by lia. rewrite Z.mod_small; lia.
Qed.

(** X19. With the port blocks A, B, C and H at the block indices 0, 1, 2
    and 7 of the memory map, [CPU_DeepSleep] puts to the analog mode, in
    this order, the pins 0, 1, 3 to 7 and 12 to 14 of port A, every pin of
    port B but 2 and 4, the pins 13 to 15 of port C and the pins 0 and 1 of
    port H; the 'L' build adds pin 2 of port A and spares pin 12 of port B.
    So the serial pins 9 and 10 and the button pin 11 of port A, which wake
    the processor, and the enable pins A15, B2 and B4 are never touched. *)
Theorem CPU_DeepSleep_keeps_wake_pins :
  GPIOA_BASE mod 1024 = 0 ->
  GPIOB_BASE = GPIOA_BASE + 1024 * 1 ->
  GPIOC_BASE = GPIOA_BASE + 1024 * 2 ->
  GPIOH_BASE = GPIOA_BASE + 1024 * 7 ->
  CPU_DeepSleep_defaults
  = (if ULTRAPROFFIE_VERSION_L
     then [0; 1; 2; 3; 4; 5; 6; 7; 12; 13; 14]
     else [0; 1; 3; 4; 5; 6; 7; 12; 13; 14])
    ++ map (fun i => 16 + i)
         (if ULTRAPROFFIE_VERSION_L
          then [0; 1; 3; 5; 6; 7; 8; 9; 10; 11; 13; 14; 15]
          else [0; 1; 3; 5; 6; 7; 8; 9; 10; 11; 12; 13; 14; 15])
    ++ map (fun i => 32 + i) [13; 14; 15]
    ++ map (fun i => 112 + i) [0; 1]
  /\ Forall (fun p => ~ In p CPU_DeepSleep_defaults)
       [8; 9; 10; 11; 15; 16 + 2; 16 + 4].
Proof.
  intros Ha Hb Hc Hh.
  assert (E : CPU_DeepSleep_defaults
              = (if ULTRAPROFFIE_VERSION_L
                 then [0; 1; 2; 3; 4; 5; 6; 7; 12; 13; 14]
                 else [0; 1; 3; 4; 5; 6; 7; 12; 13; 14])
                ++ map (fun i => 16 + i)
                     (if ULTRAPROFFIE_VERSION_L
                      then [0; 1; 3; 5; 6; 7; 8; 9; 10; 11; 13; 14; 15]
                      else [0; 1; 3; 5; 6; 7; 8; 9; 10; 11; 12; 13; 14; 15])
                ++ map (fun i => 32 + i) [13; 14; 15]
                ++ map (fun i => 112 + i) [0; 1]).
  { unfold CPU_DeepSleep_defaults. rewrite !defaultPortState_valid.
    destruct (valid_port_block 0 Ha) as [VA PA]; try lia.
    destruct (valid_port_block 1 Ha) as [VB PB]; try lia.
    destruct (valid_port_block 2 Ha) as [VC PC]; try lia.
    destruct (valid_port_block 7 Ha) as [VH PH]; try lia.
    rewrite <- Hb in VB, PB. rewrite <- Hc in VC, PC.
    rewrite <- Hh in VH, PH.
    replace (GPIOA_BASE + 1024 * 0) with GPIOA_BASE in VA, PA by lia.
    rewrite VA, VB, VC, VH, PA, PB, PC, PH.
    destruct ULTRAPROFFIE_VERSION_L; vm_compute; reflexivity. }
  split; [exact E|]. rewrite E.
  destruct ULTRAPROFFIE_VERSION_L; cbn [map app];
    repeat (apply Forall_cons; [cbn; intuition discriminate|]);
    apply Forall_nil.
Qed.

Lemma short_last_Inv : Inv short_last.
Proof.
  unfold short_last. cbn [idle_passes].
  repeat apply Loop_Inv. exact short_on_Inv.
Qed.
End Build.

(** * Runs on the concrete board

    The build used below defines [DIAGNOSE_POWER] and is neither the 'L'
    version nor a charger build; [atoi] is not called in these runs. *)

(** ** The power map after a sequence of calls *)

Lemma powerState_tracks_SetPower_witness :
  exists pm,
    do_calls true false false 0 (fun _ => 0) session board = Some pm
    /\ In (set_countdownTimer 60000 pwrdom_cpu) (domains pm)
    /\ In pwrdom_amp (domains pm)
    /\ (is_on pwr4_CPU (powerState pm) = true
        <-> last_SetPower pwr4_CPU (trace pm) = Some true)
    /\ (is_on pwr4_Amplif (powerState pm) = true
        <-> last_SetPower pwr4_Amplif (trace pm) = Some true)
    /\ is_on pwr4_CPU (powerState pm) = true
    /\ is_on pwr4_Amplif (powerState pm) = false.
Proof.
  destruct (do_calls true false false 0 (fun _ => 0) session board)
    as [pm|] eqn:E; [|vm_compute in E; discriminate E].
  exists pm. split; [reflexivity|].
  assert (Hcpu : In (set_countdownTimer 60000 pwrdom_cpu) (domains pm)).
  { vm_compute in E. injection E as <-. left. reflexivity. }
  assert (Hamp : In pwrdom_amp (domains pm)).
  { vm_compute in E. injection E as <-.
    right. right. right. left. reflexivity. }
  split; [exact Hcpu|]. split; [exact Hamp|].
  split; [|split].
  - exact (powerState_tracks_SetPower true false false 0 (fun _ => 0)
             session board pm board_constructed E _ Hcpu).
  - exact (powerState_tracks_SetPower true false false 0 (fun _ => 0)
             session board pm board_constructed E _ Hamp).
  - vm_compute in E. injection E as <-. split; reflexivity.
Defined.

(** ** Timers *)

Lemma ResetTimeout_keeps_maximum_witness :
  countdownTimer (ResetTimeout_all [100; 5; 0; 70] pwrdom_amp) = 100
  /\ clamped pwrdom_amp 5 = PWRMAN_MINTIMEOUT
  /\ clamped pwrdom_amp 0 = PWRMAN_AMPTIMEOUT
  /\ ResetTimeout 5 pwrdom_amp = ResetTimeout PWRMAN_MINTIMEOUT pwrdom_amp
  /\ countdownTimer (ResetTimeout 70 (amp_at 100)) = 100
  /\ budgets pwrdom_amp
       [call_ResetTimeout 100; call_CheckTimeout 10; call_ResetTimeout 95;
        call_CheckTimeout 10; call_ResetTimeout 0]
     = [100 - 20; 95 - 10; 50 - 0]
  /\ timer_calls
       [call_ResetTimeout 100; call_CheckTimeout 10; call_ResetTimeout 95;
        call_CheckTimeout 10; call_ResetTimeout 0] pwrdom_amp
     = ([false; false], amp_at 85)
  /\ countdownTimer
       (snd (timer_calls
               [call_ResetTimeout 100; call_CheckTimeout 10;
                call_ResetTimeout 95; call_CheckTimeout 10;
                call_ResetTimeout 0] pwrdom_amp))
     = Z.max (100 - 20) (Z.max (95 - 10) (50 - 0)).
Proof.
  destruct (ResetTimeout_keeps_maximum pwrdom_amp [100; 5; 0; 70])
    as [E [_ [_ [Hmin Hcs]]]].
  destruct (Hmin 5) as [Ec [Er _]]; [discriminate|reflexivity|].
  specialize (Hcs [call_ResetTimeout 100; call_CheckTimeout 10;
                   call_ResetTimeout 95; call_CheckTimeout 10;
                   call_ResetTimeout 0] eq_refl).
  split; [exact E|]. split; [exact Ec|]. split; [reflexivity|].
  split; [exact Er|]. split; [reflexivity|]. split; [reflexivity|].
  split; [reflexivity|]. rewrite Hcs. reflexivity.
Defined.

(** A request after a countdown pass: the amplifier is asked for 100 ms,
    a pass counts 10 ms down without an expiry, and a request for 95 ms
    follows. The timer holds 95 ms, less than the largest request. *)
Lemma ResetTimeout_after_a_countdown :
  timer_calls
    [call_ResetTimeout 100; call_CheckTimeout 10; call_ResetTimeout 95]
    pwrdom_amp
  = ([false], amp_at 95)
  /\ CheckTimeout 10 (ResetTimeout 100 pwrdom_amp) = (false, amp_at 90)
  /\ ResetTimeout 95 (amp_at 90) = amp_at 95
  /\ Z.max (clamped pwrdom_amp 100) (clamped pwrdom_amp 95) = 100
  /\ countdownTimer (amp_at 95) < 100.
Proof. repeat (split; [vm_compute; reflexivity|]). vm_compute. reflexivity. Qed.

Lemma CheckTimeout_cases_witness :
  CheckTimeout 10 (amp_at 0) = (false, amp_at 0)
  /\ CheckTimeout_all [10; 10; 10] (amp_at 0)
     = ([false; false; false], amp_at 0)
  /\ CheckTimeout 10 (amp_at 50) = (false, amp_at 40)
  /\ CheckTimeout 10 (amp_at 10) = (true, amp_at 0)
  /\ CheckTimeout_all [10; 10] (snd (CheckTimeout 15 (amp_at 10)))
     = ([false; false], amp_at 0).
Proof.
  destruct (CheckTimeout_cases (amp_at 0) 10) as [E0 [Eall _]].
  destruct (CheckTimeout_cases (amp_at 50) 10) as [_ [_ [_ Edec]]].
  destruct (CheckTimeout_cases (amp_at 10) 10) as [_ [_ [Eexp _]]].
  destruct (CheckTimeout_cases (amp_at 10) 15) as [_ [_ [Eexp' _]]].
  split; [exact (E0 eq_refl)|].
  split; [exact (Eall eq_refl [10; 10; 10])|].
  split; [exact (Edec eq_refl eq_refl)|].
  split; [exact (proj1 (Eexp eq_refl ltac:(discriminate)))|].
  exact (proj2 (Eexp' eq_refl ltac:(discriminate)) [10; 10]).
Defined.

(** ** A pass that switches the amplifier off *)

Lemma Loop_off_callbacks_first_witness :
  exists tail,
    trace (Loop false false 0 60 no_hold button_env (amp_low false false 0))
    = trace (amp_low false false 0) ++ [EvPwrOff_Callback sub_amp] ++ tail
    /\ forallb (fun e => negb (is_PwrOff e)) tail = true
    /\ tail = [EvSetPower pwr4_Amplif false]
    /\ elapsed 60 (amp_low false false 0) = 15.
Proof.
  destruct (Loop_off_callbacks_first false false 0 60 no_hold button_env
              (amp_low false false 0))
    as [tail [E [Hf _]]].
  - vm_compute. discriminate.
  - vm_compute. reflexivity.
  - exists tail. split; [exact E|]. split; [exact Hf|].
    split; [|reflexivity].
    vm_compute in E. injection E as <-. reflexivity.
Defined.

(** ** Holding power *)

Lemma hold_suspends_timeout_witness :
  (is_on pwr4_Amplif (powerState (amp_held false false 0)) = true
   /\ In (amp_at 50) (domains (amp_held false false 0)))
  /\ (is_on pwr4_Amplif
        (powerState (Loop false false 0 10 no_hold button_env amp_on)) = true
      /\ In (amp_at 40)
           (domains (Loop false false 0 10 no_hold button_env amp_on)))
  /\ exists seg,
       trace (Loop false false 0 60 no_hold button_env
                (amp_low false false 0))
       = trace (amp_low false false 0) ++ seg
       /\ In (EvSetPower pwr4_Amplif false) seg.
Proof.
  assert (Hps : forall pm, subscribers pm = subscribers amp_on ->
                  In sub_amp (subscribers pm)).
  { intros pm ->. vm_compute. auto. }
  destruct (hold_suspends_timeout false false 0 amp_on sub_amp (amp_at 50)
              amp_on_Inv)
    as [Hheld Hfree].
  { now apply Hps. }
  { vm_compute. auto 10. }
  { reflexivity. }
  { reflexivity. }
  destruct (hold_suspends_timeout false false 0 (amp_low false false 0)
              sub_amp (amp_at 5) (amp_low_Inv false false 0))
    as [_ Hfree'].
  { now apply Hps. }
  { vm_compute. auto 10. }
  { reflexivity. }
  { reflexivity. }
  split; [|split].
  - destruct (Hheld [(10, hold_all, button_env); (20, hold_all, button_env);
                     (30, hold_all, button_env); (40, hold_all, button_env);
                     (50, hold_all, button_env); (60, hold_all, button_env)])
      as [A [B _]].
    + repeat constructor.
    + split; [exact A|exact B].
  - destruct (Hfree 10 no_hold button_env) as [_ Hlt].
    + intros ps _ H. discriminate H.
    + vm_compute. reflexivity.
    + apply Hlt. vm_compute. reflexivity.
  - destruct (Hfree' 60 no_hold button_env) as [Hle _].
    + intros ps _ H. discriminate H.
    + vm_compute. reflexivity.
    + apply Hle. vm_compute. discriminate.
Defined.

(** ** Late passes *)

Lemma Loop_skips_late_pass_witness :
  elapsed 20 amp_on = PWRMAN_MINTIMEOUT
  /\ domains (Loop false false 0 20 no_hold button_env amp_on)
     = domains amp_on
  /\ powerState (Loop false false 0 20 no_hold button_env amp_on)
     = powerState amp_on
  /\ trace (Loop false false 0 20 no_hold button_env amp_on) = trace amp_on.
Proof.
  destruct (Loop_skips_late_pass false false 0 20 no_hold button_env amp_on)
    as [Ed [Es [Et _]]].
  - vm_compute. discriminate.
  - split; [reflexivity|]. split; [exact Ed|]. split; [exact Es|exact Et].
Defined.

(** ** Activation *)

Lemma Activate_arms_and_calls_back_witness :
  fst (Activate (Z.lor (PDType_base pwr4_CPU) (PDType_base pwr4_Amplif))
         booted) = true
  /\ trace (snd (Activate (Z.lor (PDType_base pwr4_CPU)
                             (PDType_base pwr4_Amplif)) booted))
     = trace booted ++ [EvSetPower pwr4_Amplif true; EvPwrOn_Callback sub_amp]
  /\ In (amp_at PWRMAN_AMPTIMEOUT)
       (domains (snd (Activate (Z.lor (PDType_base pwr4_CPU)
                                  (PDType_base pwr4_Amplif)) booted))).
Proof.
  destruct (Activate_arms_and_calls_back
              (Z.lor (PDType_base pwr4_CPU) (PDType_base pwr4_Amplif)) booted
              (proj1 (proj1 booted_Inv)))
    as [_ [Ed [_ [Et _]]]].
  split; [reflexivity|]. split; [exact Et|].
  rewrite Ed. vm_compute. auto 10.
Defined.

(** ** Sleeping *)

Lemma sleep_when_idle_witness :
  Forall (fun pd => is_on (pd_id pd) (powerState all_on) = true)
    (domains all_on)
  /\ map countdownTimer (domains all_on)
     = [PWRMAN_CPUTIMEOUT; PWRMAN_DEFTIMEOUT; PWRMAN_DEFTIMEOUT;
        PWRMAN_AMPTIMEOUT; PWRMAN_DEFTIMEOUT]
  /\ total (repeat 15 3999) + 15 = PWRMAN_CPUTIMEOUT
  /\ sleep_entries
       (trace (idle_passes false false 0 (repeat 15 3999 ++ [15])
                 button_env all_on))
     = sleep_entries (trace all_on) ++ [0]
  /\ wakeUpSource
       (idle_passes false false 0 (repeat 15 3999 ++ [15])
          button_env all_on)
     = wakeUp_button
  /\ powerState
       (idle_passes false false 0 (repeat 15 3999 ++ [15])
          button_env all_on)
     = PWRMAN_STARTON
  /\ sleep_entries
       (trace (idle_passes false false 0 ([10; 10; 10; 10] ++ [10])
                 button_env short_on))
     = sleep_entries (trace short_on) ++ [0]
  /\ domains (idle_passes false false 0 [25; 25; 25; 25] button_env short_on)
     = domains short_on
  /\ trace (idle_passes false false 0 [25; 25; 25; 25] button_env short_on)
     = trace short_on.
Proof.
  destruct (sleep_when_idle true false false 0 (fun _ => 0))
    as [_ [_ [H Hskip]]].
  assert (Htot : total (repeat 15 3999) = 59985) by (vm_compute; reflexivity).
  destruct (H all_on (repeat 15 3999) 15 button_env all_on_Inv)
    as [Hon [Hs [Hw _]]].
  - repeat (apply Forall_cons; [reflexivity|]). apply Forall_nil.
  - apply Forall_forall. intros x Hx. apply in_app_or in Hx.
    destruct Hx as [Hx|[<-|[]]]; [apply repeat_spec in Hx; subst x|];
      split; [discriminate|reflexivity|discriminate|reflexivity].
  - apply Exists_cons_hd. rewrite Htot. reflexivity.
  - rewrite Htot.
    repeat (apply Forall_cons; [discriminate|]). apply Forall_nil.
  - reflexivity.
  - reflexivity.
  - destruct (H short_on [10; 10; 10; 10] 10 button_env short_on_Inv)
      as [_ [Hs' _]].
    + repeat (apply Forall_cons; [reflexivity|]). apply Forall_nil.
    + repeat (apply Forall_cons; [split; [discriminate|reflexivity]|]).
      apply Forall_nil.
    + apply Exists_cons_tl, Exists_cons_hd. reflexivity.
    + repeat (apply Forall_cons; [discriminate|]). apply Forall_nil.
    + reflexivity.
    + reflexivity.
    + destruct (Hskip short_on [25; 25; 25; 25] button_env) as [Ed [_ Et]].
      * vm_compute. discriminate.
      * repeat (apply Forall_cons; [split; [discriminate|reflexivity]|]).
        apply Forall_nil.
      * split; [exact Hon|]. split; [vm_compute; reflexivity|].
        split; [rewrite Htot; reflexivity|].
        split; [exact Hs|]. split; [exact Hw|].
        split; [vm_compute; reflexivity|].
        split; [exact Hs'|]. split; [exact Ed|exact Et].
Defined.


(** ** Requests with a vector of timeouts *)

Lemma RequestPower_consumes_timeouts_witness :
  exists r pm',
    RequestPower sub_sd (Some [0; 300]) booted = Some (r, pm')
    /\ map pd_id (domains booted)
       = [pwr4_CPU; pwr4_SD; pwr4_Booster; pwr4_Amplif; pwr4_Pixel]
    /\ map countdownTimer (domains pm') = [PWRMAN_CPUTIMEOUT; 300; 0; 0; 0]
    /\ nth_error (domains pm') 1 = Some (ResetTimeout 300 pwrdom_sd)
    /\ nth_error (domains pm') 2 = Some pwrdom_boost
    /\ (List.length (filter (subscribed sub_sd) (domains booted))
        <= List.length [0; 300])%nat
    /\ domains (construct board_domains []) = rev board_domains.
Proof.
  destruct (RequestPower_consumes_timeouts sub_sd [0; 300] booted)
    as [Hdef [Hent [Hctor _]]].
  destruct (RequestPower sub_sd (Some [0; 300]) booted) as [[r pm']|] eqn:E;
    [|vm_compute in E; discriminate E].
  exists r, pm'. split; [reflexivity|]. split; [reflexivity|].
  split; [vm_compute in E; injection E as _ <-; reflexivity|].
  split; [|split; [|split]].
  - destruct (Hent r pm' eq_refl
                [set_countdownTimer PWRMAN_CPUTIMEOUT pwrdom_cpu] pwrdom_sd
                [pwrdom_boost; pwrdom_amp; pwrdom_pixel] eq_refl)
      as [t [Et [En _]]].
    injection Et as <-. exact En.
  - exact (Hent r pm' eq_refl
             [set_countdownTimer PWRMAN_CPUTIMEOUT pwrdom_cpu; pwrdom_sd]
             pwrdom_boost [pwrdom_amp; pwrdom_pixel] eq_refl).
  - apply Hdef. discriminate.
  - exact (Hctor board_domains powerman).
Defined.

(** * Where the code departs from the description *)

(** The time that passes while power is held is not counted. The amplifier
    times out after 50 ms. Six passes, 10 ms apart, are made with every
    subscriber holding power, and then one with nobody holding power. That
    pass is processed, 70 ms after the request, and the amplifier stays on
    with 40 ms left: only the 10 ms of the pass itself were counted. *)
Lemma hold_time_is_not_counted :
  In (amp_at PWRMAN_AMPTIMEOUT) (domains amp_on)
  /\ lastLoopTime amp_on = 0
  /\ lastLoopTime (amp_held false false 0) = 60
  /\ is_on pwr4_Amplif (powerState (amp_held false false 0)) = true
  /\ elapsed 70 (amp_held false false 0) = 10
  /\ is_on pwr4_Amplif
       (powerState (Loop false false 0 70 no_hold button_env
                      (amp_held false false 0))) = true
  /\ In (amp_at 40)
       (domains (Loop false false 0 70 no_hold button_env
                   (amp_held false false 0)))
  /\ trace (Loop false false 0 70 no_hold button_env (amp_held false false 0))
     = trace amp_on.
Proof.
  split; [vm_compute; auto 10|].
  do 5 (split; [vm_compute; reflexivity|]).
  split; [vm_compute; auto 10|vm_compute; reflexivity].
Qed.

(** A pass that measures 15 ms, more than the period of 10 ms at which
    the loop is scheduled, is processed: it takes the 15 ms off the
    processor's countdown, and in a state where the amplifier has 5 ms left
    it calls the off-callback of the amplifier's subscriber and switches the
    amplifier off. *)
Lemma Loop_processes_a_15ms_pass :
  nominal_poll_period = 10
  /\ elapsed 15 booted = 15
  /\ map countdownTimer (domains booted) = [PWRMAN_CPUTIMEOUT; 0; 0; 0; 0]
  /\ map countdownTimer
       (domains (Loop false false 0 15 no_hold button_env booted))
     = [PWRMAN_CPUTIMEOUT - 15; 0; 0; 0; 0]
  /\ elapsed 60 (amp_low false false 0) = 15
  /\ is_on pwr4_Amplif (powerState (amp_low false false 0)) = true
  /\ is_on pwr4_Amplif
       (powerState (Loop false false 0 60 no_hold button_env
                      (amp_low false false 0))) = false
  /\ trace (Loop false false 0 60 no_hold button_env (amp_low false false 0))
     = trace (amp_low false false 0)
       ++ [EvPwrOff_Callback sub_amp; EvSetPower pwr4_Amplif false].
Proof. repeat (split; [vm_compute; reflexivity|]). vm_compute. reflexivity. Qed.

(** [Activate] calls the subscribers in list order, the last registered
    first, and calls nobody when no domain went on: with two subscribers of
    the processor domain, the first activation calls the second one first,
    and a second activation calls neither although both are on. *)
Lemma Activate_calls_back_in_list_order :
  subscribers cpu_board = [sub_second; sub_first]
  /\ fst (Activate (PDType_base pwr4_CPU) cpu_board) = true
  /\ on_callbacks (trace (snd (Activate (PDType_base pwr4_CPU) cpu_board)))
     = [sub_second; sub_first]
  /\ IsOn (snd (Activate (PDType_base pwr4_CPU) cpu_board)) sub_first = true
  /\ IsOn (snd (Activate (PDType_base pwr4_CPU) cpu_board)) sub_second = true
  /\ Activate (PDType_base pwr4_CPU)
       (snd (Activate (PDType_base pwr4_CPU) cpu_board))
     = (false, snd (Activate (PDType_base pwr4_CPU) cpu_board)).
Proof. repeat (split; [vm_compute; reflexivity|]). vm_compute. reflexivity. Qed.

(** All five domains of the board are on and nobody holds power; the
    loop then runs every 25 ms, 2401 times: a minute goes by, more than
    the longest timeout, and every pass is skipped. No timer has moved, every
    domain is still on and the stop mode was not entered. *)
Lemma long_passes_never_sleep :
  do_calls true false false 0 (fun _ => 0)
    [call_Setup; call_Activate 31] board
  = Some all_on
  /\ powerState all_on = 31
  /\ map countdownTimer (domains all_on)
     = [PWRMAN_CPUTIMEOUT; PWRMAN_DEFTIMEOUT; PWRMAN_DEFTIMEOUT;
        PWRMAN_AMPTIMEOUT; PWRMAN_DEFTIMEOUT]
  /\ total (repeat 25 2401) = 60025
  /\ domains (idle_passes false false 0 (repeat 25 2401) button_env all_on)
     = domains all_on
  /\ powerState (idle_passes false false 0 (repeat 25 2401) button_env all_on)
     = 31
  /\ sleep_entries
       (trace (idle_passes false false 0 (repeat 25 2401) button_env all_on))
     = []
  /\ trace (idle_passes false false 0 (repeat 25 2401) button_env all_on)
     = trace all_on.
Proof.
  split; [vm_compute; reflexivity|]. split; [vm_compute; reflexivity|].
  split; [vm_compute; reflexivity|]. split; [vm_compute; reflexivity|].
  split; [vm_compute; reflexivity|]. split; [vm_compute; reflexivity|].
  split; vm_compute; reflexivity.
Qed.



(** * Runs for the further properties *)

Lemma reachable_states_are_coherent_witness :
  exists pm,
    do_calls true false false 0 (fun _ => 0) session board = Some pm
    /\ In (set_countdownTimer 60000 pwrdom_cpu) (domains pm)
    /\ In pwrdom_amp (domains pm)
    /\ (is_on pwr4_CPU (powerState pm) = true <-> 60000 <> 0)
    /\ (is_on pwr4_Amplif (powerState pm) = true <-> 0 <> 0)
    /\ NoDup (map pd_id (domains pm)).
Proof.
  destruct (do_calls true false false 0 (fun _ => 0) session board)
    as [pm|] eqn:E; [|vm_compute in E; discriminate E].
  exists pm. split; [reflexivity|].
  assert (Hcpu : In (set_countdownTimer 60000 pwrdom_cpu) (domains pm)).
  { vm_compute in E. injection E as <-. left. reflexivity. }
  assert (Hamp : In pwrdom_amp (domains pm)).
  { vm_compute in E. injection E as <-.
    right. right. right. left. reflexivity. }
  destruct (reachable_states_are_coherent true false false 0 (fun _ => 0)
              session board pm board_constructed E) as [Ht [_ [Hnd _]]].
  split; [exact Hcpu|]. split; [exact Hamp|].
  split; [exact (Ht _ Hcpu)|]. split; [exact (Ht _ Hamp)|exact Hnd].
Defined.

Lemma calls_keep_the_registries_witness :
  exists pm,
    do_calls true false false 0 (fun _ => 0) session board = Some pm
    /\ map pd_name (domains pm) = map pd_name (domains board)
    /\ map pd_timeout (domains pm) = map pd_timeout (domains board)
    /\ subscribers pm = [sub_sd; sub_amp].
Proof.
  destruct (do_calls true false false 0 (fun _ => 0) session board)
    as [pm|] eqn:E; [|vm_compute in E; discriminate E].
  exists pm. split; [reflexivity|].
  destruct (calls_keep_the_registries true false false 0 (fun _ => 0)
              session board pm E) as [_ [Hn [Ht [Hs _]]]].
  split; [exact Hn|]. split; [exact Ht|exact Hs].
Defined.

Lemma Setup_sets_up_then_activates_witness :
  trace (Setup board)
  = [EvDomainSetup pwr4_CPU; EvDomainSetup pwr4_SD;
     EvDomainSetup pwr4_Booster; EvDomainSetup pwr4_Amplif;
     EvDomainSetup pwr4_Pixel; EvSetPower pwr4_CPU true]
  /\ map countdownTimer (domains (Setup board))
     = [PWRMAN_CPUTIMEOUT; 0; 0; 0; 0]
  /\ is_on pwr4_CPU (powerState (Setup board)) = true
  /\ is_on pwr4_SD (powerState (Setup board)) = false.
Proof.
  destruct (Setup_sets_up_then_activates board
              (proj1 (proj2 (proj2 board_constructed))))
    as [Et [Hc _]].
  destruct (Hc board_constructed) as [Ed Hb].
  split; [exact Et|]. split; [rewrite Ed; reflexivity|].
  split.
  - apply (Hb (set_countdownTimer 0 pwrdom_cpu)). left. reflexivity.
  - apply (Hb (set_countdownTimer 0 pwrdom_sd)). right. left. reflexivity.
Defined.

Lemma Activate_twice_is_once_witness :
  fst (Activate 9 booted) = true
  /\ Activate 9 (snd (Activate 9 booted)) = (false, snd (Activate 9 booted)).
Proof.
  split; [reflexivity|].
  exact (Activate_twice_is_once 9 booted (proj1 (proj1 booted_Inv))).
Defined.

Lemma RequestPower_switches_on_witness :
  exists pm',
    RequestPower sub_sd None booted = Some (true, pm')
    /\ trace pm'
       = trace booted ++ [EvSetPower pwr4_SD true; EvPwrOn_Callback sub_sd]
    /\ IsOn booted sub_sd = false
    /\ IsOn pm' sub_sd = true
    /\ is_on pwr4_CPU (powerState pm') = true.
Proof.
  destruct (RequestPower sub_sd None booted) as [[r pm']|] eqn:E;
    [|vm_compute in E; discriminate E].
  assert (Er : r = true) by (vm_compute in E; now injection E as <- _).
  subst r. exists pm'. split; [reflexivity|].
  destruct (RequestPower_switches_on sub_sd None booted true pm'
              (proj1 (proj1 booted_Inv)) E)
    as [_ [Et [Hb [_ [Hon _]]]]].
  split; [exact Et|]. split; [reflexivity|]. split.
  - apply Hon. intros k Hk Hbit.
    assert (Hk2 : k = 0 \/ k = 1).
    { destruct (Z.le_gt_cases 2 k) as [Hge|Hlt]; [|lia].
      change (subscribedDomains sub_sd) with 3 in Hbit.
      rewrite Z.bits_above_log2 in Hbit; [discriminate Hbit|lia|].
      change (Z.log2 3) with 1. lia. }
    destruct Hk2 as [->| ->].
    + exists pwr4_CPU. split; [left; reflexivity|reflexivity].
    + exists pwr4_SD. split; [right; left; reflexivity|reflexivity].
  - exact (Hb (set_countdownTimer 60000 pwrdom_cpu) (or_introl eq_refl)).
Defined.

Lemma request_outlives_next_pass_witness :
  RequestPower sub_amp None booted = Some (true, amp_on)
  /\ In (amp_at PWRMAN_AMPTIMEOUT) (domains amp_on)
  /\ is_on pwr4_Amplif
       (powerState (Loop false false 0 19 no_hold button_env amp_on)) = true
  /\ is_on pwr4_Amplif
       (powerState (Loop false false 0 5000 no_hold button_env amp_on)) = true
  /\ sleep_entries (trace (Loop false false 0 19 no_hold button_env amp_on))
     = sleep_entries (trace amp_on).
Proof.
  assert (E : RequestPower sub_amp None booted = Some (true, amp_on))
    by (vm_compute; reflexivity).
  assert (Hin : In (amp_at PWRMAN_AMPTIMEOUT) (domains amp_on))
    by (vm_compute; auto 10).
  split; [exact E|]. split; [exact Hin|].
  destruct (request_outlives_next_pass false false 0 sub_amp None booted true
              amp_on 19 no_hold button_env booted_Inv E) as [H1 H2].
  destruct (request_outlives_next_pass false false 0 sub_amp None booted true
              amp_on 5000 no_hold button_env booted_Inv E) as [H3 _].
  split; [exact (proj2 (H1 _ Hin eq_refl))|].
  split; [exact (proj2 (H3 _ Hin eq_refl))|].
  apply (H2 _ Hin). vm_compute. discriminate.
Defined.

Lemma Loop_measures_between_passes_witness :
  lastLoopTime (Loop false false 0 4294967291 no_hold button_env booted)
  = 4294967291
  /\ elapsed 5 (Loop false false 0 4294967291 no_hold button_env booted) = 10
  /\ Loop false false 0 10 no_hold button_env bare_board = bare_board.
Proof.
  destruct (Loop_measures_between_passes false false 0 4294967291 no_hold
              button_env booted) as [H1 _].
  destruct (Loop_measures_between_passes false false 0 10 no_hold
              button_env bare_board) as [_ [H2 _]].
  destruct H1 as [E1 E2]; [vm_compute; discriminate|].
  split; [exact E1|]. split; [rewrite E2; reflexivity|].
  apply H2. reflexivity.
Defined.

Lemma Loop_switches_off_what_timed_out_witness :
  trace (Loop false false 0 60 no_hold button_env (amp_low false false 0))
  = trace (amp_low false false 0)
    ++ [EvPwrOff_Callback sub_amp; EvSetPower pwr4_Amplif false]
  /\ is_on pwr4_Amplif
       (powerState (Loop false false 0 60 no_hold button_env
                      (amp_low false false 0))) = false
  /\ is_on pwr4_CPU
       (powerState (Loop false false 0 60 no_hold button_env
                      (amp_low false false 0))) = true
  /\ trace (Loop false false 0 60 hold_all button_env (amp_low false false 0))
     = trace (amp_low false false 0).
Proof.
  destruct (Loop_switches_off_what_timed_out false false 0 60 no_hold
              button_env (amp_low false false 0) (amp_low_Inv false false 0))
    as [_ [_ H3]]; [vm_compute; discriminate|vm_compute; reflexivity|].
  destruct (Loop_switches_off_what_timed_out false false 0 60 hold_all
              button_env (amp_low false false 0) (amp_low_Inv false false 0))
    as [_ [H2 _]]; [vm_compute; discriminate|vm_compute; reflexivity|].
  destruct H3 as [Et Hb].
  { exists (set_countdownTimer 59955 pwrdom_cpu).
    split; [vm_compute; auto|]. split; vm_compute; reflexivity. }
  split; [exact Et|]. split; [|split].
  - etransitivity;
      [apply (Hb (amp_at 5)); vm_compute; auto 10|vm_compute; reflexivity].
  - etransitivity;
      [apply (Hb (set_countdownTimer 59955 pwrdom_cpu)); vm_compute; auto 10
      |vm_compute; reflexivity].
  - apply H2. vm_compute. reflexivity.
Defined.

Lemma CPU_DeepSleep_wake_source_witness :
  wakeUpSource (CPU_DeepSleep true 1000 PWR_STOPENTRY_WFI alarm_env booted)
  = wakeUp_rtc
  /\ wakeUpSource (CPU_DeepSleep true 0 PWR_STOPENTRY_WFI alarm_env booted)
     = wakeUp_button
  /\ wakeUpSource
       (CPU_DeepSleep true 1000 PWR_STOPENTRY_WFI
          (mkSleepEnv [true; true] irq_serial) booted)
     = wakeUp_serial
  /\ powerState (CPU_DeepSleep true 1000 PWR_STOPENTRY_WFI alarm_env booted)
     = powerState booted.
Proof.
  destruct (CPU_DeepSleep_wake_source true 1000 PWR_STOPENTRY_WFI alarm_env
              booted) as [E1 [_ [_ [_ [_ [_ [E6 _]]]]]]].
  destruct (CPU_DeepSleep_wake_source true 0 PWR_STOPENTRY_WFI alarm_env
              booted) as [E2 _].
  destruct (CPU_DeepSleep_wake_source true 1000 PWR_STOPENTRY_WFI
              (mkSleepEnv [true; true] irq_serial) booted)
    as [_ [_ [_ [E3 _]]]].
  split; [exact E1|]. split; [exact E2|]. split; [|exact E6].
  apply E3. cbn. lia.
Defined.

Lemma Loop_goes_to_sleep_witness :
  trace (Loop false false 0 50 no_hold serial_env (short_last false false 0))
  = trace (short_last false false 0)
    ++ [EvPwrOff_Callback sub_amp; EvSetPower pwr4_Amplif false;
        EvFlushTx; EvFlushTx; EvCPU_DeepSleep PWR_STOPENTRY_WFI 0;
        EvPrintWakeUpMsg wakeUp_serial; EvFlushRx; EvSetPower pwr4_CPU true]
  /\ wakeUpSource
       (Loop false false 0 50 no_hold serial_env (short_last false false 0))
     = wakeUp_serial
  /\ map countdownTimer
       (domains (Loop false false 0 50 no_hold serial_env
                   (short_last false false 0)))
     = [30; 0].
Proof.
  pose proof (Loop_goes_to_sleep false false 0 50 no_hold serial_env
                (short_last false false 0) (short_last_Inv false false 0))
    as H.
  cbv zeta in H. destruct H as [Et [Ew [Ed _]]].
  - vm_compute. discriminate.
  - vm_compute. reflexivity.
  - intros pd Hpd Hon. vm_compute in Hpd.
    destruct Hpd as [<-|[<-|[]]].
    + vm_compute in Hon. discriminate Hon.
    + vm_compute. reflexivity.
  - split; [rewrite Et; vm_compute; reflexivity|].
    split; [rewrite Ew; reflexivity|].
    rewrite Ed. vm_compute. reflexivity.
Defined.

Lemma Loop_with_nothing_on_witness :
  powerState board = 0
  /\ trace (Loop false false 0 10 no_hold button_env board) = trace board
  /\ powerState (Loop false false 0 10 no_hold button_env board) = 0
  /\ lastLoopTime (Loop false false 0 10 no_hold button_env board) = 10.
Proof.
  destruct (Loop_with_nothing_on false false 0 10 no_hold button_env board
              eq_refl) as [_ [E2 [E3 [_ [_ E6]]]]].
  split; [reflexivity|]. split; [exact E3|]. split; [exact E2|].
  apply E6. vm_compute. discriminate.
Defined.

Lemma pwr_dom_off_command_witness :
  exists pm',
    Parse true false 0 atoi_100 "pwr-dom-off" "AMP" false button_env amp_on
    = Some (true, pm')
    /\ IsOn amp_on sub_amp = true
    /\ IsOn pm' sub_amp = false
    /\ trace pm' = trace amp_on ++ [EvSetPower pwr4_Amplif false]
    /\ map countdownTimer (domains pm') = [PWRMAN_CPUTIMEOUT; 0; 0; 0; 0]
    /\ Parse true false 0 atoi_100 "pwr-dom-off" "XYZ" false button_env amp_on
       = Some (true, amp_on).
Proof.
  destruct (pwr_dom_off_command true false 0 atoi_100 "AMP" false button_env
              amp_on eq_refl) as [Hfound _].
  destruct (pwr_dom_off_command true false 0 atoi_100 "XYZ" false button_env
              amp_on eq_refl) as [_ Hunknown].
  destruct (Hfound
              [set_countdownTimer PWRMAN_CPUTIMEOUT pwrdom_cpu; pwrdom_sd;
               pwrdom_boost]
              (amp_at PWRMAN_AMPTIMEOUT) [pwrdom_pixel])
    as [pm' [E [_ Hon]]].
  - vm_compute. reflexivity.
  - repeat (apply Forall_cons; [vm_compute; discriminate|]).
    apply Forall_nil.
  - reflexivity.
  - destruct Hon as [Ed [Et [Es Hb]]]; [vm_compute; reflexivity|].
    exists pm'. split; [exact E|]. split; [vm_compute; reflexivity|].
    split; [|split; [exact Et|split]].
    + vm_compute in E. injection E as <-. vm_compute. reflexivity.
    + rewrite Ed. reflexivity.
    + apply Hunknown.
      repeat (apply Forall_cons; [vm_compute; discriminate|]).
      apply Forall_nil.
Defined.

Lemma pwr_dom_request_command_witness :
  strtok "AMP,100" = Some ("AMP"%string, "100"%string)
  /\ (exists pm',
        Parse true false 0 atoi_100 "pwr-dom-request" "AMP,100" false
          button_env booted
        = Some (true, pm')
        /\ map countdownTimer (domains pm') = [PWRMAN_CPUTIMEOUT; 0; 0; 100; 0]
        /\ trace pm' = trace booted ++ [EvSetPower pwr4_Amplif true])
  /\ (exists pm',
        Parse true false 0 atoi_100 "pwr-dom-request" "AMP,0" false
          button_env booted
        = Some (true, pm')
        /\ map countdownTimer (domains pm')
           = [PWRMAN_CPUTIMEOUT; 0; 0; PWRMAN_MINTIMEOUT; 0])
  /\ Parse true false 0 atoi_100 "pwr-dom-request" "AMP" false button_env
       booted
     = None
  /\ Parse true false 0 atoi_100 "pwr-dom-request" "XYZ,100" false button_env
       booted
     = Some (true, booted).
Proof.
  assert (Hpre : Forall (fun q => pd_name q <> "AMP"%string)
                   [set_countdownTimer PWRMAN_CPUTIMEOUT pwrdom_cpu;
                    pwrdom_sd; pwrdom_boost]).
  { repeat (apply Forall_cons; [vm_compute; discriminate|]).
    apply Forall_nil. }
  split; [reflexivity|]. split; [|split; [|split]].
  - destruct (pwr_dom_request_command true false 0 atoi_100
                "AMP,100" "AMP" "100" false button_env booted eq_refl)
      as [Hfound _]; [cbn; lia|reflexivity|].
    destruct (Hfound [set_countdownTimer PWRMAN_CPUTIMEOUT pwrdom_cpu;
                      pwrdom_sd; pwrdom_boost] pwrdom_amp [pwrdom_pixel]
                eq_refl Hpre eq_refl)
      as [_ Hsome].
    destruct (Hsome "100"%string EmptyString eq_refl)
      as [pm' [E [Ed [Et _]]]].
    exists pm'. split; [exact E|]. split; [rewrite Ed; reflexivity|exact Et].
  - destruct (pwr_dom_request_command true false 0 atoi_100
                "AMP,0" "AMP" "0" false button_env booted eq_refl)
      as [Hfound _]; [cbn; lia|reflexivity|].
    destruct (Hfound [set_countdownTimer PWRMAN_CPUTIMEOUT pwrdom_cpu;
                      pwrdom_sd; pwrdom_boost] pwrdom_amp [pwrdom_pixel]
                eq_refl Hpre eq_refl)
      as [_ Hsome].
    destruct (Hsome "0"%string EmptyString eq_refl) as [pm' [E [Ed _]]].
    exists pm'. split; [exact E|]. rewrite Ed. reflexivity.
  - destruct (pwr_dom_request_command true false 0 atoi_100
                "AMP" "AMP" EmptyString false button_env booted eq_refl)
      as [Hfound _]; [cbn; lia|reflexivity|].
    destruct (Hfound [set_countdownTimer PWRMAN_CPUTIMEOUT pwrdom_cpu;
                      pwrdom_sd; pwrdom_boost] pwrdom_amp [pwrdom_pixel]
                eq_refl Hpre eq_refl)
      as [Hnone _].
    apply Hnone. reflexivity.
  - destruct (pwr_dom_request_command true false 0 atoi_100
                "XYZ,100" "XYZ" "100" false button_env booted eq_refl)
      as [_ [Hunknown _]]; [cbn; lia|reflexivity|].
    apply Hunknown.
    repeat (apply Forall_cons; [vm_compute; discriminate|]).
    apply Forall_nil.
Defined.

Lemma pwr_sub_request_command_witness :
  Parse true false 0 atoi_100 "pwr-sub-request" "amp" false button_env booted
  = Some (true, amp_on)
  /\ on_callbacks (trace amp_on) = on_callbacks (trace booted) ++ [sub_amp]
  /\ Parse true false 0 atoi_100 "pwr-sub-request" "nobody" false button_env
       booted
     = Some (true, booted).
Proof.
  destruct (pwr_sub_request_command true false 0 atoi_100 "amp" false
              button_env booted eq_refl) as [Hfound _].
  destruct (pwr_sub_request_command true false 0 atoi_100 "nobody" false
              button_env booted eq_refl) as [_ Hunknown].
  destruct (Hfound [sub_sd] sub_amp [] eq_refl) as [r [pm' [E [Ep Ec]]]].
  - apply Forall_cons; [vm_compute; discriminate|apply Forall_nil].
  - reflexivity.
  - assert (Ev : RequestPower sub_amp None booted = Some (true, amp_on))
      by (vm_compute; reflexivity).
    rewrite Ev in E. injection E as <- <-.
    split; [exact Ep|]. split; [exact Ec|].
    apply Hunknown.
    repeat (apply Forall_cons; [vm_compute; discriminate|]).
    apply Forall_nil.
Defined.

Lemma Parse_handles_known_commands_witness :
  Parse false false 0 atoi_100 "pwr-dom-off" "AMP" false button_env amp_on
  = Some (known_command false "pwr-dom-off", amp_on)
  /\ known_command false "pwr-dom-off" = false
  /\ known_command true "pwr-dom-off" = true
  /\ known_command false "deepsleep" = true
  /\ Parse true false 0 atoi_100 "pwr-dom-request"
       "AMP,100,and-a-lot-more" false button_env amp_on
     = None.
Proof.
  destruct (Parse_handles_known_commands false false 0 atoi_100
              "pwr-dom-off" "AMP" false button_env amp_on) as [H1 _].
  destruct (Parse_handles_known_commands true false 0 atoi_100
              "pwr-dom-request" "AMP,100,and-a-lot-more" false button_env
              amp_on) as [_ H2].
  destruct (Parse false false 0 atoi_100 "pwr-dom-off" "AMP" false button_env
              amp_on) as [[r pm']|] eqn:E; [|vm_compute in E; discriminate E].
  destruct (H1 r pm' eq_refl) as [Er [Hsame _]]. subst r.
  rewrite (Hsame eq_refl).
  split; [reflexivity|]. split; [reflexivity|]. split; [reflexivity|].
  split; [reflexivity|].
  apply H2. split; [reflexivity|]. split; [reflexivity|].
  left. cbn. lia.
Defined.

Lemma deepsleep_command_sequence_witness :
  exists pm',
    Parse true false 0 atoi_100 "deepsleep" EmptyString false serial_env
      amp_on
    = Some (true, pm')
    /\ trace pm'
       = trace amp_on
         ++ [EvSetPower pwr4_CPU false; EvSetPower pwr4_Amplif false;
             EvPwrOff_Callback sub_sd; EvPwrOff_Callback sub_amp;
             EvFlushTx; EvCPU_DeepSleep PWR_STOPENTRY_WFI 0;
             EvPrintWakeUpMsg wakeUp_serial; EvFlushRx; EvFlushTx;
             EvSetPower pwr4_CPU true]
    /\ IsOn amp_on sub_sd = false
    /\ wakeUpSource pm' = wakeUp_serial.
Proof.
  pose proof (deepsleep_command_sequence true false 0 atoi_100 EmptyString
                serial_env amp_on amp_on_Inv) as H.
  cbv zeta in H. destruct H as [pm' [E [Et [Ew _]]]].
  - vm_compute. discriminate.
  - exists pm'. split; [exact E|].
    split; [|split; [vm_compute; reflexivity|exact Ew]].
    rewrite Et. vm_compute in E. injection E as <-. vm_compute. reflexivity.
Defined.

Lemma defaultPortState_configures_mapped_pins_witness :
  defaultPortState 0x48000000 0x48001c00 0x48000400 0xffeb
  = [16; 17; 19; 21; 22; 23; 24; 25; 26; 27; 28; 29; 30; 31]
  /\ defaultPortState 0x48000000 0x48001c00 0x48000401 0xffeb = []
  /\ defaultPortState 0x48000000 0x48001c00 0x48002000 0xffeb = []
  /\ pin0 0x48000000 0x48001c00 = 16 * 7.
Proof.
  destruct (defaultPortState_configures_mapped_pins 0x48000000 0x48001c00
              0x48000400 0xffeb) as [_ [H2 _]].
  destruct (defaultPortState_configures_mapped_pins 0x48000000 0x48001c00
              0x48000401 0xffeb) as [H3 _].
  destruct (defaultPortState_configures_mapped_pins 0x48000000 0x48001c00
              0x48002000 0xffeb) as [H4 _].
  destruct (defaultPortState_configures_mapped_pins 0x48000000 0x48001c00
              0x48001c00 0) as [_ [_ [_ [_ [_ H5]]]]].
  split; [rewrite H2 by reflexivity; vm_compute; reflexivity|].
  split; [apply H3; reflexivity|]. split; [apply H4; reflexivity|].
  rewrite H5; [reflexivity|vm_compute; discriminate|vm_compute; reflexivity].
Defined.

Lemma ports_restored_after_stop_witness :
  pin_config
    (CPU_DeepSleep_ports 0x48000000 0x48000400 0x48000800 0x48001c00
       (wiped port_mem 0) (wiped port_mem 0) (wiped port_mem 0)
       (wiped port_mem 0) wiped port_mem 0x48000400)
  = pin_config (port_mem 0x48000400)
  /\ pin_data
       (CPU_DeepSleep_ports 0x48000000 0x48000400 0x48000800 0x48001c00
          (wiped port_mem 0) (wiped port_mem 0) (wiped port_mem 0)
          (wiped port_mem 0) wiped port_mem 0x48000400)
     = (0, 0, 0, 0, 0)
  /\ CPU_DeepSleep_ports 0x48000000 0x48000400 0x48000800 0x48001c00
       (wiped port_mem 0) (wiped port_mem 0) (wiped port_mem 0)
       (wiped port_mem 0) wiped port_mem 0x48000c00
     = wiped port_mem 0x48000c00.
Proof.
  destruct (ports_restored_after_stop 0x48000000 0x48000400 0x48000800
              0x48001c00 (wiped port_mem 0) (wiped port_mem 0)
              (wiped port_mem 0) (wiped port_mem 0) wiped port_mem
              0x48000400) as [Hd [Hc _]].
  destruct (ports_restored_after_stop 0x48000000 0x48000400 0x48000800
              0x48001c00 (wiped port_mem 0) (wiped port_mem 0)
              (wiped port_mem 0) (wiped port_mem 0) wiped port_mem
              0x48000c00) as [_ [_ [Ho _]]].
  split; [|split].
  - apply Hc; [right; left; reflexivity|reflexivity].
  - rewrite Hd. reflexivity.
  - apply Ho. left. cbn. intros [H|[H|[H|[H|[]]]]]; discriminate H.
Defined.

Lemma CPU_DeepSleep_keeps_wake_pins_witness :
  CPU_DeepSleep_defaults false 0x48000000 0x48000400 0x48000800 0x48001c00
  = [0; 1; 3; 4; 5; 6; 7; 12; 13; 14;
     16; 17; 19; 21; 22; 23; 24; 25; 26; 27; 28; 29; 30; 31;
     45; 46; 47; 112; 113]
  /\ CPU_DeepSleep_defaults true 0x48000000 0x48000400 0x48000800 0x48001c00
     = [0; 1; 2; 3; 4; 5; 6; 7; 12; 13; 14;
        16; 17; 19; 21; 22; 23; 24; 25; 26; 27; 29; 30; 31;
        45; 46; 47; 112; 113].
Proof.
  split.
  - exact (proj1 (CPU_DeepSleep_keeps_wake_pins false 0x48000000 0x48000400
                    0x48000800 0x48001c00 eq_refl eq_refl eq_refl eq_refl)).
  - exact (proj1 (CPU_DeepSleep_keeps_wake_pins true 0x48000000 0x48000400
                    0x48000800 0x48001c00 eq_refl eq_refl eq_refl eq_refl)).
Defined.
